(** * devspace: bootstrap, deployment cache, sessions and the remove commands

    A shallow embedding of the parts of

      - [cmd/up.go]                       (buildAndDeploy, buildImages,
                                           deployChart, startSync,
                                           startPortForwarding, the end of
                                           Run, ensureClusterRoleBinding),
      - [cmd/remove.go]                   (RunRemoveSync, RunRemovePort,
                                           containsPort, RunRemovePackage,
                                           rebuildDependencies),
      - [pkg/devspace/helm/tiller.go]     (ensureTiller, createTiller,
                                           upgradeTiller,
                                           waitUntilTillerIsStarted,
                                           DeleteTiller),
      - [pkg/devspace/helm/client.go]     (NewClient and its [sync.Once],
                                           updateRepos),
      - [pkg/devspace/cloud/login.go]     (CheckAuth, GetClusterConfig,
                                           Login, startServer,
                                           UpdateKubeConfig)

    together with the properties the specification states about them.

    The Go code talks to a cluster, to the file system and to a terminal.
    Every such call is kept in the model as an event of a trace; what the
    outside world answers is given by an environment of oracles, each of
    which may depend on everything that happened before (the trace so
    far).  A run is a function from the state of the process to an outcome
    and a new state. *)

From Stdlib Require Import List String Ascii ZArith Bool Lia DecimalString Permutation.
Import ListNotations.
Open Scope string_scope.

(* ===================================================================== *)
(** * Pieces of the Go standard library the code uses *)
(* ===================================================================== *)

Module Go.

(** An [error] value; [err.Error()] is the string itself.  A nil error is
    [None] of [option error]. *)
Definition error := string.

(** A Go call returning [(x, err)]. *)
Definition result (A : Type) : Type := (option A * option error)%type.

(** [time.Duration]: an int64 count of nanoseconds. *)
Definition Duration := Z.
Definition Second : Duration := 1000000000%Z.

(** [strconv.Itoa]. *)
Definition Itoa (i : Z) : string := NilZero.string_of_int (Z.to_int i).

(** [strings.Join]. *)
Fixpoint Join (l : list string) (sep : string) : string :=
  match l with
  | [] => ""
  | [s] => s
  | s :: rest => s ++ sep ++ Join rest sep
  end.

(** [strings.Split(s, sep)] for a one-character separator: the pieces
    between the separators, so the empty string gives one empty piece. *)
Fixpoint split_acc (sep : ascii) (cur : string) (s : string) : list string :=
  match s with
  | EmptyString => [cur]
  | String c rest =>
      if Ascii.eqb c sep
      then cur :: split_acc sep "" rest
      else split_acc sep (cur ++ String c "") rest
  end.

Definition Split (s : string) (sep : ascii) : list string := split_acc sep "" s.

(** ** UTF-8 and white space

    A Go string is a sequence of bytes, and so is a [string] here;
    [strings.TrimSpace] reads the bytes as UTF-8 ([unicode/utf8]) and takes
    the white space of Unicode ([unicode.IsSpace]) off both ends.  A rune
    is a code point. *)
Definition rune := N.

Definition RuneError : rune := 0xFFFD%N.
Definition RuneSelf : N := 0x80%N.
Definition UTFMax : nat := 4.

Definition byte (c : ascii) : N := N_of_ascii c.

(** [len(s)], [s[i]] and [s[i:j]]. *)
Definition len (s : string) : Z := Z.of_nat (String.length s).

Definition byteAt (s : string) (i : Z) : N :=
  match String.get (Z.to_nat i) s with
  | Some c => byte c
  | None => 0%N
  end.

Definition slice (s : string) (i j : Z) : string :=
  String.substring (Z.to_nat i) (Z.to_nat (j - i)) s.

(** The continuation bytes of an encoding are [locb] to [hicb]. *)
Definition locb : N := 0x80%N.
Definition hicb : N := 0xBF%N.

(** The tables [first] and [acceptRanges] of [unicode/utf8], for a first
    byte that is not ASCII: how many bytes the encoding has and the range
    its second byte has to be in, or [None] for a byte that starts no
    encoding. *)
Definition first (s0 : N) : option (nat * (N * N)) :=
  (if s0 <? 0xC2 then None
   else if s0 <=? 0xDF then Some (2%nat, (locb, hicb))
   else if s0 =? 0xE0 then Some (3%nat, (0xA0, hicb))
   else if s0 <=? 0xEC then Some (3%nat, (locb, hicb))
   else if s0 =? 0xED then Some (3%nat, (locb, 0x9F))
   else if s0 <=? 0xEF then Some (3%nat, (locb, hicb))
   else if s0 =? 0xF0 then Some (4%nat, (0x90, hicb))
   else if s0 <=? 0xF3 then Some (4%nat, (locb, hicb))
   else if s0 =? 0xF4 then Some (4%nat, (locb, 0x8F))
   else None)%N.

Definition continuation (b : N) : bool := ((locb <=? b) && (b <=? hicb))%N.

(** [utf8.DecodeRuneInString]: the rune at the front of [s] and the number
    of bytes of its encoding; [(RuneError, 1)] when the bytes at the front
    are no encoding, [(RuneError, 0)] for the empty string. *)
Definition DecodeRuneInString (s : string) : rune * nat :=
  match s with
  | EmptyString => (RuneError, 0%nat)
  | String c0 rest =>
      let s0 := byte c0 in
      if (s0 <? RuneSelf)%N then (s0, 1%nat)
      else
        match first s0 with
        | None => (RuneError, 1%nat)
        | Some (sz, (lo, hi)) =>
            if Nat.ltb (String.length s) sz then (RuneError, 1%nat)
            else
              match rest with
              | EmptyString => (RuneError, 1%nat)
              | String c1 rest =>
                  let s1 := byte c1 in
                  if ((s1 <? lo) || (hi <? s1))%N then (RuneError, 1%nat)
                  else if Nat.leb sz 2
                  then (N.lor (N.shiftl (N.land s0 0x1F) 6) (N.land s1 0x3F), 2%nat)
                  else
                    match rest with
                    | EmptyString => (RuneError, 1%nat)
                    | String c2 rest =>
                        let s2 := byte c2 in
                        if negb (continuation s2) then (RuneError, 1%nat)
                        else if Nat.leb sz 3
                        then (N.lor (N.lor (N.shiftl (N.land s0 0x0F) 12)
                                           (N.shiftl (N.land s1 0x3F) 6))
                                    (N.land s2 0x3F), 3%nat)
                        else
                          match rest with
                          | EmptyString => (RuneError, 1%nat)
                          | String c3 _ =>
                              let s3 := byte c3 in
                              if negb (continuation s3) then (RuneError, 1%nat)
                              else (N.lor (N.lor (N.lor (N.shiftl (N.land s0 0x07) 18)
                                                        (N.shiftl (N.land s1 0x3F) 12))
                                                 (N.shiftl (N.land s2 0x3F) 6))
                                          (N.land s3 0x3F), 4%nat)
                          end
                    end
              end
        end
  end.

(** [utf8.RuneStart]: the byte is not a continuation byte. *)
Definition RuneStart (b : N) : bool := negb (N.land b 0xC0 =? 0x80)%N.

(** The loop of [DecodeLastRuneInString] that goes back to the byte an
    encoding can start with, [UTFMax] bytes at most. *)
Fixpoint backToStart (n : nat) (s : string) (lim start : Z) : Z :=
  match n with
  | O => start
  | S n' =>
      if (start >=? lim)%Z
      then if RuneStart (byteAt s start) then start
           else backToStart n' s lim (start - 1)%Z
      else start
  end.

(** [utf8.DecodeLastRuneInString]: the rune at the end of [s]. *)
Definition DecodeLastRuneInString (s : string) : rune * nat :=
  let end_ := len s in
  if (end_ =? 0)%Z then (RuneError, 0%nat)
  else
    let start := (end_ - 1)%Z in
    let r := byteAt s start in
    if (r <? RuneSelf)%N then (r, 1%nat)
    else
      let lim := Z.max 0 (end_ - Z.of_nat UTFMax) in
      let start := backToStart UTFMax s lim (start - 1)%Z in
      let start := if (start <? 0)%Z then 0%Z else start in
      let '(r, size) := DecodeRuneInString (slice s start end_) in
      if negb (start + Z.of_nat size =? end_)%Z then (RuneError, 1%nat)
      else (r, size).

(** [unicode.IsSpace]: the white space of Latin-1, and beyond it the
    property White_Space. *)
Definition IsSpace (r : rune) : bool :=
  (if r <=? 0xFF
   then ((0x09 <=? r) && (r <=? 0x0D)) || (r =? 0x20) || (r =? 0x85) || (r =? 0xA0)
   else (r =? 0x1680) || ((0x2000 <=? r) && (r <=? 0x200A))
        || (r =? 0x2028) || (r =? 0x2029) || (r =? 0x202F) || (r =? 0x205F)
        || (r =? 0x3000))%N.

(** [indexFunc]: where the first rune is on which [f] gives [truth], or
    -1; [n] bounds the number of runes looked at, and a string has no more
    runes than bytes. *)
Fixpoint indexFunc (n : nat) (s : string) (f : rune -> bool) (truth : bool) (i : Z) : Z :=
  match n with
  | O => (-1)%Z
  | S n' =>
      if (i <? len s)%Z
      then
        let '(r, size) := DecodeRuneInString (slice s i (len s)) in
        if Bool.eqb (f r) truth then i
        else indexFunc n' s f truth (i + Z.of_nat size)%Z
      else (-1)%Z
  end.

(** [lastIndexFunc]: where the last such rune starts, or -1. *)
Fixpoint lastIndexFunc (n : nat) (s : string) (f : rune -> bool) (truth : bool) (i : Z) : Z :=
  match n with
  | O => (-1)%Z
  | S n' =>
      if (i >? 0)%Z
      then
        let '(r, size) := DecodeLastRuneInString (slice s 0 i) in
        let i := (i - Z.of_nat size)%Z in
        if Bool.eqb (f r) truth then i
        else lastIndexFunc n' s f truth i
      else (-1)%Z
  end.

(** [strings.TrimLeftFunc]. *)
Definition TrimLeftFunc (s : string) (f : rune -> bool) : string :=
  let i := indexFunc (S (String.length s)) s f false 0%Z in
  if (i =? -1)%Z then "" else slice s i (len s).

(** [strings.TrimRightFunc]. *)
Definition TrimRightFunc (s : string) (f : rune -> bool) : string :=
  let i := lastIndexFunc (S (String.length s)) s f false (len s) in
  let i :=
    if (i >=? 0)%Z && (RuneSelf <=? byteAt s i)%N
    then (i + Z.of_nat (snd (DecodeRuneInString (slice s i (len s)))))%Z
    else (i + 1)%Z in
  slice s 0 i.

(** [strings.TrimFunc]. *)
Definition TrimFunc (s : string) (f : rune -> bool) : string :=
  TrimRightFunc (TrimLeftFunc s f) f.

(** [strings.TrimSpace]. *)
Definition TrimSpace (s : string) : string := TrimFunc s IsSpace.

End Go.

(* ===================================================================== *)
(** * Data model *)
(* ===================================================================== *)

(** ** Cluster objects ([k8s.io/api/core/v1]), as far as the code reads them *)

Record Container := mkContainer { cName : string }.

Record Pod := mkPod {
  podNamespace : string;
  podName : string;
  podContainers : list Container       (* pod.Spec.Containers *)
}.

(** The status of a deployment: [Status.ReadyReplicas], [Status.Replicas]. *)
Record DeploymentStatus := mkStatus {
  ReadyReplicas : Z;
  Replicas : Z
}.

(** ** Configuration ([pkg/devspace/config/v1/devspace.go])

    Every field of the Go structs is a pointer.  A field the code tests
    against nil is an [option] here; a field the code dereferences without
    a test is a plain value (the configuration provider hands them over
    already validated).  A Go map that the code ranges over is an
    association list, in the order the range yields its entries. *)

Definition LabelSelector := list (string * string).

Record PortMapping := mkPortMapping {
  LocalPort : Z;
  RemotePort : Z
}.

Record PortForwardingConfig := mkPortForwarding {
  pfNamespace : option string;
  pfResourceType : option string;
  pfLabelSelector : LabelSelector;
  pfPortMappings : list PortMapping
}.

Record SyncConfig := mkSyncConfig {
  scNamespace : option string;
  scLabelSelector : LabelSelector;
  scContainerName : option string;
  scLocalSubPath : string;
  scContainerPath : string;
  scExcludePaths : option (list string);
  scDownloadExcludePaths : option (list string);
  scUploadExcludePaths : option (list string)
}.

(** [DevSpaceConfig]: the two lists the remove commands edit. *)
Record DevSpaceConfig := mkDevSpace {
  Ports : option (list PortForwardingConfig);
  Sync : option (list SyncConfig)
}.

(** What [cmd/up.go] reads of the merged configuration. *)
Definition ImageConfig := string.   (* only handed on to image.Build and registry.GetImageURL *)

Record RegistryConfig := mkRegistry { regURL : option string }.

Record UpConfig := mkUpConfig {
  Images : list (string * ImageConfig);
  Registries : list (string * RegistryConfig);
  ReleaseName : string;                 (* config.DevSpace.Release.Name *)
  ReleaseNamespace : string;            (* config.DevSpace.Release.Namespace *)
  UpSync : list SyncConfig;             (* config.DevSpace.Sync *)
  PortForwarding : list PortForwardingConfig
}.

(** What the helm package reads: [config.Tiller.Namespace], both pointers. *)
Record TillerConfig := mkTillerConfig { tillerNamespace : option string }.
Record HelmConfig := mkHelmConfig { Tiller : option TillerConfig }.

(** ** The generated state ([generated.Config]): the fingerprint of the
    chart directory and the rest (image tags), which this code only
    passes around. *)
Record GeneratedConfig := mkGenerated {
  HelmChartHash : string;
  ImageTags : list (string * string)
}.

(** ** Values of a chart *)

(** What the code looks at in [values.yaml]: the entry "pullSecrets", which
    is a list ([[]interface{}]) or something else. *)
Inductive Yaml :=
| YString (s : string)
| YList (items : list string)
| YOther.

Definition Values := list (string * Yaml).

Fixpoint lookup {A : Type} (k : string) (m : list (string * A)) : option A :=
  match m with
  | [] => None
  | (k', v) :: rest => if String.eqb k k' then Some v else lookup k rest
  end.

Record ContainerValues := mkContainerValues {
  cvImage : string;
  cvNoSleep : bool     (* "command" and "args" overridden by empty lists *)
}.

Record OverwriteValues := mkOverwrite {
  ovContainers : list (string * ContainerValues);
  ovPullSecrets : list string
}.

Record Release := mkRelease { Version : Z }.

(** ** Sessions and client handles *)

(** [synctool.SyncConfig], the session that [Start] is called on. *)
Record SyncSession := mkSyncSession {
  ssPod : Pod;
  ssContainer : Container;
  ssWatchPath : string;
  ssDestPath : string;
  ssVerbose : bool;
  ssExcludePaths : list string;
  ssDownloadExcludePaths : list string;
  ssUploadExcludePaths : list string
}.

(** [helm.ClientWrapper]. *)
Record ClientWrapper := mkClient {
  clientHost : string;     (* k8shelm.Host("127.0.0.1:" + port of the tunnel) *)
  clientHome : string;     (* Settings.Home *)
  clientNamespace : string
}.

(** Options of the tiller installer ([helminstaller.Options]). *)
Record TillerOptions := mkTillerOptions {
  toNamespace : string;
  toMaxHistory : Z;
  toImageSpec : string;
  toServiceAccount : string
}.

(* ===================================================================== *)
(** * Effects: the trace, the process state, and runs *)
(* ===================================================================== *)

Inductive Level := Info | Done | Warn | Error | FatalLevel | PanicLevel.

(** One constructor per call on a collaborator, with what was asked and
    what came back; [Log] is a message of the log package, with its format
    string and its arguments. *)
Inductive Event :=
| Log (l : Level) (format : string) (args : list string)
(* cmd/up.go *)
| GeneratedLoad (err : option Go.error)
| ImageBuild (name : string) (conf : ImageConfig) (force : bool)
             (shouldRebuild : bool) (err : option Go.error)
| HashDirectory (path : string) (hash : string) (err : option Go.error)
| GetRunningDevSpacePod (res : Go.result Pod)
| ReadYamlFromFile (path : string) (err : option Go.error)
| InstallChartByPath (name ns path : string) (values : OverwriteValues)
                     (res : Go.result Release)
| WaitForReleasePodToGetReady (name ns : string) (revision : Z) (res : Go.result Pod)
| GeneratedSave (c : GeneratedConfig) (err : option Go.error)
| FilepathAbs (path : string) (abs : string) (err : option Go.error)
| GetFirstRunningPod (labels ns : string) (res : Go.result Pod)
| SyncStart (s : SyncSession) (err : option Go.error)
| SyncStop (s : SyncSession)
| ForwardPorts (p : Pod) (ports : list string)
| ForwardReady (ready : bool)   (* the select: readyChan (true) or the 5 s timer (false) *)
| EnterTerminal (p : option Pod) (container : string) (args : list string)
(* cmd/remove.go *)
| ConfigSave (c : DevSpaceConfig) (err : option Go.error)
| CobraHelp
(* pkg/devspace/helm *)
| NamespaceGet (ns : string) (err : option Go.error)
| NamespaceCreate (ns : string) (err : option Go.error)
| DeploymentGet (ns name : string) (res : Go.result DeploymentStatus)
| ServiceAccountGet (ns name : string) (err : option Go.error)
| CreateTillerRBAC (err : option Go.error)
| HelmInstall (o : TillerOptions) (err : option Go.error)
| HelmUpgrade (o : TillerOptions) (err : option Go.error)
| Sleep (d : Go.Duration)
| GetClientConfig (err : option Go.error)
| TunnelNew (ns : string) (res : Go.result Z)
| ListReleases (host : string) (err : option Go.error)
| HomeDir (dir : string) (err : option Go.error)
| MkdirAll (path : string)
| Stat (path : string) (err : option Go.error)
| WriteToFile (path : string) (err : option Go.error)
| LoadRepositoriesFile (path : string) (res : Go.result (list string))
| NewChartRepository (repo : string) (err : option Go.error)
| DownloadIndexFile (repo : string) (err : option Go.error).

Definition Trace := list Event.

(** The state of the process and of the working directory:
    - [trace]: what happened so far, oldest first;
    - [generated_yaml]: the generated configuration on disk;
    - [helmClient], [getOnce]: the package variables of
      [pkg/devspace/helm/client.go]; [getOnce] is true once
      [getOnce.Do] has run its function. *)
Record World := mkWorld {
  trace : Trace;
  generated_yaml : GeneratedConfig;
  helmClient : option ClientWrapper;
  getOnce : bool
}.

Definition record (e : Event) (w : World) : World :=
  mkWorld (trace w ++ [e])%list (generated_yaml w) (helmClient w) (getOnce w).

Definition write_generated (c : GeneratedConfig) (w : World) : World :=
  mkWorld (trace w) c (helmClient w) (getOnce w).

Definition set_helmClient (c : option ClientWrapper) (w : World) : World :=
  mkWorld (trace w) (generated_yaml w) c (getOnce w).

Definition set_getOnce (b : bool) (w : World) : World :=
  mkWorld (trace w) (generated_yaml w) (helmClient w) b.

(** How a run can stop short of returning: the process exits ([Exit]), a
    panic unwinds it ([Panicked]), or, which is not a behaviour of the
    program but of the model, a loop has not finished within the steps it
    was given ([OutOfFuel]). *)
Inductive Halt := Exit | Panicked | OutOfFuel.

Inductive Outcome (A : Type) : Type :=
| Ret (a : A)
| Halted (h : Halt).
Arguments Ret {A} a.
Arguments Halted {A} h.

Definition Exec (A : Type) : Type := World -> Outcome A * World.

Definition ret {A : Type} (a : A) : Exec A := fun w => (Ret a, w).

Definition bind {A B : Type} (m : Exec A) (k : A -> Exec B) : Exec B :=
  fun w =>
    match m w with
    | (Ret a, w') => k a w'
    | (Halted h, w') => (Halted h, w')
    end.

Declare Scope exec_scope.
Delimit Scope exec_scope with exec.
Notation "x <- m ;; k" := (bind m (fun x => k))
  (at level 61, m at next level, right associativity) : exec_scope.
Notation "' pat <- m ;; k" := (bind m (fun x => match x with pat => k end))
  (at level 61, pat pattern, m at next level, right associativity) : exec_scope.
Notation "m ;; k" := (bind m (fun _ => k))
  (at level 61, right associativity) : exec_scope.
Open Scope exec_scope.

(** Append an event to the trace. *)
Definition emit (e : Event) : Exec unit := fun w => (Ret tt, record e w).

(** Ask an oracle: its answer may depend on the trace so far. *)
Definition ask {A : Type} (oracle : Trace -> A) : Exec A :=
  fun w => (Ret (oracle (trace w)), w).

Definition halt {A : Type} (h : Halt) : Exec A := fun w => (Halted h, w).

Definition logf (l : Level) (format : string) (args : list string) : Exec unit :=
  emit (Log l format args).

(** Modelled from the spec: the log package ([pkg/util/log]) is not among
    the files modelled here.  "Fatal errors terminate the process with a
    descriptive message before any further stage runs": [log.Fatal] and
    [log.Fatalf] print the message and exit the process, so nothing after
    them runs. *)
Definition Fatalf {A : Type} (format : string) (args : list string) : Exec A :=
  emit (Log FatalLevel format args) ;; halt Exit.

(** Modelled from the spec: [log.Panicf] of the same package prints the
    message and panics. *)
Definition Panicf {A : Type} (format : string) (args : list string) : Exec A :=
  emit (Log PanicLevel format args) ;; halt Panicked.

(** A Go run-time panic (nil dereference, index out of range, failed type
    assertion). *)
Definition runtime_panic {A : Type} (what : string) : Exec A :=
  emit (Log PanicLevel "runtime error: %s" [what]) ;; halt Panicked.

(** A call on a collaborator: ask the oracle, note the answer in the trace,
    hand the answer to the program. *)
Definition call {A : Type} (oracle : Trace -> A) (ev : A -> Event) : Exec A :=
  a <- ask oracle ;;
  emit (ev a) ;;
  ret a.

(* ===================================================================== *)
(** * pkg/devspace/helm: tiller.go and client.go *)
(* ===================================================================== *)

Module Helm.

(** What the cluster, the tiller installer and the file system answer. *)
Record Env := mkEnv {
  TillerServiceAccountName : string;   (* a constant of the package, declared in another file *)
  namespaces_Get : Trace -> string -> option Go.error;
  namespaces_Create : Trace -> string -> option Go.error;
  deployments_Get : Trace -> string -> string -> Go.result DeploymentStatus;
  serviceAccounts_Get : Trace -> string -> string -> option Go.error;
  createTillerRBAC : Trace -> option Go.error;
  installer_Install : Trace -> TillerOptions -> option Go.error;
  installer_Upgrade : Trace -> TillerOptions -> option Go.error;
  kubectl_GetClientConfig : Trace -> option Go.error;
  portforwarder_New : Trace -> string -> Go.result Z;
  client_ListReleases : Trace -> string -> option Go.error;
  homedir_Dir : Trace -> string * option Go.error;
  os_Stat : Trace -> string -> option Go.error;
  fsutil_WriteToFile : Trace -> string -> option Go.error;
  repo_LoadRepositoriesFile : Trace -> string -> Go.result (list string);
  repo_NewChartRepository : Trace -> string -> option Go.error;
  repo_DownloadIndexFile : Trace -> string -> option Go.error;
  (* the Go scheduler: which of the goroutines that can run makes the next step *)
  scheduler : Trace -> nat
}.

Definition TillerDeploymentName := "tiller-deploy".
Definition stableRepoCachePath := "repository/cache/stable-index.yaml".

(** A goroutine of [updateRepos] that is not done yet: it has the index of
    its repository to download, or the error of its download to log. *)
Inductive Download :=
| ToDownload (re : string)
| ToLog (err : Go.error).

(** The [k]-th of the goroutines [g :: others] (the last one when there
    are fewer), with those before it and those after it. *)
Fixpoint pick (k : nat) (g : Download) (others : list Download)
  : list Download * Download * list Download :=
  match k, others with
  | S k', g' :: others' =>
      let '(before, chosen, after) := pick k' g' others' in
      (g :: before, chosen, after)
  | _, _ => ([], g, others)
  end.

Section WithEnv.
Variable env : Env.

(** [*config.Tiller.Namespace] *)
Definition derefTillerNamespace (config : HelmConfig) : Exec string :=
  match Tiller config with
  | Some t =>
      match tillerNamespace t with
      | Some ns => ret ns
      | None => runtime_panic "invalid memory address or nil pointer dereference"
      end
  | None => runtime_panic "invalid memory address or nil pointer dereference"
  end.

Definition tillerCheckInterval : Go.Duration := (5 * Go.Second)%Z.
Definition tillerWaitingTime0 : Go.Duration := (2 * 60 * Go.Second)%Z.

(** The loop of [waitUntilTillerIsStarted], [fuel] bounding the number
    of times its body is entered. *)
Fixpoint waitLoop (fuel : nat) (config : HelmConfig)
         (tillerWaitingTime : Go.Duration) : Exec (option Go.error) :=
  if (tillerWaitingTime >? 0)%Z then
    match fuel with
    | O => halt OutOfFuel
    | S fuel' =>
        ns <- derefTillerNamespace config ;;
        r <- call (fun h => deployments_Get env h ns TillerDeploymentName)
                  (DeploymentGet ns TillerDeploymentName) ;;
        match r with
        | (_, Some _) =>
            (* if err != nil { continue } *)
            waitLoop fuel' config tillerWaitingTime
        | (None, None) =>
            runtime_panic "invalid memory address or nil pointer dereference"
        | (Some tillerDeployment, None) =>
            if (ReadyReplicas tillerDeployment =? Replicas tillerDeployment)%Z
            then ret None
            else
              emit (Sleep tillerCheckInterval) ;;
              waitLoop fuel' config (tillerWaitingTime - tillerCheckInterval)%Z
        end
    end
  else ret (Some "Tiller didn't start in time").

Definition waitUntilTillerIsStarted (fuel : nat) (config : HelmConfig)
  : Exec (option Go.error) :=
  waitLoop fuel config tillerWaitingTime0.

Definition createTiller (dsConfig : HelmConfig) (tillerOptions : TillerOptions)
  : Exec (option Go.error) :=
  ns <- derefTillerNamespace dsConfig ;;
  err <- call (fun h => serviceAccounts_Get env h ns (TillerServiceAccountName env))
              (ServiceAccountGet ns (TillerServiceAccountName env)) ;;
  rbac <- match err with
          | Some _ => call (createTillerRBAC env) CreateTillerRBAC
          | None => ret None
          end ;;
  match rbac with
  | Some e => ret (Some e)
  | None => call (fun h => installer_Install env h tillerOptions)
                 (HelmInstall tillerOptions)
  end.

Definition upgradeTiller (tillerOptions : TillerOptions) : Exec (option Go.error) :=
  call (fun h => installer_Upgrade env h tillerOptions) (HelmUpgrade tillerOptions).

Definition ensureTiller (fuel : nat) (config : HelmConfig) (upgrade : bool)
  : Exec (option Go.error) :=
  tillerNamespace <- derefTillerNamespace config ;;
  let tillerOptions :=
    mkTillerOptions tillerNamespace 10 "gcr.io/kubernetes-helm/tiller:v2.11.0"
                    (TillerServiceAccountName env) in
  err <- call (fun h => namespaces_Get env h tillerNamespace)
              (NamespaceGet tillerNamespace) ;;
  created <- match err with
             | Some _ =>
                 logf Done "Create namespace %s" [tillerNamespace] ;;
                 call (fun h => namespaces_Create env h tillerNamespace)
                      (NamespaceCreate tillerNamespace)
             | None => ret None
             end ;;
  match created with
  | Some e => ret (Some e)
  | None =>
      r <- call (fun h => deployments_Get env h tillerNamespace TillerDeploymentName)
                (DeploymentGet tillerNamespace TillerDeploymentName) ;;
      step <- match snd r with
              | Some _ =>
                  e <- createTiller config tillerOptions ;;
                  match e with
                  | Some e => ret (Some e)
                  | None => logf Done "Tiller started" [] ;; ret None
                  end
              | None =>
                  if upgrade
                  then upgradeTiller
                         (mkTillerOptions (toNamespace tillerOptions)
                                          (toMaxHistory tillerOptions) ""
                                          (toServiceAccount tillerOptions))
                  else ret None
              end ;;
      match step with
      | Some e => ret (Some e)
      | None => waitUntilTillerIsStarted fuel config
      end
  end.

(** The tunnel loop of [NewClient]: [inl port] when the loop is left by
    [break], [inr outerError] when the function returns from inside it. *)
Fixpoint tunnelLoop (fuel : nat) (ns : string) (tunnelWaitTime : Go.Duration)
  : Exec (Z + option Go.error) :=
  match fuel with
  | O => halt OutOfFuel
  | S fuel' =>
      r <- call (fun h => portforwarder_New env h ns) (TunnelNew ns) ;;
      match r with
      | (Some tunnel, None) => ret (inl tunnel)
      | (_, err) =>
          if (tunnelWaitTime <=? 0)%Z
          then ret (inr err)
          else
            emit (Sleep (5 * Go.Second)%Z) ;;
            tunnelLoop fuel' ns (tunnelWaitTime - 5 * Go.Second)%Z
      end
  end.

(** The loop that lists the releases through the tunnel; it gives the
    last value of [tillerError]. *)
Fixpoint helmLoop (fuel : nat) (host : string) (helmWaitTime : Go.Duration)
         (tillerError : option Go.error) : Exec (option Go.error) :=
  if (helmWaitTime >? 0)%Z then
    match fuel with
    | O => halt OutOfFuel
    | S fuel' =>
        tillerError <- call (fun h => client_ListReleases env h host)
                            (ListReleases host) ;;
        match tillerError with
        | None => ret None
        | Some e =>
            if (helmWaitTime <? 0)%Z
            then ret (Some e)
            else
              emit (Sleep (5 * Go.Second)%Z) ;;
              helmLoop fuel' host (helmWaitTime - 5 * Go.Second)%Z (Some e)
        end
    end
  else ret tillerError.

(** [updateRepos]: the first loop stops at the first repository that
    cannot be set up. *)
Fixpoint newRepos (repos : list string) : Exec (option Go.error) :=
  match repos with
  | [] => ret None
  | r :: rest =>
      e <- call (fun h => repo_NewChartRepository env h r) (NewChartRepository r) ;;
      match e with
      | Some e => ret (Some e)
      | None => newRepos rest
      end
  end.

(** The second loop starts one goroutine for each repository and
    [wg.Wait] joins them.  A goroutine downloads its index, logs the error
    if there is one, and is done; which goroutine goes on next is up to the
    scheduler.  [downloadAll] runs the goroutines that are not done yet,
    [steps] bounding the number of steps they make together (a goroutine
    makes two at most). *)
Fixpoint downloadAll (steps : nat) (running : list Download) : Exec unit :=
  match running with
  | [] => ret tt                              (* wg.Wait() returns *)
  | g :: others =>
      match steps with
      | O => halt OutOfFuel
      | S steps' =>
          k <- ask (scheduler env) ;;
          let '(before, g, after) := pick k g others in
          match g with
          | ToDownload re =>
              e <- call (fun h => repo_DownloadIndexFile env h re) (DownloadIndexFile re) ;;
              match e with
              | Some e => downloadAll steps' (before ++ ToLog e :: after)%list
              | None => downloadAll steps' (before ++ after)%list
              end
          | ToLog e =>
              logf Error "Unable to download repo index" [e] ;;
              downloadAll steps' (before ++ after)%list
          end
      end
  end.

Definition updateRepos (repositoryFile : string) : Exec (option Go.error) :=
  r <- call (fun h => repo_LoadRepositoriesFile env h repositoryFile)
            (LoadRepositoriesFile repositoryFile) ;;
  match r with
  | (_, Some e) => ret (Some e)
  | (None, None) => runtime_panic "invalid memory address or nil pointer dereference"
  | (Some allRepos, None) =>
      e <- newRepos allRepos ;;
      match e with
      | Some e => ret (Some e)
      | None =>
          downloadAll (2 * List.length allRepos) (map ToDownload allRepos) ;;
          ret None
      end
  end.

(** The function handed to [getOnce.Do]: it assigns [helmClient] on
    success and gives the value it leaves in [outerError]. *)
Definition bootstrap (fuel : nat) (config : HelmConfig) (upgradeTiller : bool)
  : Exec (option Go.error) :=
  match Tiller config with
  | None => ret (Some "No tiller namespace specified")
  | Some t =>
  match tillerNamespace t with
  | None => ret (Some "No tiller namespace specified")
  | Some tillerNamespace =>
      err <- call (kubectl_GetClientConfig env) GetClientConfig ;;
      match err with
      | Some e => ret (Some e)
      | None =>
      err <- ensureTiller fuel config upgradeTiller ;;
      match err with
      | Some e => ret (Some e)
      | None =>
      t <- tunnelLoop fuel tillerNamespace (2 * 60 * Go.Second)%Z ;;
      match t with
      | inr outerError => ret outerError
      | inl tunnelLocal =>
      let host := "127.0.0.1:" ++ Go.Itoa tunnelLocal in
      tillerError <- helmLoop fuel host (2 * 60 * Go.Second)%Z None ;;
      match tillerError with
      | Some e => ret (Some e)
      | None =>
      '(homeDir, err) <- call (homedir_Dir env) (fun r => HomeDir (fst r) (snd r)) ;;
      match err with
      | Some e => ret (Some e)
      | None =>
      let helmHomePath := homeDir ++ "/.devspace/helm" in
      let repoPath := helmHomePath ++ "/repository" in
      let repoFile := repoPath ++ "/repositories.yaml" in
      let stableRepoCachePathAbs := helmHomePath ++ "/" ++ stableRepoCachePath in
      emit (MkdirAll (helmHomePath ++ "/cache")) ;;
      emit (MkdirAll repoPath) ;;
      emit (MkdirAll (helmHomePath ++ "/repository/cache")) ;;
      repoFileNotFound <- call (fun h => os_Stat env h repoFile) (Stat repoFile) ;;
      written <- match repoFileNotFound with
                 | Some _ => call (fun h => fsutil_WriteToFile env h repoFile)
                                  (WriteToFile repoFile)
                 | None => ret None
                 end ;;
      match written with
      | Some e => ret (Some e)
      | None =>
      let wrapper := mkClient host helmHomePath tillerNamespace in
      err <- call (fun h => os_Stat env h stableRepoCachePathAbs)
                  (Stat stableRepoCachePathAbs) ;;
      updated <- match err with
                 | Some _ => updateRepos repoFile
                 | None => ret None
                 end ;;
      match updated with
      | Some e => ret (Some e)
      | None =>
          (fun w => (Ret None, set_helmClient (Some wrapper) w))
      end end end end end end end end end.

(** [NewClient]: [outerError] is a variable of the call; [getOnce.Do]
    runs the function only if it has not run before in this process,
    and is marked as done when the function returns. *)
Definition NewClient (fuel : nat) (config : HelmConfig) (upgradeTiller : bool)
  : Exec (option ClientWrapper * option Go.error) :=
  fun w =>
    if getOnce w
    then (Ret (helmClient w, None), w)
    else
      match bootstrap fuel config upgradeTiller w with
      | (Ret outerError, w') =>
          let w'' := set_getOnce true w' in
          (Ret (helmClient w'', outerError), w'')
      | (Halted h, w') => (Halted h, w')
      end.

End WithEnv.

End Helm.

(* ===================================================================== *)
(** * cmd/up.go *)
(* ===================================================================== *)

Module Up.

Record UpCmdFlags := mkFlags {
  tiller : bool;
  open : string;
  initRegistries : bool;
  build : bool;
  sync : bool;
  deploy : bool;
  portforwarding : bool;
  noSleep : bool;
  verboseSync : bool;
  container : string
}.

Definition UpFlagsDefault : UpCmdFlags :=
  mkFlags true "cmd" true false true false true false false "".

(** [UpCmd]; the client handles [helm] and [kubectl] are what the
    oracles of the environment stand for. *)
Record UpCmd := mkUpCmd {
  flags : UpCmdFlags;
  workdir : string;
  pod : option Pod
}.

Definition set_pod (p : option Pod) (cmd : UpCmd) : UpCmd :=
  mkUpCmd (flags cmd) (workdir cmd) p.

Record Env := mkEnv {
  generated_LoadConfig : Trace -> option Go.error;
  image_Build : Trace -> GeneratedConfig -> string -> ImageConfig -> bool ->
                bool * list (string * string) * option Go.error;
  hash_Directory : Trace -> string -> string * option Go.error;
  getRunningDevSpacePod : Trace -> Go.result Pod;
  yamlutil_ReadYamlFromFile : Trace -> string -> Values * option Go.error;
  registry_GetImageURL : GeneratedConfig -> ImageConfig -> bool -> string;
  registry_GetRegistryAuthSecretName : string -> string;
  helm_InstallChartByPath : Trace -> string -> string -> string -> OverwriteValues ->
                            Go.result Release;
  helm_WaitForReleasePodToGetReady : Trace -> string -> string -> Z -> Go.result Pod;
  generated_SaveConfig : Trace -> GeneratedConfig -> option Go.error;
  filepath_Abs : Trace -> string -> string * option Go.error;
  kubectl_GetFirstRunningPod : Trace -> string -> string -> Go.result Pod;
  sync_Start : Trace -> SyncSession -> option Go.error;
  (* whether the forwarder signals on readyChan before the 5 s timer fires *)
  forwarding_ready : Trace -> Pod -> list string -> bool
}.

Section WithEnv.
Variable env : Env.
Variable config : UpConfig.        (* configutil.GetConfig() *)

(** Modelled from the spec: the generated-state store (package
    [generated]) is not among the files modelled here.  "Load()/Save() of
    the last fingerprint and revision": [LoadConfig] gives what is on
    disk, or fails. *)
Definition LoadConfig : Exec (GeneratedConfig * option Go.error) :=
  err <- call (generated_LoadConfig env) GeneratedLoad ;;
  fun w => (Ret (generated_yaml w, err), w).

(** Modelled from the spec: [SaveConfig] of the same store puts the
    configuration on disk, or fails and leaves the disk as it was. *)
Definition SaveConfig (c : GeneratedConfig) : Exec (option Go.error) :=
  err <- call (fun h => generated_SaveConfig env h c) (GeneratedSave c) ;;
  match err with
  | None => fun w => (Ret None, write_generated c w)
  | Some e => ret (Some e)
  end.

(** [buildImages]: the result is true when one of the images had to be
    rebuilt.  [image.Build] gets the pointer to [generatedConfig] and
    records the tag of the image it built there; it has no business with
    the fingerprint of the chart, so the oracle answers with the new image
    tags only and [HelmChartHash] stays. *)
Fixpoint buildImagesLoop (cmd : UpCmd) (images : list (string * ImageConfig))
         (generatedConfig : GeneratedConfig) (re : bool)
  : Exec (bool * GeneratedConfig) :=
  match images with
  | [] => ret (re, generatedConfig)
  | (imageName, imageConf) :: rest =>
      r <- call (fun h => image_Build env h generatedConfig imageName imageConf
                                      (build (flags cmd)))
                (fun r => ImageBuild imageName imageConf (build (flags cmd))
                                     (fst (fst r)) (snd r)) ;;
      let '(shouldRebuild, tags, err) := r in
      match err with
      | Some e => Fatalf "%v" [e]
      | None =>
          buildImagesLoop cmd rest
            (mkGenerated (HelmChartHash generatedConfig) tags)
            (if shouldRebuild then true else re)
      end
  end.

Definition buildImages (cmd : UpCmd) (generatedConfig : GeneratedConfig)
  : Exec (bool * GeneratedConfig) :=
  buildImagesLoop cmd (Images config) generatedConfig false.

Definition containerValues (cmd : UpCmd) (generatedConfig : GeneratedConfig)
  : list (string * ContainerValues) :=
  map (fun ic => (fst ic,
                  mkContainerValues
                    (registry_GetImageURL env generatedConfig (snd ic) true)
                    (noSleep (flags cmd))))
      (Images config).

Fixpoint registrySecrets (regs : list (string * RegistryConfig)) : list string :=
  match regs with
  | [] => []
  | (_, registryConf) :: rest =>
      match regURL registryConf with
      | Some url => registry_GetRegistryAuthSecretName env url :: registrySecrets rest
      | None => registrySecrets rest
      end
  end.

Definition deployChart (cmd : UpCmd) (generatedConfig : GeneratedConfig)
  : Exec UpCmd :=
  let releaseName := ReleaseName config in
  let releaseNamespace := ReleaseNamespace config in
  let chartPath := "chart/" in
  '(values, err) <- call (fun h => yamlutil_ReadYamlFromFile env h (chartPath ++ "values.yaml"))
                         (fun r => ReadYamlFromFile (chartPath ++ "values.yaml") (snd r)) ;;
  match err with
  | Some e =>
      Fatalf "Couldn't deploy chart, error reading from chart values %s: %v"
             [chartPath ++ "values.yaml"; e]
  | None =>
      pullSecrets <- match lookup "pullSecrets" values with
                     | None => ret []
                     | Some (YList existing) => ret existing
                     | Some _ => runtime_panic "interface conversion: interface {} is not []interface {}"
                     end ;;
      let overwriteValues :=
        mkOverwrite (containerValues cmd generatedConfig)
                    (pullSecrets ++ registrySecrets (Registries config))%list in
      r <- call (fun h => helm_InstallChartByPath env h releaseName releaseNamespace
                                                  chartPath overwriteValues)
                (InstallChartByPath releaseName releaseNamespace chartPath overwriteValues) ;;
      match r with
      | (_, Some e) => Fatalf "Unable to deploy helm chart: %s" [e]
      | (None, None) => runtime_panic "invalid memory address or nil pointer dereference"
      | (Some appRelease, None) =>
          let releaseRevision := Version appRelease in
          logf Done "Deployed helm chart (Release revision: %d)" [Go.Itoa releaseRevision] ;;
          '(pod, err) <- call (fun h => helm_WaitForReleasePodToGetReady env h releaseName
                                          releaseNamespace releaseRevision)
                              (WaitForReleasePodToGetReady releaseName releaseNamespace
                                                           releaseRevision) ;;
          match err with
          | Some e => Fatalf "%v" [e]
          | None => ret (set_pod pod cmd)
          end
      end
  end.

Definition buildAndDeploy (cmd : UpCmd) : Exec UpCmd :=
  '(generatedConfig, err) <- LoadConfig ;;
  match err with
  | Some e => Fatalf "Error loading generated.yaml: %v" [e]
  | None =>
      '(mustRedeploy, generatedConfig) <- buildImages cmd generatedConfig ;;
      '(hash, err) <- call (fun h => hash_Directory env h "chart")
                           (fun r => HashDirectory "chart" (fst r) (snd r)) ;;
      match err with
      | Some e => Fatalf "Error hashing chart directory: %v" [e]
      | None =>
          '(pod, err) <- call (getRunningDevSpacePod env) GetRunningDevSpacePod ;;
          if match err with Some _ => true | None => false end
             || mustRedeploy
             || deploy (flags cmd)
             || negb (String.eqb (HelmChartHash generatedConfig) hash)
          then
            cmd <- deployChart cmd generatedConfig ;;
            let generatedConfig := mkGenerated hash (ImageTags generatedConfig) in
            err <- SaveConfig generatedConfig ;;
            match err with
            | Some e => Fatalf "Error saving config: %v" [e]
            | None => ret cmd
            end
          else ret (set_pod pod cmd)
      end
  end.

(** ** Sessions *)

Definition labelsOf (sel : LabelSelector) : list string :=
  map (fun kv => fst kv ++ "=" ++ snd kv) sel.

Definition namespaceOf (override : option string) : string :=
  match override with
  | Some ns => if String.eqb ns "" then ReleaseNamespace config else ns
  | None => ReleaseNamespace config
  end.

Definition orEmpty (l : option (list string)) : list string :=
  match l with Some l => l | None => [] end.

(** The container a sync declaration asks for: [inl c] is the container
    to use, [inr name] says that the named container is not in the
    pod.  [first] is [pod.Spec.Containers[0]]. *)
Definition selectContainer (syncPath : SyncConfig) (pod : Pod) (first : Container)
  : Container + string :=
  match scContainerName syncPath with
  | None => inl first
  | Some name =>
      if String.eqb name "" then inl first
      else match find (fun c => String.eqb (cName c) name) (podContainers pod) with
           | Some c => inl c
           | None => inr name
           end
  end.

(** The body of the loop of [startSync]; a [continue] gives the list
    of sessions back as it is. *)
Definition syncOne (cmd : UpCmd) (syncPath : SyncConfig)
           (syncConfigs : list SyncSession) : Exec (list SyncSession) :=
  '(absLocalPath, err) <- call (fun h => filepath_Abs env h (scLocalSubPath syncPath))
                               (fun r => FilepathAbs (scLocalSubPath syncPath)
                                                     (fst r) (snd r)) ;;
  match err with
  | Some e => Panicf "Unable to resolve localSubPath %s: %s" [scLocalSubPath syncPath; e]
  | None =>
      let labels := labelsOf (scLabelSelector syncPath) in
      let namespace := namespaceOf (scNamespace syncPath) in
      r <- call (fun h => kubectl_GetFirstRunningPod env h (Go.Join labels ", ") namespace)
                (GetFirstRunningPod (Go.Join labels ", ") namespace) ;;
      match r with
      | (_, Some e) => Panicf "Unable to list devspace pods: %s" [e]
      | (None, None) => ret syncConfigs
      | (Some pod, None) =>
          if Nat.eqb (List.length (podContainers pod)) 0
          then
            logf Warn "Cannot start sync on pod, because selected pod %s/%s has no containers"
                 [podNamespace pod; podName pod] ;;
            ret syncConfigs
          else
            match nth_error (podContainers pod) 0 with
            | None => runtime_panic "index out of range"
            | Some first =>
                match selectContainer syncPath pod first with
                | inr name =>
                    logf Warn "Couldn't start sync, because container %s wasn't found in pod %s/%s"
                         [name; podNamespace pod; podName pod] ;;
                    ret syncConfigs
                | inl container =>
                    let syncConfig :=
                      mkSyncSession pod container absLocalPath
                                    (scContainerPath syncPath)
                                    (verboseSync (flags cmd))
                                    (orEmpty (scExcludePaths syncPath))
                                    (orEmpty (scDownloadExcludePaths syncPath))
                                    (orEmpty (scUploadExcludePaths syncPath)) in
                    err <- call (fun h => sync_Start env h syncConfig)
                                (SyncStart syncConfig) ;;
                    match err with
                    | Some e => Fatalf "Sync error: %s" [e]
                    | None =>
                        logf Done "Sync started on %s <-> %s (Pod: %s/%s)"
                             [absLocalPath; scContainerPath syncPath;
                              podNamespace pod; podName pod] ;;
                        ret (syncConfigs ++ [syncConfig])%list
                    end
                end
            end
      end
  end.

Fixpoint syncLoop (cmd : UpCmd) (decls : list SyncConfig)
         (syncConfigs : list SyncSession) : Exec (list SyncSession) :=
  match decls with
  | [] => ret syncConfigs
  | syncPath :: rest =>
      syncConfigs <- syncOne cmd syncPath syncConfigs ;;
      syncLoop cmd rest syncConfigs
  end.

Definition startSync (cmd : UpCmd) : Exec (list SyncSession) :=
  syncLoop cmd (UpSync config) [].

Definition portsOf (pms : list PortMapping) : list string :=
  map (fun value => Go.Itoa (LocalPort value) ++ ":" ++ Go.Itoa (RemotePort value)) pms.

(** The body of the loop of [startPortForwarding]. *)
Definition forwardOne (portForwarding : PortForwardingConfig) : Exec unit :=
  if match pfResourceType portForwarding with
     | None => true
     | Some t => String.eqb t "pod"
     end
  then
    if Nat.ltb 0 (List.length (pfLabelSelector portForwarding))
    then
      let labels := labelsOf (pfLabelSelector portForwarding) in
      let namespace := namespaceOf (pfNamespace portForwarding) in
      r <- call (fun h => kubectl_GetFirstRunningPod env h (Go.Join labels ", ") namespace)
                (GetFirstRunningPod (Go.Join labels ", ") namespace) ;;
      match r with
      | (_, Some e) => logf Error "Unable to list devspace pods: %s" [e]
      | (None, None) => ret tt
      | (Some pod, None) =>
          let ports := portsOf (pfPortMappings portForwarding) in
          (* go kubectl.ForwardPorts(...) *)
          emit (ForwardPorts pod ports) ;;
          (* select { case <-readyChan: ... case <-time.After(5 * time.Second): ... } *)
          ready <- call (fun h => forwarding_ready env h pod ports) ForwardReady ;;
          if ready
          then logf Done "Port forwarding started on %s" [Go.Join ports ", "]
          else logf Error "Timeout waiting for port forwarding to start" []
      end
    else ret tt
  else logf Warn "Currently only pod resource type is supported for portforwarding" [].

Fixpoint forwardLoop (decls : list PortForwardingConfig) : Exec unit :=
  match decls with
  | [] => ret tt
  | portForwarding :: rest => forwardOne portForwarding ;; forwardLoop rest
  end.

Definition startPortForwarding : Exec unit :=
  forwardLoop (PortForwarding config).

Fixpoint stopAll (syncConfigs : list SyncSession) : Exec unit :=
  match syncConfigs with
  | [] => ret tt
  | v :: rest => emit (SyncStop v) ;; stopAll rest
  end.

(** The end of [Run], from the port forwarding on: the sessions, the
    interactive terminal, and the deferred stop of the sync sessions
    when [Run] returns. *)
Definition runSessions (cmd : UpCmd) (args : list string) : Exec unit :=
  (if portforwarding (flags cmd) then startPortForwarding else ret tt) ;;
  syncConfigs <- (if sync (flags cmd) then startSync cmd else ret []) ;;
  emit (EnterTerminal (pod cmd) (container (flags cmd)) args) ;;
  stopAll syncConfigs.

End WithEnv.

End Up.

(* ===================================================================== *)
(** * cmd/remove.go *)
(* ===================================================================== *)

Module Remove.

Record removeSyncCmdFlags := mkSyncFlags {
  syncSelector : string;
  LocalPath : string;
  ContainerPath : string;
  syncRemoveAll : bool
}.

Record removePortCmdFlags := mkPortFlags {
  portSelector : string;
  portRemoveAll : bool
}.

(** [parseSelectors] and [isMapEqual] are helpers of the package that are
    declared in another file.  [configutil.SaveConfig] (save.go) turns the
    configuration that is in memory into YAML and writes the configuration
    files; the commands only look at the error it returns, so here it is
    one event that carries the configuration, and an answer. *)
Record Env := mkEnv {
  parseSelectors : string -> LabelSelector * option Go.error;
  isMapEqual : LabelSelector -> LabelSelector -> bool;
  configutil_SaveConfig : Trace -> DevSpaceConfig -> option Go.error
}.

Fixpoint containsPort (port : string) (ports : list string) : bool :=
  match ports with
  | [] => false
  | v :: rest =>
      if String.eqb (Go.TrimSpace v) port then true else containsPort port rest
  end.

Section WithEnv.
Variable env : Env.

Definition SaveConfig (config : DevSpaceConfig) : Exec (option Go.error) :=
  call (fun h => configutil_SaveConfig env h config) (ConfigSave config).

(** The loop of [RunRemoveSync] over [*config.DevSpace.Sync]. *)
Fixpoint removeSyncLoop (flags : removeSyncCmdFlags) (labelSelectorMap : LabelSelector)
         (l : list SyncConfig) (newSyncPaths : list SyncConfig) : list SyncConfig :=
  match l with
  | [] => newSyncPaths
  | v :: rest =>
      if syncRemoveAll flags
         || String.eqb (LocalPath flags) (scLocalSubPath v)
         || String.eqb (ContainerPath flags) (scContainerPath v)
         || isMapEqual env labelSelectorMap (scLabelSelector v)
      then removeSyncLoop flags labelSelectorMap rest newSyncPaths
      else removeSyncLoop flags labelSelectorMap rest (newSyncPaths ++ [v])%list
  end.

(** [RunRemoveSync]; the result is the configuration the process holds
    in memory afterwards. *)
Definition RunRemoveSync (flags : removeSyncCmdFlags) (args : list string)
           (config : DevSpaceConfig) : Exec DevSpaceConfig :=
  let '(labelSelectorMap, err) := parseSelectors env (syncSelector flags) in
  match err with
  | Some e => Fatalf "Error parsing selectors: %s" [e]
  | None =>
      if Nat.eqb (List.length labelSelectorMap) 0
         && negb (syncRemoveAll flags)
         && String.eqb (LocalPath flags) ""
         && String.eqb (ContainerPath flags) ""
      then
        logf Error "You have to specify at least one of the supported flags" [] ;;
        emit CobraHelp ;;
        ret config
      else
        match Sync config with
        | None => ret config
        | Some l =>
            if Nat.ltb 0 (List.length l)
            then
              let newSyncPaths := removeSyncLoop flags labelSelectorMap l [] in
              let config := mkDevSpace (Ports config) (Some newSyncPaths) in
              err <- SaveConfig config ;;
              match err with
              | Some e => Fatalf "Couldn't save config file: %s" [e]
              | None => ret config
              end
            else ret config
        end
  end.

(** The inner loop of [RunRemovePort] over [*v.PortMappings]. *)
Fixpoint removeMappingsLoop (ports : list string) (l : list PortMapping)
         (newPortMappings : list PortMapping) : list PortMapping :=
  match l with
  | [] => newPortMappings
  | pm :: rest =>
      if containsPort (Go.Itoa (LocalPort pm)) ports
         || containsPort (Go.Itoa (RemotePort pm)) ports
      then removeMappingsLoop ports rest newPortMappings
      else removeMappingsLoop ports rest (newPortMappings ++ [pm])%list
  end.

(** The outer loop of [RunRemovePort] over [*config.DevSpace.Ports]. *)
Fixpoint removePortsLoop (flags : removePortCmdFlags) (labelSelectorMap : LabelSelector)
         (ports : list string) (l : list PortForwardingConfig)
         (newPortForwards : list PortForwardingConfig) : list PortForwardingConfig :=
  match l with
  | [] => newPortForwards
  | v :: rest =>
      if portRemoveAll flags || isMapEqual env labelSelectorMap (pfLabelSelector v)
      then removePortsLoop flags labelSelectorMap ports rest newPortForwards
      else
        let newPortMappings := removeMappingsLoop ports (pfPortMappings v) [] in
        if Nat.ltb 0 (List.length newPortMappings)
        then
          let v := mkPortForwarding (pfNamespace v) (pfResourceType v)
                                    (pfLabelSelector v) newPortMappings in
          removePortsLoop flags labelSelectorMap ports rest (newPortForwards ++ [v])%list
        else removePortsLoop flags labelSelectorMap ports rest newPortForwards
  end.

(** [argPorts]: the argument when there is exactly one, else empty. *)
Definition argPortsOf (args : list string) : string :=
  match args with
  | [a] => a
  | _ => ""
  end.

Definition RunRemovePort (flags : removePortCmdFlags) (args : list string)
           (config : DevSpaceConfig) : Exec DevSpaceConfig :=
  let '(labelSelectorMap, err) := parseSelectors env (portSelector flags) in
  match err with
  | Some e => Fatalf "Error parsing selectors: %s" [e]
  | None =>
      let argPorts := argPortsOf args in
      if Nat.eqb (List.length labelSelectorMap) 0
         && negb (portRemoveAll flags)
         && String.eqb argPorts ""
      then
        logf Error "You have to specify at least one of the supported flags" [] ;;
        emit CobraHelp ;;
        ret config
      else
        let ports := Go.Split argPorts "," in
        match Ports config with
        | None => ret config
        | Some l =>
            if Nat.ltb 0 (List.length l)
            then
              let newPortForwards := removePortsLoop flags labelSelectorMap ports l [] in
              let config := mkDevSpace (Some newPortForwards) (Sync config) in
              err <- SaveConfig config ;;
              match err with
              | Some e => Fatalf "Couldn't save config file: %s" [e]
              | None => ret config
              end
            else ret config
        end
  end.

End WithEnv.

(** A reading of the two helpers, for running the commands on examples:
    a selector is a comma separated list of [key=value]. *)
Definition parsePair (s : string) : option (string * string) :=
  match Go.Split s "=" with
  | [k; v] => Some (Go.TrimSpace k, Go.TrimSpace v)
  | _ => None
  end.

Fixpoint parsePairs (l : list string) : option LabelSelector :=
  match l with
  | [] => Some []
  | s :: rest =>
      match parsePair s, parsePairs rest with
      | Some kv, Some m => Some (kv :: m)
      | _, _ => None
      end
  end.

Definition exampleParseSelectors (s : string) : LabelSelector * option Go.error :=
  if String.eqb s "" then ([], None)
  else match parsePairs (Go.Split s ",") with
       | Some m => (m, None)
       | None => ([], Some ("Wrong selector format: " ++ s))
       end.

Definition pairEqb (a b : string * string) : bool :=
  String.eqb (fst a) (fst b) && String.eqb (snd a) (snd b).

Definition exampleIsMapEqual (a b : LabelSelector) : bool :=
  Nat.eqb (List.length a) (List.length b)
  && forallb (fun kv => existsb (pairEqb kv) b) a.

Definition exampleEnv : Env :=
  mkEnv exampleParseSelectors exampleIsMapEqual (fun _ _ => None).

End Remove.

(* ===================================================================== *)
(** * Runs over another vocabulary of events *)
(* ===================================================================== *)

(** The functions modelled below talk to collaborators that the ones above
    do not, and each group has its own events.  A run takes the events so
    far and gives its outcome and the events so far afterwards; an oracle
    answers from the events so far. *)
Module Prog.

Section Over.
Context {E : Type}.

Definition Prog (A : Type) : Type := list E -> Outcome A * list E.

Definition ret {A : Type} (a : A) : Prog A := fun h => (Ret a, h).

Definition bind {A B : Type} (m : Prog A) (k : A -> Prog B) : Prog B :=
  fun h =>
    match m h with
    | (Ret a, h') => k a h'
    | (Halted x, h') => (Halted x, h')
    end.

Definition emit (e : E) : Prog unit := fun h => (Ret tt, (h ++ [e])%list).

Definition halt {A : Type} (x : Halt) : Prog A := fun h => (Halted x, h).

Definition call {A : Type} (oracle : list E -> A) (ev : A -> E) : Prog A :=
  fun h => (Ret (oracle h), (h ++ [ev (oracle h)])%list).

End Over.

Declare Scope prog_scope.
Delimit Scope prog_scope with prog.
Notation "x <- m ;; k" := (bind m (fun x => k))
  (at level 61, m at next level, right associativity) : prog_scope.
Notation "' pat <- m ;; k" := (bind m (fun x => match x with pat => k end))
  (at level 61, pat pattern, m at next level, right associativity) : prog_scope.
Notation "m ;; k" := (bind m (fun _ => k))
  (at level 61, right associativity) : prog_scope.

End Prog.

(* ===================================================================== *)
(** * pkg/devspace/helm/tiller.go: DeleteTiller *)
(* ===================================================================== *)

Module TillerDelete.
Import Prog.
Local Open Scope prog_scope.

(** [strings.HasSuffix]. *)
Definition HasSuffix (s suffix : string) : bool :=
  let n := String.length s in
  let m := String.length suffix in
  (m <=? n)%nat && String.eqb (substring (n - m) m s) suffix.

Definition newline : string := String (ascii_of_nat 10) EmptyString.

Inductive Kind := Deployment | Service | ServiceAccount | Role | RoleBinding.

Inductive Event :=
| Delete (kind : Kind) (ns name : string) (err : option Go.error)
| GetDefaultNamespace (ns : string) (err : option Go.error)
| Panic (what : string).

(** A deployment of the configuration ([v1.DeploymentConfig]): its name,
    its namespace, and [Helm] with its [ChartPath]. *)
Record DeploymentConfig := mkDeployment {
  dcName : string;
  dcNamespace : option string;
  dcHelm : option (option string)
}.

(** What DeleteTiller reads of the configuration: [*config.Tiller.Namespace],
    [config.Cluster.CloudProvider], [config.InternalRegistry] with its
    [Namespace] (a pointer that is dereferenced later), and
    [config.DevSpace.Deployments]. *)
Record Config := mkConfig {
  TillerNamespace : string;
  CloudProvider : option string;
  InternalRegistry : option (option string);
  Deployments : option (list DeploymentConfig)
}.

(** The names are constants of the package that are declared in another
    file; [delete] is the Delete of the client for a kind of object,
    [configutil_GetDefaultNamespace] is in another file too. *)
Record Env := mkEnv {
  TillerServiceAccountName : string;
  TillerRoleName : string;
  TillerRoleManagerName : string;
  delete : list Event -> Kind -> string -> string -> option Go.error;
  configutil_GetDefaultNamespace : list Event -> string * option Go.error
}.

Section WithEnv.
Variable env : Env.

(** [if err != nil && strings.HasSuffix(err.Error(), "not found") == false
    { errs = append(errs, err) }] *)
Definition collect (errs : list Go.error) (err : option Go.error) : list Go.error :=
  match err with
  | Some e => if negb (HasSuffix e "not found") then (errs ++ [e])%list else errs
  | None => errs
  end.

Definition deleteOne (kind : Kind) (ns name : string) (errs : list Go.error)
  : Prog (list Go.error) :=
  err <- call (fun h => delete env h kind ns name) (Delete kind ns name) ;;
  ret (collect errs err).

(** The loop over [*config.DevSpace.Deployments]. *)
Fixpoint deploymentNamespaces (defaultNamespace : string) (l : list DeploymentConfig)
         (appNamespaces : list (option string)) : list (option string) :=
  match l with
  | [] => appNamespaces
  | deployConfig :: rest =>
      match dcNamespace deployConfig, dcHelm deployConfig with
      | Some ns, Some _ =>
          if String.eqb ns ""
          then deploymentNamespaces defaultNamespace rest
                 (appNamespaces ++ [Some defaultNamespace])%list
          else deploymentNamespaces defaultNamespace rest
                 (appNamespaces ++ [Some ns])%list
      | _, _ => deploymentNamespaces defaultNamespace rest appNamespaces
      end
  end.

(** The loop over [appNamespaces]. *)
Fixpoint deleteRoles (appNamespaces : list (option string)) (errs : list Go.error)
  : Prog (list Go.error) :=
  match appNamespaces with
  | [] => ret errs
  | appNamespace :: rest =>
      match appNamespace with
      | None =>
          emit (Panic "invalid memory address or nil pointer dereference") ;;
          halt Panicked
      | Some ns =>
          errs <- deleteOne Role ns (TillerRoleName env) errs ;;
          errs <- deleteOne RoleBinding ns (TillerRoleName env ++ "-binding") errs ;;
          errs <- deleteOne Role ns (TillerRoleManagerName env) errs ;;
          errs <- deleteOne RoleBinding ns (TillerRoleManagerName env ++ "-binding") errs ;;
          deleteRoles rest errs
      end
  end.

(** "Merge errors". *)
Definition mergeErrors (errs : list Go.error) : option Go.error :=
  let errorText := fold_left (fun errorText value => errorText ++ value ++ newline) errs "" in
  if String.eqb errorText "" then None else Some errorText.

Definition DeleteTiller (config : Config) : Prog (option Go.error) :=
  let tillerNamespace := TillerNamespace config in
  errs <- deleteOne Deployment tillerNamespace Helm.TillerDeploymentName [] ;;
  errs <- deleteOne Service tillerNamespace Helm.TillerDeploymentName errs ;;
  if match CloudProvider config with
     | None => true
     | Some p => String.eqb p ""
     end
  then
    errs <- deleteOne ServiceAccount tillerNamespace (TillerServiceAccountName env) errs ;;
    let appNamespaces := [Some tillerNamespace] in
    '(defaultNamespace, err) <- call (configutil_GetDefaultNamespace env)
                                     (fun r => GetDefaultNamespace (fst r) (snd r)) ;;
    match err with
    | Some e => ret (Some ("Error retrieving default namespace: " ++ e))
    | None =>
        let appNamespaces :=
          match InternalRegistry config with
          | Some ns => (appNamespaces ++ [ns])%list
          | None => appNamespaces
          end in
        let appNamespaces :=
          match Deployments config with
          | Some l => deploymentNamespaces defaultNamespace l appNamespaces
          | None => appNamespaces
          end in
        errs <- deleteRoles appNamespaces errs ;;
        ret (mergeErrors errs)
    end
  else ret (mergeErrors errs).

End WithEnv.

End TillerDelete.

(* ===================================================================== *)
(** * cmd/remove.go: RunRemovePackage *)
(* ===================================================================== *)

Module Package.
Import Prog.
Local Open Scope prog_scope.

Record removePackageCmdFlags := mkPackageFlags {
  RemoveAll : bool;
  Deployment : string
}.

(** A deployment of the configuration ([v1.DeploymentConfig]): [*Name],
    and [Helm] with its [ChartPath], both pointers that are tested. *)
Record DeploymentConfig := mkDeployment {
  dcName : string;
  dcHelm : option (option string)
}.

(** An entry of the list "dependencies" of requirements.yaml: a map
    ([map[interface{}]interface{}]) or something else. *)
Inductive Dependency :=
| DepMap (fields : list (string * Yaml))
| DepOther (v : Yaml).

(** The value under "dependencies": a list ([[]interface{}]) or something
    else. *)
Inductive Dependencies :=
| DepList (l : list Dependency)
| DepNoList (v : Yaml).

(** What was read from requirements.yaml: the entry "dependencies", when
    there is one, and the other entries. *)
Record Requirements := mkRequirements {
  dependencies : option Dependencies;
  others : Values
}.

Inductive Event :=
| Log (l : Level) (format : string) (args : list string)
| FilepathAbs (path abs : string) (err : option Go.error)
| ReadYamlFromFile (path : string) (contents : Requirements) (err : option Go.error)
| WriteYamlToFile (contents : Requirements) (path : string) (err : option Go.error)
| KubectlNewClient (err : option Go.error)
| HelmNewClient (res : Go.result ClientWrapper)
| UpdateDependencies (helm : option ClientWrapper) (chartPath : string)
                     (err : option Go.error).

(** [filepath.Join] is a function of its arguments; the others are calls
    on the file system, the cluster and helm. *)
Record Env := mkEnv {
  filepath_Join : string -> string -> string;
  filepath_Abs : list Event -> string -> string * option Go.error;
  yamlutil_ReadYamlFromFile : list Event -> string -> Requirements * option Go.error;
  yamlutil_WriteYamlToFile : list Event -> Requirements -> string -> option Go.error;
  kubectl_NewClient : list Event -> option Go.error;
  helmClient_NewClient : list Event -> Go.result ClientWrapper;
  helm_UpdateDependencies : list Event -> option ClientWrapper -> string -> option Go.error
}.

Section WithEnv.
Variable env : Env.

(** [log.Fatal] and [log.Fatalf]: the message, and the process exits. *)
Definition Fatalf {A : Type} (format : string) (args : list string) : Prog A :=
  emit (Log FatalLevel format args) ;; halt Exit.

Definition rebuildDependencies (chartPath : string) (newYamlContents : Requirements)
  : Prog unit :=
  let path := filepath_Join env chartPath "requirements.yaml" in
  err <- call (fun h => yamlutil_WriteYamlToFile env h newYamlContents path)
              (WriteYamlToFile newYamlContents path) ;;
  match err with
  | Some e => Fatalf "%v" [e]
  | None =>
      err <- call (kubectl_NewClient env) KubectlNewClient ;;
      match err with
      | Some e => Fatalf "Unable to create new kubectl client: %v" [e]
      | None =>
          r <- call (helmClient_NewClient env) HelmNewClient ;;
          match snd r with
          | Some e => Fatalf "Error initializing helm client: %v" [e]
          | None =>
              err <- call (fun h => helm_UpdateDependencies env h (fst r) chartPath)
                          (UpdateDependencies (fst r) chartPath) ;;
              match err with
              | Some e => Fatalf "%v" [e]
              | None => ret tt
              end
          end
      end
  end.

(** The loop that looks for the deployment: the first one that the flag
    selects; [inl] is the deployment found (or none), [inr] the name of a
    selected deployment that is not a helm deployment. *)
Fixpoint selectDeployment (flags : removePackageCmdFlags) (l : list DeploymentConfig)
  : option (DeploymentConfig * string) + string :=
  match l with
  | [] => inl None
  | deployConfig :: rest =>
      if String.eqb (Deployment flags) "" || String.eqb (Deployment flags) (dcName deployConfig)
      then match dcHelm deployConfig with
           | Some (Some chartPath) => inl (Some (deployConfig, chartPath))
           | _ => inr (dcName deployConfig)
           end
      else selectDeployment flags rest
  end.

(** [name == args[0]] for a [name] of type [interface{}]. *)
Definition nameIs (fields : list (string * Yaml)) (arg : string) : bool :=
  match lookup "name" fields with
  | Some (YString name) => String.eqb name arg
  | _ => false
  end.

(** The loop over [dependenciesArr]; [before] are the entries passed
    over, so that the list without the entry at [key] is
    [before ++ rest].  The message of the fatal error prints the value of
    "dependencies"; the text of that value is left out of the event. *)
Fixpoint removeLoop (chartPath : string) (yamlContents : Requirements) (arg : string)
         (before l : list Dependency) : Prog unit :=
  match l with
  | [] => ret tt
  | dependency :: rest =>
      match dependency with
      | DepOther _ => Fatalf "Error parsing yaml: %v" []
      | DepMap fields =>
          if nameIs fields arg
          then rebuildDependencies chartPath
                 (mkRequirements (Some (DepList (before ++ rest)%list))
                                 (others yamlContents))
          else removeLoop chartPath yamlContents arg (before ++ [dependency])%list rest
      end
  end.

(** The end of [RunRemovePackage], once requirements.yaml is read. *)
Definition removeDependencies (flags : removePackageCmdFlags) (args : list string)
           (chartPath : string) (yamlContents : Requirements) : Prog unit :=
  match dependencies yamlContents with
  | None => emit (Log Done "No dependencies found" [])
  | Some (DepNoList _) => Fatalf "Error parsing yaml: %v" []
  | Some (DepList dependenciesArr) =>
      if negb (RemoveAll flags)
      then
        match args with
        | [] =>
            emit (Log PanicLevel "runtime error: %s" ["index out of range"]) ;;
            halt Panicked
        | arg :: _ =>
            removeLoop chartPath yamlContents arg [] dependenciesArr ;;
            emit (Log Done "Successfully removed dependency %s" [arg])
        end
      else
        rebuildDependencies chartPath
          (mkRequirements (Some (DepList [])) (others yamlContents)) ;;
        emit (Log Done "Successfully removed all dependencies" [])
  end.

Definition RunRemovePackage (flags : removePackageCmdFlags) (args : list string)
           (deployments : option (list DeploymentConfig)) : Prog unit :=
  match deployments with
  | None => Fatalf "Please specify the deployment via the -d flag" []
  | Some l =>
      if negb (Nat.eqb (List.length l) 1) && String.eqb (Deployment flags) ""
      then Fatalf "Please specify the deployment via the -d flag" []
      else
        match selectDeployment flags l with
        | inr name => Fatalf "Selected deployment %s is not a valid helm deployment" [name]
        | inl None => Fatalf "Deployment %s not found" [Deployment flags]
        | inl (Some (_, helmChartPath)) =>
            '(chartPath, err) <- call (fun h => filepath_Abs env h helmChartPath)
                                      (fun r => FilepathAbs helmChartPath (fst r) (snd r)) ;;
            match err with
            | Some e => Fatalf "%v" [e]
            | None =>
                if Nat.eqb (List.length args) 0 && negb (RemoveAll flags)
                then Fatalf "You need to specify a package name or the --all flag" []
                else
                  let requirementsPath := filepath_Join env chartPath "requirements.yaml" in
                  '(yamlContents, err) <-
                     call (fun h => yamlutil_ReadYamlFromFile env h requirementsPath)
                          (fun r => ReadYamlFromFile requirementsPath (fst r) (snd r)) ;;
                  match err with
                  | Some e => Fatalf "%v" [e]
                  | None => removeDependencies flags args chartPath yamlContents
                  end
            end
        end
  end.

End WithEnv.

End Package.

(* ===================================================================== *)
(** * cmd/up.go: ensureClusterRoleBinding *)
(* ===================================================================== *)

Module RoleBinding.
Import Prog.
Local Open Scope prog_scope.

Definition clusterRoleBindingName : string := "devspace-users".

(** [strings.TrimSuffix]. *)
Definition TrimSuffix (s suffix : string) : string :=
  if TillerDelete.HasSuffix s suffix
  then substring 0 (String.length s - String.length suffix) s
  else s.

Definition crlf : string :=
  String (ascii_of_nat 13) (String (ascii_of_nat 10) EmptyString).

(** What the code reads of the client configuration:
    [clusterConfig.AuthProvider], a pointer, and its [Name]. *)
Record ClientConfig := mkClientConfig { AuthProviderName : option string }.

Inductive Event :=
| IsMinikube (b : bool)
| ClusterRoleBindingGet (name : string) (err : option Go.error)
| GetClientConfig (res : Go.result ClientConfig)
| GetFromStdin (question defaultValue pattern answer : string)
| Gcloud (output : string) (err : option Go.error)
| ClusterRoleBindingCreate (name username : string) (err : option Go.error)
| Log (l : Level) (format : string) (args : list string).

(** [gcloud] is the run of ["gcloud config list account --format
    value(core.account)"] and its output. *)
Record Env := mkEnv {
  kubectl_IsMinikube : list Event -> bool;
  clusterRoleBindings_Get : list Event -> string -> option Go.error;
  kubectl_GetClientConfig : list Event -> Go.result ClientConfig;
  stdinutil_GetFromStdin : list Event -> string -> string -> string -> string;
  gcloud : list Event -> string * option Go.error;
  clusterRoleBindings_Create : list Event -> string -> string -> option Go.error
}.

Section WithEnv.
Variable env : Env.

Definition Fatal {A : Type} (message : string) : Prog A :=
  emit (Log FatalLevel message []) ;; halt Exit.

(** [*stdinutil.GetFromStdin(...)] *)
Definition askStdin (question defaultValue pattern : string) : Prog string :=
  call (fun h => stdinutil_GetFromStdin env h question defaultValue pattern)
       (GetFromStdin question defaultValue pattern).

(** [ensureClusterRoleBinding]; [cloudProvider] is
    [cfg.Cluster.CloudProvider]. *)
Definition ensureClusterRoleBinding (cloudProvider : option string)
  : Prog (option Go.error) :=
  minikube <- call (kubectl_IsMinikube env) IsMinikube ;;
  if minikube then ret None
  else
    err <- call (fun h => clusterRoleBindings_Get env h clusterRoleBindingName)
                (ClusterRoleBindingGet clusterRoleBindingName) ;;
    match err with
    | None => ret None
    | Some _ =>
        r <- call (kubectl_GetClientConfig env) GetClientConfig ;;
        match fst r with
        | None =>
            emit (Log PanicLevel "runtime error: %s"
                      ["invalid memory address or nil pointer dereference"]) ;;
            halt Panicked
        | Some clusterConfig =>
            if match AuthProviderName clusterConfig with
               | Some name => String.eqb name "gcp"
               | None => false
               end
            then
              createRoleBinding <-
                askStdin ("Do you want the ClusterRoleBinding '" ++ clusterRoleBindingName
                          ++ "' to be created automatically? (yes|no)")
                         "yes" "^(yes)|(no)$" ;;
              (if String.eqb createRoleBinding "no"
               then Fatal ("Please create ClusterRoleBinding '" ++ clusterRoleBindingName
                           ++ "' manually")
               else ret tt) ;;
              '(gcloudOutput, gcloudErr) <- call (gcloud env)
                                                 (fun r => Gcloud (fst r) (snd r)) ;;
              let username :=
                match gcloudErr with
                | None =>
                    let gcloudEmail :=
                      TrimSuffix (TrimSuffix gcloudOutput crlf) TillerDelete.newline in
                    if negb (String.eqb gcloudEmail "") then gcloudEmail else ""
                | Some _ => ""
                end in
              username <- askStdin "What is the email address of your Google Cloud account?"
                                   username ".+" ;;
              err <- call (fun h => clusterRoleBindings_Create env h clusterRoleBindingName
                                                               username)
                          (ClusterRoleBindingCreate clusterRoleBindingName username) ;;
              match err with
              | Some e => ret (Some e)
              | None => ret None
              end
            else
              (if match cloudProvider with
                  | None => true
                  | Some p => String.eqb p ""
                  end
               then emit (Log Warn ("Unable to check permissions: If you run into errors, please create the ClusterRoleBinding '"
                                    ++ clusterRoleBindingName
                                    ++ "' as described here: https://devspace.covexo.com/docs/advanced/rbac.html")
                              [])
               else ret tt) ;;
              ret None
        end
    end.

End WithEnv.

End RoleBinding.

(* ===================================================================== *)
(** * pkg/devspace/cloud/login.go *)
(* ===================================================================== *)

Module Cloud.
Import Prog.
Local Open Scope prog_scope.

(** [Provider], and [ProviderConfig], a map from the name of a provider to
    a pointer to it; both are declared in another file of the package. *)
Record Provider := mkProvider {
  Name : string;
  Host : string;
  Token : string
}.

Definition ProviderConfig := list (string * Provider).

(** [providerConfig[name].Token = token] on an entry that is there. *)
Fixpoint setToken (name token : string) (c : ProviderConfig) : ProviderConfig :=
  match c with
  | [] => []
  | (k, p) :: rest =>
      if String.eqb name k
      then (k, mkProvider (Name p) (Host p) token) :: rest
      else (k, p) :: setToken name token rest
  end.

(** [api.Cluster] and [api.AuthInfo] are only passed on. *)
Definition Cluster := string.
Definition AuthInfo := string.

(** The answer to the request: an error (of [http.NewRequest], [client.Do]
    or [ioutil.ReadAll], which all make the function return it), or the
    status code and the body. *)
Definition HttpAnswer : Type := (Go.error + Z * string)%type.

(** What [json.Unmarshal] makes of the body: an error, or the raw messages
    under "cluster", "user" and "namespace", nil for a key that is not
    there. *)
Definition ObjMap : Type := (option string * option string * option string)%type.

Inductive Event :=
| HttpGet (url authorization : string) (answer : HttpAnswer)
| HandleFunc (pattern : string)
| ListenAndServe (addr : string)
| OpenStart (url : string)
| ReceiveToken (token : option string)
| ServerShutdown (err : option Go.error)
| ParseCloudConfig (res : Go.result ProviderConfig)
| SaveCloudConfig (c : ProviderConfig) (err : option Go.error)
| Log (l : Level) (format : string) (args : list string)
| Panic (what : string).

Definition is_HandleFunc (e : Event) : bool :=
  match e with
  | HandleFunc _ => true
  | _ => false
  end.

(** The three endpoints are constants of the package that are declared in
    another file.  The four [json_*] are [json.Unmarshal] at the four
    types; [receiveToken] is the first request that the server gets on
    "/token" and the value of its parameter "token", if it has one.  [Login]
    waits for that request as long as it takes; the runs modelled are those
    in which it comes. *)
Record Env := mkEnv {
  GetClusterConfigEndpoint : string;
  LoginEndpoint : string;
  LoginSuccessEndpoint : string;
  http_Get : list Event -> string -> string -> HttpAnswer;
  json_objmap : string -> Go.error + ObjMap;
  json_cluster : string -> Go.error + Cluster;
  json_authInfo : string -> Go.error + AuthInfo;
  json_string : string -> Go.error + string;
  receiveToken : list Event -> option string;
  server_Shutdown : list Event -> option Go.error;
  cloud_ParseCloudConfig : list Event -> Go.result ProviderConfig;
  cloud_SaveCloudConfig : list Event -> ProviderConfig -> option Go.error
}.

(** What the three functions return: the error, or the namespace, the
    cluster and the auth info. *)
Definition Answer : Type := (Go.error + string * Cluster * AuthInfo)%type.

Section WithEnv.
Variable env : Env.

Definition nil_dereference {A : Type} : Prog A :=
  emit (Panic "invalid memory address or nil pointer dereference") ;; halt Panicked.

(** [startServer]: [http.HandleFunc] registers the handler with the
    default mux of the process and panics when the pattern is registered
    already (net/http: "If a handler already exists for pattern, Handle
    panics"), that is, when startServer has run before in this process;
    the events so far are those of the process. *)
Definition startServer (redirectURI : string) : Prog unit :=
  fun h =>
    if existsb is_HandleFunc h
    then (emit (Panic "http: multiple registrations for /token") ;; halt Panicked) h
    else (emit (HandleFunc "/token") ;; emit (ListenAndServe ":25853")) h.

(** [Login], with what it ends on: [GetClusterConfig].  The handler that
    startServer registers ends the process when the request has no token
    or an empty one, and hands the token to [Login] otherwise. *)
Definition LoginWith (GetClusterConfig : Provider -> Prog Answer) (provider : Provider)
  : Prog Answer :=
  startServer (Host provider ++ LoginSuccessEndpoint env) ;;
  emit (OpenStart (Host provider ++ LoginEndpoint env)) ;;
  request <- call (receiveToken env) ReceiveToken ;;
  match request with
  | None => emit (Log FatalLevel "Bad request" []) ;; halt Exit
  | Some token =>
      (* if !ok || len(keys[0]) < 1 { log.Fatal("Bad request") } *)
      if Nat.ltb (String.length token) 1
      then emit (Log FatalLevel "Bad request" []) ;; halt Exit
      else
      err <- call (server_Shutdown env) ServerShutdown ;;
      match err with
      | Some e => ret (inl e)
      | None =>
          r <- call (cloud_ParseCloudConfig env) ParseCloudConfig ;;
          match r with
          | (_, Some e) => ret (inl e)
          | (None, None) => nil_dereference
          | (Some providerConfig, None) =>
              match lookup (Name provider) providerConfig with
              | None => nil_dereference
              | Some _ =>
                  let providerConfig := setToken (Name provider) token providerConfig in
                  err <- call (fun h => cloud_SaveCloudConfig env h providerConfig)
                              (SaveCloudConfig providerConfig) ;;
                  match err with
                  | Some e => ret (inl e)
                  | None =>
                      match lookup (Name provider) providerConfig with
                      | None => nil_dereference
                      | Some saved => GetClusterConfig saved
                      end
                  end
              end
          end
      end
  end.

(** [json.Unmarshal] of the raw message that [objmap[key]] points to. *)
Definition unmarshal {A : Type} (raw : option string) (parse : string -> Go.error + A)
           (k : A -> Prog Answer) : Prog Answer :=
  match raw with
  | None => nil_dereference
  | Some text =>
      match parse text with
      | inl e => ret (inl e)
      | inr a => k a
      end
  end.

(** [GetClusterConfig]; [fuel] bounds the number of requests. *)
Fixpoint GetClusterConfig (fuel : nat) (provider : Provider) : Prog Answer :=
  match fuel with
  | O => halt OutOfFuel
  | S fuel' =>
      answer <- call (fun h => http_Get env h (Host provider ++ GetClusterConfigEndpoint env)
                                        (Token provider))
                     (HttpGet (Host provider ++ GetClusterConfigEndpoint env)
                              (Token provider)) ;;
      match answer with
      | inl e => ret (inl e)
      | inr (StatusCode, body) =>
          if (StatusCode =? 401)%Z
          then LoginWith (GetClusterConfig fuel') provider
          else if negb (StatusCode =? 200)%Z
          then ret (inl ("Couldn't retrieve cluster config: " ++ body))
          else
            match json_objmap env body with
            | inl e => ret (inl e)
            | inr (rawCluster, rawUser, rawNamespace) =>
                unmarshal rawCluster (json_cluster env) (fun cluster =>
                unmarshal rawUser (json_authInfo env) (fun authInfo =>
                unmarshal rawNamespace (json_string env) (fun namespace =>
                ret (inr (namespace, cluster, authInfo)))))
            end
      end
  end.

Definition Login (fuel : nat) (provider : Provider) : Prog Answer :=
  LoginWith (GetClusterConfig fuel) provider.

Definition CheckAuth (fuel : nat) (provider : Provider) : Prog Answer :=
  if String.eqb (Token provider) ""
  then Login fuel provider
  else GetClusterConfig fuel provider.

End WithEnv.

(** ** UpdateKubeConfig *)

(** A Go map with string keys, or nil. *)
Definition GoMap (V : Type) : Type := option (string -> option V).

Definition assign {V : Type} (m : string -> option V) (k : string) (v : V)
  : string -> option V :=
  fun k' => if String.eqb k' k then Some v else m k'.

(** [api.Context], as far as the code sets it. *)
Record Context := mkContext {
  ctxCluster : string;
  ctxAuthInfo : string;
  ctxNamespace : string
}.

Record KubeConfig := mkKubeConfig {
  CurrentContext : string;
  Clusters : GoMap Cluster;
  AuthInfos : GoMap AuthInfo;
  Contexts : GoMap Context
}.

Inductive KubeEvent :=
| ReadKubeConfig (res : Go.result KubeConfig)
| WriteKubeConfig (c : KubeConfig) (err : option Go.error)
| KubePanic (what : string).

Record KubeEnv := mkKubeEnv {
  kubeconfig_ReadKubeConfig : list KubeEvent -> Go.result KubeConfig;
  kubeconfig_WriteKubeConfig : list KubeEvent -> KubeConfig -> option Go.error
}.

Section WithKubeEnv.
Variable env : KubeEnv.

Definition UpdateKubeConfig (contextName namespace : string) (cluster : Cluster)
           (authInfo : AuthInfo) (switchContext : bool) : Prog (option Go.error) :=
  r <- call (kubeconfig_ReadKubeConfig env) ReadKubeConfig ;;
  match r with
  | (_, Some e) => ret (Some e)
  | (None, None) =>
      emit (KubePanic "invalid memory address or nil pointer dereference") ;;
      halt Panicked
  | (Some config, None) =>
      let current :=
        if switchContext && negb (String.eqb (CurrentContext config) contextName)
        then contextName
        else CurrentContext config in
      match Clusters config, AuthInfos config, Contexts config with
      | Some clusters, Some authInfos, Some contexts =>
          let config :=
            mkKubeConfig current
                         (Some (assign clusters contextName cluster))
                         (Some (assign authInfos contextName authInfo))
                         (Some (assign contexts contextName
                                       (mkContext contextName contextName namespace))) in
          call (fun h => kubeconfig_WriteKubeConfig env h config) (WriteKubeConfig config)
      | _, _, _ =>
          emit (KubePanic "assignment to entry in nil map") ;;
          halt Panicked
      end
  end.

End WithKubeEnv.

End Cloud.

(* ===================================================================== *)
(** * Properties *)
(* ===================================================================== *)

Open Scope list_scope.

(** ** The Go helpers on examples *)

Example Itoa_8080 : Go.Itoa 8080 = "8080".
Proof. reflexivity. Qed.

Example Itoa_neg : Go.Itoa (-3) = "-3".
Proof. reflexivity. Qed.

Example Split_ports : Go.Split "8080, 3000" "," = ["8080"; " 3000"].
Proof. reflexivity. Qed.

Example Split_empty : Go.Split "" "," = [""].
Proof. reflexivity. Qed.

Example TrimSpace_port : Go.TrimSpace " 3000 " = "3000".
Proof. reflexivity. Qed.

(** The no-break space U+00A0 is the bytes C2 A0 in UTF-8, the em space
    U+2003 the bytes E2 80 83. *)
Definition noBreakSpace : string := String "194" (String "160" "").
Definition emSpace : string := String "226" (String "128" (String "131" "")).

Example TrimSpace_unicode : Go.TrimSpace (noBreakSpace ++ "8080" ++ emSpace) = "8080".
Proof. reflexivity. Qed.

(** A byte that is no encoding on its own is not white space. *)
Example TrimSpace_stray_byte :
  Go.TrimSpace (String "160" "8080 ") = String "160" "8080".
Proof. reflexivity. Qed.

Example Join_labels : Go.Join ["a=b"; "c=d"] ", " = "a=b, c=d".
Proof. reflexivity. Qed.

(** ** Tactics for runs *)

(** Unfold the plumbing of a run down to the matches on what the oracles
    answered. *)
Ltac run_unfold :=
  cbv beta iota delta
    [bind ret emit ask call halt logf Fatalf Panicf runtime_panic] in *.

(** Split on the answer an oracle gave, wherever the goal is stuck on one. *)
Ltac split_answer :=
  match goal with
  | |- context [match ?x with _ => _ end] =>
      lazymatch x with
      | context [match _ with _ => _ end] => fail
      | _ => idtac
      end;
      let T := type of x in
      let T' := eval hnf in T in
      match T' with
      | option _ => destruct x eqn:?
      | bool => destruct x eqn:?
      | prod _ _ => destruct x eqn:?
      | sum _ _ => destruct x eqn:?
      | list _ => destruct x eqn:?
      | Outcome _ => destruct x eqn:?
      | Yaml => destruct x eqn:?
      end;
      cbv beta iota
  end.

Lemma In_snoc {A : Type} (x y : A) (l : list A) :
  In x (l ++ [y]) <-> In x l \/ x = y.
Proof.
  rewrite in_app_iff. simpl. intuition congruence.
Qed.

(** The events of kind [ConfigSave]. *)
Definition is_ConfigSave (e : Event) : bool :=
  match e with
  | ConfigSave _ _ => true
  | _ => false
  end.

Definition is_GeneratedSave (e : Event) : bool :=
  match e with
  | GeneratedSave _ _ => true
  | _ => false
  end.

(* --------------------------------------------------------------------- *)
(** ** cmd/remove.go *)
(* --------------------------------------------------------------------- *)

Section RemoveFacts.
Variable env : Remove.Env.

(** A port mapping stays when neither of its ports is among the
    requested ones. *)
Definition mappingStays (ports : list string) (pm : PortMapping) : bool :=
  negb (Remove.containsPort (Go.Itoa (LocalPort pm)) ports
        || Remove.containsPort (Go.Itoa (RemotePort pm)) ports).

Definition keptMappings (ports : list string) (v : PortForwardingConfig)
  : list PortMapping :=
  filter (mappingStays ports) (pfPortMappings v).

(** An entry is taken out as a whole by [--all] or by its selector. *)
Definition entrySelected (flags : Remove.removePortCmdFlags) (m : LabelSelector)
           (v : PortForwardingConfig) : bool :=
  Remove.portRemoveAll flags || Remove.isMapEqual env m (pfLabelSelector v).

Definition withMappings (v : PortForwardingConfig) (pms : list PortMapping)
  : PortForwardingConfig :=
  mkPortForwarding (pfNamespace v) (pfResourceType v) (pfLabelSelector v) pms.

Lemma removeMappingsLoop_filter ports l : forall acc,
  Remove.removeMappingsLoop ports l acc = (acc ++ filter (mappingStays ports) l)%list.
Proof.
  induction l as [|pm rest IH]; intros acc; simpl.
  - now rewrite app_nil_r.
  - unfold mappingStays at 1.
    destruct (Remove.containsPort (Go.Itoa (LocalPort pm)) ports
              || Remove.containsPort (Go.Itoa (RemotePort pm)) ports); simpl.
    + apply IH.
    + rewrite IH, <- app_assoc. reflexivity.
Qed.

Lemma removePortsLoop_In flags m ports l : forall acc v',
  In v' (Remove.removePortsLoop env flags m ports l acc) <->
  In v' acc \/
  exists v, In v l /\ entrySelected flags m v = false /\
            keptMappings ports v <> [] /\
            v' = withMappings v (keptMappings ports v).
Proof.
  induction l as [|v rest IH]; intros acc v'; simpl.
  - split; [auto | intros [H | (v & [] & _)]; exact H].
  - fold (entrySelected flags m v).
    rewrite removeMappingsLoop_filter. simpl.
    fold (keptMappings ports v).
    destruct (entrySelected flags m v) eqn:Hsel.
    + rewrite IH. split.
      * intros [H | (x & Hx & Hrest)]; [auto | right; exists x; auto].
      * intros [H | (x & [Hx | Hx] & Hs & Hrest)]; [auto | subst; congruence | ].
        right; exists x; auto.
    + destruct (keptMappings ports v) as [|pm pms] eqn:Hkept; simpl.
      * rewrite IH. split.
        -- intros [H | (x & Hx & Hrest)]; [auto | right; exists x; auto].
        -- intros [H | (x & [Hx | Hx] & Hs & Hne & Hrest)]; [auto | subst; congruence | ].
           right; exists x; auto.
      * rewrite IH, In_snoc. split.
        -- intros [[H | H] | (x & Hx & Hrest)]; [auto | | right; exists x; auto].
           right. exists v. rewrite Hkept. repeat split; auto. discriminate.
        -- intros [H | (x & [Hx | Hx] & Hs & Hne & Hrest)]; [auto | | right; exists x; auto].
           subst x. rewrite Hkept in Hrest. left; right. exact Hrest.
Qed.

End RemoveFacts.

(** The ports entries of a configuration ([nil] has none). *)
Definition portEntries (config : DevSpaceConfig) : list PortForwardingConfig :=
  match Ports config with
  | Some l => l
  | None => []
  end.

(** C8.  remove-sync and remove-port check their flags before they touch the
    configuration: called with no selector (the selector flag parses to the
    empty map), with no path (remove-sync: neither --local nor --container)
    or port argument (remove-port), and without --all, the command logs the
    error, prints the help and returns; the configuration in memory is what
    it was, the only events are the error message and the help, so
    [SaveConfig] is not reached and the configuration file is not written. *)
Theorem remove_validates_flags_before_saving :
  forall (env : Remove.Env)
         (sflags : Remove.removeSyncCmdFlags) (pflags : Remove.removePortCmdFlags)
         (args : list string) (config : DevSpaceConfig) (w : World),
    Remove.parseSelectors env (Remove.syncSelector sflags) = ([], None) ->
    Remove.parseSelectors env (Remove.portSelector pflags) = ([], None) ->
    Remove.LocalPath sflags = "" ->
    Remove.ContainerPath sflags = "" ->
    Remove.syncRemoveAll sflags = false ->
    Remove.argPortsOf args = "" ->
    Remove.portRemoveAll pflags = false ->
    let complaint :=
      [Log Error "You have to specify at least one of the supported flags" []; CobraHelp] in
    let w' := mkWorld (trace w ++ complaint) (generated_yaml w) (helmClient w) (getOnce w) in
    Remove.RunRemoveSync env sflags [] config w = (Ret config, w') /\
    Remove.RunRemovePort env pflags args config w = (Ret config, w') /\
    forall e, In e complaint -> is_ConfigSave e = false.
Proof.
  intros env sflags pflags args config w Hs Hp Hl Hc Ha Harg Hpa complaint w'.
  subst complaint w'. repeat split.
  - unfold Remove.RunRemoveSync.
    rewrite Hs, Hl, Hc, Ha. simpl. run_unfold.
    unfold record. simpl. now rewrite <- app_assoc.
  - unfold Remove.RunRemovePort.
    rewrite Hp, Harg, Hpa. simpl. run_unfold.
    unfold record. simpl. now rewrite <- app_assoc.
  - simpl. intros e [<- | [<- | []]]; reflexivity.
Qed.

Lemma remove_validates_flags_before_saving_witness :
  let w := mkWorld [] (mkGenerated "" []) None false in
  let config :=
    mkDevSpace (Some [mkPortForwarding None None [("release", "test")]
                                       [mkPortMapping 8080 80]])
               (Some [mkSyncConfig None [("release", "test")] None "app" "/app"
                                   None None None]) in
  let w' := mkWorld [Log Error "You have to specify at least one of the supported flags" [];
                     CobraHelp] (mkGenerated "" []) None false in
  Remove.RunRemoveSync Remove.exampleEnv (Remove.mkSyncFlags "" "" "" false) [] config w
  = (Ret config, w')
  /\
  Remove.RunRemovePort Remove.exampleEnv (Remove.mkPortFlags "" false) [] config w
  = (Ret config, w').
Proof.
  intros w config w'.
  destruct (remove_validates_flags_before_saving
              Remove.exampleEnv (Remove.mkSyncFlags "" "" "" false)
              (Remove.mkPortFlags "" false) [] config w
              eq_refl eq_refl eq_refl eq_refl eq_refl eq_refl eq_refl) as (Hs & Hp & _).
  split; [exact Hs | exact Hp].
Defined.

(** C10 (as amended).  After RunRemovePort has passed the check of its
    flags and has returned, every ports entry the configuration retains has
    at least one port mapping.  The retained entries are exactly the entries
    that were not taken out by --all or by the selector and that keep a
    mapping once the requested ports are removed, each with the mappings it
    keeps: an entry that loses all its mappings, or that had none, is not in
    the configuration any more.  An invocation that the check of the flags
    refuses gives the configuration back as it was, whatever its entries
    hold. *)
Theorem RunRemovePort_retained_entries_nonempty :
  forall (env : Remove.Env) (flags : Remove.removePortCmdFlags) (args : list string)
         (config config' : DevSpaceConfig) (w w' : World) (m : LabelSelector),
    Remove.parseSelectors env (Remove.portSelector flags) = (m, None) ->
    Remove.RunRemovePort env flags args config w = (Ret config', w') ->
    (m = [] /\ Remove.portRemoveAll flags = false /\ Remove.argPortsOf args = "" ->
     config' = config) /\
    (m <> [] \/ Remove.portRemoveAll flags = true \/ Remove.argPortsOf args <> "" ->
     let ports := Go.Split (Remove.argPortsOf args) "," in
     forall v',
       In v' (portEntries config') <->
       exists v, In v (portEntries config) /\
                 entrySelected env flags m v = false /\
                 keptMappings ports v <> [] /\
                 v' = withMappings v (keptMappings ports v) /\
                 pfPortMappings v' <> []).
Proof.
  intros env flags args config config' w w' m Hparse Hrun.
  unfold Remove.RunRemovePort in Hrun. rewrite Hparse in Hrun. split.
  { intros (-> & Hall & Harg). rewrite Hall, Harg in Hrun. cbn in Hrun.
    revert Hrun. run_unfold. intros Hrun. now injection Hrun as <- _. }
  intros Hgiven ports v'.
  assert (Hgate : Nat.eqb (List.length m) 0 && negb (Remove.portRemoveAll flags)
                  && String.eqb (Remove.argPortsOf args) "" = false).
  { destruct Hgiven as [Hm | [Hall | Harg]].
    - destruct m; [congruence | reflexivity].
    - rewrite Hall. simpl. now rewrite andb_false_r.
    - apply String.eqb_neq in Harg. rewrite Harg. now rewrite andb_false_r. }
  rewrite Hgate in Hrun.
  assert (Hloop : forall l,
             In v' (Remove.removePortsLoop env flags m ports l []) <->
             exists v, In v l /\ entrySelected env flags m v = false /\
                       keptMappings ports v <> [] /\
                       v' = withMappings v (keptMappings ports v) /\
                       pfPortMappings v' <> []).
  { intros l. rewrite removePortsLoop_In. split.
    - intros [[] | (v & Hin & Hsel & Hne & ->)]. exists v. repeat split; auto.
    - intros (v & Hin & Hsel & Hne & Hv & _). right. exists v. auto. }
  unfold portEntries at 2.
  destruct (Ports config) as [l|] eqn:HP.
  - destruct (Nat.ltb 0 (List.length l)) eqn:Hlen.
    + revert Hrun. unfold Remove.SaveConfig. run_unfold.
      destruct (Remove.configutil_SaveConfig env _ _); intros Hrun;
        inversion Hrun; subst.
      unfold portEntries. simpl. apply Hloop.
    + destruct l; [| discriminate]. run_unfold. inversion Hrun; subst.
      unfold portEntries. rewrite HP. split; [intros [] | intros (v & [] & _)].
  - run_unfold. inversion Hrun; subst. unfold portEntries. rewrite HP.
    split; [intros [] | intros (v & [] & _)].
Qed.

(** The ports are given with white space around them, also white space
    that is not ASCII: " 8080" and, after a no-break space, "5432". *)
Lemma RunRemovePort_retained_entries_nonempty_witness :
  let w := mkWorld [] (mkGenerated "" []) None false in
  let web := mkPortForwarding None None [("app", "web")]
                              [mkPortMapping 8080 80; mkPortMapping 3000 3000] in
  let db := mkPortForwarding None None [("app", "db")] [mkPortMapping 5432 5432] in
  let idle := mkPortForwarding None None [("app", "idle")] [] in
  let config := mkDevSpace (Some [web; db; idle]) None in
  let config' := mkDevSpace (Some [withMappings web [mkPortMapping 3000 3000]]) None in
  let flags := Remove.mkPortFlags "" false in
  let arg := (" 8080," ++ noBreakSpace ++ "5432")%string in
  let ports := Go.Split arg "," in
  Remove.RunRemovePort Remove.exampleEnv flags [arg] config w
  = (Ret config', mkWorld [ConfigSave config' None] (mkGenerated "" []) None false)
  /\ (forall v',
      In v' (portEntries config') <->
      exists v, In v (portEntries config) /\
                entrySelected Remove.exampleEnv flags [] v = false /\
                keptMappings ports v <> [] /\
                v' = withMappings v (keptMappings ports v) /\
                pfPortMappings v' <> [])
  /\ fst (Remove.RunRemovePort Remove.exampleEnv flags [] config w) = Ret config.
Proof.
  intros w web db idle config config' flags arg ports.
  assert (Hrun : Remove.RunRemovePort Remove.exampleEnv flags [arg] config w
                 = (Ret config', mkWorld [ConfigSave config' None] (mkGenerated "" []) None false))
    by reflexivity.
  assert (Hgiven : @nil (string * string) <> [] \/ Remove.portRemoveAll flags = true
                   \/ Remove.argPortsOf [arg] <> "").
  { right; right. simpl. discriminate. }
  split; [exact Hrun |]. split.
  - exact (proj2 (RunRemovePort_retained_entries_nonempty
                    Remove.exampleEnv flags [arg] config config' w _ []
                    eq_refl Hrun) Hgiven).
  - destruct (Remove.RunRemovePort Remove.exampleEnv flags [] config w)
      as [[c | h] w1] eqn:Hrefused; [| discriminate Hrefused].
    cbn [fst]. f_equal.
    apply (proj1 (RunRemovePort_retained_entries_nonempty
                    Remove.exampleEnv flags [] config c w w1 [] eq_refl Hrefused)).
    repeat split.
Defined.

(** C10 (as stated, refuted).  remove-port is called without a selector,
    without --all and without ports, on a configuration that has an entry
    without port mappings: the command returns, and the entry is still
    there, with no mapping. *)
Lemma RunRemovePort_refused_keeps_entry_without_mappings :
  let w := mkWorld [] (mkGenerated "" []) None false in
  let idle := mkPortForwarding None None [("app", "idle")] [] in
  let config := mkDevSpace (Some [idle]) None in
  let run := Remove.RunRemovePort Remove.exampleEnv (Remove.mkPortFlags "" false) []
                                  config w in
  exists config',
    fst run = Ret config' /\
    exists v, In v (portEntries config') /\ pfPortMappings v = [].
Proof.
  cbn. eexists. split; [reflexivity |]. eexists. split; [left; reflexivity | reflexivity].
Qed.

(* --------------------------------------------------------------------- *)
(** ** Runs that only talk: they add events and leave the rest alone *)
(* --------------------------------------------------------------------- *)

Definition extend (w : World) (evs : Trace) : World :=
  mkWorld (trace w ++ evs) (generated_yaml w) (helmClient w) (getOnce w).

Lemma extend_nil w : extend w [] = w.
Proof. destruct w; unfold extend; simpl. now rewrite app_nil_r. Qed.

Lemma extend_extend w a b : extend (extend w a) b = extend w (a ++ b).
Proof. unfold extend; simpl. now rewrite app_assoc. Qed.

Lemma record_extend e w : record e w = extend w [e].
Proof. reflexivity. Qed.

Definition io_only {A : Type} (m : Exec A) : Prop :=
  forall w, exists evs, snd (m w) = extend w evs.

Lemma io_ret {A : Type} (a : A) : io_only (ret a).
Proof. intros w. exists []. simpl. now rewrite extend_nil. Qed.

Lemma io_halt {A : Type} (h : Halt) : io_only (@halt A h).
Proof. intros w. exists []. simpl. now rewrite extend_nil. Qed.

Lemma io_emit e : io_only (emit e).
Proof. intros w. exists [e]. reflexivity. Qed.

Lemma io_ask {A : Type} (f : Trace -> A) : io_only (ask f).
Proof. intros w. exists []. simpl. now rewrite extend_nil. Qed.

Lemma io_bind {A B : Type} (m : Exec A) (k : A -> Exec B) :
  io_only m -> (forall a, io_only (k a)) -> io_only (bind m k).
Proof.
  intros Hm Hk w. unfold bind.
  destruct (Hm w) as [evs Hw]. destruct (m w) as [[a | h] w1]; simpl in Hw; subst w1.
  - destruct (Hk a (extend w evs)) as [evs' Hw']. exists (evs ++ evs').
    now rewrite Hw', extend_extend.
  - exists evs. reflexivity.
Qed.

Lemma io_call {A : Type} (f : Trace -> A) (ev : A -> Event) : io_only (call f ev).
Proof.
  unfold call. apply io_bind; [apply io_ask | intros a].
  apply io_bind; [apply io_emit | intros _; apply io_ret].
Qed.

Lemma io_logf l f args : io_only (logf l f args).
Proof. apply io_emit. Qed.

Lemma io_Fatalf {A : Type} f args : io_only (@Fatalf A f args).
Proof. unfold Fatalf. apply io_bind; [apply io_emit | intros _; apply io_halt]. Qed.

Lemma io_Panicf {A : Type} f args : io_only (@Panicf A f args).
Proof. unfold Panicf. apply io_bind; [apply io_emit | intros _; apply io_halt]. Qed.

Lemma io_runtime_panic {A : Type} what : io_only (@runtime_panic A what).
Proof. unfold runtime_panic. apply io_bind; [apply io_emit | intros _; apply io_halt]. Qed.

Create HintDb io discriminated.
#[export] Hint Resolve io_ret io_halt io_emit io_ask io_call io_logf
  io_Fatalf io_Panicf io_runtime_panic : io.

(** Walk through a run built from the pieces above. *)
Ltac io_step :=
  match goal with
  | |- io_only (bind _ _) => apply io_bind; [ | intros ? ]
  | |- io_only (match ?x with _ => _ end) => destruct x
  | |- io_only (if ?x then _ else _) => destruct x
  | |- io_only (let _ := _ in _) => cbv zeta
  | |- io_only _ => solve [auto with io]
  end.

Ltac io := repeat io_step.

(** What a run leaves when its outcome and final state are known. *)
Lemma bind_run {A B : Type} (m : Exec A) (k : A -> Exec B) w r w2 :
  bind m k w = (r, w2) ->
  (exists a w1, m w = (Ret a, w1) /\ k a w1 = (r, w2)) \/
  (exists h, m w = (Halted h, w2) /\ r = Halted h).
Proof.
  unfold bind. destruct (m w) as [[a | h] w1]; intros H.
  - left. exists a, w1. auto.
  - right. inversion H; subst. exists h. auto.
Qed.

(* --------------------------------------------------------------------- *)
(** ** pkg/devspace/helm *)
(* --------------------------------------------------------------------- *)

(** A poll of the deployment that failed. *)
Definition is_failed_Get (e : Event) : bool :=
  match e with
  | DeploymentGet _ _ (_, Some _) => true
  | _ => false
  end.

(** The time a run has slept. *)
Fixpoint slept (evs : Trace) : Z :=
  match evs with
  | [] => 0
  | Sleep d :: rest => d + slept rest
  | _ :: rest => slept rest
  end.

Lemma slept_app a b : slept (a ++ b) = (slept a + slept b)%Z.
Proof.
  induction a as [|e a IH]; simpl; [reflexivity |].
  destruct e; rewrite IH; lia.
Qed.

Section HelmFacts.
Variable env : Helm.Env.

Lemma io_derefTillerNamespace config : io_only (Helm.derefTillerNamespace config).
Proof. unfold Helm.derefTillerNamespace. io. Qed.
Hint Resolve io_derefTillerNamespace : io.

Lemma io_waitLoop fuel config : forall t, io_only (Helm.waitLoop env fuel config t).
Proof.
  induction fuel as [|fuel IH]; intros t; simpl; io.
Qed.
Hint Resolve io_waitLoop : io.

Lemma io_createTiller config o : io_only (Helm.createTiller env config o).
Proof. unfold Helm.createTiller. io. Qed.
Hint Resolve io_createTiller : io.

Lemma io_ensureTiller fuel config up : io_only (Helm.ensureTiller env fuel config up).
Proof.
  unfold Helm.ensureTiller, Helm.upgradeTiller, Helm.waitUntilTillerIsStarted. io.
Qed.
Hint Resolve io_ensureTiller : io.

Lemma io_tunnelLoop fuel ns : forall t, io_only (Helm.tunnelLoop env fuel ns t).
Proof.
  induction fuel as [|fuel IH]; intros t; simpl; io.
Qed.
Hint Resolve io_tunnelLoop : io.

Lemma io_helmLoop fuel host : forall t e, io_only (Helm.helmLoop env fuel host t e).
Proof.
  induction fuel as [|fuel IH]; intros t e; simpl; io.
Qed.
Hint Resolve io_helmLoop : io.

Lemma io_newRepos repos : io_only (Helm.newRepos env repos).
Proof. induction repos as [|r rest IH]; simpl; io. Qed.

Lemma io_downloadAll steps : forall running, io_only (Helm.downloadAll env steps running).
Proof.
  induction steps as [|steps IH]; intros [|g others]; cbn [Helm.downloadAll]; io.
Qed.
Hint Resolve io_newRepos io_downloadAll : io.

Lemma io_updateRepos f : io_only (Helm.updateRepos env f).
Proof. unfold Helm.updateRepos. io. Qed.
Hint Resolve io_updateRepos : io.

(** The function of [getOnce.Do] either only talks, or it ends by storing
    a client and leaving no error. *)
Definition io_or_stores (m : Exec (option Go.error)) : Prop :=
  forall w, exists evs,
    snd (m w) = extend w evs \/
    exists c, m w = (Ret None, set_helmClient (Some c) (extend w evs)).

Lemma ios_io m : io_only m -> io_or_stores m.
Proof. intros H w. destruct (H w) as [evs E]. exists evs. now left. Qed.

Lemma ios_bind {A : Type} (m : Exec A) k :
  io_only m -> (forall a, io_or_stores (k a)) -> io_or_stores (bind m k).
Proof.
  intros Hm Hk w. unfold bind.
  destruct (Hm w) as [evs Hw]. destruct (m w) as [[a | h] w1]; simpl in Hw; subst w1.
  - destruct (Hk a (extend w evs)) as [evs' [Hw' | [c Hw']]]; exists (evs ++ evs').
    + left. now rewrite Hw', extend_extend.
    + right. exists c. now rewrite Hw', extend_extend.
  - exists evs. now left.
Qed.

Lemma ios_store c : io_or_stores (fun w => (Ret None, set_helmClient (Some c) w)).
Proof. intros w. exists []. right. exists c. now rewrite extend_nil. Qed.

Ltac ios_step :=
  match goal with
  | |- io_or_stores (fun w => (Ret None, set_helmClient _ w)) => apply ios_store
  | |- io_or_stores (bind _ _) => apply ios_bind; [ solve [io] | intros ? ]
  | |- io_or_stores (match ?x with _ => _ end) => destruct x
  | |- io_or_stores (let _ := _ in _) => cbv zeta
  | |- io_or_stores _ => apply ios_io; solve [io]
  end.

Lemma bootstrap_io_or_stores fuel config up :
  io_or_stores (Helm.bootstrap env fuel config up).
Proof.
  unfold Helm.bootstrap. repeat ios_step.
Qed.

End HelmFacts.

(** *** [NewClient] and its [sync.Once] *)

(** Once the function of [getOnce.Do] has run, a call does nothing: no
    event is added, the state is what it was, and the caller gets the
    stored client and a nil error. *)
Lemma NewClient_later_call env fuel config up w :
  getOnce w = true ->
  Helm.NewClient env fuel config up w = (Ret (helmClient w, None), w).
Proof. intros H. unfold Helm.NewClient. now rewrite H. Qed.

(** A call that returns has left [getOnce] done. *)
Lemma NewClient_marks_done env fuel config up w r w1 :
  Helm.NewClient env fuel config up w = (Ret r, w1) -> getOnce w1 = true.
Proof.
  unfold Helm.NewClient. destruct (getOnce w) eqn:Hd.
  - intros H; inversion H; subst; exact Hd.
  - destruct (Helm.bootstrap env fuel config up w) as [[e | h] w'];
      intros H; inversion H; subst; reflexivity.
Qed.

(** The body runs at most once: whatever the first call did, every later
    call adds no event, and gives the client that is stored. *)
Lemma NewClient_runs_body_at_most_once env fuel config up w r w1 :
  Helm.NewClient env fuel config up w = (Ret r, w1) ->
  forall fuel' config' up',
    Helm.NewClient env fuel' config' up' w1 = (Ret (helmClient w1, None), w1).
Proof.
  intros H fuel' config' up'. apply NewClient_later_call.
  eapply NewClient_marks_done; eauto.
Qed.

(** On success all callers get the same client. *)
Lemma NewClient_success_is_shared env fuel config up w c w1 :
  getOnce w = false ->
  Helm.NewClient env fuel config up w = (Ret (Some c, None), w1) ->
  forall fuel' config' up',
    Helm.NewClient env fuel' config' up' w1 = (Ret (Some c, None), w1).
Proof.
  intros Hd H fuel' config' up'.
  rewrite (NewClient_runs_body_at_most_once _ _ _ _ _ _ _ H).
  unfold Helm.NewClient in H. rewrite Hd in H.
  destruct (Helm.bootstrap env fuel config up w) as [[e | h] w'];
    inversion H; subst. simpl. now rewrite H1.
Qed.

(** C3 (the code departs from the claim).  In a fresh process (no client
    stored, [getOnce] not done) let the first call of NewClient fail with
    an error.  The body is not run again, but the error is not kept
    either: it lived in a variable of the first call.  Every later call
    adds no event and returns no client and a nil error, so the later
    callers do not observe the outcome of the one attempt. *)
Theorem NewClient_later_callers_miss_the_error :
  forall (env : Helm.Env) (fuel : nat) (config : HelmConfig) (up : bool)
         (w w1 : World) (c : option ClientWrapper) (e : Go.error),
    helmClient w = None ->
    getOnce w = false ->
    Helm.NewClient env fuel config up w = (Ret (c, Some e), w1) ->
    c = None /\
    forall fuel' config' up',
      Helm.NewClient env fuel' config' up' w1 = (Ret (None, None), w1).
Proof.
  intros env fuel config up w w1 c e Hc Hd H.
  assert (Hstored : helmClient w1 = None /\ c = None).
  { unfold Helm.NewClient in H. rewrite Hd in H.
    destruct (bootstrap_io_or_stores env fuel config up w) as [evs Hb].
    destruct (Helm.bootstrap env fuel config up w) as [[e' | h] w'] eqn:Eb;
      [| discriminate].
    inversion H; subst. simpl in *.
    destruct Hb as [-> | [c' Hb]]; [simpl; auto | discriminate]. }
  destruct Hstored as [Hs ->]. split; [reflexivity |].
  intros fuel' config' up'.
  rewrite (NewClient_runs_body_at_most_once _ _ _ _ _ _ _ H). now rewrite Hs.
Qed.

(** No tiller namespace in the configuration: the first call fails, the
    second one returns nil and nil. *)
Definition offlineHelmEnv : Helm.Env :=
  Helm.mkEnv "devspace-tiller"
             (fun _ _ => Some "connection refused")
             (fun _ _ => Some "connection refused")
             (fun _ _ _ => (None, Some "connection refused"))
             (fun _ _ _ => Some "connection refused")
             (fun _ => Some "connection refused")
             (fun _ _ => Some "connection refused")
             (fun _ _ => Some "connection refused")
             (fun _ => None)
             (fun _ _ => (None, Some "connection refused"))
             (fun _ _ => Some "connection refused")
             (fun _ => ("/root", None))
             (fun _ _ => None)
             (fun _ _ => None)
             (fun _ _ => (Some [], None))
             (fun _ _ => None)
             (fun _ _ => None)
             (fun _ => 0%nat).

Definition freshWorld : World := mkWorld [] (mkGenerated "" []) None false.

Lemma NewClient_later_callers_miss_the_error_witness :
  let config := mkHelmConfig None in
  let w1 := mkWorld [] (mkGenerated "" []) None true in
  Helm.NewClient offlineHelmEnv 0 config false freshWorld
  = (Ret (None, Some "No tiller namespace specified"), w1)
  /\ Helm.NewClient offlineHelmEnv 0 config false w1 = (Ret (None, None), w1).
Proof.
  intros config w1.
  assert (H : Helm.NewClient offlineHelmEnv 0 config false freshWorld
              = (Ret (None, Some "No tiller namespace specified"), w1)) by reflexivity.
  split; [exact H |].
  exact (proj2 (NewClient_later_callers_miss_the_error
                  offlineHelmEnv 0 config false freshWorld w1 None
                  "No tiller namespace specified" eq_refl eq_refl H) 0 config false).
Defined.

(** A cluster on which everything works at once: the namespace and the
    tiller deployment exist, the deployment is ready, the tunnel opens on
    port 44134 and tiller answers. *)
Definition readyHelmEnv : Helm.Env :=
  Helm.mkEnv "devspace-tiller"
             (fun _ _ => None)
             (fun _ _ => None)
             (fun _ _ _ => (Some (mkStatus 1 1), None))
             (fun _ _ _ => None)
             (fun _ => None)
             (fun _ _ => None)
             (fun _ _ => None)
             (fun _ => None)
             (fun _ _ => (Some 44134%Z, None))
             (fun _ _ => None)
             (fun _ => ("/root", None))
             (fun _ _ => None)
             (fun _ _ => None)
             (fun _ _ => (Some [], None))
             (fun _ _ => None)
             (fun _ _ => None)
             (fun _ => 0%nat).

Example NewClient_on_a_ready_cluster :
  let config := mkHelmConfig (Some (mkTillerConfig (Some "kube-system"))) in
  let client := mkClient "127.0.0.1:44134" "/root/.devspace/helm" "kube-system" in
  let first := Helm.NewClient readyHelmEnv 1 config false freshWorld in
  fst first = Ret (Some client, None) /\
  trace (snd first)
  = [GetClientConfig None;
     NamespaceGet "kube-system" None;
     DeploymentGet "kube-system" "tiller-deploy" (Some (mkStatus 1 1), None);
     DeploymentGet "kube-system" "tiller-deploy" (Some (mkStatus 1 1), None);
     TunnelNew "kube-system" (Some 44134%Z, None);
     ListReleases "127.0.0.1:44134" None;
     HomeDir "/root" None;
     MkdirAll "/root/.devspace/helm/cache";
     MkdirAll "/root/.devspace/helm/repository";
     MkdirAll "/root/.devspace/helm/repository/cache";
     Stat "/root/.devspace/helm/repository/repositories.yaml" None;
     Stat "/root/.devspace/helm/repository/cache/stable-index.yaml" None] /\
  Helm.NewClient readyHelmEnv 1 config true (snd first)
  = (Ret (Some client, None), snd first).
Proof. repeat split. Qed.

(** *** [waitUntilTillerIsStarted] *)

(** As long as the status can be read, the wait is bounded: 24 entries of
    the loop are enough, the run returns, it has slept 120 s at most, and
    it returns the error only after the full 120 s. *)
Lemma waitLoop_bounded_when_status_is_read env config ns :
  Tiller config = Some (mkTillerConfig (Some ns)) ->
  (forall h, exists st,
      Helm.deployments_Get env h ns Helm.TillerDeploymentName = (Some st, None)) ->
  forall (k fuel : nat) (w : World),
    (k <= fuel)%nat ->
    exists r evs,
      Helm.waitLoop env fuel config (Z.of_nat k * Helm.tillerCheckInterval)%Z w
      = (Ret r, extend w evs) /\
      (slept evs <= Z.of_nat k * Helm.tillerCheckInterval)%Z /\
      (r = None \/
       r = Some "Tiller didn't start in time" /\
       slept evs = (Z.of_nat k * Helm.tillerCheckInterval)%Z).
Proof.
  intros Hns Hget.
  induction k as [|k IH]; intros fuel w Hk.
  - exists (Some "Tiller didn't start in time"), [].
    rewrite extend_nil.
    destruct fuel; simpl; (split; [reflexivity | split; [lia | right; split; reflexivity]]).
  - destruct fuel as [|fuel]; [lia |].
    assert (Hpos : (Z.of_nat (S k) * Helm.tillerCheckInterval >? 0)%Z = true).
    { unfold Helm.tillerCheckInterval, Go.Second. apply Z.gtb_lt. lia. }
    cbn [Helm.waitLoop]. rewrite Hpos.
    unfold Helm.derefTillerNamespace. rewrite Hns. cbn [tillerNamespace].
    run_unfold. destruct (Hget (trace w)) as [st Hst]. rewrite Hst.
    destruct (ReadyReplicas st =? Replicas st)%Z.
    + exists None, [DeploymentGet ns Helm.TillerDeploymentName (Some st, None)].
      repeat split; auto. simpl. unfold Helm.tillerCheckInterval, Go.Second. lia.
    + replace (Z.of_nat (S k) * Helm.tillerCheckInterval - Helm.tillerCheckInterval)%Z
        with (Z.of_nat k * Helm.tillerCheckInterval)%Z by lia.
      rewrite !record_extend, extend_extend.
      destruct (IH fuel (extend w ([DeploymentGet ns Helm.TillerDeploymentName (Some st, None)]
                                    ++ [Sleep Helm.tillerCheckInterval])))
        as (r & evs & Hrun & Hsl & Hr); [lia |].
      exists r, (([DeploymentGet ns Helm.TillerDeploymentName (Some st, None)]
                  ++ [Sleep Helm.tillerCheckInterval]) ++ evs).
      rewrite Hrun, extend_extend. split; [reflexivity |].
      rewrite slept_app. cbn [slept app]. split; [lia |].
      destruct Hr as [-> | [-> Hs]]; [left; reflexivity | right]. split; [reflexivity | lia].
Qed.

(** waitUntilTillerIsStarted ends when the status can be read: if every
    read of the tiller deployment succeeds, 24 rounds of the loop are enough,
    the function returns after at most 120 s of sleep, and it returns the
    error "Tiller didn't start in time" only after the full 120 s. *)
Lemma waitUntilTillerIsStarted_bounded_when_status_is_read env config ns w :
  Tiller config = Some (mkTillerConfig (Some ns)) ->
  (forall h, exists st,
      Helm.deployments_Get env h ns Helm.TillerDeploymentName = (Some st, None)) ->
  exists r evs,
    Helm.waitUntilTillerIsStarted env 24 config w = (Ret r, extend w evs) /\
    (slept evs <= 2 * 60 * Go.Second)%Z /\
    (r = None \/
     r = Some "Tiller didn't start in time" /\ slept evs = (2 * 60 * Go.Second)%Z).
Proof.
  intros Hns Hget.
  destruct (waitLoop_bounded_when_status_is_read env config ns Hns Hget 24 24 w
              (le_n _)) as (r & evs & Hrun & Hsl & Hr).
  exists r, evs. unfold Helm.waitUntilTillerIsStarted.
  replace Helm.tillerWaitingTime0 with (Z.of_nat 24 * Helm.tillerCheckInterval)%Z
    by reflexivity.
  rewrite Hrun. split; [reflexivity |].
  replace (2 * 60 * Go.Second)%Z with (Z.of_nat 24 * Helm.tillerCheckInterval)%Z
    by reflexivity.
  auto.
Qed.

(** A deployment whose replica never gets ready: 24 polls, 5 s apart, and
    then the error. *)
Definition pendingHelmEnv : Helm.Env :=
  Helm.mkEnv "devspace-tiller"
             (fun _ _ => None)
             (fun _ _ => None)
             (fun _ _ _ => (Some (mkStatus 0 1), None))
             (fun _ _ _ => None)
             (fun _ => None)
             (fun _ _ => None)
             (fun _ _ => None)
             (fun _ => None)
             (fun _ _ => (Some 44134%Z, None))
             (fun _ _ => None)
             (fun _ => ("/root", None))
             (fun _ _ => None)
             (fun _ _ => None)
             (fun _ _ => (Some [], None))
             (fun _ _ => None)
             (fun _ _ => None)
             (fun _ => 0%nat).

Example waitUntilTillerIsStarted_gives_up_after_two_minutes :
  let config := mkHelmConfig (Some (mkTillerConfig (Some "kube-system"))) in
  let run := Helm.waitUntilTillerIsStarted pendingHelmEnv 24 config freshWorld in
  fst run = Ret (Some "Tiller didn't start in time") /\
  List.length (trace (snd run)) = 48%nat /\
  slept (trace (snd run)) = (120 * Go.Second)%Z.
Proof. repeat split. Qed.

(** C4 (the code departs from the claim).  While reading the deployment
    fails, the loop of waitUntilTillerIsStarted goes on without sleeping and
    without taking anything off its budget: however many entries of the loop
    it is given, it has not returned after them, each entry was a failed
    read, and no time was slept.  So the wait is not bounded by the two
    minutes and no "didn't start in time" error comes back. *)
Theorem waitUntilTillerIsStarted_spins_while_reading_fails :
  forall (env : Helm.Env) (config : HelmConfig) (ns : string),
    Tiller config = Some (mkTillerConfig (Some ns)) ->
    (forall h, snd (Helm.deployments_Get env h ns Helm.TillerDeploymentName) <> None) ->
    forall (fuel : nat) (w : World),
    exists evs,
      Helm.waitUntilTillerIsStarted env fuel config w = (Halted OutOfFuel, extend w evs) /\
      List.length evs = fuel /\
      forallb is_failed_Get evs = true /\
      slept evs = 0%Z.
Proof.
  intros env config ns Hns Hget fuel.
  unfold Helm.waitUntilTillerIsStarted.
  assert (Hpos : (Helm.tillerWaitingTime0 >? 0)%Z = true) by reflexivity.
  revert Hpos. generalize Helm.tillerWaitingTime0 as t. intros t Hpos.
  induction fuel as [|fuel IH]; intros w.
  - exists []. simpl. rewrite Hpos, extend_nil. auto.
  - cbn [Helm.waitLoop]. rewrite Hpos.
    unfold Helm.derefTillerNamespace. rewrite Hns. cbn [tillerNamespace].
    run_unfold.
    specialize (Hget (trace w)).
    destruct (Helm.deployments_Get env (trace w) ns Helm.TillerDeploymentName)
      as [st [e |]] eqn:Hg; [| simpl in Hget; congruence].
    rewrite record_extend.
    destruct (IH (extend w [DeploymentGet ns Helm.TillerDeploymentName (st, Some e)]))
      as (evs & Hrun & Hlen & Hall & Hsl).
    exists (DeploymentGet ns Helm.TillerDeploymentName (st, Some e) :: evs).
    destruct st; rewrite Hrun, extend_extend; simpl; rewrite Hlen, Hall, Hsl; auto.
Qed.

Lemma waitUntilTillerIsStarted_spins_while_reading_fails_witness :
  let config := mkHelmConfig (Some (mkTillerConfig (Some "kube-system"))) in
  let failed := DeploymentGet "kube-system" "tiller-deploy" (None, Some "connection refused") in
  exists evs,
    Helm.waitUntilTillerIsStarted offlineHelmEnv 1000 config freshWorld
    = (Halted OutOfFuel, extend freshWorld evs) /\
    List.length evs = 1000%nat /\
    forallb is_failed_Get evs = true /\
    slept evs = 0%Z.
Proof.
  intros config failed.
  apply (waitUntilTillerIsStarted_spins_while_reading_fails
           offlineHelmEnv config "kube-system" eq_refl).
  intros h. simpl. discriminate.
Defined.

(* --------------------------------------------------------------------- *)
(** ** cmd/up.go: sessions *)
(* --------------------------------------------------------------------- *)

(** Go through every path of a run that is not a loop: [H] says what the
    run gave; afterwards the outcome and the final state are known. *)
Ltac run_cases H :=
  match goal with
  | |- ?G =>
      let P := fresh "P" in
      set (P := G); revert H; run_unfold; repeat split_answer;
      intros H; subst P; injection H as <- <-
  end.

(** Give the events a path has added. *)
Ltac give_events :=
  first
    [ eexists; split;
      [ rewrite ?record_extend, ?extend_extend; cbn [app]; reflexivity | ]
    | exists []; split; [ rewrite extend_nil; reflexivity | ] ].

(** Use up the hypotheses that say which events are in an explicit trace. *)
Ltac in_trace :=
  repeat match goal with
         | H : In _ (_ :: _) |- _ => destruct H as [H | H]
         | H : In _ [] |- _ => destruct H
         | H : @eq Event _ _ \/ _ |- _ => destruct H as [H | H]
         | H : False |- _ => destruct H
         | H : @eq Event _ _ |- _ => first [discriminate H | injection H as ?; subst]
         | H : @eq (Go.result _) _ _ |- _ => first [discriminate H | injection H as ?; subst]
         | H : @eq (_ * _) (_, _) (_, _) |- _ => first [discriminate H | injection H as ?; subst]
         | H : @eq (option _) _ _ |- _ => first [discriminate H | injection H as ?; subst]
         end.

(** A list that is not empty has a first element. *)
Ltac no_index_panic :=
  try (exfalso;
       match goal with
       | Hb : (List.length ?l =? 0)%nat = false, Hn : nth_error ?l 0 = None |- _ =>
           destruct l; simpl in *; discriminate
       end).

Definition is_SyncStart (e : Event) : bool :=
  match e with
  | SyncStart _ _ => true
  | _ => false
  end.

Definition is_index_panic (e : Event) : bool :=
  match e with
  | Log PanicLevel "runtime error: %s" ["index out of range"] => true
  | _ => false
  end.

(** The answers of the oracles that a run has looked at are the answers
    that the hypotheses name. *)
Ltac same_answers :=
  repeat (cbn [trace record fst snd] in *;
          first [ progress in_trace
                | match goal with
                  | H1 : ?f = _, H2 : ?f = _ |- _ => rewrite H1 in H2; try discriminate H2
                  end ]).

(** C9.  A sync declaration that resolves to a pod without containers is
    skipped: the run of the loop body logs the warning, starts no session,
    gives the list of sessions back as it was, and returns; the events are
    the path resolution, the pod lookup and the warning.  This is what the
    body does whenever the path resolves and the lookup answers with such a
    pod.  More generally no run of the body ends in the index-out-of-range
    panic. *)
Theorem startSync_pod_without_containers_is_skipped :
  forall (env : Up.Env) (config : UpConfig) (cmd : Up.UpCmd) (syncPath : SyncConfig)
         (syncConfigs : list SyncSession) (w w' : World)
         (r : Outcome (list SyncSession)),
    Up.syncOne env config cmd syncPath syncConfigs w = (r, w') ->
    exists evs,
      w' = extend w evs /\
      existsb is_index_panic evs = false /\
      (forall labels ns pod,
          In (GetFirstRunningPod labels ns (Some pod, None)) evs ->
          podContainers pod = [] ->
          r = Ret syncConfigs /\
          existsb is_SyncStart evs = false /\
          exists abs,
            evs = [FilepathAbs (scLocalSubPath syncPath) abs None;
                   GetFirstRunningPod labels ns (Some pod, None);
                   Log Warn "Cannot start sync on pod, because selected pod %s/%s has no containers"
                       [podNamespace pod; podName pod]]) /\
      (forall abs pod,
          let resolved := FilepathAbs (scLocalSubPath syncPath) abs None in
          let labels := Go.Join (Up.labelsOf (scLabelSelector syncPath)) ", " in
          let ns := Up.namespaceOf config (scNamespace syncPath) in
          Up.filepath_Abs env (trace w) (scLocalSubPath syncPath) = (abs, None) ->
          Up.kubectl_GetFirstRunningPod env (trace w ++ [resolved]) labels ns
          = (Some pod, None) ->
          podContainers pod = [] ->
          r = Ret syncConfigs /\
          evs = [resolved;
                 GetFirstRunningPod labels ns (Some pod, None);
                 Log Warn "Cannot start sync on pod, because selected pod %s/%s has no containers"
                     [podNamespace pod; podName pod]]).
Proof.
  intros env config cmd syncPath syncConfigs w w' r H.
  unfold Up.syncOne in H.
  run_cases H; no_index_panic; give_events; (split; [reflexivity |]);
    (split;
     [ intros labels ns pod Hin Hnone; in_trace;
       try (rewrite Hnone in *; simpl in *; discriminate);
       repeat split; eauto
     | intros abs pod resolved labels ns Habs Hpod Hnone; subst resolved labels ns;
       same_answers;
       try (rewrite Hnone in *; simpl in *; discriminate);
       split; reflexivity ]).
Qed.

Lemma selectContainer_unspecified syncPath pod first :
  scContainerName syncPath = None \/ scContainerName syncPath = Some "" ->
  Up.selectContainer syncPath pod first = inl first.
Proof.
  unfold Up.selectContainer. intros [-> | ->]; reflexivity.
Qed.

Lemma selectContainer_named syncPath pod first name :
  scContainerName syncPath = Some name -> name <> "" ->
  (forall c, Up.selectContainer syncPath pod first = inl c ->
             In c (podContainers pod) /\ cName c = name) /\
  (forall n, Up.selectContainer syncPath pod first = inr n -> n = name).
Proof.
  intros Hn Hne. unfold Up.selectContainer. rewrite Hn.
  apply String.eqb_neq in Hne. rewrite Hne.
  destruct (find (fun c => (cName c =? name)%string) (podContainers pod)) as [c' |] eqn:Hf.
  - split; [| discriminate].
    intros c Hc. injection Hc as <-. apply find_some in Hf.
    destruct Hf as [Hin Heq]. apply String.eqb_eq in Heq. auto.
  - split; [discriminate |]. intros n Hn'. now injection Hn' as <-.
Qed.

(** C7.  Which container a sync declaration gets.  In every run of the loop
    body of startSync that resolved a pod:
    - when the declaration names no container (nil or empty) and the pod has
      containers, the one session that is started is bound to the pod and to
      the first container of the pod;
    - when the declaration names a container that the pod does not have, no
      session is started, the list of sessions is given back as it was, the
      run returns, and the one message is a warning (for a pod with
      containers: that the container was not found);
    and a declaration that was skipped does not stop the batch: the loop goes
    on with the remaining declarations from the state the skipped one left. *)
Theorem startSync_container_selection :
  forall (env : Up.Env) (config : UpConfig) (cmd : Up.UpCmd),
    (forall syncPath syncConfigs w r w',
        Up.syncOne env config cmd syncPath syncConfigs w = (r, w') ->
        exists evs,
          w' = extend w evs /\
          (forall labels ns pod first others,
              scContainerName syncPath = None \/ scContainerName syncPath = Some "" ->
              In (GetFirstRunningPod labels ns (Some pod, None)) evs ->
              podContainers pod = first :: others ->
              exists s err,
                In (SyncStart s err) evs /\ ssPod s = pod /\ ssContainer s = first /\
                forall s' err', In (SyncStart s' err') evs -> s' = s) /\
          (forall labels ns pod name,
              scContainerName syncPath = Some name -> name <> "" ->
              In (GetFirstRunningPod labels ns (Some pod, None)) evs ->
              (forall c, In c (podContainers pod) -> cName c <> name) ->
              r = Ret syncConfigs /\
              existsb is_SyncStart evs = false /\
              exists abs format args,
                evs = [FilepathAbs (scLocalSubPath syncPath) abs None;
                       GetFirstRunningPod labels ns (Some pod, None);
                       Log Warn format args] /\
                (podContainers pod <> [] ->
                 format = "Couldn't start sync, because container %s wasn't found in pod %s/%s"
                 /\ args = [name; podNamespace pod; podName pod]))) /\
    (forall syncPath rest syncConfigs w w1,
        Up.syncOne env config cmd syncPath syncConfigs w = (Ret syncConfigs, w1) ->
        Up.syncLoop env config cmd (syncPath :: rest) syncConfigs w
        = Up.syncLoop env config cmd rest syncConfigs w1).
Proof.
  intros env config cmd. split.
  - intros syncPath syncConfigs w r w' H.
    unfold Up.syncOne in H.
    run_cases H; no_index_panic; give_events;
    (split;
      [ intros lbs nsp pd fst0 others Hname Hin Hc; in_trace;
        try (rewrite Hc in *; simpl in *; discriminate);
        match goal with
        | Hs : Up.selectContainer _ _ _ = _, Hn : nth_error _ 0 = Some _ |- _ =>
            rewrite Hc in Hn; injection Hn as <-;
            rewrite (selectContainer_unspecified _ _ _ Hname) in Hs;
            first [discriminate Hs | injection Hs as <-]
        end;
        eexists; eexists;
        (split; [simpl; eauto | repeat split; intros s' err' Hin'; in_trace; reflexivity])
      | intros lbs nsp pd name Hname Hne Hin Habsent; in_trace ]).
    + repeat split. do 3 eexists. split; [reflexivity |].
      intros Hc. destruct (podContainers _); [congruence | discriminate].
    + match goal with
      | Hs : Up.selectContainer _ _ _ = inl ?c |- _ =>
          destruct (proj1 (selectContainer_named _ _ _ _ Hname Hne) _ Hs) as [Hin' Heq];
          exfalso; exact (Habsent _ Hin' Heq)
      end.
    + match goal with
      | Hs : Up.selectContainer _ _ _ = inl ?c |- _ =>
          destruct (proj1 (selectContainer_named _ _ _ _ Hname Hne) _ Hs) as [Hin' Heq];
          exfalso; exact (Habsent _ Hin' Heq)
      end.
    + match goal with
      | Hs : Up.selectContainer _ _ _ = inr ?n |- _ =>
          pose proof (proj2 (selectContainer_named _ _ _ _ Hname Hne) _ Hs); subst
      end.
      repeat split. do 3 eexists. split; [reflexivity |]. auto.
  - intros syncPath rest syncConfigs w w1 H.
    cbn [Up.syncLoop]. unfold bind at 1. now rewrite H.
Qed.

Definition is_Log (e : Event) : bool :=
  match e with
  | Log _ _ _ => true
  | _ => false
  end.

Definition is_ForwardPorts (e : Event) : bool :=
  match e with
  | ForwardPorts _ _ => true
  | _ => false
  end.

(** C5 (as amended).  A declaration whose pod lookup succeeds and gives no
    pod is skipped without a word: nothing is logged (no warning either), no
    session is started, and the run goes on.
    - sync: the events of the loop body are the path resolution and the
      lookup, and the list of sessions is given back as it was;
    - port forwarding: the only event is the lookup.
    A declaration whose lookup gives a pod is bound to that pod: every sync
    session that is started has it as its pod, and the forwarder is started
    on it. *)
Theorem unresolved_pod_is_skipped_silently :
  forall (env : Up.Env) (config : UpConfig) (cmd : Up.UpCmd),
    (forall syncPath syncConfigs w r w',
        Up.syncOne env config cmd syncPath syncConfigs w = (r, w') ->
        exists evs,
          w' = extend w evs /\
          (forall labels ns,
              In (GetFirstRunningPod labels ns (None, None)) evs ->
              r = Ret syncConfigs /\
              existsb is_Log evs = false /\
              existsb is_SyncStart evs = false /\
              exists abs,
                evs = [FilepathAbs (scLocalSubPath syncPath) abs None;
                       GetFirstRunningPod labels ns (None, None)]) /\
          (forall labels ns pod s err,
              In (GetFirstRunningPod labels ns (Some pod, None)) evs ->
              In (SyncStart s err) evs -> ssPod s = pod)) /\
    (forall portForwarding w r w',
        Up.forwardOne env config portForwarding w = (r, w') ->
        exists evs,
          w' = extend w evs /\
          (forall labels ns,
              In (GetFirstRunningPod labels ns (None, None)) evs ->
              r = Ret tt /\
              existsb is_Log evs = false /\
              existsb is_ForwardPorts evs = false /\
              evs = [GetFirstRunningPod labels ns (None, None)]) /\
          (forall labels ns pod,
              In (GetFirstRunningPod labels ns (Some pod, None)) evs ->
              exists ready l format args,
                evs = [GetFirstRunningPod labels ns (Some pod, None);
                       ForwardPorts pod (Up.portsOf (pfPortMappings portForwarding));
                       ForwardReady ready;
                       Log l format args])).
Proof.
  intros env config cmd. split.
  - intros syncPath syncConfigs w r w' H.
    unfold Up.syncOne in H.
    run_cases H; no_index_panic; give_events;
    (split;
      [ intros lbs nsp Hin; in_trace; repeat split; eauto
      | intros lbs nsp pd qs qerr Hin Hin'; in_trace; reflexivity ]).
  - intros portForwarding w r w' H.
    unfold Up.forwardOne in H.
    run_cases H; give_events;
    (split;
      [ intros lbs nsp Hin; in_trace; repeat split; eauto
      | intros lbs nsp pd Hin; in_trace; do 4 eexists; reflexivity ]).
Qed.

Definition is_failed_SyncStart (e : Event) : bool :=
  match e with
  | SyncStart _ (Some _) => true
  | _ => false
  end.

Definition is_EnterTerminal (e : Event) : bool :=
  match e with
  | EnterTerminal _ _ _ => true
  | _ => false
  end.

(** What [runSessions] does once the port forwarding is through. *)
Definition syncAndAttach (env : Up.Env) (config : UpConfig) (cmd : Up.UpCmd)
           (args : list string) : Exec unit :=
  syncConfigs <- (if Up.sync (Up.flags cmd) then Up.startSync env config cmd else ret []) ;;
  emit (EnterTerminal (Up.pod cmd) (Up.container (Up.flags cmd)) args) ;;
  Up.stopAll syncConfigs.

Lemma not_true_false (b : bool) (P : Prop) : (b = true <-> P) -> ~ P -> b = false.
Proof. destruct b; intuition. Qed.

Section SessionFacts.
Variable env : Up.Env.
Variable config : UpConfig.
Variable cmd : Up.UpCmd.

(** The loop body of startSync ends the process exactly when a session
    failed to start. *)
Lemma syncOne_fatal_iff syncPath syncConfigs w r w' :
  Up.syncOne env config cmd syncPath syncConfigs w = (r, w') ->
  exists evs,
    w' = extend w evs /\
    (existsb is_failed_SyncStart evs = true <-> r = Halted Exit) /\
    existsb is_EnterTerminal evs = false.
Proof.
  intros H. unfold Up.syncOne in H.
  run_cases H; no_index_panic; give_events; simpl;
    (split; [split; intros HH; first [reflexivity | discriminate HH] | reflexivity]).
Qed.

Lemma syncLoop_fatal_iff decls : forall syncConfigs w r w',
  Up.syncLoop env config cmd decls syncConfigs w = (r, w') ->
  exists evs,
    w' = extend w evs /\
    (existsb is_failed_SyncStart evs = true <-> r = Halted Exit) /\
    existsb is_EnterTerminal evs = false.
Proof.
  induction decls as [|d rest IH]; intros syncConfigs w r w' H; cbn [Up.syncLoop] in H.
  - injection H as <- <-. exists []. rewrite extend_nil. simpl.
    repeat split; intros HH; discriminate HH.
  - apply bind_run in H. destruct H as [(a & w1 & H1 & H2) | (h & H1 & ->)].
    + destruct (syncOne_fatal_iff _ _ _ _ _ H1) as (evs1 & -> & Hf1 & Ht1).
      destruct (IH _ _ _ _ H2) as (evs2 & -> & Hf2 & Ht2).
      exists (evs1 ++ evs2). rewrite extend_extend, !existsb_app, Ht1, Ht2.
      rewrite (not_true_false _ _ Hf1) by discriminate. simpl. auto.
    + destruct (syncOne_fatal_iff _ _ _ _ _ H1) as (evs1 & -> & Hf1 & Ht1).
      exists evs1. auto.
Qed.

(** The loop body of startPortForwarding always returns. *)
Lemma forwardOne_returns portForwarding w :
  exists evs,
    Up.forwardOne env config portForwarding w = (Ret tt, extend w evs) /\
    existsb is_failed_SyncStart evs = false /\
    existsb is_EnterTerminal evs = false /\
    (In (ForwardReady false) evs ->
     exists labels ns pod,
       evs = [GetFirstRunningPod labels ns (Some pod, None);
              ForwardPorts pod (Up.portsOf (pfPortMappings portForwarding));
              ForwardReady false;
              Log Error "Timeout waiting for port forwarding to start" []]).
Proof.
  destruct (Up.forwardOne env config portForwarding w) as [r w'] eqn:H.
  unfold Up.forwardOne in H.
  run_cases H; give_events; simpl;
    (split; [reflexivity |]); repeat split; intros Hin; in_trace.
  all: do 3 eexists; reflexivity.
Qed.

Lemma forwardLoop_returns decls : forall w,
  exists evs,
    Up.forwardLoop env config decls w = (Ret tt, extend w evs) /\
    existsb is_failed_SyncStart evs = false /\
    existsb is_EnterTerminal evs = false.
Proof.
  induction decls as [|d rest IH]; intros w; cbn [Up.forwardLoop].
  - exists []. rewrite extend_nil. auto.
  - destruct (forwardOne_returns d w) as (evs1 & H1 & Hf1 & Ht1 & _).
    destruct (IH (extend w evs1)) as (evs2 & H2 & Hf2 & Ht2).
    exists (evs1 ++ evs2). unfold bind. rewrite H1, H2, extend_extend, !existsb_app.
    rewrite Hf1, Hf2, Ht1, Ht2. auto.
Qed.

Lemma stopAll_returns syncConfigs : forall w,
  Up.stopAll syncConfigs w = (Ret tt, extend w (map SyncStop syncConfigs)).
Proof.
  induction syncConfigs as [|v rest IH]; intros w; simpl.
  - now rewrite extend_nil.
  - unfold bind, emit. rewrite IH, record_extend, extend_extend. reflexivity.
Qed.

Lemma stopAll_quiet syncConfigs :
  existsb is_failed_SyncStart (map SyncStop syncConfigs) = false /\
  existsb is_EnterTerminal (map SyncStop syncConfigs) = false.
Proof. induction syncConfigs; simpl; auto. Qed.

End SessionFacts.

Lemma runSessions_split env config cmd args :
  Up.runSessions env config cmd args
  = ((if Up.portforwarding (Up.flags cmd) then Up.startPortForwarding env config else ret tt) ;;
     syncAndAttach env config cmd args).
Proof. reflexivity. Qed.

Lemma syncAndAttach_fatal env config cmd args w r w' :
  syncAndAttach env config cmd args w = (r, w') ->
  exists evs,
    w' = extend w evs /\
    (existsb is_failed_SyncStart evs = true ->
     r = Halted Exit /\ existsb is_EnterTerminal evs = false).
Proof.
  unfold syncAndAttach. intros H.
  apply bind_run in H. destruct H as [(scs & w1 & H1 & H2) | (h & H1 & ->)].
  - assert (Hs : exists evs1, w1 = extend w evs1 /\ existsb is_failed_SyncStart evs1 = false).
    { destruct (Up.sync (Up.flags cmd)).
      - destruct (syncLoop_fatal_iff _ _ _ _ _ _ _ _ H1) as (evs1 & -> & Hf & _).
        exists evs1. split; [reflexivity |].
        apply (not_true_false _ _ Hf). discriminate.
      - injection H1 as <- <-. exists []. now rewrite extend_nil. }
    destruct Hs as (evs1 & -> & Hf1).
    revert H2. unfold bind, emit. rewrite stopAll_returns, record_extend, !extend_extend.
    intros H2. injection H2 as <- <-.
    eexists. split; [reflexivity |].
    rewrite !existsb_app, Hf1. simpl.
    rewrite (proj1 (stopAll_quiet scs)). discriminate.
  - destruct (Up.sync (Up.flags cmd)).
    + destruct (syncLoop_fatal_iff _ _ _ _ _ _ _ _ H1) as (evs1 & -> & Hf & Ht).
      exists evs1. split; [reflexivity |]. intros Hx. split; [| exact Ht].
      pose proof (proj1 Hf Hx) as Hh. injection Hh as ->. reflexivity.
    + discriminate H1.
Qed.

(** The session that the loop body of startSync starts for a declaration:
    on the pod and the container it has resolved, from the path it has
    resolved. *)
Definition sessionOf (cmd : Up.UpCmd) (syncPath : SyncConfig) (pod : Pod)
           (container : Container) (absLocalPath : string) : SyncSession :=
  mkSyncSession pod container absLocalPath (scContainerPath syncPath)
                (Up.verboseSync (Up.flags cmd))
                (Up.orEmpty (scExcludePaths syncPath))
                (Up.orEmpty (scDownloadExcludePaths syncPath))
                (Up.orEmpty (scUploadExcludePaths syncPath)).

(** C6.  The two kinds of session fail differently.
    - Sync: in every run of the loop of startSync, a session whose Start
      returned an error ends the process ([Exit], from log.Fatalf); in
      [runSessions] the process ends there too and the terminal is never
      entered.  Whenever the path and the pod of a declaration resolve and
      Start answers with an error, the loop body ends the process right
      after the failed Start, with the message "Sync error".
    - Port forwarding: the loop body always returns; when the 5 s timer
      fires before the readiness signal, what it adds after starting the
      forwarder is the one error message.  Whenever the pod of a declaration
      resolves and the forwarder is not ready within the 5 s, the loop body
      starts the forwarder, logs "Timeout waiting for port forwarding to
      start" and returns.  The loop goes on with the next declaration,
      startPortForwarding always returns, and [runSessions] continues from
      there with the sync sessions and the terminal; with sync switched off
      the terminal is always entered. *)
Theorem session_failure_policy_is_asymmetric :
  forall (env : Up.Env) (config : UpConfig) (cmd : Up.UpCmd) (args : list string),
    (forall decls syncConfigs w r w',
        Up.syncLoop env config cmd decls syncConfigs w = (r, w') ->
        exists evs,
          w' = extend w evs /\
          (existsb is_failed_SyncStart evs = true -> r = Halted Exit)) /\
    (forall w r w',
        Up.runSessions env config cmd args w = (r, w') ->
        exists evs,
          w' = extend w evs /\
          (existsb is_failed_SyncStart evs = true ->
           r = Halted Exit /\ existsb is_EnterTerminal evs = false)) /\
    (forall portForwarding w,
        exists evs,
          Up.forwardOne env config portForwarding w = (Ret tt, extend w evs) /\
          (In (ForwardReady false) evs ->
           exists labels ns pod,
             evs = [GetFirstRunningPod labels ns (Some pod, None);
                    ForwardPorts pod (Up.portsOf (pfPortMappings portForwarding));
                    ForwardReady false;
                    Log Error "Timeout waiting for port forwarding to start" []])) /\
    (forall portForwarding rest w,
        Up.forwardLoop env config (portForwarding :: rest) w
        = Up.forwardLoop env config rest (snd (Up.forwardOne env config portForwarding w))) /\
    (forall w,
        exists evs,
          Up.startPortForwarding env config w = (Ret tt, extend w evs) /\
          (Up.portforwarding (Up.flags cmd) = true ->
           Up.runSessions env config cmd args w
           = syncAndAttach env config cmd args (extend w evs)) /\
          (Up.portforwarding (Up.flags cmd) = true ->
           Up.sync (Up.flags cmd) = false ->
           Up.runSessions env config cmd args w
           = (Ret tt,
              extend w (evs ++ [EnterTerminal (Up.pod cmd) (Up.container (Up.flags cmd)) args])))) /\
    (forall syncPath syncConfigs w abs pod first others container e,
        let resolved := FilepathAbs (scLocalSubPath syncPath) abs None in
        let labels := Go.Join (Up.labelsOf (scLabelSelector syncPath)) ", " in
        let ns := Up.namespaceOf config (scNamespace syncPath) in
        let found := GetFirstRunningPod labels ns (Some pod, None) in
        let session := sessionOf cmd syncPath pod container abs in
        Up.filepath_Abs env (trace w) (scLocalSubPath syncPath) = (abs, None) ->
        Up.kubectl_GetFirstRunningPod env (trace w ++ [resolved]) labels ns
        = (Some pod, None) ->
        podContainers pod = first :: others ->
        Up.selectContainer syncPath pod first = inl container ->
        Up.sync_Start env (trace w ++ [resolved; found]) session = Some e ->
        Up.syncOne env config cmd syncPath syncConfigs w
        = (Halted Exit,
           extend w [resolved; found; SyncStart session (Some e);
                     Log FatalLevel "Sync error: %s" [e]])) /\
    (forall portForwarding w pod,
        let labels := Go.Join (Up.labelsOf (pfLabelSelector portForwarding)) ", " in
        let ns := Up.namespaceOf config (pfNamespace portForwarding) in
        let ports := Up.portsOf (pfPortMappings portForwarding) in
        let found := GetFirstRunningPod labels ns (Some pod, None) in
        pfResourceType portForwarding = None \/ pfResourceType portForwarding = Some "pod" ->
        pfLabelSelector portForwarding <> [] ->
        Up.kubectl_GetFirstRunningPod env (trace w) labels ns = (Some pod, None) ->
        Up.forwarding_ready env (trace w ++ [found; ForwardPorts pod ports]) pod ports
        = false ->
        Up.forwardOne env config portForwarding w
        = (Ret tt,
           extend w [found; ForwardPorts pod ports; ForwardReady false;
                     Log Error "Timeout waiting for port forwarding to start" []])).
Proof.
  intros env config cmd args. repeat split.
  - intros decls syncConfigs w r w' H.
    destruct (syncLoop_fatal_iff _ _ _ _ _ _ _ _ H) as (evs & -> & Hf & _).
    exists evs. split; [reflexivity | apply Hf].
  - intros w r w' H. rewrite runSessions_split in H.
    apply bind_run in H. destruct H as [(a & w1 & H1 & H2) | (h & H1 & ->)].
    + assert (Hp : exists evs1, w1 = extend w evs1 /\
                               existsb is_failed_SyncStart evs1 = false /\
                               existsb is_EnterTerminal evs1 = false).
      { destruct (Up.portforwarding (Up.flags cmd)).
        - destruct (forwardLoop_returns env config (PortForwarding config) w)
            as (evs1 & Hl & Hf & Ht).
          unfold Up.startPortForwarding in H1. rewrite Hl in H1.
          injection H1 as <- <-. eauto.
        - injection H1 as <- <-. exists []. now rewrite extend_nil. }
      destruct Hp as (evs1 & -> & Hf1 & Ht1).
      destruct (syncAndAttach_fatal _ _ _ _ _ _ _ H2) as (evs2 & -> & Hx).
      exists (evs1 ++ evs2). rewrite extend_extend, !existsb_app, Hf1, Ht1. simpl.
      split; [reflexivity | exact Hx].
    + exfalso. destruct (Up.portforwarding (Up.flags cmd)); [| discriminate H1].
      destruct (forwardLoop_returns env config (PortForwarding config) w) as (evs1 & Hl & _).
      unfold Up.startPortForwarding in H1. rewrite Hl in H1. discriminate H1.
  - intros portForwarding w.
    destruct (forwardOne_returns env config portForwarding w) as (evs & H & _ & _ & Ht).
    exists evs. auto.
  - intros portForwarding rest w. cbn [Up.forwardLoop]. unfold bind at 1.
    destruct (forwardOne_returns env config portForwarding w) as (evs & -> & _).
    reflexivity.
  - intros w.
    destruct (forwardLoop_returns env config (PortForwarding config) w) as (evs & Hl & _).
    exists evs. unfold Up.startPortForwarding. split; [exact Hl |]. split.
    + intros Hpf. rewrite runSessions_split, Hpf. unfold bind at 1.
      unfold Up.startPortForwarding. now rewrite Hl.
    + intros Hpf Hs. rewrite runSessions_split, Hpf. unfold bind at 1.
      unfold Up.startPortForwarding. rewrite Hl.
      unfold syncAndAttach. rewrite Hs. unfold bind, ret, emit. simpl.
      rewrite record_extend, extend_extend. reflexivity.
  - intros syncPath syncConfigs w abs pod first others container e
           resolved labels ns found session Habs Hpod Hc Hsel Hstart.
    subst resolved labels ns found session.
    unfold Up.syncOne, sessionOf in *. run_unfold. rewrite Habs. cbv beta iota.
    cbn [trace record fst snd]. rewrite Hpod. cbv beta iota. rewrite Hc.
    cbn [List.length Nat.eqb nth_error]. rewrite Hsel.
    cbn [trace record fst snd app]. rewrite <- !app_assoc. cbn [app].
    rewrite Hstart. rewrite !record_extend, !extend_extend. reflexivity.
  - intros portForwarding w pod labels ns ports found Htype Hsel Hpod Hready.
    subst labels ns ports found.
    unfold Up.forwardOne. run_unfold.
    assert (Ht : match pfResourceType portForwarding with
                 | Some t => String.eqb t "pod"
                 | None => true
                 end = true) by (destruct Htype as [-> | ->]; reflexivity).
    rewrite Ht.
    assert (Hl : Nat.ltb 0 (List.length (pfLabelSelector portForwarding)) = true)
      by (destruct (pfLabelSelector portForwarding); [congruence | reflexivity]).
    rewrite Hl, Hpod. cbv beta iota.
    cbn [trace record fst snd app]. rewrite <- !app_assoc. cbn [app].
    rewrite Hready. rewrite !record_extend, !extend_extend. reflexivity.
Qed.

(* --------------------------------------------------------------------- *)
(** ** cmd/up.go: build and deploy *)
(* --------------------------------------------------------------------- *)

Definition is_build_event (e : Event) : bool :=
  match e with
  | ImageBuild _ _ _ _ _ => true
  | Log FatalLevel _ _ => true
  | _ => false
  end.

(** An image had to be rebuilt. *)
Definition is_rebuild (e : Event) : bool :=
  match e with
  | ImageBuild _ _ _ true _ => true
  | _ => false
  end.

Definition is_failed_wait (e : Event) : bool :=
  match e with
  | WaitForReleasePodToGetReady _ _ _ (_, Some _) => true
  | _ => false
  end.

Definition is_InstallChart (e : Event) : bool :=
  match e with
  | InstallChartByPath _ _ _ _ _ => true
  | _ => false
  end.

Lemma build_events_are_quiet (l : Trace) :
  forallb is_build_event l = true ->
  existsb is_failed_wait l = false /\
  existsb is_GeneratedSave l = false /\
  existsb is_InstallChart l = false /\
  forall e, In e l -> is_build_event e = true.
Proof.
  induction l as [|e l IH]; simpl; [intuition |].
  intros H. apply andb_prop in H. destruct H as [He Hl].
  destruct (IH Hl) as (H1 & H2 & H3 & H4).
  rewrite H1, H2, H3.
  destruct e; try discriminate He; simpl; repeat split; auto;
    intros e' [<- | Hin]; auto.
Qed.

Section DeployFacts.
Variable env : Up.Env.
Variable config : UpConfig.
Variable cmd : Up.UpCmd.

Lemma buildImagesLoop_run images : forall generatedConfig re w r w',
  Up.buildImagesLoop env cmd images generatedConfig re w = (r, w') ->
  exists bevs,
    w' = extend w bevs /\
    forallb is_build_event bevs = true /\
    match r with
    | Ret (re', generatedConfig') =>
        HelmChartHash generatedConfig' = HelmChartHash generatedConfig /\
        re' = re || existsb is_rebuild bevs
    | Halted h => h = Exit
    end.
Proof.
  induction images as [|[imageName imageConf] rest IH];
    intros generatedConfig re w r w' H; cbn [Up.buildImagesLoop] in H.
  - injection H as <- <-. exists []. rewrite extend_nil, orb_false_r. auto.
  - revert H. run_unfold.
    destruct (Up.image_Build env (trace w) generatedConfig imageName imageConf
                             (Up.build (Up.flags cmd)))
      as [[shouldRebuild tags] [e |]] eqn:Hb; cbv beta iota.
    + intros H. injection H as <- <-. give_events. simpl. auto.
    + intros H. apply IH in H. destruct H as (bevs & -> & Hall & Hres).
      rewrite record_extend, extend_extend. eexists. split; [reflexivity |].
      cbn [app forallb is_build_event fst snd]. split; [exact Hall |].
      destruct r as [[re' gc'] | h]; [| exact Hres].
      destruct Hres as [Hh ->]. split; [exact Hh |].
      cbn [existsb is_rebuild]. destruct shouldRebuild, re; reflexivity.
Qed.

(** [deployChart] starts by reading the values of the chart. *)
Definition is_ReadYaml (e : Event) : bool :=
  match e with
  | ReadYamlFromFile _ _ => true
  | _ => false
  end.

(** The events of [deployChart]. *)
Definition is_deploy_event (e : Event) : bool :=
  match e with
  | ReadYamlFromFile _ _ => true
  | InstallChartByPath _ _ _ _ _ => true
  | WaitForReleasePodToGetReady _ _ _ _ => true
  | Log _ _ _ => true
  | _ => false
  end.

Lemma deployChart_run generatedConfig w r w' :
  Up.deployChart env config cmd generatedConfig w = (r, w') ->
  exists devs,
    w' = extend w devs /\
    forallb is_deploy_event devs = true /\
    existsb is_ReadYaml devs = true /\
    existsb is_GeneratedSave devs = false /\
    (existsb is_failed_wait devs = true -> r = Halted Exit) /\
    match r with
    | Ret cmd' =>
        exists values rel p,
          devs = [ReadYamlFromFile "chart/values.yaml" None;
                  InstallChartByPath (ReleaseName config) (ReleaseNamespace config)
                                     "chart/" values (Some rel, None);
                  Log Done "Deployed helm chart (Release revision: %d)"
                      [Go.Itoa (Version rel)];
                  WaitForReleasePodToGetReady (ReleaseName config) (ReleaseNamespace config)
                                              (Version rel) (p, None)] /\
          cmd' = Up.set_pod p cmd
    | Halted _ => True
    end.
Proof.
  intros H. unfold Up.deployChart in H.
  run_cases H; give_events; simpl; repeat split;
    try (intros HH; discriminate HH); eauto.
Qed.

End DeployFacts.

(** Take the hypotheses about the image builds and the deployment apart:
    what they added, and what the added events can contain. *)
Ltac use_build_and_deploy :=
  repeat match goal with
         | Hb : Up.buildImagesLoop _ _ _ _ _ _ = _ |- _ =>
             apply buildImagesLoop_run in Hb;
             let bevs := fresh "bevs" in
             let Hbev := fresh "Hbev" in
             let Hbres := fresh "Hbres" in
             destruct Hb as (bevs & -> & Hbev & Hbres);
             let Q := fresh "Hquiet" in
             pose proof (build_events_are_quiet _ Hbev) as Q;
             destruct Q as (? & ? & ? & ?)
         | Hd : Up.deployChart _ _ _ _ _ = (Ret _, _) |- _ =>
             apply deployChart_run in Hd;
             destruct Hd as (? & -> & _ & _ & _ & _ & (? & ? & ? & -> & ->))
         | Hd : Up.deployChart _ _ _ _ _ = (Halted _, _) |- _ =>
             apply deployChart_run in Hd;
             let devs := fresh "devs" in
             let Hdsave := fresh "Hdsave" in
             let Hdwait := fresh "Hdwait" in
             let Hdev := fresh "Hdev" in
             let Hdread := fresh "Hdread" in
             destruct Hd as (devs & -> & Hdev & Hdread & Hdsave & Hdwait & _)
         | Hc : true || _ = false |- _ => discriminate Hc
         end.

Lemma trace_shape (e0 : Event) (b : Trace) (e1 e2 d1 : Event) (tail : Trace) :
  (e0 :: b ++ e1 :: e2 :: d1 :: tail) = (e0 :: b ++ [e1; e2; d1]) ++ tail.
Proof. simpl. now rewrite <- app_assoc. Qed.

Lemma deploy_events_are_deploy_events (l : Trace) :
  forallb is_deploy_event l = true ->
  forall e, In e l -> is_deploy_event e = true.
Proof. intros H e. now apply (proj1 (forallb_forall _ _) H). Qed.

(** Use up what is known about an event that is in the trace of a run of
    buildAndDeploy. *)
Ltac locate_event :=
  repeat match goal with
         | H : In _ (_ ++ _) |- _ => apply in_app_or in H; destruct H as [H | H]
         | H : In _ (_ :: _) |- _ => destruct H as [H | H]
         | H : In _ [] |- _ => destruct H
         | H : In ?e ?l, Hall : forall e, In e ?l -> _ = true |- _ =>
             apply Hall in H; discriminate H
         | H : In ?e ?l, Hall : forallb is_deploy_event ?l = true |- _ =>
             apply (deploy_events_are_deploy_events _ Hall) in H; discriminate H
         | H : @eq Event _ _ |- _ => first [discriminate H | injection H as ?; subst]
         | H : @eq (option _) _ _ |- _ => first [discriminate H | injection H as ?; subst]
         end.

Lemma build_events_are_no_deploy_events (l : Trace) :
  forallb is_build_event l = true -> existsb is_ReadYaml l = false.
Proof.
  induction l as [|e l IH]; [reflexivity |]. cbn [forallb existsb]. intros H.
  apply andb_prop in H. destruct H as [He Hl]. rewrite (IH Hl).
  destruct e; try discriminate He; reflexivity.
Qed.

Lemma deploy_events_are_no_build_events (l : Trace) :
  forallb is_deploy_event l = true -> existsb is_rebuild l = false.
Proof.
  induction l as [|e l IH]; [reflexivity |]. cbn [forallb existsb]. intros H.
  apply andb_prop in H. destruct H as [He Hl]. rewrite (IH Hl).
  destruct e; try discriminate He; reflexivity.
Qed.

(** What a run of buildAndDeploy decides.  In every run that got as far as
    looking for the running pod of the release, deployChart is entered (it
    starts by reading the values of the chart) exactly when the lookup
    failed, an image had to be rebuilt, the deploy flag is set, or the hash
    of the chart directory is not the fingerprint on disk; otherwise the run
    returns with the pod that was found, installs nothing and leaves the
    disk as it was. *)
Lemma buildAndDeploy_decision :
  forall (env : Up.Env) (config : UpConfig) (cmd : Up.UpCmd) (w w' : World)
         (r : Outcome Up.UpCmd),
    Up.buildAndDeploy env config cmd w = (r, w') ->
    exists evs,
      trace w' = trace w ++ evs /\
      forall (hash : string) (res : Go.result Pod),
        In (HashDirectory "chart" hash None) evs ->
        In (GetRunningDevSpacePod res) evs ->
        (existsb is_ReadYaml evs = true <->
         snd res <> None \/
         existsb is_rebuild evs = true \/
         Up.deploy (Up.flags cmd) = true \/
         HelmChartHash (generated_yaml w) <> hash) /\
        (existsb is_ReadYaml evs = false ->
         r = Ret (Up.set_pod (fst res) cmd) /\
         existsb is_InstallChart evs = false /\
         existsb is_GeneratedSave evs = false /\
         generated_yaml w' = generated_yaml w).
Proof.
  intros env config cmd w w' r H.
  unfold Up.buildAndDeploy, Up.LoadConfig, Up.SaveConfig, Up.buildImages in H.
  run_cases H; use_build_and_deploy;
    (eexists; split;
     [ rewrite ?record_extend, ?extend_extend;
       cbn [trace write_generated extend]; reflexivity | ]);
    intros hash res Hhash Hpod;
    cbn [fst snd] in *; locate_event.
  all: match goal with
       | Hbev : forallb is_build_event ?bevs = true |- _ =>
           pose proof (build_events_are_no_deploy_events _ Hbev) as Hnoread
       end.
  all: try match goal with
           | Hdev : forallb is_deploy_event ?devs = true |- _ =>
               pose proof (deploy_events_are_no_build_events _ Hdev) as Hnobuild
           end.
  all: rewrite ?existsb_app;
    repeat match goal with Hq : existsb _ _ = _ |- _ => rewrite Hq end;
    cbn [existsb is_ReadYaml is_rebuild is_InstallChart is_GeneratedSave orb
         generated_yaml write_generated extend record fst snd];
    rewrite ?orb_false_r, ?orb_true_r.
  all: match goal with
       | Hbres : HelmChartHash ?g = _ /\ _ = false || existsb is_rebuild ?bevs |- _ =>
           destruct Hbres as [Hg Hb]; cbn in Hg, Hb
       end.
  all: match goal with
       | Hc : _ || _ || _ || negb (HelmChartHash _ =? _)%string = true |- _ =>
           split; [| intros HH; discriminate HH];
           split; [intros _ | reflexivity];
           apply orb_true_iff in Hc; destruct Hc as [Hc | Hc];
           [ apply orb_true_iff in Hc; destruct Hc as [Hc | Hc];
             [ apply orb_true_iff in Hc; destruct Hc as [Hc | Hc];
               [ left; first [discriminate | discriminate Hc]
               | right; left; congruence ]
             | right; right; left; exact Hc ]
           | right; right; right; rewrite <- Hg;
             apply negb_true_iff in Hc; now apply String.eqb_neq ]
       | Hc : _ || _ || _ || negb (HelmChartHash _ =? _)%string = false |- _ =>
           apply orb_false_iff in Hc; destruct Hc as [Hc Hc4];
           apply orb_false_iff in Hc; destruct Hc as [Hc Hc3];
           apply orb_false_iff in Hc; destruct Hc as [Hc1 Hc2];
           split; [| intros _; repeat split];
           split; [intros HH; discriminate HH |];
           intros [Hw | [Hw | [Hw | Hw]]]; exfalso;
           [ first [apply Hw; reflexivity | discriminate Hc1]
           | congruence
           | congruence
           | apply Hw; rewrite <- Hg; apply negb_false_iff in Hc4;
             now apply String.eqb_eq ]
       end.
Qed.

(** C1 (as amended).  The fingerprint on disk and a deployment that did
    not get ready.  In every run of buildAndDeploy:
    - if the wait for the release pod failed, the process ends ([Exit], from
      log.Fatal), the generated configuration on disk is what it was, and
      [generated.SaveConfig] was not called; and the next run, whatever it is
      run with on the disk this one left, deploys again exactly when one of
      its own reasons holds: its lookup of the running pod fails, it had to
      rebuild an image, its deploy flag is set, or the hash of the chart
      directory is not the fingerprint that was on disk before the failed
      run.  Without such a reason it returns with the pod it found and
      installs nothing: that the last deployment failed is not remembered;
    - whenever the run does not return, the generated configuration on disk
      is what it was;
    - if the generated configuration on disk has changed, or SaveConfig was
      called at all, then the call comes right after a successful
      install-or-upgrade and the successful wait for its revision (and it
      is the only such call). *)
Theorem fingerprint_written_only_after_ready_deployment :
  forall (env : Up.Env) (config : UpConfig) (cmd : Up.UpCmd) (w w' : World)
         (r : Outcome Up.UpCmd),
    Up.buildAndDeploy env config cmd w = (r, w') ->
    exists evs,
      trace w' = trace w ++ evs /\
      (existsb is_failed_wait evs = true ->
       r = Halted Exit /\ generated_yaml w' = generated_yaml w /\
       existsb is_GeneratedSave evs = false /\
       forall (env2 : Up.Env) (config2 : UpConfig) (cmd2 : Up.UpCmd) (w2 w2' : World)
              (r2 : Outcome Up.UpCmd),
         generated_yaml w2 = generated_yaml w' ->
         Up.buildAndDeploy env2 config2 cmd2 w2 = (r2, w2') ->
         exists evs2,
           trace w2' = trace w2 ++ evs2 /\
           forall (hash : string) (res : Go.result Pod),
             In (HashDirectory "chart" hash None) evs2 ->
             In (GetRunningDevSpacePod res) evs2 ->
             (existsb is_ReadYaml evs2 = true <->
              snd res <> None \/
              existsb is_rebuild evs2 = true \/
              Up.deploy (Up.flags cmd2) = true \/
              HelmChartHash (generated_yaml w) <> hash) /\
             (existsb is_ReadYaml evs2 = false ->
              r2 = Ret (Up.set_pod (fst res) cmd2) /\
              existsb is_InstallChart evs2 = false /\
              existsb is_GeneratedSave evs2 = false /\
              generated_yaml w2' = generated_yaml w)) /\
      (forall h, r = Halted h -> generated_yaml w' = generated_yaml w) /\
      (generated_yaml w' <> generated_yaml w \/ existsb is_GeneratedSave evs = true ->
       exists pre post values rel p c err,
         evs = pre ++ [InstallChartByPath (ReleaseName config) (ReleaseNamespace config)
                                          "chart/" values (Some rel, None);
                       Log Done "Deployed helm chart (Release revision: %d)"
                           [Go.Itoa (Version rel)];
                       WaitForReleasePodToGetReady (ReleaseName config)
                                                   (ReleaseNamespace config)
                                                   (Version rel) (p, None);
                       GeneratedSave c err] ++ post /\
         existsb is_GeneratedSave pre = false /\
         existsb is_GeneratedSave post = false).
Proof.
  intros env config cmd w w' r H.
  assert (Hnext : generated_yaml w' = generated_yaml w ->
                  forall (env2 : Up.Env) (config2 : UpConfig) (cmd2 : Up.UpCmd)
                         (w2 w2' : World) (r2 : Outcome Up.UpCmd),
                    generated_yaml w2 = generated_yaml w' ->
                    Up.buildAndDeploy env2 config2 cmd2 w2 = (r2, w2') ->
                    exists evs2,
                      trace w2' = trace w2 ++ evs2 /\
                      forall (hash : string) (res : Go.result Pod),
                        In (HashDirectory "chart" hash None) evs2 ->
                        In (GetRunningDevSpacePod res) evs2 ->
                        (existsb is_ReadYaml evs2 = true <->
                         snd res <> None \/
                         existsb is_rebuild evs2 = true \/
                         Up.deploy (Up.flags cmd2) = true \/
                         HelmChartHash (generated_yaml w) <> hash) /\
                        (existsb is_ReadYaml evs2 = false ->
                         r2 = Ret (Up.set_pod (fst res) cmd2) /\
                         existsb is_InstallChart evs2 = false /\
                         existsb is_GeneratedSave evs2 = false /\
                         generated_yaml w2' = generated_yaml w)).
  { intros Hsame env2 config2 cmd2 w2 w2' r2 Hdisk H2.
    destruct (buildAndDeploy_decision _ _ _ _ _ _ H2) as (evs2 & Htr2 & Hdec).
    exists evs2. split; [exact Htr2 |].
    rewrite <- Hsame, <- Hdisk. exact Hdec. }
  revert Hnext.
  unfold Up.buildAndDeploy, Up.LoadConfig, Up.SaveConfig, Up.buildImages in H.
  run_cases H; use_build_and_deploy; intros Hnext;
    (eexists; split;
     [ rewrite ?record_extend, ?extend_extend;
       cbn [trace write_generated extend]; reflexivity | ]);
    rewrite ?existsb_app;
    repeat match goal with Hq : existsb _ _ = false |- _ => rewrite Hq end;
    cbn [existsb is_failed_wait is_GeneratedSave orb fst snd
         generated_yaml write_generated extend record app] in *;
    (split;
     [ intros HH;
       first [ discriminate HH
             | match goal with
               | Hw : existsb is_failed_wait _ = true -> _ |- _ =>
                   specialize (Hw HH); injection Hw as ->;
                   repeat split; auto; exact (Hnext eq_refl)
               end ]
     | split;
       [ intros h0 HH; first [reflexivity | discriminate HH]
       | intros HH;
         first [ rewrite trace_shape; do 7 eexists;
                 split; [reflexivity |];
                 cbn [existsb is_GeneratedSave orb]; rewrite ?existsb_app;
                 repeat match goal with
                        | Hq : existsb _ _ = false |- _ => rewrite Hq
                        end;
                 split; reflexivity
               | destruct HH as [HH | HH];
                 [ exfalso; apply HH; reflexivity | discriminate HH ] ] ] ]).
Qed.


(** A chart that has changed is deployed again: in every run of
    buildAndDeploy that got as far as looking for the running pod, if the
    hash of the chart directory is not the fingerprint on disk, deployChart
    is entered.  This is why a deployment that did not get ready is
    attempted again by the next run: the fingerprint on disk is still the
    old one. *)
Lemma changed_chart_is_deployed_again :
  forall (env : Up.Env) (config : UpConfig) (cmd : Up.UpCmd) (w w' : World)
         (r : Outcome Up.UpCmd),
    Up.buildAndDeploy env config cmd w = (r, w') ->
    exists evs,
      trace w' = trace w ++ evs /\
      forall (hash : string) (res : Go.result Pod),
        In (HashDirectory "chart" hash None) evs ->
        In (GetRunningDevSpacePod res) evs ->
        HelmChartHash (generated_yaml w) <> hash ->
        existsb is_ReadYaml evs = true.
Proof.
  intros env config cmd w w' r H.
  unfold Up.buildAndDeploy, Up.LoadConfig, Up.SaveConfig, Up.buildImages in H.
  run_cases H; use_build_and_deploy;
    (eexists; split;
     [ rewrite ?record_extend, ?extend_extend;
       cbn [trace write_generated extend]; reflexivity | ]);
    intros hash res Hhash Hpod Hne;
    cbn [fst snd] in *; locate_event;
    rewrite ?existsb_app;
    try match goal with Hq : existsb is_ReadYaml _ = true |- _ => rewrite Hq end;
    cbn [existsb is_ReadYaml orb]; rewrite ?orb_true_r; try reflexivity.
  all: exfalso; apply Hne;
    match goal with
    | Hbres : HelmChartHash ?g = _ /\ _,
      Hc : _ || _ || _ || negb (HelmChartHash ?g =? ?s)%string = false |- _ =>
        destruct Hbres as [Hg _]; cbn in Hg; rewrite <- Hg;
        apply orb_false_iff in Hc; destruct Hc as [_ Hc];
        apply negb_false_iff in Hc; now apply String.eqb_eq
    end.
Qed.


(* --------------------------------------------------------------------- *)
(** ** Runs of the up command on examples *)
(* --------------------------------------------------------------------- *)

(** An environment in which everything works, except what the arguments
    say: the pod of the release that is running, what the wait for the
    release pod gives, the hash of the chart directory, what the pod lookup
    gives for a selector, what starting a sync session gives, and whether
    the forwarder is ready within the 5 s. *)
Definition exampleUpEnv (running waited : Go.result Pod) (chartHash : string)
           (lookupPod : string -> Go.result Pod) (started : option Go.error)
           (ready : bool) : Up.Env :=
  Up.mkEnv (fun _ => None)
           (fun _ generatedConfig _ _ _ => (false, ImageTags generatedConfig, None))
           (fun _ _ => (chartHash, None))
           (fun _ => running)
           (fun _ _ => ([], None))
           (fun _ imageConf _ => imageConf)
           (fun url => url)
           (fun _ _ _ _ _ => (Some (mkRelease 2), None))
           (fun _ _ _ _ => waited)
           (fun _ _ => None)
           (fun _ path => ("/home/dev/" ++ path, None)%string)
           (fun _ labels _ => lookupPod labels)
           (fun _ _ => started)
           (fun _ _ _ => ready).

Definition podApp : Pod :=
  mkPod "default" "devspace-app-1" [mkContainer "app"; mkContainer "sidecar"].

Definition podBare : Pod := mkPod "default" "devspace-app-0" [].

Definition syncApp : SyncConfig :=
  mkSyncConfig None [("release", "devspace-app")] None "src" "/app" None None None.

Definition syncWorker : SyncConfig :=
  mkSyncConfig None [("release", "devspace-app")] (Some "worker") "worker" "/worker"
               None None None.

Definition forwardApp : PortForwardingConfig :=
  mkPortForwarding None None [("release", "devspace-app")] [mkPortMapping 3000 3000].

Definition exampleUpConfig : UpConfig :=
  mkUpConfig [("default", "node:8")] [("internal", mkRegistry (Some "registry.local:5000"))]
             "devspace-app" "default" [syncWorker; syncApp] [forwardApp; forwardApp].

Definition exampleUpCmd : Up.UpCmd := Up.mkUpCmd Up.UpFlagsDefault "/home/dev" None.

Definition withoutSync (cmd : Up.UpCmd) : Up.UpCmd :=
  Up.mkUpCmd (Up.mkFlags true "cmd" true false false false true false false "")
             (Up.workdir cmd) (Up.pod cmd).

(** The disk holds the fingerprint of the last deployment. *)
Definition deployedWorld : World := mkWorld [] (mkGenerated "hash-1" []) None false.

(** From what a run left, the events it added to an empty trace. *)
Ltac events_of Htr :=
  apply (f_equal trace) in Htr; cbn in Htr; subst.

Lemma fingerprint_written_only_after_ready_deployment_witness :
  let env := exampleUpEnv (Some podApp, None) (None, Some "timed out") "hash-2"
                          (fun _ => (Some podApp, None)) None true in
  let run := Up.buildAndDeploy env exampleUpConfig exampleUpCmd deployedWorld in
  let next := Up.buildAndDeploy env exampleUpConfig exampleUpCmd (snd run) in
  (fst run = Halted Exit /\
   generated_yaml (snd run) = mkGenerated "hash-1" [] /\
   existsb is_GeneratedSave (trace (snd run)) = false) /\
  exists evs2,
    trace (snd next) = trace (snd run) ++ evs2 /\
    existsb is_ReadYaml evs2 = true.
Proof.
  intros env run next.
  destruct (fingerprint_written_only_after_ready_deployment
              env exampleUpConfig exampleUpCmd deployedWorld (snd run) (fst run) eq_refl)
    as (evs & Htr & Hfail & _).
  cbn in Htr. subst evs.
  destruct (Hfail eq_refl) as (Hr & Hdisk & Hsave & Hnext).
  split; [split; [exact Hr | split; [exact Hdisk | exact Hsave]] |].
  destruct (Hnext env exampleUpConfig exampleUpCmd (snd run) (snd next) (fst next)
                  eq_refl eq_refl) as (evs2 & Htr2 & Hdecides).
  exists evs2. split; [exact Htr2 |].
  assert (Hevs : evs2 = skipn (List.length (trace (snd run))) (trace (snd next))).
  { rewrite Htr2, skipn_app, skipn_all, Nat.sub_diag. reflexivity. }
  cbn in Hevs.
  apply (Hdecides "hash-2" (Some podApp, None)).
  - rewrite Hevs. cbn. auto.
  - rewrite Hevs. cbn. auto.
  - right. right. right. discriminate.
Defined.

(** A release that is not there yet: its pod is not found until the chart
    is installed, and the pod then takes longer to get ready than the wait
    for it allows.  The chart is the one that was deployed last. *)
Definition slowStartEnv : Up.Env :=
  let base := exampleUpEnv (None, Some "no running pod") (None, Some "timed out") "hash-1"
                           (fun _ => (Some podApp, None)) None true in
  Up.mkEnv (Up.generated_LoadConfig base) (Up.image_Build base) (Up.hash_Directory base)
           (fun h => if existsb is_InstallChart h
                     then (Some podApp, None)
                     else (None, Some "no running pod"))
           (Up.yamlutil_ReadYamlFromFile base)
           (Up.registry_GetImageURL base) (Up.registry_GetRegistryAuthSecretName base)
           (Up.helm_InstallChartByPath base) (Up.helm_WaitForReleasePodToGetReady base)
           (Up.generated_SaveConfig base) (Up.filepath_Abs base)
           (Up.kubectl_GetFirstRunningPod base) (Up.sync_Start base)
           (Up.forwarding_ready base).

(** C1 (as stated, refuted).  The first run finds no running pod, deploys
    the unchanged chart, and the wait for the release pod times out: the
    process exits and the disk is what it was.  The next run of the same
    command finds the pod, and since the chart still has the fingerprint on
    disk it does not deploy again: it returns with that pod. *)
Lemma failed_deployment_is_not_attempted_again :
  let values := mkOverwrite [("default", mkContainerValues "node:8" false)]
                            ["registry.local:5000"] in
  let first := Up.buildAndDeploy slowStartEnv exampleUpConfig exampleUpCmd deployedWorld in
  let next := Up.buildAndDeploy slowStartEnv exampleUpConfig exampleUpCmd (snd first) in
  fst first = Halted Exit /\
  trace (snd first)
  = [GeneratedLoad None;
     ImageBuild "default" "node:8" false false None;
     HashDirectory "chart" "hash-1" None;
     GetRunningDevSpacePod (None, Some "no running pod");
     ReadYamlFromFile "chart/values.yaml" None;
     InstallChartByPath "devspace-app" "default" "chart/" values (Some (mkRelease 2), None);
     Log Done "Deployed helm chart (Release revision: %d)" ["2"];
     WaitForReleasePodToGetReady "devspace-app" "default" 2 (None, Some "timed out");
     Log FatalLevel "%v" ["timed out"]] /\
  generated_yaml (snd first) = generated_yaml deployedWorld /\
  fst next = Ret (Up.set_pod (Some podApp) exampleUpCmd) /\
  trace (snd next)
  = trace (snd first)
    ++ [GeneratedLoad None;
        ImageBuild "default" "node:8" false false None;
        HashDirectory "chart" "hash-1" None;
        GetRunningDevSpacePod (Some podApp, None)].
Proof.
  cbn. repeat split.
Qed.


(** C5 (as stated, refuted).  No pod matches: the lookup succeeds and gives
    no pod for the sync declarations and for the port forwardings of the
    example.  Both loops return, and no warning is in the trace. *)
Lemma unresolved_pod_is_skipped_without_warning :
  let env := exampleUpEnv (None, None) (None, None) "hash-1"
                          (fun _ => (None, None)) None true in
  let sessions := Up.startSync env exampleUpConfig exampleUpCmd deployedWorld in
  let forwards := Up.startPortForwarding env exampleUpConfig deployedWorld in
  fst sessions = Ret [] /\
  fst forwards = Ret tt /\
  In (GetFirstRunningPod "release=devspace-app" "default" (None, None))
     (trace (snd sessions)) /\
  In (GetFirstRunningPod "release=devspace-app" "default" (None, None))
     (trace (snd forwards)) /\
  ~ (exists format args, In (Log Warn format args) (trace (snd sessions))) /\
  ~ (exists format args, In (Log Warn format args) (trace (snd forwards))).
Proof.
  cbn. repeat split; auto.
  - intros (format & args & H). in_trace.
  - intros (format & args & H). in_trace.
Qed.

Lemma unresolved_pod_is_skipped_silently_witness :
  let env := exampleUpEnv (None, None) (None, None) "hash-1"
                          (fun _ => (None, None)) None true in
  let session := Up.syncOne env exampleUpConfig exampleUpCmd syncApp [] deployedWorld in
  let forward := Up.forwardOne env exampleUpConfig forwardApp deployedWorld in
  (fst session = Ret [] /\ existsb is_Log (trace (snd session)) = false) /\
  (fst forward = Ret tt /\ existsb is_Log (trace (snd forward)) = false).
Proof.
  intros env session forward.
  destruct (unresolved_pod_is_skipped_silently env exampleUpConfig exampleUpCmd)
    as [Hsync Hforward].
  split.
  - destruct (Hsync syncApp [] deployedWorld (fst session) (snd session) eq_refl)
      as (evs & Htr & Hnone & _).
    events_of Htr.
    destruct (Hnone "release=devspace-app" "default") as (Hr & Hlog & _);
      [cbn; auto |].
    split; [exact Hr | exact Hlog].
  - destruct (Hforward forwardApp deployedWorld (fst forward) (snd forward) eq_refl)
      as (evs & Htr & Hnone & _).
    events_of Htr.
    destruct (Hnone "release=devspace-app" "default") as (Hr & Hlog & _);
      [cbn; auto |].
    split; [exact Hr | exact Hlog].
Defined.

Lemma session_failure_policy_is_asymmetric_witness :
  let failing := exampleUpEnv (Some podApp, None) (Some podApp, None) "hash-1"
                              (fun _ => (Some podApp, None)) (Some "exec failed") false in
  let cmd := Up.set_pod (Some podApp) exampleUpCmd in
  let found := GetFirstRunningPod "release=devspace-app" "default" (Some podApp, None) in
  let timeout := [found; ForwardPorts podApp ["3000:3000"]; ForwardReady false;
                  Log Error "Timeout waiting for port forwarding to start" []] in
  let session := mkSyncSession podApp (mkContainer "app") "/home/dev/src" "/app" false
                               [] [] [] in
  let run := Up.runSessions failing exampleUpConfig cmd [] deployedWorld in
  let quiet := Up.runSessions failing exampleUpConfig (withoutSync cmd) [] deployedWorld in
  (fst run = Halted Exit /\ existsb is_EnterTerminal (trace (snd run)) = false) /\
  Up.syncOne failing exampleUpConfig cmd syncApp [] deployedWorld
  = (Halted Exit,
     extend deployedWorld [FilepathAbs "src" "/home/dev/src" None; found;
                           SyncStart session (Some "exec failed");
                           Log FatalLevel "Sync error: %s" ["exec failed"]]) /\
  Up.forwardOne failing exampleUpConfig forwardApp deployedWorld
  = (Ret tt, extend deployedWorld timeout) /\
  quiet = (Ret tt,
           extend deployedWorld (timeout ++ timeout ++ [EnterTerminal (Some podApp) "" []])).
Proof.
  intros failing cmd found timeout session run quiet.
  split; [| split; [| split]].
  - destruct (session_failure_policy_is_asymmetric failing exampleUpConfig cmd [])
      as (_ & Hrun & _).
    destruct (Hrun deployedWorld (fst run) (snd run) eq_refl) as (evs & Htr & Hfatal).
    events_of Htr. exact (Hfatal eq_refl).
  - destruct (session_failure_policy_is_asymmetric failing exampleUpConfig cmd [])
      as (_ & _ & _ & _ & _ & Hsync & _).
    exact (Hsync syncApp [] deployedWorld "/home/dev/src" podApp
                 (mkContainer "app") [mkContainer "sidecar"] (mkContainer "app")
                 "exec failed" eq_refl eq_refl eq_refl eq_refl eq_refl).
  - destruct (session_failure_policy_is_asymmetric failing exampleUpConfig cmd [])
      as (_ & _ & _ & _ & _ & _ & Hforward).
    apply (Hforward forwardApp deployedWorld podApp);
      [left; reflexivity | discriminate | reflexivity | reflexivity].
  - destruct (session_failure_policy_is_asymmetric
                failing exampleUpConfig (withoutSync cmd) [])
      as (_ & _ & _ & _ & Hattach & _).
    destruct (Hattach deployedWorld) as (evs & Hfwd & _ & Hterm).
    specialize (Hterm eq_refl eq_refl).
    assert (Hevs : evs = timeout ++ timeout).
    { apply (f_equal (fun x => trace (snd x))) in Hfwd. cbn in Hfwd. now subst evs. }
    subst evs.
    assert (Hq : quiet = Up.runSessions failing exampleUpConfig (withoutSync cmd) []
                                        deployedWorld) by reflexivity.
    rewrite Hq, Hterm, <- app_assoc. reflexivity.
Defined.

Lemma startSync_container_selection_witness :
  let env := exampleUpEnv (Some podApp, None) (Some podApp, None) "hash-1"
                          (fun _ => (Some podApp, None)) None true in
  let named := Up.syncOne env exampleUpConfig exampleUpCmd syncWorker [] deployedWorld in
  let unnamed := Up.syncOne env exampleUpConfig exampleUpCmd syncApp [] deployedWorld in
  (fst named = Ret [] /\ existsb is_SyncStart (trace (snd named)) = false) /\
  (exists s err,
      In (SyncStart s err) (trace (snd unnamed)) /\
      ssPod s = podApp /\ ssContainer s = mkContainer "app") /\
  Up.syncLoop env exampleUpConfig exampleUpCmd [syncWorker; syncApp] [] deployedWorld
  = Up.syncLoop env exampleUpConfig exampleUpCmd [syncApp] [] (snd named).
Proof.
  intros env named unnamed.
  destruct (startSync_container_selection env exampleUpConfig exampleUpCmd)
    as [Hbody Hnext].
  split; [| split].
  - destruct (Hbody syncWorker [] deployedWorld (fst named) (snd named) eq_refl)
      as (evs & Htr & _ & Habsent).
    events_of Htr.
    destruct (Habsent "release=devspace-app" "default" podApp "worker" eq_refl)
      as (Hr & Hs & _).
    + discriminate.
    + cbn; auto.
    + intros c [<- | [<- | []]]; discriminate.
    + split; [exact Hr | exact Hs].
  - destruct (Hbody syncApp [] deployedWorld (fst unnamed) (snd unnamed) eq_refl)
      as (evs & Htr & Hfirst & _).
    events_of Htr.
    destruct (Hfirst "release=devspace-app" "default" podApp
                     (mkContainer "app") [mkContainer "sidecar"])
      as (s & err & Hin & Hp & Hc & _).
    + left; reflexivity.
    + cbn; auto.
    + reflexivity.
    + exists s, err. auto.
  - apply (Hnext syncWorker [syncApp] [] deployedWorld (snd named)). reflexivity.
Defined.

Lemma startSync_pod_without_containers_is_skipped_witness :
  let env := exampleUpEnv (Some podBare, None) (Some podBare, None) "hash-1"
                          (fun _ => (Some podBare, None)) None true in
  let run := Up.syncOne env exampleUpConfig exampleUpCmd syncApp [] deployedWorld in
  fst run = Ret [] /\
  trace (snd run)
  = [FilepathAbs "src" "/home/dev/src" None;
     GetFirstRunningPod "release=devspace-app" "default" (Some podBare, None);
     Log Warn "Cannot start sync on pod, because selected pod %s/%s has no containers"
         ["default"; "devspace-app-0"]] /\
  existsb is_SyncStart (trace (snd run)) = false /\
  existsb is_index_panic (trace (snd run)) = false.
Proof.
  intros env run.
  destruct (startSync_pod_without_containers_is_skipped
              env exampleUpConfig exampleUpCmd syncApp [] deployedWorld (snd run) (fst run)
              eq_refl)
    as (evs & Htr & Hpanic & Hskip & Hexact).
  destruct (Hexact "/home/dev/src" podBare eq_refl eq_refl eq_refl) as (Hr & Hevs).
  rewrite Htr. cbn [trace extend deployedWorld app].
  destruct (Hskip "release=devspace-app" "default" podBare) as (_ & Hs & _);
    [rewrite Hevs; cbn; auto | reflexivity |].
  split; [exact Hr |]. split; [exact Hevs |]. split; [exact Hs | exact Hpanic].
Defined.

(* ===================================================================== *)
(** * More of pkg/devspace/helm *)
(* ===================================================================== *)

Definition is_TunnelNew (e : Event) : bool :=
  match e with
  | TunnelNew _ _ => true
  | _ => false
  end.

Definition is_ListReleases (e : Event) : bool :=
  match e with
  | ListReleases _ _ => true
  | _ => false
  end.

Definition is_CreateTillerRBAC (e : Event) : bool :=
  match e with
  | CreateTillerRBAC _ => true
  | _ => false
  end.

Definition is_HelmInstall (e : Event) : bool :=
  match e with
  | HelmInstall _ _ => true
  | _ => false
  end.

Definition is_HelmUpgrade (e : Event) : bool :=
  match e with
  | HelmUpgrade _ _ => true
  | _ => false
  end.

(** A call that creates or changes something in the cluster. *)
Definition is_cluster_change (e : Event) : bool :=
  match e with
  | NamespaceCreate _ _ => true
  | CreateTillerRBAC _ => true
  | HelmInstall _ _ => true
  | HelmUpgrade _ _ => true
  | _ => false
  end.

(** What the loop of waitUntilTillerIsStarted can add. *)
Definition is_wait_event (e : Event) : bool :=
  match e with
  | DeploymentGet _ _ _ => true
  | Sleep _ => true
  | Log PanicLevel _ _ => true
  | _ => false
  end.

(** How many events of a kind a trace has. *)
Definition count (p : Event -> bool) (evs : Trace) : nat :=
  List.length (filter p evs).

Lemma count_app p a b : count p (a ++ b) = (count p a + count p b)%nat.
Proof. unfold count. now rewrite filter_app, length_app. Qed.

Lemma wait_events_change_nothing (l : Trace) :
  forallb is_wait_event l = true ->
  existsb is_cluster_change l = false /\
  existsb is_HelmInstall l = false /\
  existsb is_HelmUpgrade l = false /\
  existsb is_CreateTillerRBAC l = false.
Proof.
  induction l as [|e l IH]; simpl; [auto |].
  intros H. apply andb_prop in H. destruct H as [He Hl].
  destruct (IH Hl) as (H1 & H2 & H3 & H4). rewrite H1, H2, H3, H4.
  destruct e; try discriminate He; auto.
Qed.

Section MoreHelmFacts.
Variable env : Helm.Env.

(** Finish a case of a loop: the run has returned, or it went round once
    more and the induction hypothesis [IH] says what the rest added. *)
Ltac loop_case IH H :=
  first
    [ injection H as <- <-; give_events
    | apply IH in H;
      let evs := fresh "evs" in
      destruct H as (evs & -> & H);
      rewrite ?record_extend, ?extend_extend; eexists; split; [reflexivity |] ].

Lemma waitLoop_events fuel config : forall t w r w',
  Helm.waitLoop env fuel config t w = (r, w') ->
  exists evs, w' = extend w evs /\ forallb is_wait_event evs = true.
Proof.
  induction fuel as [|fuel IH]; intros t w r w' H; cbn [Helm.waitLoop] in H.
  - destruct (t >? 0)%Z; injection H as <- <-; exists []; now rewrite extend_nil.
  - destruct (t >? 0)%Z; [| injection H as <- <-; exists []; now rewrite extend_nil].
    unfold Helm.derefTillerNamespace in H.
    revert H; run_unfold; repeat split_answer; intros H;
      loop_case IH H; cbn [app forallb is_wait_event andb]; first [exact H | reflexivity].
Qed.

End MoreHelmFacts.

(** Go through every path of a run whose last step may be the loop of
    waitUntilTillerIsStarted. *)
Ltac run_paths H :=
  match goal with
  | |- ?G =>
      let P := fresh "P" in
      set (P := G); revert H; run_unfold;
      repeat first
        [ match goal with
          | |- context [snd ?x] => destruct x eqn:?; cbn [fst snd]
          end
        | split_answer ];
      intros H; subst P
  end.

Ltac wait_tail H :=
  first
    [ injection H as <- <-
    | apply waitLoop_events in H;
      let wevs := fresh "wevs" in
      let Hwait := fresh "Hwait" in
      destruct H as (wevs & -> & Hwait);
      destruct (wait_events_change_nothing _ Hwait) as (? & ? & ? & ?) ].

(** Use up what is known about an event that is in the trace of a run that
    may end in the wait loop. *)
Ltac locate_wait :=
  repeat match goal with
         | H : In _ (_ ++ _) |- _ => apply in_app_or in H; destruct H as [H | H]
         | H : In _ (_ :: _) |- _ => destruct H as [H | H]
         | H : In _ [] |- _ => destruct H
         | H : In ?e ?l, Hall : forallb is_wait_event ?l = true |- _ =>
             apply (proj1 (forallb_forall _ _) Hall) in H; discriminate H
         | H : @eq Event _ _ |- _ => first [discriminate H | injection H as ?; subst]
         | H : @eq (option _) _ _ |- _ => first [discriminate H | injection H as ?; subst]
         end.

Ltac rewrite_quiet :=
  rewrite ?existsb_app;
  repeat match goal with Hq : existsb _ _ = false |- _ => rewrite Hq end.

(** createTiller: the roles are set up exactly when the service account
    could not be read ("if the service account is already there we do not
    create it or any roles"), a failure there is returned without
    installing, and otherwise the result is what the installer answered. *)
Theorem createTiller_sets_up_rbac_only_without_service_account :
  forall (env : Helm.Env) (config : HelmConfig) (o : TillerOptions) (w w' : World)
         (r : Outcome (option Go.error)),
    Helm.createTiller env config o w = (r, w') ->
    exists evs,
      w' = extend w evs /\
      (forall ns name,
          In (ServiceAccountGet ns name None) evs ->
          existsb is_CreateTillerRBAC evs = false /\
          exists answer, r = Ret answer /\ In (HelmInstall o answer) evs) /\
      (forall ns name e,
          In (ServiceAccountGet ns name (Some e)) evs ->
          existsb is_CreateTillerRBAC evs = true) /\
      (forall e,
          In (CreateTillerRBAC (Some e)) evs ->
          r = Ret (Some e) /\ existsb is_HelmInstall evs = false) /\
      (r = Ret None -> In (HelmInstall o None) evs).
Proof.
  intros env config o w w' r H.
  unfold Helm.createTiller, Helm.derefTillerNamespace in H.
  run_cases H; give_events; repeat split;
    try (intros; in_trace; fail);
    try (intros HH; discriminate HH);
    try (intros; in_trace; simpl; eauto; fail).
  all: intros HH; injection HH as ->; simpl; auto.
Qed.

(** ensureTiller on a backend that is there: when the namespace and the
    deployment can be read and no upgrade is asked for, nothing is created,
    installed or upgraded; the calls are look-ups (and sleeps). *)
Theorem ensureTiller_changes_nothing_on_a_present_backend :
  forall (env : Helm.Env) (fuel : nat) (config : HelmConfig) (w w' : World)
         (r : Outcome (option Go.error)),
    Helm.ensureTiller env fuel config false w = (r, w') ->
    exists evs,
      w' = extend w evs /\
      ((forall ns e, ~ In (NamespaceGet ns (Some e)) evs) ->
       (forall ns name st e, ~ In (DeploymentGet ns name (st, Some e)) evs) ->
       existsb is_cluster_change evs = false).
Proof.
  intros env fuel config w w' r H.
  unfold Helm.ensureTiller, Helm.createTiller, Helm.upgradeTiller,
    Helm.waitUntilTillerIsStarted, Helm.derefTillerNamespace in H.
  run_paths H; wait_tail H;
    (eexists; split;
     [ rewrite ?record_extend, ?extend_extend; reflexivity | ]);
    intros Hns Hdep; rewrite_quiet; cbn [app existsb is_cluster_change orb];
    try reflexivity;
    exfalso;
    first [ eapply Hns; rewrite ?in_app_iff; cbn [In]; solve [eauto 15]
          | eapply Hdep; rewrite ?in_app_iff; cbn [In]; solve [eauto 15] ].
Qed.

Definition is_DeploymentGet (e : Event) : bool :=
  match e with
  | DeploymentGet _ _ _ => true
  | _ => false
  end.

(** Where a trace has its first event of a kind. *)
Lemma first_split {A : Type} (P : A -> bool) (a : list A) : forall x b a' x' b',
  existsb P a = false -> existsb P a' = false ->
  P x = true -> P x' = true ->
  a ++ x :: b = a' ++ x' :: b' ->
  a = a' /\ x = x' /\ b = b'.
Proof.
  induction a as [|z a IH]; intros x b a' x' b' Ha Ha' Hx Hx' Heq.
  - destruct a' as [|y a'']; cbn [app] in Heq; injection Heq as -> Hb.
    + auto.
    + cbn [existsb] in Ha'. rewrite Hx in Ha'. discriminate Ha'.
  - cbn [existsb] in Ha. apply orb_false_iff in Ha. destruct Ha as [Hz Ha].
    destruct a' as [|y a'']; cbn [app] in Heq; injection Heq as -> Heq.
    + congruence.
    + cbn [existsb] in Ha'. apply orb_false_iff in Ha'. destruct Ha' as [_ Ha'].
      destruct (IH _ _ _ _ _ Ha Ha' Hx Hx' Heq) as (-> & -> & ->). auto.
Qed.

(** A trace without an event of a kind is not one with such an event. *)
Lemma no_split {A : Type} (P : A -> bool) (l a : list A) (x : A) (b : list A) :
  existsb P l = false -> P x = true -> l = a ++ x :: b -> False.
Proof.
  intros Hl Hx ->. rewrite existsb_app in Hl. cbn [existsb] in Hl.
  rewrite Hx, orb_true_r in Hl. discriminate Hl.
Qed.

(** ensureTiller installs or upgrades, never both, and which of the two
    depends on the lookup of the tiller deployment, the first lookup of a
    deployment in the run.  When that lookup fails, tiller is not upgraded,
    and it is installed with the image of the package unless setting up the
    roles fails; when the deployment is found, nothing is installed and no
    role is set up, and tiller is upgraded, once, right after the lookup and
    with no image named, exactly when the upgrade was asked for.  When the
    namespace cannot be created, or the roles, the installation or the
    upgrade fail, that error is returned and the deployment is not waited
    for. *)
Theorem ensureTiller_installs_or_upgrades :
  forall (env : Helm.Env) (fuel : nat) (config : HelmConfig) (upgrade : bool)
         (w w' : World) (r : Outcome (option Go.error)),
    Helm.ensureTiller env fuel config upgrade w = (r, w') ->
    exists evs,
      w' = extend w evs /\
      existsb is_HelmInstall evs && existsb is_HelmUpgrade evs = false /\
      (existsb is_HelmUpgrade evs = true -> upgrade = true) /\
      (existsb is_HelmInstall evs = true ->
       exists ns name st e, In (DeploymentGet ns name (st, Some e)) evs) /\
      (forall e,
          (exists ns, In (NamespaceCreate ns (Some e)) evs) \/
          In (CreateTillerRBAC (Some e)) evs \/
          (exists o, In (HelmInstall o (Some e)) evs) \/
          (exists o, In (HelmUpgrade o (Some e)) evs) ->
          r = Ret (Some e) /\ slept evs = 0%Z) /\
      (forall head ns name st err rest,
          evs = head ++ DeploymentGet ns name (st, err) :: rest ->
          existsb is_DeploymentGet head = false ->
          name = Helm.TillerDeploymentName /\
          existsb is_HelmInstall head = false /\
          existsb is_HelmUpgrade head = false /\
          match err with
          | Some _ =>
              existsb is_HelmUpgrade rest = false /\
              ((exists e, In (CreateTillerRBAC (Some e)) rest) \/
               (exists answer,
                   In (HelmInstall
                         (mkTillerOptions ns 10 "gcr.io/kubernetes-helm/tiller:v2.11.0"
                                          (Helm.TillerServiceAccountName env))
                         answer) rest))
          | None =>
              existsb is_HelmInstall rest = false /\
              existsb is_CreateTillerRBAC rest = false /\
              if upgrade
              then exists answer post,
                     rest = HelmUpgrade
                              (mkTillerOptions ns 10 "" (Helm.TillerServiceAccountName env))
                              answer :: post /\
                     existsb is_HelmUpgrade post = false
              else existsb is_HelmUpgrade rest = false
          end).
Proof.
  intros env fuel config upgrade w w' r H.
  unfold Helm.ensureTiller, Helm.createTiller, Helm.upgradeTiller,
    Helm.waitUntilTillerIsStarted, Helm.derefTillerNamespace in H.
  run_paths H; wait_tail H;
    (eexists; split;
     [ rewrite ?record_extend, ?extend_extend; reflexivity | ]);
    rewrite_quiet;
    cbn [app existsb is_HelmInstall is_HelmUpgrade orb andb];
    (split; [reflexivity |]);
    (split; [intros HH; first [discriminate HH | assumption] |]);
    (split;
     [ intros HH;
       first [ discriminate HH
             | do 4 eexists; rewrite ?in_app_iff; cbn [In]; solve [eauto 15] ]
     | ]);
    (split;
     [ intros e' HH;
       destruct HH as [[ns' HH] | [HH | [[o' HH] | [o' HH]]]];
       locate_wait; (split; reflexivity)
     | intros head ns name st err rest Heq Hhead ]).
  all: try (exfalso; refine (no_split is_DeploymentGet _ _ _ _ _ _ Heq); reflexivity).
  all: cbn [app] in Heq;
    match type of Heq with
    | ?e1 :: DeploymentGet ?a ?b ?c :: ?tl = ?h ++ ?x :: ?tl' =>
        destruct (first_split is_DeploymentGet [e1] (DeploymentGet a b c) tl h x tl'
                              eq_refl Hhead eq_refl eq_refl Heq) as (<- & Hev & <-)
    | ?e1 :: ?e2 :: ?e3 :: DeploymentGet ?a ?b ?c :: ?tl = ?h ++ ?x :: ?tl' =>
        destruct (first_split is_DeploymentGet [e1; e2; e3] (DeploymentGet a b c) tl h x tl'
                              eq_refl Hhead eq_refl eq_refl Heq) as (<- & Hev & <-)
    end;
    injection Hev as <- <- <- <-.
  all: cbn [toNamespace toMaxHistory toServiceAccount];
    rewrite_quiet;
    cbn [existsb is_HelmInstall is_HelmUpgrade is_CreateTillerRBAC orb];
    repeat split; try reflexivity; try assumption;
    try (right; eexists; rewrite ?in_app_iff; cbn [In]; solve [eauto 10]);
    try (left; eexists; rewrite ?in_app_iff; cbn [In]; solve [eauto 10]);
    try (do 2 eexists; split; [reflexivity |]; rewrite_quiet; reflexivity).
Qed.

Lemma ensureTiller_changes_nothing_on_a_present_backend_witness :
  let config := mkHelmConfig (Some (mkTillerConfig (Some "kube-system"))) in
  let run := Helm.ensureTiller readyHelmEnv 1 config false freshWorld in
  existsb is_cluster_change (trace (snd run)) = false.
Proof.
  intros config run.
  destruct (ensureTiller_changes_nothing_on_a_present_backend
              readyHelmEnv 1 config freshWorld (snd run) (fst run) eq_refl)
    as (evs & Htr & Hsame).
  events_of Htr. apply Hsame.
  - intros ns e H. in_trace.
  - intros ns name st e H. in_trace.
Defined.

Lemma createTiller_sets_up_rbac_only_without_service_account_witness :
  let config := mkHelmConfig (Some (mkTillerConfig (Some "kube-system"))) in
  let o := mkTillerOptions "kube-system" 10 "gcr.io/kubernetes-helm/tiller:v2.11.0"
                           "devspace-tiller" in
  let found := Helm.createTiller readyHelmEnv config o freshWorld in
  let missing := Helm.createTiller offlineHelmEnv config o freshWorld in
  existsb is_CreateTillerRBAC (trace (snd found)) = false /\
  (fst missing = Ret (Some "connection refused") /\
   existsb is_HelmInstall (trace (snd missing)) = false).
Proof.
  intros config o found missing. split.
  - destruct (createTiller_sets_up_rbac_only_without_service_account
                readyHelmEnv config o freshWorld (snd found) (fst found) eq_refl)
      as (evs & Htr & Hfound & _).
    events_of Htr.
    destruct (Hfound "kube-system" "devspace-tiller") as [Hno _]; [cbn; auto | exact Hno].
  - destruct (createTiller_sets_up_rbac_only_without_service_account
                offlineHelmEnv config o freshWorld (snd missing) (fst missing) eq_refl)
      as (evs & Htr & _ & _ & Hfail & _).
    events_of Htr.
    apply (Hfail "connection refused"). cbn; auto.
Defined.

(** A cluster without tiller: the namespace is there, the deployment and
    the service account are not until tiller is installed, and once it is
    the deployment is ready. *)
Definition emptyClusterEnv : Helm.Env :=
  Helm.mkEnv "devspace-tiller"
             (fun _ _ => None)
             (fun _ _ => None)
             (fun h _ _ => if existsb is_HelmInstall h
                           then (Some (mkStatus 1 1), None)
                           else (None, Some "deployments tiller-deploy not found"))
             (fun h _ _ => if existsb is_HelmInstall h
                           then None
                           else Some "serviceaccounts devspace-tiller not found")
             (fun _ => None)
             (fun _ _ => None)
             (fun _ _ => None)
             (fun _ => None)
             (fun _ _ => (Some 44134%Z, None))
             (fun _ _ => None)
             (fun _ => ("/root", None))
             (fun _ _ => None)
             (fun _ _ => None)
             (fun _ _ => (Some [], None))
             (fun _ _ => None)
             (fun _ _ => None)
             (fun _ => 0%nat).

Lemma ensureTiller_installs_or_upgrades_witness :
  let config := mkHelmConfig (Some (mkTillerConfig (Some "kube-system"))) in
  let image := "gcr.io/kubernetes-helm/tiller:v2.11.0" in
  let failed := Helm.ensureTiller offlineHelmEnv 1 config true freshWorld in
  let installed := Helm.ensureTiller emptyClusterEnv 1 config true freshWorld in
  let upgraded := Helm.ensureTiller readyHelmEnv 1 config true freshWorld in
  (fst failed = Ret (Some "connection refused") /\ slept (trace (snd failed)) = 0%Z) /\
  (trace (snd installed)
   = [NamespaceGet "kube-system" None;
      DeploymentGet "kube-system" "tiller-deploy"
                    (None, Some "deployments tiller-deploy not found");
      ServiceAccountGet "kube-system" "devspace-tiller"
                        (Some "serviceaccounts devspace-tiller not found");
      CreateTillerRBAC None;
      HelmInstall (mkTillerOptions "kube-system" 10 image "devspace-tiller") None;
      Log Done "Tiller started" [];
      DeploymentGet "kube-system" "tiller-deploy" (Some (mkStatus 1 1), None)] /\
   existsb is_HelmUpgrade (trace (snd installed)) = false) /\
  (trace (snd upgraded)
   = [NamespaceGet "kube-system" None;
      DeploymentGet "kube-system" "tiller-deploy" (Some (mkStatus 1 1), None);
      HelmUpgrade (mkTillerOptions "kube-system" 10 "" "devspace-tiller") None;
      DeploymentGet "kube-system" "tiller-deploy" (Some (mkStatus 1 1), None)] /\
   existsb is_HelmInstall (trace (snd upgraded)) = false).
Proof.
  intros config image failed installed upgraded. split; [| split].
  - destruct (ensureTiller_installs_or_upgrades
                offlineHelmEnv 1 config true freshWorld (snd failed) (fst failed) eq_refl)
      as (evs & Htr & _ & _ & _ & Hfail & _).
    events_of Htr.
    apply (Hfail "connection refused"). left. exists "kube-system". cbn; auto.
  - destruct (ensureTiller_installs_or_upgrades
                emptyClusterEnv 1 config true freshWorld (snd installed) (fst installed)
                eq_refl)
      as (evs & Htr & _ & _ & _ & _ & Hlookup).
    events_of Htr. split; [reflexivity |].
    destruct (Hlookup [NamespaceGet "kube-system" None] "kube-system" "tiller-deploy"
                      None (Some "deployments tiller-deploy not found") _ eq_refl eq_refl)
      as (_ & _ & _ & Hnot & _).
    cbn [existsb is_HelmUpgrade orb]. exact Hnot.
  - destruct (ensureTiller_installs_or_upgrades
                readyHelmEnv 1 config true freshWorld (snd upgraded) (fst upgraded) eq_refl)
      as (evs & Htr & _ & _ & _ & _ & Hlookup).
    events_of Htr. split; [reflexivity |].
    destruct (Hlookup [NamespaceGet "kube-system" None] "kube-system" "tiller-deploy"
                      (Some (mkStatus 1 1)) None _ eq_refl eq_refl)
      as (_ & _ & _ & Hnot & _).
    cbn [existsb is_HelmInstall orb]. exact Hnot.
Defined.

Section LoopBounds.
Variable env : Helm.Env.

Definition pollInterval : Go.Duration := (5 * Go.Second)%Z.

Lemma tunnelLoop_bounded ns : forall (k fuel : nat) (w : World),
  (k < fuel)%nat ->
  exists r evs,
    Helm.tunnelLoop env fuel ns (Z.of_nat k * pollInterval)%Z w = (Ret r, extend w evs) /\
    (count is_TunnelNew evs <= k + 1)%nat /\
    (slept evs <= Z.of_nat k * pollInterval)%Z /\
    match r with
    | inl port => exists pre, evs = pre ++ [TunnelNew ns (Some port, None)]
    | inr err =>
        count is_TunnelNew evs = (k + 1)%nat /\
        slept evs = (Z.of_nat k * pollInterval)%Z /\
        exists pre tunnel, evs = pre ++ [TunnelNew ns (tunnel, err)]
    end.
Proof.
  induction k as [|k IH]; intros fuel w Hk; (destruct fuel as [|fuel]; [lia |]);
    cbn [Helm.tunnelLoop]; run_unfold;
    destruct (Helm.portforwarder_New env (trace w) ns) as [tunnel err] eqn:Hn.
  - assert (Hdone : forall t e,
               exists r evs,
                 (Ret (@inr Z _ e), record (TunnelNew ns (t, e)) w) = (Ret r, extend w evs) /\
                 (count is_TunnelNew evs <= 0 + 1)%nat /\
                 (slept evs <= Z.of_nat 0 * pollInterval)%Z /\
                 match r with
                 | inl port => exists pre, evs = pre ++ [TunnelNew ns (Some port, None)]
                 | inr err =>
                     count is_TunnelNew evs = (0 + 1)%nat /\
                     slept evs = (Z.of_nat 0 * pollInterval)%Z /\
                     exists pre tunnel, evs = pre ++ [TunnelNew ns (tunnel, err)]
                 end).
    { intros t e. exists (inr e), [TunnelNew ns (t, e)].
      split; [reflexivity |]. split; [cbn; lia |]. split; [cbn; lia |].
      split; [reflexivity |]. split; [reflexivity |]. exists [], t; reflexivity. }
    destruct tunnel as [port |], err as [e |]; cbv beta iota;
      change (Z.of_nat 0 * pollInterval <=? 0)%Z with true; cbv iota;
      try apply Hdone.
    exists (inl port), [TunnelNew ns (Some port, None)].
    split; [reflexivity |]. split; [cbn; lia |]. split; [cbn; lia |].
    exists []; reflexivity.
  - assert (Hpos : (Z.of_nat (S k) * pollInterval <=? 0)%Z = false).
    { apply Z.leb_gt. unfold pollInterval, Go.Second. lia. }
    assert (Hagain : forall t e,
               exists r evs,
                 Helm.tunnelLoop env fuel ns (Z.of_nat (S k) * pollInterval - 5 * Go.Second)%Z
                   (record (Sleep (5 * Go.Second)%Z) (record (TunnelNew ns (t, e)) w))
                 = (Ret r, extend w evs) /\
                 (count is_TunnelNew evs <= S k + 1)%nat /\
                 (slept evs <= Z.of_nat (S k) * pollInterval)%Z /\
                 match r with
                 | inl port => exists pre, evs = pre ++ [TunnelNew ns (Some port, None)]
                 | inr err =>
                     count is_TunnelNew evs = (S k + 1)%nat /\
                     slept evs = (Z.of_nat (S k) * pollInterval)%Z /\
                     exists pre tunnel, evs = pre ++ [TunnelNew ns (tunnel, err)]
                 end).
    { intros t e.
      replace (Z.of_nat (S k) * pollInterval - 5 * Go.Second)%Z
        with (Z.of_nat k * pollInterval)%Z by (unfold pollInterval; lia).
      destruct (IH fuel (record (Sleep (5 * Go.Second)%Z) (record (TunnelNew ns (t, e)) w)))
        as (r & evs & Hrun & Hc & Hs & Hr); [lia |].
      exists r, ([TunnelNew ns (t, e); Sleep (5 * Go.Second)%Z] ++ evs).
      rewrite Hrun, !record_extend, !extend_extend.
      split; [reflexivity |].
      rewrite count_app, slept_app.
      change (count is_TunnelNew [TunnelNew ns (t, e); Sleep (5 * Go.Second)%Z]) with 1%nat.
      change (slept [TunnelNew ns (t, e); Sleep (5 * Go.Second)%Z])
        with (pollInterval + 0)%Z.
      split; [lia |]. split; [lia |].
      destruct r as [port | err'].
      - destruct Hr as [pre ->].
        exists ([TunnelNew ns (t, e); Sleep (5 * Go.Second)%Z] ++ pre).
        now rewrite app_assoc.
      - destruct Hr as (Hc' & Hs' & pre & tun & ->).
        split; [lia |]. split; [lia |].
        exists ([TunnelNew ns (t, e); Sleep (5 * Go.Second)%Z] ++ pre), tun.
        now rewrite app_assoc. }
    destruct tunnel as [port |], err as [e |]; cbv beta iota; rewrite ?Hpos;
      try apply Hagain.
    exists (inl port), [TunnelNew ns (Some port, None)].
    split; [reflexivity |]. split; [cbn; lia |].
    split; [cbn; unfold pollInterval, Go.Second; lia |].
    exists []; reflexivity.
Qed.

End LoopBounds.

(** The tunnel loop of NewClient is bounded: with its budget of two minutes
    it always leaves after at most 25 attempts and at most 120 s of sleep.
    It leaves with the port of the tunnel right after the attempt that gave
    one; it gives up only after exactly 25 attempts and 120 s, and what
    NewClient then reports is the error of the last attempt, which is nil
    when that attempt gave neither a tunnel nor an error. *)
Theorem tunnel_loop_is_bounded :
  forall (env : Helm.Env) (ns : string) (w : World),
  exists r evs,
    Helm.tunnelLoop env 25 ns (2 * 60 * Go.Second)%Z w = (Ret r, extend w evs) /\
    (count is_TunnelNew evs <= 25)%nat /\
    (slept evs <= 120 * Go.Second)%Z /\
    match r with
    | inl port => exists pre, evs = pre ++ [TunnelNew ns (Some port, None)]
    | inr err =>
        count is_TunnelNew evs = 25%nat /\
        slept evs = (120 * Go.Second)%Z /\
        exists pre tunnel, evs = pre ++ [TunnelNew ns (tunnel, err)]
    end.
Proof.
  intros env ns w.
  destruct (tunnelLoop_bounded env ns 24 25 w) as (r & evs & Hrun & Hc & Hs & Hr); [lia |].
  exists r, evs.
  change (2 * 60 * Go.Second)%Z with (Z.of_nat 24 * pollInterval)%Z.
  change (120 * Go.Second)%Z with (Z.of_nat 24 * pollInterval)%Z.
  auto.
Qed.

Section HelmLoopBound.
Variable env : Helm.Env.

Lemma helmLoop_bounded host : forall (k fuel : nat) (w : World) (e0 : option Go.error),
  (k <= fuel)%nat ->
  exists r evs,
    Helm.helmLoop env fuel host (Z.of_nat k * pollInterval)%Z e0 w = (Ret r, extend w evs) /\
    (count is_ListReleases evs <= k)%nat /\
    (slept evs <= Z.of_nat k * pollInterval)%Z /\
    (k = 0%nat -> r = e0 /\ evs = []) /\
    ((0 < k)%nat ->
     match r with
     | None => exists pre, evs = pre ++ [ListReleases host None]
     | Some e =>
         count is_ListReleases evs = k /\
         slept evs = (Z.of_nat k * pollInterval)%Z /\
         exists pre, evs = pre ++ [ListReleases host (Some e); Sleep pollInterval]
     end).
Proof.
  induction k as [|k IH]; intros fuel w e0 Hk.
  - exists e0, []. rewrite extend_nil.
    destruct fuel; cbn; (split; [reflexivity |]); repeat split; try lia.
  - destruct fuel as [|fuel]; [lia |].
    assert (Hpos : (Z.of_nat (S k) * pollInterval >? 0)%Z = true).
    { apply Z.gtb_lt. unfold pollInterval, Go.Second. lia. }
    assert (Hneg : (Z.of_nat (S k) * pollInterval <? 0)%Z = false).
    { apply Z.ltb_ge. unfold pollInterval, Go.Second. lia. }
    cbn [Helm.helmLoop]. rewrite Hpos. run_unfold.
    destruct (Helm.client_ListReleases env (trace w) host) as [e |] eqn:Hl.
    + rewrite Hneg.
      replace (Z.of_nat (S k) * pollInterval - 5 * Go.Second)%Z
        with (Z.of_nat k * pollInterval)%Z by (unfold pollInterval; lia).
      destruct (IH fuel (record (Sleep (5 * Go.Second)%Z)
                                (record (ListReleases host (Some e)) w)) (Some e))
        as (r & evs & Hrun & Hc & Hs & Hzero & Hmore); [lia |].
      exists r, ([ListReleases host (Some e); Sleep pollInterval] ++ evs).
      rewrite Hrun, !record_extend, !extend_extend.
      split; [reflexivity |].
      rewrite count_app, slept_app.
      change (count is_ListReleases [ListReleases host (Some e); Sleep pollInterval])
        with 1%nat.
      change (slept [ListReleases host (Some e); Sleep pollInterval])
        with (pollInterval + 0)%Z.
      split; [lia |]. split; [lia |]. split; [lia |]. intros _.
      destruct k as [|k'].
      * destruct (Hzero eq_refl) as [-> ->]. rewrite app_nil_r.
        split; [reflexivity |]. split; [cbn; lia |]. exists []. reflexivity.
      * specialize (Hmore ltac:(lia)). destruct r as [e' |].
        -- destruct Hmore as (Hc' & Hs' & pre & ->).
           split; [lia |]. split; [lia |].
           exists ([ListReleases host (Some e); Sleep pollInterval] ++ pre).
           now rewrite app_assoc.
        -- destruct Hmore as (pre & ->).
           exists ([ListReleases host (Some e); Sleep pollInterval] ++ pre).
           now rewrite app_assoc.
    + exists None, [ListReleases host None].
      split; [reflexivity |]. split; [cbn; lia |].
      split; [cbn; unfold pollInterval, Go.Second; lia |].
      split; [lia |]. intros _. exists []. reflexivity.
Qed.

End HelmLoopBound.

(** The loop that waits for tiller to answer is bounded too, and by one
    attempt less than the tunnel loop: it lists the releases at most 24
    times and sleeps at most 120 s; it ends without error right after the
    first answer, and with the error of the 24th attempt after it has slept
    the whole 120 s (it sleeps once more after the last failure). *)
Theorem helm_loop_is_bounded :
  forall (env : Helm.Env) (host : string) (w : World),
  exists r evs,
    Helm.helmLoop env 24 host (2 * 60 * Go.Second)%Z None w = (Ret r, extend w evs) /\
    (count is_ListReleases evs <= 24)%nat /\
    (slept evs <= 120 * Go.Second)%Z /\
    match r with
    | None => exists pre, evs = pre ++ [ListReleases host None]
    | Some e =>
        count is_ListReleases evs = 24%nat /\
        slept evs = (120 * Go.Second)%Z /\
        exists pre, evs = pre ++ [ListReleases host (Some e); Sleep (5 * Go.Second)%Z]
    end.
Proof.
  intros env host w.
  destruct (helmLoop_bounded env host 24 24 w None)
    as (r & evs & Hrun & Hc & Hs & _ & Hr); [lia |].
  exists r, evs.
  change (2 * 60 * Go.Second)%Z with (Z.of_nat 24 * pollInterval)%Z.
  change (120 * Go.Second)%Z with (Z.of_nat 24 * pollInterval)%Z.
  change (5 * Go.Second)%Z with pollInterval.
  repeat split; auto. apply Hr. lia.
Qed.

Definition is_DownloadIndexFile (e : Event) : bool :=
  match e with
  | DownloadIndexFile _ _ => true
  | _ => false
  end.

Definition is_failed_NewChartRepository (e : Event) : bool :=
  match e with
  | NewChartRepository _ (Some _) => true
  | _ => false
  end.

(** What the two loops of updateRepos can add. *)
Definition is_repo_event (e : Event) : bool :=
  match e with
  | NewChartRepository _ _ => true
  | DownloadIndexFile _ _ => true
  | Log _ _ _ => true
  | _ => false
  end.

(** What the goroutines of updateRepos can add: the answer to a download,
    or the message about a download that failed. *)
Definition is_download_event (e : Event) : bool :=
  match e with
  | DownloadIndexFile _ _ => true
  | Log Error "Unable to download repo index" [_] => true
  | _ => false
  end.

(** A repository that was set up. *)
Definition setUp (re : string) : Event := NewChartRepository re None.

(** The repositories whose index was asked for, the errors of the
    downloads that failed, and the errors that were logged, each in the
    order of the trace. *)
Fixpoint downloaded (evs : Trace) : list string :=
  match evs with
  | [] => []
  | DownloadIndexFile re _ :: rest => re :: downloaded rest
  | _ :: rest => downloaded rest
  end.

Fixpoint failures (evs : Trace) : list Go.error :=
  match evs with
  | [] => []
  | DownloadIndexFile _ (Some e) :: rest => e :: failures rest
  | _ :: rest => failures rest
  end.

Fixpoint logged (evs : Trace) : list Go.error :=
  match evs with
  | [] => []
  | Log Error _ [e] :: rest => e :: logged rest
  | _ :: rest => logged rest
  end.

(** What the goroutines that are not done have left to do: the steps they
    still make, the indexes to download, the errors to log. *)
Fixpoint stepsLeft (running : list Helm.Download) : nat :=
  match running with
  | [] => 0
  | Helm.ToDownload _ :: rest => 2 + stepsLeft rest
  | Helm.ToLog _ :: rest => 1 + stepsLeft rest
  end.

Fixpoint toDownload (running : list Helm.Download) : list string :=
  match running with
  | [] => []
  | Helm.ToDownload re :: rest => re :: toDownload rest
  | Helm.ToLog _ :: rest => toDownload rest
  end.

Fixpoint toLog (running : list Helm.Download) : list Go.error :=
  match running with
  | [] => []
  | Helm.ToDownload _ :: rest => toLog rest
  | Helm.ToLog e :: rest => e :: toLog rest
  end.

Lemma stepsLeft_app a b : stepsLeft (a ++ b) = (stepsLeft a + stepsLeft b)%nat.
Proof. induction a as [|[re | e] a IH]; cbn [app stepsLeft]; lia. Qed.

Lemma toDownload_app a b : toDownload (a ++ b) = toDownload a ++ toDownload b.
Proof. induction a as [|[re | e] a IH]; cbn [app toDownload]; congruence. Qed.

Lemma toLog_app a b : toLog (a ++ b) = toLog a ++ toLog b.
Proof. induction a as [|[re | e] a IH]; cbn [app toLog]; congruence. Qed.

Lemma goroutines_at_start (repos : list string) :
  stepsLeft (map Helm.ToDownload repos) = (2 * List.length repos)%nat /\
  toDownload (map Helm.ToDownload repos) = repos /\
  toLog (map Helm.ToDownload repos) = [].
Proof.
  induction repos as [|re rest (Hs & Hd & Hl)]; cbn [map stepsLeft toDownload toLog];
    [auto |].
  rewrite Hs, Hd, Hl. cbn [List.length]. repeat split. lia.
Qed.

(** The goroutine that is picked is one of those that are running. *)
Lemma pick_split (k : nat) : forall g others before chosen after,
  Helm.pick k g others = (before, chosen, after) ->
  g :: others = before ++ chosen :: after.
Proof.
  induction k as [|k IH]; intros g others before chosen after H.
  - destruct others; injection H as <- <- <-; reflexivity.
  - destruct others as [|g' others']; cbn [Helm.pick] in H.
    + injection H as <- <- <-. reflexivity.
    + destruct (Helm.pick k g' others') as [[b c] a] eqn:Hp.
      injection H as <- <- <-. rewrite (IH _ _ _ _ _ Hp). reflexivity.
Qed.

Lemma download_events_are_repo_events (l : Trace) :
  forallb is_download_event l = true ->
  forallb is_repo_event l = true /\
  existsb is_failed_NewChartRepository l = false /\
  count is_DownloadIndexFile l = List.length (downloaded l).
Proof.
  induction l as [|e l IH]; [auto |]. cbn [forallb]. intros H.
  apply andb_prop in H. destruct H as [He Hl]. destruct (IH Hl) as (H1 & H2 & H3).
  unfold count in *.
  destruct e; try discriminate He;
    cbn [forallb is_repo_event existsb is_failed_NewChartRepository filter
         is_DownloadIndexFile downloaded List.length andb orb];
    auto.
Qed.

Lemma setUp_events (repos : list string) :
  forallb is_repo_event (map setUp repos) = true /\
  existsb is_failed_NewChartRepository (map setUp repos) = false /\
  count is_DownloadIndexFile (map setUp repos) = 0%nat /\
  forall repo e, ~ In (NewChartRepository repo (Some e)) (map setUp repos).
Proof.
  induction repos as [|re rest (H1 & H2 & H3 & H4)]; cbn; [intuition |].
  repeat split; auto. intros repo e [H | H]; [discriminate H | exact (H4 _ _ H)].
Qed.

Section UpdateReposFacts.
Variable env : Helm.Env.

(** The first loop: every repository is set up, or the loop ends at the
    first one that cannot be, with its error. *)
Lemma newRepos_run repos : forall w,
  Helm.newRepos env repos w = (Ret None, extend w (map setUp repos)) \/
  exists pre repo post e,
    repos = pre ++ repo :: post /\
    Helm.newRepos env repos w
    = (Ret (Some e), extend w (map setUp pre ++ [NewChartRepository repo (Some e)])).
Proof.
  induction repos as [|re rest IH]; intros w; cbn [Helm.newRepos map].
  - left. now rewrite extend_nil.
  - run_unfold.
    destruct (Helm.repo_NewChartRepository env (trace w) re) as [e |] eqn:Hn;
      cbv beta iota.
    + right. exists [], re, rest, e. rewrite record_extend. auto.
    + destruct (IH (record (setUp re) w)) as [Hrun | (pre & repo & post & e & -> & Hrun)];
        unfold setUp in Hrun at 1; rewrite Hrun, record_extend, extend_extend.
      * left. reflexivity.
      * right. exists (re :: pre), repo, post, e. auto.
Qed.

(** The goroutines: however the scheduler lets them take turns, they all
    get done within the steps they have left; the index of every
    repository that was waiting is asked for once, and the errors that get
    logged are those that were waiting to be and those of the downloads
    that fail. *)
Lemma downloadAll_run steps : forall running w,
  (stepsLeft running <= steps)%nat ->
  exists devs,
    Helm.downloadAll env steps running w = (Ret tt, extend w devs) /\
    forallb is_download_event devs = true /\
    Permutation (downloaded devs) (toDownload running) /\
    Permutation (logged devs) (toLog running ++ failures devs).
Proof.
  induction steps as [|steps IH]; intros [|g others] w Hle;
    try (exists []; cbn; rewrite extend_nil; auto; fail).
  - exfalso. destruct g; cbn in Hle; lia.
  - cbn [Helm.downloadAll]. unfold bind at 1. unfold ask at 1.
    destruct (Helm.pick (Helm.scheduler env (trace w)) g others)
      as [[before chosen] after] eqn:Hp.
    apply pick_split in Hp. rewrite Hp in *. clear Hp g others.
    rewrite stepsLeft_app in Hle. rewrite toDownload_app, toLog_app.
    destruct chosen as [re | e]; cbn [stepsLeft toDownload toLog] in *.
    + run_unfold.
      destruct (Helm.repo_DownloadIndexFile env (trace w) re) as [e |] eqn:Hd;
        cbv beta iota.
      * destruct (IH (before ++ Helm.ToLog e :: after)
                     (record (DownloadIndexFile re (Some e)) w))
          as (devs & Hrun & Hall & Hdown & Hlog).
        { rewrite stepsLeft_app. cbn [stepsLeft]. lia. }
        rewrite Hrun, record_extend, extend_extend.
        eexists. split; [reflexivity |].
        rewrite toDownload_app, toLog_app in *.
        cbn [app forallb is_download_event andb downloaded failures logged
             toDownload toLog] in *.
        split; [exact Hall |]. split.
        -- apply Permutation_cons_app. exact Hdown.
        -- rewrite Hlog, <- !app_assoc. apply Permutation_app_head.
           cbn [app]. apply Permutation_middle.
      * destruct (IH (before ++ after) (record (DownloadIndexFile re None) w))
          as (devs & Hrun & Hall & Hdown & Hlog).
        { rewrite stepsLeft_app. lia. }
        rewrite Hrun, record_extend, extend_extend.
        eexists. split; [reflexivity |].
        rewrite toDownload_app, toLog_app in *.
        cbn [app forallb is_download_event andb downloaded failures logged] in *.
        split; [exact Hall |]. split.
        -- apply Permutation_cons_app. exact Hdown.
        -- exact Hlog.
    + run_unfold.
      destruct (IH (before ++ after)
                   (record (Log Error "Unable to download repo index" [e]) w))
        as (devs & Hrun & Hall & Hdown & Hlog).
      { rewrite stepsLeft_app. lia. }
      rewrite Hrun, record_extend, extend_extend.
      eexists. split; [reflexivity |].
      rewrite toDownload_app, toLog_app in *.
      cbn [app forallb is_download_event andb downloaded failures logged] in *.
      split; [exact Hall |]. split.
      -- exact Hdown.
      -- rewrite <- app_assoc. cbn [app]. apply Permutation_cons_app.
         rewrite app_assoc. exact Hlog.
Qed.

End UpdateReposFacts.

(** updateRepos refreshes the indexes as well as it can.  When the list of
    repositories cannot be loaded, that error is returned.  Otherwise the
    repositories are set up in the order of the list; the first one that
    cannot be set up ends the function: its error is returned, the
    repositories after it are not set up, and nothing is downloaded.  When
    they are all set up, the index of every repository of the list is asked
    for, once, in the order the scheduler gives the goroutines; every
    download that fails gets its error logged and nothing else happens to
    it: the result is nil whatever the downloads answered. *)
Theorem updateRepos_ignores_failed_downloads :
  forall (env : Helm.Env) (repositoryFile : string) (w w' : World)
         (r : Outcome (option Go.error)),
    Helm.updateRepos env repositoryFile w = (r, w') ->
    exists evs,
      w' = extend w evs /\
      (forall x e,
          Helm.repo_LoadRepositoriesFile env (trace w) repositoryFile = (x, Some e) ->
          r = Ret (Some e) /\ evs = [LoadRepositoriesFile repositoryFile (x, Some e)]) /\
      (forall allRepos,
          Helm.repo_LoadRepositoriesFile env (trace w) repositoryFile
          = (Some allRepos, None) ->
          exists revs,
            evs = LoadRepositoriesFile repositoryFile (Some allRepos, None) :: revs /\
            (forall repo e,
                In (NewChartRepository repo (Some e)) revs ->
                r = Ret (Some e) /\
                count is_DownloadIndexFile evs = 0%nat /\
                exists pre post,
                  allRepos = pre ++ repo :: post /\
                  revs = map setUp pre ++ [NewChartRepository repo (Some e)]) /\
            (existsb is_failed_NewChartRepository revs = false ->
             r = Ret None /\
             count is_DownloadIndexFile evs = List.length allRepos /\
             exists devs,
               revs = map setUp allRepos ++ devs /\
               forallb is_download_event devs = true /\
               Permutation (downloaded devs) allRepos /\
               Permutation (logged devs) (failures devs))).
Proof.
  intros env repositoryFile w w' r H.
  unfold Helm.updateRepos in H. revert H. unfold bind at 1. unfold call at 1.
  run_unfold.
  destruct (Helm.repo_LoadRepositoriesFile env (trace w) repositoryFile)
    as [[allRepos |] [e |]] eqn:Hl; cbv beta iota.
  1, 3: intros H; injection H as <- <-; give_events;
    (split; [intros x e' Hx; injection Hx as <- <-; auto | intros ? Hx; discriminate Hx]).
  2: { intros H. injection H as <- <-. give_events.
       split; intros ? ?; discriminate. }
  set (w1 := record (LoadRepositoriesFile repositoryFile (Some allRepos, None)) w).
  destruct (setUp_events allRepos) as (_ & Hquiet & Hnone & Hnofail).
  destruct (newRepos_run env allRepos w1)
    as [Hrun | (pre & repo & post & e & Hsplit & Hrun)]; rewrite Hrun; cbv beta iota.
  - destruct (goroutines_at_start allRepos) as (Hsteps & Hdown & Hlog).
    destruct (downloadAll_run env (2 * List.length allRepos)
                (map Helm.ToDownload allRepos) (extend w1 (map setUp allRepos)))
      as (devs & Hd & Hall & Hperm & Hlogged); [rewrite Hsteps; lia |].
    rewrite Hd. cbv beta iota. intros H. injection H as <- <-.
    subst w1. rewrite record_extend, !extend_extend. eexists. split; [reflexivity |].
    split; [intros x e Hx; discriminate Hx |].
    intros repos' Hx. injection Hx as <-.
    eexists. split; [reflexivity |].
    destruct (download_events_are_repo_events _ Hall) as (_ & Hdq & Hdc).
    split.
    + intros repo e Hin. exfalso. apply in_app_or in Hin. destruct Hin as [Hin | Hin].
      * exact (Hnofail _ _ Hin).
      * apply (proj1 (forallb_forall _ _) Hall) in Hin. discriminate Hin.
    + intros _. split; [reflexivity |]. split.
      * change (LoadRepositoriesFile repositoryFile (Some allRepos, None)
                :: map setUp allRepos ++ devs)
          with ([LoadRepositoriesFile repositoryFile (Some allRepos, None)]
                ++ map setUp allRepos ++ devs).
        rewrite !count_app, Hnone, Hdc.
        rewrite (Permutation_length Hperm), Hdown. reflexivity.
      * exists devs. rewrite Hdown in Hperm. rewrite Hlog in Hlogged. auto.
  - intros H. injection H as <- <-.
    subst w1. rewrite record_extend, !extend_extend. eexists. split; [reflexivity |].
    split; [intros x e' Hx; discriminate Hx |].
    intros repos' Hx. injection Hx as <-.
    eexists. split; [reflexivity |].
    destruct (setUp_events pre) as (_ & Hpq & Hpc & Hpnofail).
    split.
    + intros repo' e' Hin. apply in_app_or in Hin. destruct Hin as [Hin | Hin].
      * destruct (Hpnofail _ _ Hin).
      * destruct Hin as [Hin | []]. injection Hin as <- <-.
        split; [reflexivity |]. split.
        -- change (LoadRepositoriesFile repositoryFile (Some allRepos, None)
                   :: map setUp pre ++ [NewChartRepository repo (Some e)])
             with ([LoadRepositoriesFile repositoryFile (Some allRepos, None)]
                   ++ map setUp pre ++ [NewChartRepository repo (Some e)]).
           rewrite !count_app, Hpc. reflexivity.
        -- exists pre, post. auto.
    + intros Hno. rewrite existsb_app in Hno. cbn in Hno.
      rewrite orb_true_r in Hno. discriminate Hno.
Qed.

(** Two repositories, no index can be downloaded, and the scheduler lets
    the goroutine of the second repository go first and the one of the
    first repository from then on. *)
Definition unreachableReposEnv : Helm.Env :=
  Helm.mkEnv "devspace-tiller" (fun _ _ => None) (fun _ _ => None)
             (fun _ _ _ => (Some (mkStatus 1 1), None)) (fun _ _ _ => None)
             (fun _ => None) (fun _ _ => None) (fun _ _ => None) (fun _ => None)
             (fun _ _ => (Some 44134%Z, None)) (fun _ _ => None)
             (fun _ => ("/root", None)) (fun _ _ => None) (fun _ _ => None)
             (fun _ _ => (Some ["stable"; "incubator"], None))
             (fun _ _ => None)
             (fun _ re => Some ("no route to " ++ re)%string)
             (fun h => if existsb is_DownloadIndexFile h then 0%nat else 1%nat).

(** The same, but the second repository cannot be set up. *)
Definition brokenRepoEnv : Helm.Env :=
  Helm.mkEnv "devspace-tiller" (fun _ _ => None) (fun _ _ => None)
             (fun _ _ _ => (Some (mkStatus 1 1), None)) (fun _ _ _ => None)
             (fun _ => None) (fun _ _ => None) (fun _ _ => None) (fun _ => None)
             (fun _ _ => (Some 44134%Z, None)) (fun _ _ => None)
             (fun _ => ("/root", None)) (fun _ _ => None) (fun _ _ => None)
             (fun _ _ => (Some ["stable"; "incubator"; "local"], None))
             (fun _ re => if String.eqb re "incubator" then Some "no such host" else None)
             (fun _ _ => None)
             (fun _ => 0%nat).

Lemma updateRepos_ignores_failed_downloads_witness :
  let file := "/root/.devspace/helm/repository/repositories.yaml" in
  let run := Helm.updateRepos unreachableReposEnv file freshWorld in
  let broken := Helm.updateRepos brokenRepoEnv file freshWorld in
  (fst run = Ret None /\
   trace (snd run)
   = [LoadRepositoriesFile file (Some ["stable"; "incubator"], None);
      NewChartRepository "stable" None;
      NewChartRepository "incubator" None;
      DownloadIndexFile "incubator" (Some "no route to incubator");
      DownloadIndexFile "stable" (Some "no route to stable");
      Log Error "Unable to download repo index" ["no route to stable"];
      Log Error "Unable to download repo index" ["no route to incubator"]]) /\
  (fst broken = Ret (Some "no such host") /\
   trace (snd broken)
   = [LoadRepositoriesFile file (Some ["stable"; "incubator"; "local"], None);
      NewChartRepository "stable" None;
      NewChartRepository "incubator" (Some "no such host")]).
Proof.
  intros file run broken. split.
  - destruct (updateRepos_ignores_failed_downloads
                unreachableReposEnv file freshWorld (snd run) (fst run) eq_refl)
      as (evs & Htr & _ & Hok).
    destruct (Hok ["stable"; "incubator"] eq_refl) as (revs & Hevs & _ & Hdone).
    events_of Htr. injection Hevs as <-.
    destruct (Hdone eq_refl) as (Hr & _). split; [exact Hr | reflexivity].
  - destruct (updateRepos_ignores_failed_downloads
                brokenRepoEnv file freshWorld (snd broken) (fst broken) eq_refl)
      as (evs & Htr & _ & Hok).
    destruct (Hok ["stable"; "incubator"; "local"] eq_refl) as (revs & Hevs & Hfail & _).
    events_of Htr. injection Hevs as <-.
    destruct (Hfail "incubator" "no such host") as (Hr & _); [cbn; auto |].
    split; [exact Hr | reflexivity].
Defined.

(* --------------------------------------------------------------------- *)
(** ** Runs that finish, and how long they sleep *)
(* --------------------------------------------------------------------- *)

(** [within B m]: whatever the state, the run [m] does not starve (it
    returns, exits or panics within the steps it was given), it only adds
    events, and it sleeps [B] at most. *)
Definition within (B : Z) {A : Type} (m : Exec A) : Prop :=
  forall w,
    fst (m w) <> Halted OutOfFuel /\
    exists evs, trace (snd (m w)) = trace w ++ evs /\ (slept evs <= B)%Z.

Lemma within_weaken (B B' : Z) {A : Type} (m : Exec A) :
  within B m -> (B <= B')%Z -> within B' m.
Proof.
  intros H Hle w. destruct (H w) as (Hf & evs & Ht & Hs).
  split; [exact Hf |]. exists evs. split; [exact Ht | lia].
Qed.

Lemma within_quiet {A : Type} (m : Exec A) (B : Z) :
  (0 <= B)%Z ->
  (forall w, exists r evs, m w = (r, extend w evs) /\ r <> Halted OutOfFuel /\ slept evs = 0%Z) ->
  within B m.
Proof.
  intros HB H w. destruct (H w) as (r & evs & -> & Hr & Hs).
  split; [exact Hr |]. exists evs. split; [reflexivity | cbn; lia].
Qed.

Lemma within_ret (B : Z) {A : Type} (a : A) : (0 <= B)%Z -> within B (ret a).
Proof.
  intros HB. apply within_quiet; [exact HB |]. intros w. exists (Ret a), [].
  rewrite extend_nil. repeat split. discriminate.
Qed.

Lemma within_emit (B : Z) (e : Event) :
  (0 <= B)%Z -> slept [e] = 0%Z -> within B (emit e).
Proof.
  intros HB He. apply within_quiet; [exact HB |]. intros w. exists (Ret tt), [e].
  repeat split; [discriminate | exact He].
Qed.

Lemma within_call (B : Z) {A : Type} (f : Trace -> A) (ev : A -> Event) :
  (0 <= B)%Z -> (forall a, slept [ev a] = 0%Z) -> within B (call f ev).
Proof.
  intros HB He. apply within_quiet; [exact HB |]. intros w.
  exists (Ret (f (trace w))), [ev (f (trace w))].
  repeat split; [discriminate | apply He].
Qed.

Lemma within_stop (B : Z) {A : Type} (l : Level) f args (h : Halt) :
  (0 <= B)%Z -> h <> OutOfFuel -> within B (emit (Log l f args) ;; @halt A h).
Proof.
  intros HB Hh. apply within_quiet; [exact HB |]. intros w.
  exists (Halted h), [Log l f args]. repeat split. congruence.
Qed.

Lemma within_bind (L B : Z) {A C : Type} (m : Exec A) (k : A -> Exec C) :
  (L <= B)%Z -> within L m -> (forall a, within (B - L) (k a)) -> within B (bind m k).
Proof.
  intros HL Hm Hk w. unfold bind.
  destruct (Hm w) as (Hf & evs & Ht & Hs).
  destruct (m w) as [[a | h] w1]; cbn [fst snd] in *.
  - destruct (Hk a w1) as (Hf' & evs' & Ht' & Hs').
    split; [exact Hf' |]. exists (evs ++ evs').
    rewrite Ht', Ht, app_assoc, slept_app. split; [reflexivity | lia].
  - split; [intros HH; apply Hf; congruence |]. exists evs. split; [exact Ht | lia].
Qed.

Lemma repo_events_do_not_sleep (l : Trace) :
  forallb is_repo_event l = true -> slept l = 0%Z.
Proof.
  induction l as [|e l IH]; [reflexivity |]. cbn [forallb]. intros H.
  apply andb_prop in H. destruct H as [He Hl].
  destruct e; try discriminate He; cbn [slept]; auto.
Qed.

Ltac nonneg := unfold pollInterval, Go.Second in *; lia.

Lemma within_assign (B : Z) (c : option ClientWrapper) :
  (0 <= B)%Z ->
  within B (fun w => (@Ret (option Go.error) None, set_helmClient c w)).
Proof.
  intros HB w. cbn [fst snd]. split; [discriminate |]. exists [].
  split; [cbn; now rewrite app_nil_r | exact HB].
Qed.

(** Walk through a run whose steps do not sleep; [loops] is tried on the
    steps that may. *)
Ltac within_walk loops :=
  repeat
    match goal with
    | |- within _ (ret _) => apply within_ret; nonneg
    | |- within _ (emit _) => apply within_emit; [nonneg | reflexivity]
    | |- within _ (logf _ _ _) => apply within_emit; [nonneg | reflexivity]
    | |- within _ (call _ _) => apply within_call; [nonneg | intros; reflexivity]
    | |- within _ (Fatalf _ _) => apply within_stop; [nonneg | discriminate]
    | |- within _ (Panicf _ _) => apply within_stop; [nonneg | discriminate]
    | |- within _ (runtime_panic _) => apply within_stop; [nonneg | discriminate]
    | |- within _ (bind ?m _) =>
        lazymatch m with
        | Helm.ensureTiller _ _ _ _ =>
            eapply (within_bind (120 * Go.Second)); [nonneg | solve [loops] | intros ?]
        | Helm.tunnelLoop _ _ _ _ =>
            eapply (within_bind (120 * Go.Second)); [nonneg | solve [loops] | intros ?]
        | Helm.helmLoop _ _ _ _ _ =>
            eapply (within_bind (120 * Go.Second)); [nonneg | solve [loops] | intros ?]
        | _ => eapply (within_bind 0); [nonneg | | intros ?]
        end
    | |- within _ (match ?x with _ => _ end) => destruct x
    | |- within _ (let _ := _ in _) => cbv zeta
    | |- within _ (fun w => (Ret None, set_helmClient _ w)) => apply within_assign; nonneg
    | H : forall B, (0 <= B)%Z -> within B ?m |- within _ ?m => apply H; nonneg
    | |- within _ _ => solve [loops]
    end.

Section BootstrapBound.
Variable env : Helm.Env.
Hypothesis status_is_read :
  forall h ns name, snd (Helm.deployments_Get env h ns name) = None.

Lemma within_derefTillerNamespace B config :
  (0 <= B)%Z -> within B (Helm.derefTillerNamespace config).
Proof. intros HB. unfold Helm.derefTillerNamespace. within_walk fail. Qed.

Lemma within_waitLoop config : forall (k fuel : nat),
  (k <= fuel)%nat ->
  within (Z.of_nat k * pollInterval)
         (Helm.waitLoop env fuel config (Z.of_nat k * pollInterval)%Z).
Proof.
  induction k as [|k IH]; intros fuel Hk.
  - destruct fuel; cbn; apply within_ret; lia.
  - destruct fuel as [|fuel]; [lia |].
    assert (Hpos : (Z.of_nat (S k) * pollInterval >? 0)%Z = true).
    { apply Z.gtb_lt. unfold pollInterval, Go.Second. lia. }
    cbn [Helm.waitLoop]. rewrite Hpos.
    eapply (within_bind 0); [nonneg | apply within_derefTillerNamespace; lia | intros ns].
    intros w. unfold bind at 1. unfold call at 1. run_unfold.
    pose proof (status_is_read (trace w) ns Helm.TillerDeploymentName) as Hr.
    destruct (Helm.deployments_Get env (trace w) ns Helm.TillerDeploymentName)
      as [[st |] err]; cbn [snd] in Hr; subst err; cbv beta iota.
    + destruct (ReadyReplicas st =? Replicas st)%Z.
      * cbn [fst snd]. split; [discriminate |]. eexists. split; [reflexivity |].
        cbn. nonneg.
      * replace (Z.of_nat (S k) * pollInterval - Helm.tillerCheckInterval)%Z
          with (Z.of_nat k * pollInterval)%Z
          by (unfold Helm.tillerCheckInterval, pollInterval; lia).
        destruct (IH fuel ltac:(lia)
                     (record (Sleep Helm.tillerCheckInterval)
                             (record (DeploymentGet ns Helm.TillerDeploymentName
                                                    (Some st, None)) w)))
          as (Hf & evs & Ht & Hs).
        split; [exact Hf |].
        exists ([DeploymentGet ns Helm.TillerDeploymentName (Some st, None);
                 Sleep Helm.tillerCheckInterval] ++ evs).
        rewrite Ht. cbn [trace record]. rewrite <- !app_assoc. split; [reflexivity |].
        rewrite slept_app. cbn [slept].
        unfold Helm.tillerCheckInterval, pollInterval, Go.Second in *. lia.
    + cbn [fst snd]. split; [discriminate |]. eexists. split.
      * cbn [trace record]. rewrite <- app_assoc. reflexivity.
      * cbn. nonneg.
Qed.

Lemma within_waitUntilTillerIsStarted fuel config :
  (24 <= fuel)%nat ->
  within (120 * Go.Second) (Helm.waitUntilTillerIsStarted env fuel config).
Proof.
  intros Hf. exact (within_waitLoop config 24 fuel Hf).
Qed.

Lemma within_tunnelLoop fuel ns :
  (25 <= fuel)%nat ->
  within (120 * Go.Second) (Helm.tunnelLoop env fuel ns (2 * 60 * Go.Second)%Z).
Proof.
  intros Hf w.
  destruct (tunnelLoop_bounded env ns 24 fuel w) as (r & evs & Hrun & _ & Hs & _); [lia |].
  change (2 * 60 * Go.Second)%Z with (Z.of_nat 24 * pollInterval)%Z.
  rewrite Hrun. split; [discriminate |]. exists evs. split; [reflexivity |].
  change (120 * Go.Second)%Z with (Z.of_nat 24 * pollInterval)%Z.
  exact Hs.
Qed.

Lemma within_helmLoop fuel host :
  (24 <= fuel)%nat ->
  within (120 * Go.Second) (Helm.helmLoop env fuel host (2 * 60 * Go.Second)%Z None).
Proof.
  intros Hf w.
  destruct (helmLoop_bounded env host 24 fuel w None) as (r & evs & Hrun & _ & Hs & _);
    [lia |].
  change (2 * 60 * Go.Second)%Z with (Z.of_nat 24 * pollInterval)%Z.
  rewrite Hrun. split; [discriminate |]. exists evs. split; [reflexivity |].
  exact Hs.
Qed.

Lemma within_newRepos repos : forall B, (0 <= B)%Z -> within B (Helm.newRepos env repos).
Proof.
  induction repos as [|r rest IH]; intros B HB; cbn [Helm.newRepos]; within_walk fail.
Qed.

Lemma within_downloadAll repos B :
  (0 <= B)%Z ->
  within B (Helm.downloadAll env (2 * List.length repos) (map Helm.ToDownload repos)).
Proof.
  intros HB. apply within_quiet; [exact HB |]. intros w.
  destruct (downloadAll_run env (2 * List.length repos) (map Helm.ToDownload repos) w)
    as (devs & Hrun & Hall & _).
  { rewrite (proj1 (goroutines_at_start repos)). lia. }
  exists (Ret tt), devs. split; [exact Hrun |]. split; [discriminate |].
  apply repo_events_do_not_sleep.
  exact (proj1 (download_events_are_repo_events _ Hall)).
Qed.

Lemma within_updateRepos file B : (0 <= B)%Z -> within B (Helm.updateRepos env file).
Proof.
  intros HB. unfold Helm.updateRepos.
  within_walk ltac:(first [apply within_newRepos | apply within_downloadAll]; nonneg).
Qed.

Lemma within_createTiller config options B :
  (0 <= B)%Z -> within B (Helm.createTiller env config options).
Proof.
  intros HB. unfold Helm.createTiller.
  within_walk ltac:(apply within_derefTillerNamespace; nonneg).
Qed.

Lemma within_ensureTiller fuel config upgrade :
  (24 <= fuel)%nat ->
  within (120 * Go.Second) (Helm.ensureTiller env fuel config upgrade).
Proof.
  intros Hf. unfold Helm.ensureTiller, Helm.upgradeTiller.
  within_walk ltac:(first [ apply within_derefTillerNamespace; nonneg
                          | apply within_createTiller; nonneg
                          | eapply within_weaken;
                            [apply within_waitUntilTillerIsStarted; exact Hf | nonneg] ]).
Qed.

Lemma within_bootstrap fuel config upgrade :
  (25 <= fuel)%nat ->
  within (360 * Go.Second) (Helm.bootstrap env fuel config upgrade).
Proof.
  intros Hf. unfold Helm.bootstrap.
  within_walk ltac:(first [ apply within_ensureTiller; lia
                          | apply within_tunnelLoop; lia
                          | apply within_helmLoop; lia
                          | apply within_updateRepos; nonneg ]).
Qed.

End BootstrapBound.

(** NewClient finishes when the status of the tiller deployment can be read:
    if no read of a deployment fails, a call with room for 25 rounds of each
    of its three polling loops never runs out of rounds (it returns or
    panics), it only adds to the trace, and the three loops together sleep
    six minutes at most. *)
Theorem NewClient_finishes_within_six_minutes :
  forall (env : Helm.Env) (fuel : nat) (config : HelmConfig) (upgrade : bool) (w : World),
    (forall h ns name, snd (Helm.deployments_Get env h ns name) = None) ->
    (25 <= fuel)%nat ->
    fst (Helm.NewClient env fuel config upgrade w) <> Halted OutOfFuel /\
    exists evs,
      trace (snd (Helm.NewClient env fuel config upgrade w)) = trace w ++ evs /\
      (slept evs <= 360 * Go.Second)%Z.
Proof.
  intros env fuel config upgrade w Hread Hfuel. unfold Helm.NewClient.
  destruct (getOnce w).
  - cbn [fst snd]. split; [discriminate |]. exists [].
    split; [now rewrite app_nil_r | cbn; nonneg].
  - destruct (within_bootstrap env Hread fuel config upgrade Hfuel w)
      as (Hf & evs & Ht & Hs).
    destruct (Helm.bootstrap env fuel config upgrade w) as [[outerError | h] w'];
      cbn [fst snd] in *.
    + split; [discriminate |]. exists evs. split; [exact Ht | exact Hs].
    + split; [intros HH; apply Hf; congruence |]. exists evs.
      split; [exact Ht | exact Hs].
Qed.

Lemma NewClient_finishes_within_six_minutes_witness :
  let config := mkHelmConfig (Some (mkTillerConfig (Some "kube-system"))) in
  let run := Helm.NewClient pendingHelmEnv 25 config false freshWorld in
  fst run <> Halted OutOfFuel /\
  exists evs, trace (snd run) = trace freshWorld ++ evs /\ (slept evs <= 360 * Go.Second)%Z.
Proof.
  intros config run.
  apply (NewClient_finishes_within_six_minutes pendingHelmEnv 25 config false freshWorld).
  - intros h ns name. reflexivity.
  - lia.
Defined.

(* --------------------------------------------------------------------- *)
(** ** More of cmd/remove.go *)
(* --------------------------------------------------------------------- *)

(** The sync entries of a configuration ([nil] has none). *)
Definition syncEntries (config : DevSpaceConfig) : list SyncConfig :=
  match Sync config with
  | Some l => l
  | None => []
  end.

(** The events of a run that saved (or tried to save) the configuration. *)
Definition saveEvents (config : DevSpaceConfig) (err : option Go.error) : Trace :=
  match err with
  | None => [ConfigSave config None]
  | Some e => [ConfigSave config (Some e);
               Log FatalLevel "Couldn't save config file: %s" [e]]
  end.

Definition saveOutcome (config : DevSpaceConfig) (err : option Go.error)
  : Outcome DevSpaceConfig :=
  match err with
  | None => Ret config
  | Some _ => Halted Exit
  end.

Section MoreRemoveFacts.
Variable env : Remove.Env.

(** The test of the loop of RunRemoveSync. *)
Definition syncSelected (flags : Remove.removeSyncCmdFlags) (m : LabelSelector)
           (v : SyncConfig) : bool :=
  Remove.syncRemoveAll flags
  || String.eqb (Remove.LocalPath flags) (scLocalSubPath v)
  || String.eqb (Remove.ContainerPath flags) (scContainerPath v)
  || Remove.isMapEqual env m (scLabelSelector v).

Definition syncStays (flags : Remove.removeSyncCmdFlags) (m : LabelSelector)
           (v : SyncConfig) : bool :=
  negb (syncSelected flags m v).

Lemma removeSyncLoop_filter flags m l : forall acc,
  Remove.removeSyncLoop env flags m l acc = acc ++ filter (syncStays flags m) l.
Proof.
  induction l as [|v rest IH]; intros acc; cbn [Remove.removeSyncLoop filter].
  - now rewrite app_nil_r.
  - unfold syncStays at 1. fold (syncSelected flags m v).
    destruct (syncSelected flags m v); cbn [negb].
    + apply IH.
    + rewrite IH, <- app_assoc. reflexivity.
Qed.

Lemma filter_twice {A : Type} (f : A -> bool) (l : list A) :
  filter f (filter f l) = filter f l.
Proof.
  induction l as [|a l IH]; [reflexivity |]. cbn [filter].
  destruct (f a) eqn:Ha; [| exact IH]. cbn [filter]. now rewrite Ha, IH.
Qed.

(** What the outer loop of RunRemovePort makes of one entry. *)
Definition portEntryKept (flags : Remove.removePortCmdFlags) (m : LabelSelector)
           (ports : list string) (v : PortForwardingConfig)
  : list PortForwardingConfig :=
  if entrySelected env flags m v then []
  else match keptMappings ports v with
       | [] => []
       | pms => [withMappings v pms]
       end.

Lemma removePortsLoop_flat_map flags m ports l : forall acc,
  Remove.removePortsLoop env flags m ports l acc
  = acc ++ flat_map (portEntryKept flags m ports) l.
Proof.
  induction l as [|v rest IH]; intros acc; cbn [Remove.removePortsLoop flat_map].
  - now rewrite app_nil_r.
  - fold (entrySelected env flags m v). rewrite removeMappingsLoop_filter.
    cbn [app]. fold (keptMappings ports v).
    assert (E : portEntryKept flags m ports v
                = if entrySelected env flags m v then []
                  else match keptMappings ports v with
                       | [] => []
                       | pms => [withMappings v pms]
                       end) by reflexivity.
    rewrite E. clear E.
    destruct (entrySelected env flags m v); [apply IH |].
    destruct (keptMappings ports v) as [|pm pms]; cbn [List.length Nat.ltb Nat.leb].
    + apply IH.
    + rewrite IH, <- app_assoc. reflexivity.
Qed.

Lemma portEntryKept_twice flags m ports l :
  flat_map (portEntryKept flags m ports) (flat_map (portEntryKept flags m ports) l)
  = flat_map (portEntryKept flags m ports) l.
Proof.
  induction l as [|v rest IH]; [reflexivity |]. cbn [flat_map].
  rewrite flat_map_app, IH. f_equal.
  assert (E : portEntryKept flags m ports v
              = if entrySelected env flags m v then []
                else match keptMappings ports v with
                     | [] => []
                     | pms => [withMappings v pms]
                     end) by reflexivity.
  rewrite E. clear E.
  destruct (entrySelected env flags m v) eqn:Hsel; [reflexivity |].
  destruct (keptMappings ports v) as [|pm pms] eqn:Hk; [reflexivity |].
  cbn [flat_map]. rewrite app_nil_r. unfold portEntryKept.
  unfold entrySelected, withMappings in *. cbn [pfLabelSelector]. rewrite Hsel.
  unfold keptMappings in *. cbn [pfPortMappings].
  rewrite <- Hk, filter_twice, Hk. reflexivity.
Qed.

End MoreRemoveFacts.

(** The flags of remove-sync pass the check when one of them is given. *)
Definition syncFlagsGiven (flags : Remove.removeSyncCmdFlags) (m : LabelSelector) : Prop :=
  m <> [] \/ Remove.syncRemoveAll flags = true \/
  Remove.LocalPath flags <> "" \/ Remove.ContainerPath flags <> "".

Lemma syncFlagsGiven_gate flags m :
  syncFlagsGiven flags m ->
  Nat.eqb (List.length m) 0 && negb (Remove.syncRemoveAll flags)
  && String.eqb (Remove.LocalPath flags) ""
  && String.eqb (Remove.ContainerPath flags) "" = false.
Proof.
  intros [Hm | [Hall | [Hl | Hc]]].
  - destruct m; [congruence | reflexivity].
  - rewrite Hall. cbn. now rewrite andb_false_r.
  - apply String.eqb_neq in Hl. rewrite Hl. now rewrite andb_false_r.
  - apply String.eqb_neq in Hc. rewrite Hc. now rewrite andb_false_r.
Qed.

(** What a run of RunRemoveSync is, once its flags have passed the check
    and the configuration has at least one sync entry: the entries that
    match none of the four criteria (--all, the local path, the container
    path, the selector) are kept, in their order; the port entries are left
    alone; the configuration is saved once, also when no entry matched, and
    it is the new configuration that is saved; the command returns when the
    save succeeded and ends the process with a message when it failed. *)
Theorem RunRemoveSync_saves_the_unselected_entries :
  forall (env : Remove.Env) (flags : Remove.removeSyncCmdFlags) (args : list string)
         (config : DevSpaceConfig) (w : World) (m : LabelSelector) (l : list SyncConfig),
    Remove.parseSelectors env (Remove.syncSelector flags) = (m, None) ->
    syncFlagsGiven flags m ->
    Sync config = Some l ->
    l <> [] ->
    let config' := mkDevSpace (Ports config) (Some (filter (syncStays env flags m) l)) in
    let err := Remove.configutil_SaveConfig env (trace w) config' in
    Remove.RunRemoveSync env flags args config w
    = (saveOutcome config' err, extend w (saveEvents config' err)).
Proof.
  intros env flags args config w m l Hparse Hgiven Hsync Hne config' err.
  unfold Remove.RunRemoveSync. rewrite Hparse, (syncFlagsGiven_gate _ _ Hgiven), Hsync.
  destruct l as [|v rest]; [congruence |]. cbn [List.length Nat.ltb Nat.leb].
  cbv zeta. rewrite removeSyncLoop_filter. cbn [app].
  fold config'. unfold Remove.SaveConfig. run_unfold. fold err.
  destruct err as [e |]; cbn [saveOutcome saveEvents];
    rewrite !record_extend, ?extend_extend; reflexivity.
Qed.

Lemma RunRemoveSync_saves_the_unselected_entries_witness :
  let app := mkSyncConfig None [("app", "web")] None "src" "/app" None None None in
  let docs := mkSyncConfig None [("app", "docs")] None "docs" "/docs" None None None in
  let config := mkDevSpace None (Some [app; docs]) in
  let config' := mkDevSpace None (Some [docs]) in
  Remove.RunRemoveSync Remove.exampleEnv (Remove.mkSyncFlags "" "src" "" false) []
                       config freshWorld
  = (Ret config', extend freshWorld [ConfigSave config' None]).
Proof.
  intros app docs config config'.
  apply (RunRemoveSync_saves_the_unselected_entries
           Remove.exampleEnv (Remove.mkSyncFlags "" "src" "" false) [] config freshWorld
           [] [app; docs]).
  - reflexivity.
  - right; right; left. cbn. discriminate.
  - reflexivity.
  - discriminate.
Defined.

Lemma RunRemoveSync_returns env flags args config config' w w' m :
  Remove.parseSelectors env (Remove.syncSelector flags) = (m, None) ->
  Remove.RunRemoveSync env flags args config w = (Ret config', w') ->
  let gate := Nat.eqb (List.length m) 0 && negb (Remove.syncRemoveAll flags)
              && String.eqb (Remove.LocalPath flags) ""
              && String.eqb (Remove.ContainerPath flags) "" in
  config' = config /\ (gate = true \/ syncEntries config = []) \/
  exists l, Sync config = Some l /\ l <> [] /\ gate = false /\
            config' = mkDevSpace (Ports config) (Some (filter (syncStays env flags m) l)).
Proof.
  intros Hparse Hrun gate. unfold Remove.RunRemoveSync in Hrun. rewrite Hparse in Hrun.
  fold gate in Hrun. unfold syncEntries. destruct gate eqn:Hgate.
  - revert Hrun. run_unfold. intros Hrun. injection Hrun as <- _. left; auto.
  - destruct (Sync config) as [l |] eqn:Hs.
    + destruct l as [|v rest].
      * revert Hrun. cbn. intros Hrun. injection Hrun as <- _. left; auto.
      * revert Hrun. cbn [List.length Nat.ltb Nat.leb]. cbv zeta.
        rewrite removeSyncLoop_filter. unfold Remove.SaveConfig. run_unfold.
        destruct (Remove.configutil_SaveConfig env _ _); intros Hrun; [discriminate Hrun |].
        injection Hrun as <- _. right. exists (v :: rest).
        split; [reflexivity |]. split; [discriminate |]. split; reflexivity.
    + revert Hrun. cbn. intros Hrun. injection Hrun as <- _. left; auto.
Qed.

(** A path flag of remove-sync that is not given still takes part in the
    test: its value is the empty string, and the loop compares it with the
    path of every entry.  So after a run that passed the check of the flags
    (by another flag) and returned, the configuration has no sync entry left
    whose local sub path is empty when --local was not given, and none whose
    container path is empty when --container was not given, whether or not
    the flags that were given match those entries. *)
Theorem RunRemoveSync_unset_path_flag_matches_empty_path :
  forall (env : Remove.Env) (flags : Remove.removeSyncCmdFlags) (args : list string)
         (config config' : DevSpaceConfig) (w w' : World) (m : LabelSelector),
    Remove.parseSelectors env (Remove.syncSelector flags) = (m, None) ->
    syncFlagsGiven flags m ->
    Remove.RunRemoveSync env flags args config w = (Ret config', w') ->
    (Remove.LocalPath flags = "" ->
     forall v, In v (syncEntries config') -> scLocalSubPath v <> "") /\
    (Remove.ContainerPath flags = "" ->
     forall v, In v (syncEntries config') -> scContainerPath v <> "").
Proof.
  intros env flags args config config' w w' m Hparse Hgiven Hrun.
  assert (Hkept : forall v, In v (syncEntries config') ->
                            syncSelected env flags m v = false).
  { intros v Hin.
    destruct (RunRemoveSync_returns _ _ _ _ _ _ _ _ Hparse Hrun)
      as [[-> [Hgate | Hnil]] | (l & Hs & Hne & _ & ->)].
    - rewrite (syncFlagsGiven_gate _ _ Hgiven) in Hgate. discriminate Hgate.
    - rewrite Hnil in Hin. destruct Hin.
    - unfold syncEntries in Hin. cbn [Sync] in Hin.
      apply filter_In in Hin. destruct Hin as [_ Hst].
      unfold syncStays in Hst. now apply negb_true_iff in Hst. }
  split; intros Hflag v Hin Hv; specialize (Hkept v Hin);
    unfold syncSelected in Hkept; rewrite Hflag, Hv in Hkept; cbn in Hkept;
    rewrite ?orb_true_r in Hkept; discriminate Hkept.
Qed.

Lemma RunRemoveSync_unset_path_flag_matches_empty_path_witness :
  let app := mkSyncConfig None [("app", "web")] None "src" "/app" None None None in
  let root := mkSyncConfig None [("app", "db")] None "" "/data" None None None in
  let docs := mkSyncConfig None [("app", "docs")] None "docs" "/docs" None None None in
  let config := mkDevSpace None (Some [app; root; docs]) in
  let config' := mkDevSpace None (Some [docs]) in
  Remove.RunRemoveSync Remove.exampleEnv (Remove.mkSyncFlags "" "" "/app" false) []
                       config freshWorld
  = (Ret config', extend freshWorld [ConfigSave config' None])
  /\ forall v, In v (syncEntries config') -> scLocalSubPath v <> "".
Proof.
  intros app root docs config config'.
  assert (Hrun : Remove.RunRemoveSync Remove.exampleEnv
                   (Remove.mkSyncFlags "" "" "/app" false) [] config freshWorld
                 = (Ret config', extend freshWorld [ConfigSave config' None]))
    by reflexivity.
  split; [exact Hrun |].
  refine (proj1 (RunRemoveSync_unset_path_flag_matches_empty_path
                   Remove.exampleEnv (Remove.mkSyncFlags "" "" "/app" false) []
                   config config' freshWorld _ [] eq_refl _ Hrun) eq_refl).
  right; right; right. cbn. discriminate.
Defined.

(** Removing twice is removing once: when a run of remove-sync has returned
    and the command is run again with the same flags on the configuration it
    left, the second run returns that configuration unchanged. *)
Theorem RunRemoveSync_is_idempotent :
  forall (env : Remove.Env) (flags : Remove.removeSyncCmdFlags) (args args' : list string)
         (config c1 c2 : DevSpaceConfig) (w w1 w2 w3 : World),
    Remove.RunRemoveSync env flags args config w = (Ret c1, w1) ->
    Remove.RunRemoveSync env flags args' c1 w2 = (Ret c2, w3) ->
    c2 = c1.
Proof.
  intros env flags args args' config c1 c2 w w1 w2 w3 H1 H2.
  destruct (Remove.parseSelectors env (Remove.syncSelector flags)) as [m [e |]] eqn:Hparse.
  - unfold Remove.RunRemoveSync in H1. rewrite Hparse in H1. discriminate H1.
  - destruct (RunRemoveSync_returns _ _ _ _ _ _ _ _ Hparse H2)
      as [[-> _] | (l2 & Hs2 & Hne2 & Hg2 & ->)]; [reflexivity |].
    destruct (RunRemoveSync_returns _ _ _ _ _ _ _ _ Hparse H1)
      as [[-> [Hg1 | Hnil]] | (l1 & Hs1 & Hne1 & _ & ->)].
    + rewrite Hg1 in Hg2. discriminate Hg2.
    + unfold syncEntries in Hnil. rewrite Hs2 in Hnil. congruence.
    + cbn [Sync Ports] in *. injection Hs2 as <-. now rewrite filter_twice.
Qed.

Lemma RunRemoveSync_is_idempotent_witness :
  let app := mkSyncConfig None [("app", "web")] None "src" "/app" None None None in
  let docs := mkSyncConfig None [("app", "docs")] None "docs" "/docs" None None None in
  let config := mkDevSpace None (Some [app; docs]) in
  let flags := Remove.mkSyncFlags "app=web" "" "" false in
  let first := Remove.RunRemoveSync Remove.exampleEnv flags [] config freshWorld in
  fst first = Ret (mkDevSpace None (Some [docs])) /\
  fst (Remove.RunRemoveSync Remove.exampleEnv flags []
                            (mkDevSpace None (Some [docs])) (snd first))
  = Ret (mkDevSpace None (Some [docs])).
Proof.
  intros app docs config flags first.
  assert (H1 : first = (Ret (mkDevSpace None (Some [docs])), snd first)) by reflexivity.
  split; [reflexivity |].
  destruct (Remove.RunRemoveSync Remove.exampleEnv flags []
              (mkDevSpace None (Some [docs])) (snd first)) as [[c2 | h] w3] eqn:H2;
    [| discriminate H2].
  cbn [fst]. f_equal.
  exact (RunRemoveSync_is_idempotent Remove.exampleEnv flags [] [] config _ c2
           freshWorld (snd first) (snd first) w3 H1 H2).
Defined.

Lemma RunRemovePort_returns env flags args config config' w w' m :
  Remove.parseSelectors env (Remove.portSelector flags) = (m, None) ->
  Remove.RunRemovePort env flags args config w = (Ret config', w') ->
  let gate := Nat.eqb (List.length m) 0 && negb (Remove.portRemoveAll flags)
              && String.eqb (Remove.argPortsOf args) "" in
  let ports := Go.Split (Remove.argPortsOf args) "," in
  config' = config /\ (gate = true \/ portEntries config = []) \/
  exists l, Ports config = Some l /\ l <> [] /\ gate = false /\
            config' = mkDevSpace (Some (flat_map (portEntryKept env flags m ports) l))
                                 (Sync config).
Proof.
  intros Hparse Hrun gate ports. unfold Remove.RunRemovePort in Hrun.
  rewrite Hparse in Hrun. cbv zeta in Hrun.
  fold gate in Hrun. fold ports in Hrun. unfold portEntries. destruct gate eqn:Hgate.
  - revert Hrun. run_unfold. intros Hrun. injection Hrun as <- _. left; auto.
  - destruct (Ports config) as [l |] eqn:Hs.
    + destruct l as [|v rest].
      * revert Hrun. cbn. intros Hrun. injection Hrun as <- _. left; auto.
      * revert Hrun. cbn [List.length Nat.ltb Nat.leb].
        rewrite removePortsLoop_flat_map. unfold Remove.SaveConfig. run_unfold.
        destruct (Remove.configutil_SaveConfig env _ _); intros Hrun; [discriminate Hrun |].
        injection Hrun as <- _. right. exists (v :: rest).
        split; [reflexivity |]. split; [discriminate |]. split; reflexivity.
    + revert Hrun. cbn. intros Hrun. injection Hrun as <- _. left; auto.
Qed.

(** Removing ports twice is removing them once: when a run of remove-port
    has returned and the command is run again with the same flags and
    arguments on the configuration it left, the second run returns that
    configuration unchanged: the entries that were kept are not selected,
    and the mappings they kept are not among the requested ports. *)
Theorem RunRemovePort_is_idempotent :
  forall (env : Remove.Env) (flags : Remove.removePortCmdFlags) (args : list string)
         (config c1 c2 : DevSpaceConfig) (w w1 w2 w3 : World),
    Remove.RunRemovePort env flags args config w = (Ret c1, w1) ->
    Remove.RunRemovePort env flags args c1 w2 = (Ret c2, w3) ->
    c2 = c1.
Proof.
  intros env flags args config c1 c2 w w1 w2 w3 H1 H2.
  destruct (Remove.parseSelectors env (Remove.portSelector flags)) as [m [e |]] eqn:Hparse.
  - unfold Remove.RunRemovePort in H1. rewrite Hparse in H1. discriminate H1.
  - destruct (RunRemovePort_returns _ _ _ _ _ _ _ _ Hparse H2)
      as [[-> _] | (l2 & Hs2 & Hne2 & Hg2 & ->)]; [reflexivity |].
    destruct (RunRemovePort_returns _ _ _ _ _ _ _ _ Hparse H1)
      as [[-> [Hg1 | Hnil]] | (l1 & Hs1 & Hne1 & _ & ->)].
    + rewrite Hg1 in Hg2. discriminate Hg2.
    + unfold portEntries in Hnil. rewrite Hs2 in Hnil. congruence.
    + cbn [Sync Ports] in *. injection Hs2 as <-. now rewrite portEntryKept_twice.
Qed.

Lemma RunRemovePort_is_idempotent_witness :
  let web := mkPortForwarding None None [("app", "web")]
                              [mkPortMapping 8080 80; mkPortMapping 3000 3000] in
  let db := mkPortForwarding None None [("app", "db")] [mkPortMapping 5432 5432] in
  let config := mkDevSpace (Some [web; db]) None in
  let left := mkDevSpace (Some [withMappings web [mkPortMapping 3000 3000]]) None in
  let flags := Remove.mkPortFlags "" false in
  let first := Remove.RunRemovePort Remove.exampleEnv flags ["8080, 5432"] config freshWorld in
  fst first = Ret left /\
  fst (Remove.RunRemovePort Remove.exampleEnv flags ["8080, 5432"] left (snd first))
  = Ret left.
Proof.
  intros web db config left flags first.
  assert (H1 : first = (Ret left, snd first)) by reflexivity.
  split; [reflexivity |].
  destruct (Remove.RunRemovePort Remove.exampleEnv flags ["8080, 5432"] left (snd first))
    as [[c2 | h] w3] eqn:H2; [| discriminate H2].
  cbn [fst]. f_equal.
  exact (RunRemovePort_is_idempotent Remove.exampleEnv flags ["8080, 5432"] config left c2
           freshWorld (snd first) (snd first) w3 H1 H2).
Defined.

(* --------------------------------------------------------------------- *)
(** ** More of cmd/up.go *)
(* --------------------------------------------------------------------- *)

(** The four reasons to deploy.  In every run of buildAndDeploy that got as
    far as looking for the running pod of the release, deployChart is
    entered (it starts by reading the values of the chart) as soon as one of
    these holds: the lookup of the running pod failed, an image had to be
    rebuilt, the deploy flag is set, or the hash of the chart directory is
    not the fingerprint on disk. *)
Theorem buildAndDeploy_deploys_on_any_trigger :
  forall (env : Up.Env) (config : UpConfig) (cmd : Up.UpCmd) (w w' : World)
         (r : Outcome Up.UpCmd),
    Up.buildAndDeploy env config cmd w = (r, w') ->
    exists evs,
      trace w' = trace w ++ evs /\
      forall (hash : string) (res : Go.result Pod),
        In (HashDirectory "chart" hash None) evs ->
        In (GetRunningDevSpacePod res) evs ->
        (snd res <> None \/
         existsb is_rebuild evs = true \/
         Up.deploy (Up.flags cmd) = true \/
         HelmChartHash (generated_yaml w) <> hash) ->
        existsb is_ReadYaml evs = true.
Proof.
  intros env config cmd w w' r H.
  unfold Up.buildAndDeploy, Up.LoadConfig, Up.SaveConfig, Up.buildImages in H.
  run_cases H; use_build_and_deploy;
    (eexists; split;
     [ rewrite ?record_extend, ?extend_extend;
       cbn [trace write_generated extend]; reflexivity | ]);
    intros hash res Hhash Hpod Hwhy;
    cbn [fst snd] in *; locate_event;
    rewrite ?existsb_app;
    try match goal with Hq : existsb is_ReadYaml _ = true |- _ => rewrite Hq end;
    cbn [existsb is_ReadYaml orb]; rewrite ?orb_true_r; try reflexivity.
  all: exfalso;
    match goal with
    | Hbres : HelmChartHash ?g = _ /\ _ = false || existsb is_rebuild ?bevs,
      Hc : _ || _ || _ || negb (HelmChartHash ?g =? ?s)%string = false |- _ =>
        destruct Hbres as [Hg Hb]; cbn in Hg;
        apply orb_false_iff in Hc; destruct Hc as [Hc Hc4];
        apply orb_false_iff in Hc; destruct Hc as [Hc Hc3];
        apply orb_false_iff in Hc; destruct Hc as [Hc1 Hc2];
        first
          [ discriminate Hc1
          | destruct Hwhy as [Hw | [Hw | [Hw | Hw]]];
            [ apply Hw; reflexivity
            | rewrite !existsb_app in Hw; cbn in Hw; rewrite ?orb_false_r in Hw;
              cbn in Hb; congruence
            | congruence
            | apply Hw; rewrite <- Hg; apply negb_false_iff in Hc4;
              now apply String.eqb_eq ] ]
    end.
Qed.

Lemma buildAndDeploy_deploys_on_any_trigger_witness :
  let env := exampleUpEnv (None, Some "no running pod") (Some podApp, None) "hash-1"
                          (fun _ => (Some podApp, None)) None true in
  let run := Up.buildAndDeploy env exampleUpConfig exampleUpCmd deployedWorld in
  existsb is_ReadYaml (trace (snd run)) = true.
Proof.
  intros env run.
  destruct (buildAndDeploy_deploys_on_any_trigger
              env exampleUpConfig exampleUpCmd deployedWorld (snd run) (fst run) eq_refl)
    as (evs & Htr & Hdeploy).
  cbn in Htr. subst evs.
  apply (Hdeploy "hash-1" (None, Some "no running pod")); cbn; auto.
  left. discriminate.
Defined.

Definition is_SyncStop (e : Event) : bool :=
  match e with
  | SyncStop _ => true
  | _ => false
  end.

(** The sessions whose Start succeeded, in the order of the trace. *)
Definition startedSessions (evs : Trace) : list SyncSession :=
  flat_map (fun e => match e with
                     | SyncStart s None => [s]
                     | _ => []
                     end) evs.

Lemma startedSessions_app a b :
  startedSessions (a ++ b) = startedSessions a ++ startedSessions b.
Proof. apply flat_map_app. Qed.

Section TeardownFacts.
Variable env : Up.Env.
Variable config : UpConfig.
Variable cmd : Up.UpCmd.

Lemma syncOne_sessions syncPath syncConfigs w r w' :
  Up.syncOne env config cmd syncPath syncConfigs w = (r, w') ->
  exists evs,
    w' = extend w evs /\
    existsb is_SyncStop evs = false /\
    existsb is_EnterTerminal evs = false /\
    forall l, r = Ret l -> l = syncConfigs ++ startedSessions evs.
Proof.
  intros H. unfold Up.syncOne in H.
  run_cases H; no_index_panic; give_events; cbn;
    (split; [reflexivity |]); (split; [reflexivity |]);
    intros l Hl; first [discriminate Hl | injection Hl as <-];
    rewrite ?app_nil_r; reflexivity.
Qed.

Lemma syncLoop_sessions decls : forall syncConfigs w r w',
  Up.syncLoop env config cmd decls syncConfigs w = (r, w') ->
  exists evs,
    w' = extend w evs /\
    existsb is_SyncStop evs = false /\
    existsb is_EnterTerminal evs = false /\
    forall l, r = Ret l -> l = syncConfigs ++ startedSessions evs.
Proof.
  induction decls as [|d rest IH]; intros syncConfigs w r w' H; cbn [Up.syncLoop] in H.
  - injection H as <- <-. exists []. rewrite extend_nil. cbn.
    repeat split. intros l Hl. injection Hl as <-. now rewrite app_nil_r.
  - apply bind_run in H. destruct H as [(a & w1 & H1 & H2) | (h & H1 & ->)].
    + destruct (syncOne_sessions _ _ _ _ _ H1) as (evs1 & -> & Hs1 & Ht1 & Hl1).
      destruct (IH _ _ _ _ H2) as (evs2 & -> & Hs2 & Ht2 & Hl2).
      exists (evs1 ++ evs2).
      rewrite extend_extend, !existsb_app, Hs1, Hs2, Ht1, Ht2, startedSessions_app.
      repeat split. intros l Hl. rewrite (Hl2 l Hl), (Hl1 a eq_refl), app_assoc.
      reflexivity.
    + destruct (syncOne_sessions _ _ _ _ _ H1) as (evs1 & -> & Hs1 & Ht1 & _).
      exists evs1. repeat split; auto. intros l Hl. discriminate Hl.
Qed.

Lemma forwardOne_no_sessions portForwarding w :
  exists evs,
    Up.forwardOne env config portForwarding w = (Ret tt, extend w evs) /\
    existsb is_SyncStop evs = false /\
    existsb is_EnterTerminal evs = false /\
    startedSessions evs = [].
Proof.
  destruct (Up.forwardOne env config portForwarding w) as [r w'] eqn:H.
  unfold Up.forwardOne in H.
  run_cases H; give_events; cbn; auto.
Qed.

Lemma forwardLoop_no_sessions decls : forall w,
  exists evs,
    Up.forwardLoop env config decls w = (Ret tt, extend w evs) /\
    existsb is_SyncStop evs = false /\
    existsb is_EnterTerminal evs = false /\
    startedSessions evs = [].
Proof.
  induction decls as [|d rest IH]; intros w; cbn [Up.forwardLoop].
  - exists []. rewrite extend_nil. auto.
  - destruct (forwardOne_no_sessions d w) as (evs1 & H1 & Hs1 & Ht1 & Hn1).
    destruct (IH (extend w evs1)) as (evs2 & H2 & Hs2 & Ht2 & Hn2).
    exists (evs1 ++ evs2). unfold bind.
    rewrite H1, H2, extend_extend, !existsb_app, startedSessions_app.
    rewrite Hs1, Hs2, Ht1, Ht2, Hn1, Hn2. auto.
Qed.

End TeardownFacts.

(** What the start of [runSessions] has done when the terminal is entered or
    the process has ended before: it has added [before] to the trace; no
    session was stopped and the terminal was not entered; the sessions it
    hands to the deferred stop are those whose Start succeeded. *)
Lemma runSessions_start env config cmd w :
  let start :=
    ((if Up.portforwarding (Up.flags cmd) then Up.startPortForwarding env config else ret tt) ;;
     (if Up.sync (Up.flags cmd) then Up.startSync env config cmd else ret [])) in
  exists before,
    snd (start w) = extend w before /\
    existsb is_SyncStop before = false /\
    existsb is_EnterTerminal before = false /\
    (Up.sync (Up.flags cmd) = false -> startedSessions before = []) /\
    forall l, fst (start w) = Ret l -> l = startedSessions before.
Proof.
  intros start. subst start. unfold bind.
  assert (Hfwd : exists evs,
             (if Up.portforwarding (Up.flags cmd)
              then Up.startPortForwarding env config else ret tt) w
             = (Ret tt, extend w evs) /\
             existsb is_SyncStop evs = false /\
             existsb is_EnterTerminal evs = false /\
             startedSessions evs = []).
  { destruct (Up.portforwarding (Up.flags cmd)).
    - apply forwardLoop_no_sessions.
    - exists []. rewrite extend_nil. auto. }
  destruct Hfwd as (evs1 & -> & Hs1 & Ht1 & Hn1).
  destruct (Up.sync (Up.flags cmd)).
  - destruct (Up.startSync env config cmd (extend w evs1)) as [r w1] eqn:Hrun.
    unfold Up.startSync in Hrun.
    destruct (syncLoop_sessions _ _ _ _ _ _ _ _ Hrun) as (evs2 & -> & Hs2 & Ht2 & Hl2).
    exists (evs1 ++ evs2). cbn [fst snd].
    rewrite extend_extend, !existsb_app, startedSessions_app, Hs1, Hs2, Ht1, Ht2, Hn1.
    repeat split; [intros HH; discriminate HH |].
    intros l Hl. apply (Hl2 l Hl).
  - exists evs1. cbn [fst snd]. repeat split; auto.
    intros l Hl. injection Hl as <-. now rewrite Hn1.
Qed.

(** Teardown.  When [Run] gets through its sessions and the terminal
    returns, every sync session that was started is stopped, once, in the
    order in which the sessions were started, and nothing else is stopped:
    the trace of the run is what the port forwarding and the start of the
    sessions added, then the terminal, then one Stop for each session whose
    Start succeeded.  With sync switched off no session was started and
    nothing is stopped. *)
Theorem runSessions_stops_every_started_session :
  forall (env : Up.Env) (config : UpConfig) (cmd : Up.UpCmd) (args : list string)
         (w w' : World),
    Up.runSessions env config cmd args w = (Ret tt, w') ->
    exists before,
      trace w' = trace w ++ before
                 ++ [EnterTerminal (Up.pod cmd) (Up.container (Up.flags cmd)) args]
                 ++ map SyncStop (startedSessions before) /\
      existsb is_SyncStop before = false /\
      existsb is_EnterTerminal before = false /\
      (Up.sync (Up.flags cmd) = false -> startedSessions before = []).
Proof.
  intros env config cmd args w w' H.
  destruct (runSessions_start env config cmd w) as (before & Hw & Hs & Ht & Hoff & Hl).
  exists before. split; [| auto].
  unfold Up.runSessions in H. revert H Hw Hl. unfold bind.
  destruct ((if Up.portforwarding (Up.flags cmd)
             then Up.startPortForwarding env config else ret tt) w) as [[[] | h] w1];
    [| intros H; discriminate H].
  destruct ((if Up.sync (Up.flags cmd) then Up.startSync env config cmd else ret []) w1)
    as [[l | h] w2]; cbn [fst snd]; [| intros H; discriminate H].
  intros H -> Hl. rewrite (Hl l eq_refl) in H.
  revert H. unfold emit. rewrite stopAll_returns, record_extend, !extend_extend.
  intros H. injection H as <-. cbn [trace extend]. reflexivity.
Qed.

Lemma runSessions_stops_every_started_session_witness :
  let env := exampleUpEnv (Some podApp, None) (Some podApp, None) "hash-1"
                          (fun _ => (Some podApp, None)) None true in
  let run := Up.runSessions env exampleUpConfig exampleUpCmd [] deployedWorld in
  exists before,
    trace (snd run) = trace deployedWorld ++ before
                      ++ [EnterTerminal None "" []]
                      ++ map SyncStop (startedSessions before) /\
    existsb is_SyncStop before = false /\
    existsb is_EnterTerminal before = false /\
    (Up.sync (Up.flags exampleUpCmd) = false -> startedSessions before = []).
Proof.
  intros env run.
  apply (runSessions_stops_every_started_session
           env exampleUpConfig exampleUpCmd [] deployedWorld (snd run)).
  reflexivity.
Defined.

(** No teardown when the start of the sessions ends the run.  The stop of
    the sync sessions is deferred by [Run] only after startSync has
    returned, so when a later declaration ends the process (a Start that
    fails) or panics (a path or a pod lookup that fails), the sessions that
    were started before it are not stopped, and the terminal is not
    entered. *)
Theorem runSessions_stops_nothing_when_it_halts :
  forall (env : Up.Env) (config : UpConfig) (cmd : Up.UpCmd) (args : list string)
         (w w' : World) (h : Halt),
    Up.runSessions env config cmd args w = (Halted h, w') ->
    exists evs,
      trace w' = trace w ++ evs /\
      existsb is_SyncStop evs = false /\
      existsb is_EnterTerminal evs = false /\
      Up.sync (Up.flags cmd) = true.
Proof.
  intros env config cmd args w w' h H.
  destruct (runSessions_start env config cmd w) as (before & Hw & Hs & Ht & Hoff & Hl).
  exists before.
  unfold Up.runSessions in H. revert H Hw Hl. unfold bind.
  destruct (Up.portforwarding (Up.flags cmd)) eqn:Hpf.
  - destruct (forwardLoop_no_sessions env config (PortForwarding config) w)
      as (fevs & Hf & _). unfold Up.startPortForwarding. rewrite Hf.
    destruct (Up.sync (Up.flags cmd)) eqn:Hsync.
    + destruct (Up.startSync env config cmd (extend w fevs)) as [[l | h'] w2];
        cbn [fst snd].
      * unfold emit. rewrite stopAll_returns. intros H; discriminate H.
      * intros H -> _. injection H as _ <-. auto.
    + unfold ret, emit. rewrite stopAll_returns. intros H; discriminate H.
  - change (@ret unit tt w) with (Ret tt, w). cbv beta iota.
    destruct (Up.sync (Up.flags cmd)) eqn:Hsync.
    + destruct (Up.startSync env config cmd w) as [[l | h'] w2]; cbn [fst snd].
      * unfold emit. rewrite stopAll_returns. intros H; discriminate H.
      * intros H -> _. injection H as _ <-. auto.
    + unfold ret, emit. rewrite stopAll_returns. intros H; discriminate H.
Qed.

(** An environment in which the first sync session starts and every later
    Start fails. *)
Definition flakySyncEnv : Up.Env :=
  let base := exampleUpEnv (Some podApp, None) (Some podApp, None) "hash-1"
                           (fun _ => (Some podApp, None)) None true in
  Up.mkEnv (Up.generated_LoadConfig base) (Up.image_Build base) (Up.hash_Directory base)
           (Up.getRunningDevSpacePod base) (Up.yamlutil_ReadYamlFromFile base)
           (Up.registry_GetImageURL base) (Up.registry_GetRegistryAuthSecretName base)
           (Up.helm_InstallChartByPath base) (Up.helm_WaitForReleasePodToGetReady base)
           (Up.generated_SaveConfig base) (Up.filepath_Abs base)
           (Up.kubectl_GetFirstRunningPod base)
           (fun h _ => if existsb is_SyncStart h then Some "broken pipe" else None)
           (Up.forwarding_ready base).

Lemma runSessions_stops_nothing_when_it_halts_witness :
  let config := mkUpConfig [] [] "devspace-app" "default" [syncApp; syncApp] [] in
  let run := Up.runSessions flakySyncEnv config exampleUpCmd [] deployedWorld in
  fst run = Halted Exit /\
  List.length (startedSessions (trace (snd run))) = 1%nat /\
  existsb is_SyncStop (trace (snd run)) = false /\
  existsb is_EnterTerminal (trace (snd run)) = false.
Proof.
  intros config run.
  destruct (runSessions_stops_nothing_when_it_halts
              flakySyncEnv config exampleUpCmd [] deployedWorld (snd run) Exit eq_refl)
    as (evs & Htr & Hstop & Hterm & _).
  cbn [trace deployedWorld app] in Htr. rewrite Htr.
  split; [reflexivity |]. split; [rewrite <- Htr; reflexivity |].
  split; [exact Hstop | exact Hterm].
Defined.

Definition is_GetFirstRunningPod (e : Event) : bool :=
  match e with
  | GetFirstRunningPod _ _ _ => true
  | _ => false
  end.

Definition is_resource_type_warning (e : Event) : bool :=
  match e with
  | Log Warn "Currently only pod resource type is supported for portforwarding" [] => true
  | _ => false
  end.

(** The resource type of a port forwarding is "pod", or not given. *)
Definition forwardsToPod (pf : PortForwardingConfig) : bool :=
  match pfResourceType pf with
  | None => true
  | Some t => String.eqb t "pod"
  end.

Definition hasSelector (pf : PortForwardingConfig) : bool :=
  Nat.ltb 0 (List.length (pfLabelSelector pf)).

Section LookupFacts.
Variable env : Up.Env.
Variable config : UpConfig.
Variable cmd : Up.UpCmd.

Lemma forwardOne_lookups portForwarding w :
  exists evs,
    Up.forwardOne env config portForwarding w = (Ret tt, extend w evs) /\
    count is_GetFirstRunningPod evs
    = (if forwardsToPod portForwarding && hasSelector portForwarding then 1 else 0)%nat /\
    count is_resource_type_warning evs
    = (if forwardsToPod portForwarding then 0 else 1)%nat /\
    (count is_ForwardPorts evs <= count is_GetFirstRunningPod evs)%nat /\
    (count is_Log evs
     <= count is_GetFirstRunningPod evs + count is_resource_type_warning evs)%nat.
Proof.
  destruct (Up.forwardOne env config portForwarding w) as [r w'] eqn:H.
  unfold Up.forwardOne in H. fold (forwardsToPod portForwarding) in H.
  fold (hasSelector portForwarding) in H.
  destruct (forwardsToPod portForwarding), (hasSelector portForwarding);
    run_cases H; give_events; cbn; auto.
Qed.

(** A declaration of the kind "pod" without labels adds nothing, and one of
    another kind adds the warning. *)
Lemma forwardOne_without_lookup portForwarding w :
  (forwardsToPod portForwarding = true -> hasSelector portForwarding = false ->
   Up.forwardOne env config portForwarding w = (Ret tt, w)) /\
  (forwardsToPod portForwarding = false ->
   Up.forwardOne env config portForwarding w
   = (Ret tt,
      extend w [Log Warn "Currently only pod resource type is supported for portforwarding"
                    []])).
Proof.
  unfold Up.forwardOne. fold (forwardsToPod portForwarding).
  fold (hasSelector portForwarding). split.
  - intros -> ->. reflexivity.
  - intros ->. run_unfold. now rewrite record_extend.
Qed.

Lemma forwardLoop_lookups decls : forall w,
  exists evs,
    Up.forwardLoop env config decls w = (Ret tt, extend w evs) /\
    count is_GetFirstRunningPod evs
    = List.length (filter (fun pf => forwardsToPod pf && hasSelector pf) decls) /\
    count is_resource_type_warning evs
    = List.length (filter (fun pf => negb (forwardsToPod pf)) decls) /\
    (count is_ForwardPorts evs <= count is_GetFirstRunningPod evs)%nat /\
    (count is_Log evs
     <= count is_GetFirstRunningPod evs + count is_resource_type_warning evs)%nat.
Proof.
  induction decls as [|d rest IH]; intros w; cbn [Up.forwardLoop filter].
  - exists []. rewrite extend_nil. auto.
  - destruct (forwardOne_lookups d w) as (evs1 & H1 & Hl1 & Hw1 & Hf1 & Hm1).
    destruct (IH (extend w evs1)) as (evs2 & H2 & Hl2 & Hw2 & Hf2 & Hm2).
    exists (evs1 ++ evs2). unfold bind.
    rewrite H1, H2, extend_extend, !count_app.
    split; [reflexivity |].
    rewrite Hl1, Hw1 in *. rewrite Hl2, Hw2 in *. revert Hf1 Hm1.
    destruct (forwardsToPod d), (hasSelector d); cbn [andb negb List.length];
      intros Hf1 Hm1; repeat split; lia.
Qed.

Lemma syncOne_lookups syncPath syncConfigs w l w' :
  Up.syncOne env config cmd syncPath syncConfigs w = (Ret l, w') ->
  exists evs,
    w' = extend w evs /\
    count is_GetFirstRunningPod evs = 1%nat /\
    (count is_SyncStart evs <= 1)%nat.
Proof.
  intros H. unfold Up.syncOne in H.
  revert H. run_unfold. repeat split_answer; intros H;
    first [discriminate H | injection H as <- <-];
    give_events; cbn; auto.
Qed.

Lemma syncLoop_lookups decls : forall syncConfigs w l w',
  Up.syncLoop env config cmd decls syncConfigs w = (Ret l, w') ->
  exists evs,
    w' = extend w evs /\
    count is_GetFirstRunningPod evs = List.length decls /\
    (count is_SyncStart evs <= List.length decls)%nat.
Proof.
  induction decls as [|d rest IH]; intros syncConfigs w l w' H; cbn [Up.syncLoop] in H.
  - injection H as <- <-. exists []. rewrite extend_nil. auto.
  - apply bind_run in H. destruct H as [(a & w1 & H1 & H2) | (h & _ & Hh)];
      [| discriminate Hh].
    destruct (syncOne_lookups _ _ _ _ _ H1) as (evs1 & -> & Hl1 & Hs1).
    destruct (IH _ _ _ _ H2) as (evs2 & -> & Hl2 & Hs2).
    exists (evs1 ++ evs2). rewrite extend_extend, !count_app, Hl1, Hl2.
    cbn [List.length]. repeat split; lia.
Qed.

End LookupFacts.

(** startPortForwarding always returns, and it asks the cluster for a pod
    once for each declaration whose resource type is "pod" or not given and
    whose selector is not empty, and for no other: a declaration of another
    resource type gets the warning that only pods are supported and nothing
    else, and one without labels is passed over without a message, the loop
    body adds no event at all for it.  So every message of the run is such a
    warning or comes with a lookup.  A forwarder is started at most once per
    lookup. *)
Theorem startPortForwarding_looks_up_pods_with_a_selector_only :
  forall (env : Up.Env) (config : UpConfig) (w : World),
  exists evs,
    Up.startPortForwarding env config w = (Ret tt, extend w evs) /\
    count is_GetFirstRunningPod evs
    = List.length (filter (fun pf => forwardsToPod pf && hasSelector pf)
                          (PortForwarding config)) /\
    count is_resource_type_warning evs
    = List.length (filter (fun pf => negb (forwardsToPod pf)) (PortForwarding config)) /\
    (count is_ForwardPorts evs <= count is_GetFirstRunningPod evs)%nat /\
    (count is_Log evs
     <= count is_GetFirstRunningPod evs + count is_resource_type_warning evs)%nat /\
    (forall portForwarding w1,
        forwardsToPod portForwarding = true -> hasSelector portForwarding = false ->
        Up.forwardOne env config portForwarding w1 = (Ret tt, w1)) /\
    (forall portForwarding w1,
        forwardsToPod portForwarding = false ->
        Up.forwardOne env config portForwarding w1
        = (Ret tt,
           extend w1 [Log Warn "Currently only pod resource type is supported for portforwarding"
                          []])).
Proof.
  intros env config w.
  destruct (forwardLoop_lookups env config (PortForwarding config) w)
    as (evs & Hrun & Hl & Hw & Hf & Hm).
  exists evs. unfold Up.startPortForwarding.
  repeat split; auto; intros pf w1; apply forwardOne_without_lookup.
Qed.

(** Three declarations: one for a service, one for any pod (no labels), and
    one for the pods of the release. *)
Lemma startPortForwarding_looks_up_pods_with_a_selector_only_witness :
  let env := exampleUpEnv (Some podApp, None) (Some podApp, None) "hash-1"
                          (fun _ => (Some podApp, None)) None true in
  let service := mkPortForwarding None (Some "service") [("app", "web")]
                                  [mkPortMapping 8080 80] in
  let anyPod := mkPortForwarding None (Some "pod") [] [mkPortMapping 9229 9229] in
  let config := mkUpConfig [] [] "devspace-app" "default" [] [service; anyPod; forwardApp] in
  Up.startPortForwarding env config deployedWorld
  = (Ret tt,
     extend deployedWorld
            [Log Warn "Currently only pod resource type is supported for portforwarding" [];
             GetFirstRunningPod "release=devspace-app" "default" (Some podApp, None);
             ForwardPorts podApp ["3000:3000"];
             ForwardReady true;
             Log Done "Port forwarding started on %s" ["3000:3000"]]) /\
  Up.forwardOne env config anyPod deployedWorld = (Ret tt, deployedWorld).
Proof.
  intros env service anyPod config.
  destruct (startPortForwarding_looks_up_pods_with_a_selector_only env config deployedWorld)
    as (evs & Hrun & _ & _ & _ & _ & Hquiet & _).
  split.
  - rewrite Hrun. f_equal.
    apply (f_equal (fun x => trace (snd x))) in Hrun. cbn in Hrun. now subst evs.
  - apply Hquiet; reflexivity.
Defined.

(** startSync, unlike startPortForwarding, does not look at the selector
    before it asks for a pod: a run that returns has asked the cluster once
    for every sync declaration, also for one whose selector is empty, and
    has started at most one session for each. *)
Theorem startSync_looks_up_a_pod_for_every_declaration :
  forall (env : Up.Env) (config : UpConfig) (cmd : Up.UpCmd) (w w' : World)
         (l : list SyncSession),
    Up.startSync env config cmd w = (Ret l, w') ->
    exists evs,
      trace w' = trace w ++ evs /\
      count is_GetFirstRunningPod evs = List.length (UpSync config) /\
      (count is_SyncStart evs <= List.length (UpSync config))%nat /\
      l = startedSessions evs.
Proof.
  intros env config cmd w w' l H. unfold Up.startSync in H.
  destruct (syncLoop_lookups _ _ _ _ _ _ _ _ H) as (evs & Hw & Hl & Hs).
  destruct (syncLoop_sessions _ _ _ _ _ _ _ _ H) as (evs' & Hw' & _ & _ & Hl').
  assert (evs' = evs).
  { rewrite Hw in Hw'. apply (f_equal trace) in Hw'. cbn in Hw'.
    apply app_inv_head in Hw'. congruence. }
  subst evs'. exists evs. rewrite Hw. cbn [trace extend].
  repeat split; auto; apply (Hl' l eq_refl).
Qed.

Lemma startSync_looks_up_a_pod_for_every_declaration_witness :
  let env := exampleUpEnv (Some podApp, None) (Some podApp, None) "hash-1"
                          (fun _ => (Some podApp, None)) None true in
  let anyPod := mkSyncConfig None [] None "src" "/app" None None None in
  let config := mkUpConfig [] [] "devspace-app" "default" [anyPod; syncWorker] [] in
  let run := Up.startSync env config exampleUpCmd deployedWorld in
  exists l evs,
    fst run = Ret l /\
    trace (snd run) = trace deployedWorld ++ evs /\
    count is_GetFirstRunningPod evs = 2%nat /\
    (count is_SyncStart evs <= 2)%nat /\
    l = startedSessions evs.
Proof.
  intros env anyPod config run.
  destruct run as [[l | h] w'] eqn:Hrun; [| discriminate Hrun].
  destruct (startSync_looks_up_a_pod_for_every_declaration
              env config exampleUpCmd deployedWorld w' l Hrun) as (evs & H).
  exists l, evs. split; [reflexivity | exact H].
Defined.



Section DeployValues.
Variable env : Up.Env.

Lemma registrySecrets_In regs s :
  In s (Up.registrySecrets env regs) <->
  exists name registryConf url,
    In (name, registryConf) regs /\ regURL registryConf = Some url /\
    s = Up.registry_GetRegistryAuthSecretName env url.
Proof.
  induction regs as [|[name registryConf] rest IH]; cbn [Up.registrySecrets].
  - split; [intros [] | intros (? & ? & ? & [] & _)].
  - destruct (regURL registryConf) as [url |] eqn:Hurl.
    + cbn [In]. rewrite IH. split.
      * intros [<- | (n & rc & u & Hin & Hu & ->)].
        -- exists name, registryConf, url. cbn; auto.
        -- exists n, rc, u. cbn; auto.
      * intros (n & rc & u & [Heq | Hin] & Hu & ->).
        -- injection Heq as <- <-. left. congruence.
        -- right. exists n, rc, u. auto.
    + rewrite IH. split.
      * intros (n & rc & u & Hin & Hu & ->). exists n, rc, u. cbn; auto.
      * intros (n & rc & u & [Heq | Hin] & Hu & ->).
        -- injection Heq as <- <-. congruence.
        -- exists n, rc, u. auto.
Qed.

End DeployValues.

(** The values deployChart hands to helm.  Whenever a run of deployChart
    calls install-or-upgrade, it does so for the release of the
    configuration, the values of the chart were read without error, their
    entry "pullSecrets" is absent or a list, and the pull secrets handed
    over are the ones of the chart together with the secret of every
    registry of the configuration that has a URL: no secret of the chart is
    dropped, a registry without URL adds none.  There is one container entry
    per image of the configuration, under the name of the image. *)
Theorem deployChart_keeps_the_pull_secrets_of_the_chart :
  forall (env : Up.Env) (config : UpConfig) (cmd : Up.UpCmd)
         (generatedConfig : GeneratedConfig) (w w' : World) (r : Outcome Up.UpCmd),
    Up.deployChart env config cmd generatedConfig w = (r, w') ->
    exists evs,
      w' = extend w evs /\
      forall name ns path values res,
        In (InstallChartByPath name ns path values res) evs ->
        name = ReleaseName config /\ ns = ReleaseNamespace config /\
        map fst (ovContainers values) = map fst (Images config) /\
        exists chartValues existing,
          Up.yamlutil_ReadYamlFromFile env (trace w) "chart/values.yaml"
          = (chartValues, None) /\
          (lookup "pullSecrets" chartValues = None /\ existing = [] \/
           lookup "pullSecrets" chartValues = Some (YList existing)) /\
          forall s,
            In s (ovPullSecrets values) <->
            In s existing \/
            exists regName registryConf url,
              In (regName, registryConf) (Registries config) /\
              regURL registryConf = Some url /\
              s = Up.registry_GetRegistryAuthSecretName env url.
Proof.
  intros env config cmd generatedConfig w w' r H. unfold Up.deployChart in H.
  run_cases H; give_events;
    intros nm nsp pth vals rs Hin; in_trace;
    (split; [reflexivity |]); (split; [reflexivity |]);
    (split; [cbn [ovContainers]; unfold Up.containerValues; rewrite map_map;
             reflexivity |]);
    match goal with
    | Hread : Up.yamlutil_ReadYamlFromFile _ _ _ = (?v, None) |- _ =>
        exists v;
        match goal with
        | Hl : lookup "pullSecrets" v = Some (YList ?l) |- _ => exists l
        | Hl : lookup "pullSecrets" v = None |- _ => exists (@nil string)
        end;
        (split; [exact Hread |]); (split; [auto |]);
        intros s; cbn [ovPullSecrets]; rewrite ?in_app_iff, registrySecrets_In;
        cbn [In]; tauto
    end.
Qed.

Lemma deployChart_keeps_the_pull_secrets_of_the_chart_witness :
  let env := exampleUpEnv (Some podApp, None) (Some podApp, None) "hash-1"
                          (fun _ => (Some podApp, None)) None true in
  let run := Up.deployChart env exampleUpConfig exampleUpCmd (mkGenerated "hash-1" [])
                            deployedWorld in
  exists values res,
    In (InstallChartByPath "devspace-app" "default" "chart/" values res) (trace (snd run)) /\
    map fst (ovContainers values) = ["default"] /\
    In "registry.local:5000" (ovPullSecrets values).
Proof.
  intros env run.
  destruct (deployChart_keeps_the_pull_secrets_of_the_chart
              env exampleUpConfig exampleUpCmd (mkGenerated "hash-1" []) deployedWorld
              (snd run) (fst run) eq_refl) as (evs & Htr & Hinst).
  events_of Htr.
  eexists. eexists. split; [cbn; right; left; reflexivity |].
  match goal with
  | |- map fst (ovContainers ?v) = _ /\ _ =>
      destruct (Hinst "devspace-app" "default" "chart/" v (Some (mkRelease 2), None))
        as (_ & _ & Hc & cv & ex & _ & _ & Hs); [cbn; auto |]
  end.
  split; [exact Hc |].
  apply Hs. right. exists "internal", (mkRegistry (Some "registry.local:5000")),
                     "registry.local:5000".
  cbn; auto.
Defined.

(** The names of the images that were handed to image.Build, in the order
    of the trace. *)
Definition builtImages (evs : Trace) : list string :=
  flat_map (fun e => match e with
                     | ImageBuild name _ _ _ _ => [name]
                     | _ => []
                     end) evs.

Definition is_failed_build (e : Event) : bool :=
  match e with
  | ImageBuild _ _ _ _ (Some _) => true
  | _ => false
  end.

Lemma buildImagesLoop_builds env cmd images : forall generatedConfig re w r w',
  Up.buildImagesLoop env cmd images generatedConfig re w = (r, w') ->
  exists evs,
    w' = extend w evs /\
    match r with
    | Ret (re', _) =>
        re' = re || existsb is_rebuild evs /\
        builtImages evs = map fst images /\
        existsb is_failed_build evs = false
    | Halted h =>
        h = Exit /\
        exists pre name conf rebuilt e,
          evs = pre ++ [ImageBuild name conf (Up.build (Up.flags cmd)) rebuilt (Some e);
                        Log FatalLevel "%v" [e]] /\
          existsb is_failed_build pre = false /\
          (List.length (builtImages pre) < List.length images)%nat
    end.
Proof.
  induction images as [|[imageName imageConf] rest IH];
    intros generatedConfig re w r w' H; cbn [Up.buildImagesLoop] in H.
  - injection H as <- <-. exists []. rewrite extend_nil, orb_false_r. auto.
  - revert H. run_unfold.
    destruct (Up.image_Build env (trace w) generatedConfig imageName imageConf
                             (Up.build (Up.flags cmd)))
      as [[shouldRebuild tags] [e |]] eqn:Hb; cbv beta iota.
    + intros H. injection H as <- <-. give_events. split; [reflexivity |].
      exists [], imageName, imageConf, shouldRebuild, e. cbn. repeat split. lia.
    + intros H. apply IH in H. destruct H as (evs & -> & Hres).
      rewrite record_extend, extend_extend. eexists. split; [reflexivity |].
      cbn [fst snd]. destruct r as [[re' gc'] | h].
      * destruct Hres as (-> & Hbuilt & Hfail).
        cbn [app existsb is_rebuild is_failed_build builtImages flat_map map fst].
        fold (builtImages evs). rewrite Hbuilt, Hfail.
        repeat split. destruct shouldRebuild, re; reflexivity.
      * destruct Hres as (-> & pre & name & conf & rebuilt & e & -> & Hpre & Hlen).
        split; [reflexivity |].
        exists (ImageBuild imageName imageConf (Up.build (Up.flags cmd))
                           shouldRebuild None :: pre), name, conf, rebuilt, e.
        cbn [app existsb is_failed_build builtImages flat_map List.length].
        fold (builtImages pre). rewrite Hpre. repeat split. lia.
Qed.

(** buildImages hands every image of the configuration to image.Build, in
    the order of the configuration, and its answer is true exactly when one
    of them had to be rebuilt.  The first build that fails ends the process:
    the run stops with the message of log.Fatal right after it, and the
    images after it are not built. *)
Theorem buildImages_reports_any_rebuild :
  forall (env : Up.Env) (config : UpConfig) (cmd : Up.UpCmd)
         (generatedConfig : GeneratedConfig) (w w' : World)
         (r : Outcome (bool * GeneratedConfig)),
    Up.buildImages env config cmd generatedConfig w = (r, w') ->
    exists evs,
      w' = extend w evs /\
      match r with
      | Ret (mustRedeploy, _) =>
          mustRedeploy = existsb is_rebuild evs /\
          builtImages evs = map fst (Images config) /\
          existsb is_failed_build evs = false
      | Halted h =>
          h = Exit /\
          exists pre name conf rebuilt e,
            evs = pre ++ [ImageBuild name conf (Up.build (Up.flags cmd)) rebuilt (Some e);
                          Log FatalLevel "%v" [e]] /\
            existsb is_failed_build pre = false /\
            (List.length (builtImages pre) < List.length (Images config))%nat
      end.
Proof.
  intros env config cmd generatedConfig w w' r H. unfold Up.buildImages in H.
  destruct (buildImagesLoop_builds _ _ _ _ _ _ _ _ H) as (evs & Hw & Hres).
  exists evs. split; [exact Hw |]. destruct r as [[re g] | h]; exact Hres.
Qed.

Lemma buildImages_reports_any_rebuild_witness :
  let env := exampleUpEnv (Some podApp, None) (Some podApp, None) "hash-1"
                          (fun _ => (Some podApp, None)) None true in
  let run := Up.buildImages env exampleUpConfig exampleUpCmd (mkGenerated "hash-1" [])
                            deployedWorld in
  exists mustRedeploy g,
    fst run = Ret (mustRedeploy, g) /\
    mustRedeploy = existsb is_rebuild (trace (snd run)) /\
    builtImages (trace (snd run)) = ["default"].
Proof.
  intros env run.
  destruct (buildImages_reports_any_rebuild
              env exampleUpConfig exampleUpCmd (mkGenerated "hash-1" []) deployedWorld
              (snd run) (fst run) eq_refl) as (evs & Htr & Hres).
  events_of Htr. cbn [fst run] in Hres.
  exists false, (mkGenerated "hash-1" []). split; [reflexivity |].
  destruct Hres as (Hre & Hbuilt & _). split; [exact Hre | exact Hbuilt].
Defined.

(* --------------------------------------------------------------------- *)
(** ** pkg/devspace/helm/tiller.go: DeleteTiller *)
(* --------------------------------------------------------------------- *)

Module TillerDeleteFacts.
Import TillerDelete.

(** The errors of the deletions that count: those that do not end in
    "not found", in the order of the trace. *)
Definition realErrors (evs : list Event) : list Go.error :=
  flat_map (fun e => match e with
                     | Delete _ _ _ (Some err) =>
                         if HasSuffix err "not found" then [] else [err]
                     | _ => []
                     end) evs.

(** What was asked to be deleted, in the order of the trace. *)
Definition deletions (evs : list Event) : list (Kind * string * string) :=
  flat_map (fun e => match e with
                     | Delete kind ns name _ => [(kind, ns, name)]
                     | _ => []
                     end) evs.

Lemma realErrors_app a b : realErrors (a ++ b) = realErrors a ++ realErrors b.
Proof. apply flat_map_app. Qed.

Lemma deletions_app a b : deletions (a ++ b) = deletions a ++ deletions b.
Proof. apply flat_map_app. Qed.

(** The four deletions for one namespace. *)
Definition roleDeletions (env : Env) (ns : string) : list (Kind * string * string) :=
  [(Role, ns, TillerRoleName env);
   (RoleBinding, ns, (TillerRoleName env ++ "-binding")%string);
   (Role, ns, TillerRoleManagerName env);
   (RoleBinding, ns, (TillerRoleManagerName env ++ "-binding")%string)].

(** The namespaces of the application: the one of tiller, the one of the
    internal registry, and the one of every helm deployment that names a
    namespace, the default namespace standing for the empty name. *)
Definition appNamespacesOf (config : Config) (defaultNamespace : string)
  : list (option string) :=
  [Some (TillerNamespace config)]
  ++ match InternalRegistry config with
     | Some ns => [ns]
     | None => []
     end
  ++ flat_map (fun d => match dcNamespace d, dcHelm d with
                        | Some ns, Some _ =>
                            [Some (if String.eqb ns "" then defaultNamespace else ns)]
                        | _, _ => []
                        end)
              (match Deployments config with Some l => l | None => [] end).

Lemma deploymentNamespaces_flat_map defaultNamespace l : forall acc,
  deploymentNamespaces defaultNamespace l acc
  = acc ++ flat_map (fun d => match dcNamespace d, dcHelm d with
                              | Some ns, Some _ =>
                                  [Some (if String.eqb ns "" then defaultNamespace else ns)]
                              | _, _ => []
                              end) l.
Proof.
  induction l as [|d rest IH]; intros acc; cbn [deploymentNamespaces flat_map].
  - now rewrite app_nil_r.
  - destruct (dcNamespace d) as [ns |]; [| apply IH].
    destruct (dcHelm d) as [hd |]; [| apply IH].
    destruct (String.eqb ns ""); rewrite IH, <- app_assoc; reflexivity.
Qed.

Definition is_lookup (e : Event) : bool :=
  match e with
  | GetDefaultNamespace _ _ => true
  | _ => false
  end.

Ltac prog_unfold :=
  cbv beta iota delta [Prog.bind Prog.ret Prog.emit Prog.call Prog.halt deleteOne] in *.

Section Facts.
Variable env : Env.

Lemma deleteRoles_run appNamespaces : forall errs h,
  exists evs,
    snd (deleteRoles env appNamespaces errs h) = h ++ evs /\
    existsb is_lookup evs = false /\
    match fst (deleteRoles env appNamespaces errs h) with
    | Ret errs' =>
        errs' = errs ++ realErrors evs /\
        deletions evs
        = flat_map (fun ns => match ns with
                              | Some ns => roleDeletions env ns
                              | None => []
                              end) appNamespaces /\
        ~ In None appNamespaces
    | Halted x => x = Panicked /\ In None appNamespaces
    end.
Proof.
  induction appNamespaces as [|[ns |] rest IH]; intros errs h; cbn [deleteRoles].
  - exists []. cbn. rewrite !app_nil_r. auto 6.
  - prog_unfold.
    set (e1 := delete env h Role ns (TillerRoleName env)).
    set (h1 := h ++ [Delete Role ns (TillerRoleName env) e1]).
    set (e2 := delete env h1 RoleBinding ns (TillerRoleName env ++ "-binding")%string).
    set (h2 := h1 ++ [Delete RoleBinding ns (TillerRoleName env ++ "-binding")%string e2]).
    set (e3 := delete env h2 Role ns (TillerRoleManagerName env)).
    set (h3 := h2 ++ [Delete Role ns (TillerRoleManagerName env) e3]).
    set (e4 := delete env h3 RoleBinding ns (TillerRoleManagerName env ++ "-binding")%string).
    set (h4 := h3 ++ [Delete RoleBinding ns (TillerRoleManagerName env ++ "-binding")%string e4]).
    destruct (IH (collect (collect (collect (collect errs e1) e2) e3) e4) h4)
      as (evs & Hsnd & Hlook & Hfst).
    exists ([Delete Role ns (TillerRoleName env) e1;
             Delete RoleBinding ns (TillerRoleName env ++ "-binding")%string e2;
             Delete Role ns (TillerRoleManagerName env) e3;
             Delete RoleBinding ns (TillerRoleManagerName env ++ "-binding")%string e4] ++ evs).
    rewrite Hsnd. split; [subst h4 h3 h2 h1; rewrite <- !app_assoc; reflexivity |].
    split; [cbn [app existsb is_lookup orb]; exact Hlook |].
    revert Hfst. destruct (fst (deleteRoles env rest _ h4)) as [errs' | x]; intros Hfst.
    + destruct Hfst as (-> & Hdel & Hnone).
      rewrite realErrors_app, deletions_app, Hdel. cbn [flat_map].
      split; [| split; [reflexivity | intros [Hx | Hx]; [discriminate Hx | auto]]].
      rewrite app_assoc. f_equal. unfold collect, realErrors. cbn [flat_map app].
      clearbody e4. clearbody e3. clearbody e2. clearbody e1.
      destruct e1 as [x1 |], e2 as [x2 |], e3 as [x3 |], e4 as [x4 |];
        repeat match goal with
               | |- context [HasSuffix ?x "not found"] =>
                   destruct (HasSuffix x "not found")
               end;
        cbn [negb app]; rewrite <- ?app_assoc, ?app_nil_r; reflexivity.
    + destruct Hfst as [-> Hin]. split; [reflexivity | right; exact Hin].
  - prog_unfold. eexists. split; [reflexivity |]. cbn. auto.
Qed.

End Facts.


Lemma length_append_string (a b : string) :
  String.length (a ++ b)%string = (String.length a + String.length b)%nat.
Proof. induction a as [|c a IH]; cbn; [reflexivity | now rewrite IH]. Qed.

Lemma mergeErrors_grows (l : list Go.error) : forall acc,
  (String.length acc + List.length l
   <= String.length (fold_left (fun errorText value =>
                                  (errorText ++ value ++ newline)%string) l acc))%nat.
Proof.
  induction l as [|e l IH]; intros acc; cbn [fold_left List.length]; [lia |].
  specialize (IH (acc ++ e ++ newline)%string).
  rewrite !length_append_string in IH. cbn [String.length newline] in IH. lia.
Qed.

(** No error is reported exactly when no error was collected. *)
Lemma mergeErrors_None (l : list Go.error) : mergeErrors l = None <-> l = [].
Proof.
  unfold mergeErrors. split.
  - destruct (String.eqb _ "") eqn:He; [| discriminate].
    intros _. apply String.eqb_eq in He.
    pose proof (mergeErrors_grows l "") as Hlen. rewrite He in Hlen.
    destruct l; [reflexivity | cbn in Hlen; lia].
  - intros ->. reflexivity.
Qed.

(** The two deletions that are always asked for, and the third one outside
    a cloud provider. *)
Definition tillerDeletions (config : Config) : list (Kind * string * string) :=
  [(Deployment, TillerNamespace config, Helm.TillerDeploymentName);
   (Service, TillerNamespace config, Helm.TillerDeploymentName)].

Definition accountDeletion (env : Env) (config : Config) : list (Kind * string * string) :=
  [(ServiceAccount, TillerNamespace config, TillerServiceAccountName env)].

Definition usesCloudProvider (config : Config) : bool :=
  match CloudProvider config with
  | None => false
  | Some p => negb (String.eqb p "")
  end.

Definition allRoleDeletions (env : Env) (config : Config) (defaultNamespace : string)
  : list (Kind * string * string) :=
  flat_map (fun ns => match ns with
                      | Some ns => roleDeletions env ns
                      | None => []
                      end)
           (appNamespacesOf config defaultNamespace).

(** The ways a run of DeleteTiller can go. *)
Inductive DeleteTillerRun (env : Env) (config : Config)
  : Outcome (option Go.error) -> list Event -> Prop :=
| run_cloud evs :
    usesCloudProvider config = true ->
    existsb is_lookup evs = false ->
    deletions evs = tillerDeletions config ->
    DeleteTillerRun env config (Ret (mergeErrors (realErrors evs))) evs
| run_no_default pre dns e :
    usesCloudProvider config = false ->
    existsb is_lookup pre = false ->
    deletions pre = tillerDeletions config ++ accountDeletion env config ->
    DeleteTillerRun env config
      (Ret (Some ("Error retrieving default namespace: " ++ e)%string))
      (pre ++ [GetDefaultNamespace dns (Some e)])
| run_roles pre dns post :
    usesCloudProvider config = false ->
    existsb is_lookup pre = false ->
    existsb is_lookup post = false ->
    deletions pre = tillerDeletions config ++ accountDeletion env config ->
    deletions post = allRoleDeletions env config dns ->
    ~ In None (appNamespacesOf config dns) ->
    DeleteTillerRun env config
      (Ret (mergeErrors (realErrors (pre ++ [GetDefaultNamespace dns None] ++ post))))
      (pre ++ [GetDefaultNamespace dns None] ++ post)
| run_nil_namespace pre dns post :
    usesCloudProvider config = false ->
    existsb is_lookup pre = false ->
    existsb is_lookup post = false ->
    In None (appNamespacesOf config dns) ->
    DeleteTillerRun env config (Halted Panicked)
                    (pre ++ [GetDefaultNamespace dns None] ++ post).

Lemma collect_realErrors kind ns name errs err :
  collect errs err = errs ++ realErrors [Delete kind ns name err].
Proof.
  unfold collect, realErrors. cbn [flat_map].
  destruct err as [e |]; [| now rewrite app_nil_r].
  destruct (HasSuffix e "not found"); cbn [negb app]; now rewrite ?app_nil_r.
Qed.

Lemma DeleteTiller_run env config h :
  exists evs,
    snd (DeleteTiller env config h) = h ++ evs /\
    DeleteTillerRun env config (fst (DeleteTiller env config h)) evs.
Proof.
  unfold DeleteTiller. prog_unfold.
  set (tns := TillerNamespace config).
  set (e1 := delete env h Deployment tns Helm.TillerDeploymentName).
  set (h1 := h ++ [Delete Deployment tns Helm.TillerDeploymentName e1]).
  set (e2 := delete env h1 Service tns Helm.TillerDeploymentName).
  set (h2 := h1 ++ [Delete Service tns Helm.TillerDeploymentName e2]).
  assert (Hcloud : usesCloudProvider config
                   = negb match CloudProvider config with
                          | None => true
                          | Some p => String.eqb p ""
                          end).
  { unfold usesCloudProvider. destruct (CloudProvider config); reflexivity. }
  destruct (match CloudProvider config with
            | None => true
            | Some p => String.eqb p ""
            end); cbn [negb] in Hcloud.
  - set (e3 := delete env h2 ServiceAccount tns (TillerServiceAccountName env)).
    set (h3 := h2 ++ [Delete ServiceAccount tns (TillerServiceAccountName env) e3]).
    set (pre := [Delete Deployment tns Helm.TillerDeploymentName e1;
                 Delete Service tns Helm.TillerDeploymentName e2;
                 Delete ServiceAccount tns (TillerServiceAccountName env) e3]).
    assert (Hh3 : h3 = h ++ pre).
    { subst h3 h2 h1 pre. now rewrite <- !app_assoc. }
    assert (Herrs : collect (collect (collect [] e1) e2) e3 = realErrors pre).
    { subst pre.
      rewrite (collect_realErrors ServiceAccount tns (TillerServiceAccountName env)),
              (collect_realErrors Service tns Helm.TillerDeploymentName),
              (collect_realErrors Deployment tns Helm.TillerDeploymentName).
      cbn [app]. rewrite <- !realErrors_app. reflexivity. }
    destruct (configutil_GetDefaultNamespace env h3) as [dns [e |]] eqn:Hd;
      cbn [fst snd].
    + exists (pre ++ [GetDefaultNamespace dns (Some e)]).
      split; [rewrite Hh3, app_assoc; reflexivity |].
      apply run_no_default; [exact Hcloud | reflexivity | reflexivity].
    + set (namespaces :=
             match Deployments config with
             | Some l =>
                 deploymentNamespaces dns l
                   match InternalRegistry config with
                   | Some ns => [Some tns] ++ [ns]
                   | None => [Some tns]
                   end
             | None =>
                 match InternalRegistry config with
                 | Some ns => [Some tns] ++ [ns]
                 | None => [Some tns]
                 end
             end).
      assert (Hns : namespaces = appNamespacesOf config dns).
      { subst namespaces. unfold appNamespacesOf. fold tns.
        destruct (Deployments config) as [l |], (InternalRegistry config) as [ns |];
          rewrite ?deploymentNamespaces_flat_map; cbn [flat_map app];
          rewrite ?app_nil_r; reflexivity. }
      destruct (deleteRoles_run env namespaces
                  (collect (collect (collect [] e1) e2) e3)
                  (h3 ++ [GetDefaultNamespace dns None]))
        as (post & Hsnd & Hlook & Hfst).
      exists (pre ++ [GetDefaultNamespace dns None] ++ post).
      revert Hfst Hsnd.
      destruct (deleteRoles env namespaces _ _) as [[errs' | x] h4];
        cbn [fst snd]; intros Hfst ->.
      * split; [rewrite Hh3, <- !app_assoc; reflexivity |].
        destruct Hfst as (-> & Hdel & Hnone). rewrite Herrs.
        replace (realErrors pre ++ realErrors post)
          with (realErrors (pre ++ [GetDefaultNamespace dns None] ++ post))
          by (rewrite !realErrors_app; reflexivity).
        apply run_roles; auto.
        -- rewrite Hdel, Hns. reflexivity.
        -- rewrite <- Hns. exact Hnone.
      * split; [rewrite Hh3, <- !app_assoc; reflexivity |].
        destruct Hfst as [-> Hin].
        apply run_nil_namespace; auto. rewrite <- Hns. exact Hin.
  - exists [Delete Deployment tns Helm.TillerDeploymentName e1;
            Delete Service tns Helm.TillerDeploymentName e2].
    cbn [fst snd]. split; [subst h2 h1; now rewrite <- app_assoc |].
    replace (collect (collect [] e1) e2)
      with (realErrors [Delete Deployment tns Helm.TillerDeploymentName e1;
                        Delete Service tns Helm.TillerDeploymentName e2]).
    + apply run_cloud; [exact Hcloud | reflexivity | reflexivity].
    + rewrite (collect_realErrors Service tns Helm.TillerDeploymentName),
              (collect_realErrors Deployment tns Helm.TillerDeploymentName).
      cbn [app]. rewrite <- !realErrors_app. reflexivity.
Qed.

End TillerDeleteFacts.

Lemma no_lookup_in (l : list TillerDelete.Event) dns err :
  existsb TillerDeleteFacts.is_lookup l = false ->
  ~ In (TillerDelete.GetDefaultNamespace dns err) l.
Proof.
  intros H Hin. assert (Hex : existsb TillerDeleteFacts.is_lookup l = true).
  { apply existsb_exists. eexists. split; [exact Hin | reflexivity]. }
  congruence.
Qed.

(** Where the lookup of the default namespace is, when it is the only one of
    its kind. *)
Lemma the_lookup_in (pre post : list TillerDelete.Event) dns err dns' err' :
  existsb TillerDeleteFacts.is_lookup pre = false ->
  existsb TillerDeleteFacts.is_lookup post = false ->
  In (TillerDelete.GetDefaultNamespace dns' err')
     (pre ++ [TillerDelete.GetDefaultNamespace dns err] ++ post) ->
  dns' = dns /\ err' = err.
Proof.
  intros Hpre Hpost Hin. apply in_app_or in Hin. destruct Hin as [Hin | [Heq | Hin]].
  - exfalso. exact (no_lookup_in _ _ _ Hpre Hin).
  - injection Heq as <- <-. auto.
  - exfalso. exact (no_lookup_in _ _ _ Hpost Hin).
Qed.

Lemma DeleteTiller_events env config h r h' :
  TillerDelete.DeleteTiller env config h = (r, h') ->
  exists evs, h' = h ++ evs /\ TillerDeleteFacts.DeleteTillerRun env config r evs.
Proof.
  intros H. destruct (TillerDeleteFacts.DeleteTiller_run env config h) as (evs & Hs & Hr).
  rewrite H in Hs, Hr. exists evs. auto.
Qed.

(** DeleteTiller takes "not found" for done and reports everything else.
    In a run that returns and in which the default namespace could be
    looked up (or was not needed), the result is made of the errors of the
    deletions whose message does not end in "not found", each followed by a
    line feed, in the order of the deletions; it is nil exactly when there
    is no such error. *)
Theorem DeleteTiller_reports_every_error_but_not_found :
  forall (env : TillerDelete.Env) (config : TillerDelete.Config)
         (h h' : list TillerDelete.Event) (r : option Go.error),
    TillerDelete.DeleteTiller env config h = (Ret r, h') ->
    exists evs,
      h' = h ++ evs /\
      ((forall dns e, ~ In (TillerDelete.GetDefaultNamespace dns (Some e)) evs) ->
       r = TillerDelete.mergeErrors (TillerDeleteFacts.realErrors evs) /\
       (r = None <-> TillerDeleteFacts.realErrors evs = [])).
Proof.
  intros env config h h' r H.
  destruct (DeleteTiller_events _ _ _ _ _ H) as (evs & -> & Hrun).
  exists evs. split; [reflexivity |]. intros Hok.
  inversion Hrun as [evs0 Hc Hl Hd | pre dns0 e0 Hc Hl Hd | pre dns0 post Hc Hl1 Hl2 Hd1 Hd2 Hn | pre dns0 post Hc Hl1 Hl2 Hn]; subst.
  - split; [reflexivity | apply TillerDeleteFacts.mergeErrors_None].
  - exfalso. apply (Hok dns0 e0). apply in_or_app. right. left. reflexivity.
  - split; [reflexivity | apply TillerDeleteFacts.mergeErrors_None].
Qed.

(** A failed deletion does not stop the others.  In a run that returns,
    what is asked to be deleted does not depend on what the deletions
    answer: with a cloud provider it is the deployment and the service of
    tiller; without one, once the default namespace is known, it is those
    two, the service account, and then for every namespace of the
    application the role, the role manager and their two bindings. *)
Theorem DeleteTiller_deletes_all_it_planned :
  forall (env : TillerDelete.Env) (config : TillerDelete.Config)
         (h h' : list TillerDelete.Event) (r : option Go.error),
    TillerDelete.DeleteTiller env config h = (Ret r, h') ->
    exists evs,
      h' = h ++ evs /\
      (TillerDeleteFacts.usesCloudProvider config = true ->
       TillerDeleteFacts.deletions evs = TillerDeleteFacts.tillerDeletions config) /\
      (forall dns,
          In (TillerDelete.GetDefaultNamespace dns None) evs ->
          TillerDeleteFacts.deletions evs
          = TillerDeleteFacts.tillerDeletions config
            ++ TillerDeleteFacts.accountDeletion env config
            ++ TillerDeleteFacts.allRoleDeletions env config dns).
Proof.
  intros env config h h' r H.
  destruct (DeleteTiller_events _ _ _ _ _ H) as (evs & -> & Hrun).
  exists evs. split; [reflexivity |].
  inversion Hrun as [evs0 Hc Hl Hd | pre dns0 e0 Hc Hl Hd | pre dns0 post Hc Hl1 Hl2 Hd1 Hd2 Hn | pre dns0 post Hc Hl1 Hl2 Hn]; subst.
  - split; [auto |]. intros dns Hin. exfalso. exact (no_lookup_in _ _ _ Hl Hin).
  - split; [intros Hc'; congruence |]. intros dns' Hin. exfalso.
    apply in_app_or in Hin. destruct Hin as [Hin | [Heq | []]].
    + exact (no_lookup_in _ _ _ Hl Hin).
    + discriminate Heq.
  - split; [intros Hc'; congruence |]. intros dns' Hin.
    destruct (the_lookup_in _ _ _ _ _ _ Hl1 Hl2 Hin) as [-> _].
    rewrite !TillerDeleteFacts.deletions_app. cbn [TillerDeleteFacts.deletions flat_map].
    fold (TillerDeleteFacts.deletions post). rewrite Hd1, Hd2, <- app_assoc. reflexivity.
Qed.

(** When the default namespace cannot be looked up, DeleteTiller returns
    that error alone: the deployment, the service and the service account
    of tiller have been asked to be deleted by then, no role and no binding
    is, and the errors of those three deletions are not in the result. *)
Theorem DeleteTiller_forgets_the_errors_without_default_namespace :
  forall (env : TillerDelete.Env) (config : TillerDelete.Config)
         (h h' : list TillerDelete.Event) (r : Outcome (option Go.error)),
    TillerDelete.DeleteTiller env config h = (r, h') ->
    exists evs,
      h' = h ++ evs /\
      forall dns e,
        In (TillerDelete.GetDefaultNamespace dns (Some e)) evs ->
        r = Ret (Some ("Error retrieving default namespace: " ++ e)%string) /\
        TillerDeleteFacts.deletions evs
        = TillerDeleteFacts.tillerDeletions config
          ++ TillerDeleteFacts.accountDeletion env config.
Proof.
  intros env config h h' r H.
  destruct (DeleteTiller_events _ _ _ _ _ H) as (evs & -> & Hrun).
  exists evs. split; [reflexivity |]. intros dns' e' Hin.
  inversion Hrun as [evs0 Hc Hl Hd | pre dns0 e0 Hc Hl Hd | pre dns0 post Hc Hl1 Hl2 Hd1 Hd2 Hn | pre dns0 post Hc Hl1 Hl2 Hn]; subst.
  - exfalso. exact (no_lookup_in _ _ _ Hl Hin).
  - apply in_app_or in Hin. destruct Hin as [Hin | [Heq | []]].
    + exfalso. exact (no_lookup_in _ _ _ Hl Hin).
    + injection Heq as -> ->. split; [reflexivity |].
      rewrite TillerDeleteFacts.deletions_app. cbn. rewrite app_nil_r. exact Hd.
  - destruct (the_lookup_in _ _ _ _ _ _ Hl1 Hl2 Hin) as [_ Hx]. discriminate Hx.
  - destruct (the_lookup_in _ _ _ _ _ _ Hl1 Hl2 Hin) as [_ Hx]. discriminate Hx.
Qed.

(** A cluster on which the deployment of tiller is gone already, and on
    which roles may not be deleted. *)
Definition exampleDeleteEnv (defaultNamespace : string * option Go.error)
  : TillerDelete.Env :=
  TillerDelete.mkEnv "devspace-tiller" "devspace-tiller" "tiller-config-manager"
    (fun _ kind _ _ =>
       match kind with
       | TillerDelete.Deployment => Some "deployments.extensions tiller-deploy not found"
       | TillerDelete.Role => Some "roles.rbac.authorization.k8s.io is forbidden"
       | _ => None
       end)
    (fun _ => defaultNamespace).

Definition exampleDeleteConfig : TillerDelete.Config :=
  TillerDelete.mkConfig "kube-system" None None
    (Some [TillerDelete.mkDeployment "app" (Some "") (Some (Some "chart"))]).

Lemma DeleteTiller_reports_every_error_but_not_found_witness :
  let run := TillerDelete.DeleteTiller (exampleDeleteEnv ("default", None))
                                       exampleDeleteConfig [] in
  exists r,
    fst run = Ret r /\
    r = TillerDelete.mergeErrors (TillerDeleteFacts.realErrors (snd run)) /\
    List.length (TillerDeleteFacts.realErrors (snd run)) = 4%nat.
Proof.
  intros run.
  destruct run as [[r | x] h'] eqn:Hrun; [| discriminate Hrun].
  exists r. split; [reflexivity |].
  destruct (DeleteTiller_reports_every_error_but_not_found
              (exampleDeleteEnv ("default", None)) exampleDeleteConfig [] h' r Hrun)
    as (evs & Hh & Hres).
  cbn [app] in Hh. subst evs. cbn [snd].
  injection Hrun as _ <-.
  split; [| reflexivity].
  apply Hres. intros dns e Hin. cbn in Hin.
  repeat (destruct Hin as [Hin | Hin]; [discriminate Hin |]). exact Hin.
Defined.

Lemma DeleteTiller_deletes_all_it_planned_witness :
  let run := TillerDelete.DeleteTiller (exampleDeleteEnv ("default", None))
                                       exampleDeleteConfig [] in
  TillerDeleteFacts.deletions (snd run)
  = [(TillerDelete.Deployment, "kube-system", "tiller-deploy");
     (TillerDelete.Service, "kube-system", "tiller-deploy");
     (TillerDelete.ServiceAccount, "kube-system", "devspace-tiller");
     (TillerDelete.Role, "kube-system", "devspace-tiller");
     (TillerDelete.RoleBinding, "kube-system", "devspace-tiller-binding");
     (TillerDelete.Role, "kube-system", "tiller-config-manager");
     (TillerDelete.RoleBinding, "kube-system", "tiller-config-manager-binding");
     (TillerDelete.Role, "default", "devspace-tiller");
     (TillerDelete.RoleBinding, "default", "devspace-tiller-binding");
     (TillerDelete.Role, "default", "tiller-config-manager");
     (TillerDelete.RoleBinding, "default", "tiller-config-manager-binding")].
Proof.
  intros run.
  destruct run as [[r | x] h'] eqn:Hrun; [| discriminate Hrun].
  destruct (DeleteTiller_deletes_all_it_planned
              (exampleDeleteEnv ("default", None)) exampleDeleteConfig [] h' r Hrun)
    as (evs & Hh & _ & Hplan).
  cbn [app] in Hh. subst evs. cbn [snd].
  rewrite (Hplan "default"); [reflexivity |].
  injection Hrun as _ <-. cbn. auto 10.
Defined.

Lemma DeleteTiller_forgets_the_errors_without_default_namespace_witness :
  let run := TillerDelete.DeleteTiller (exampleDeleteEnv ("", Some "no kube context"))
                                       exampleDeleteConfig [] in
  fst run = Ret (Some "Error retrieving default namespace: no kube context") /\
  List.length (TillerDeleteFacts.deletions (snd run)) = 3%nat.
Proof.
  intros run.
  destruct (DeleteTiller_forgets_the_errors_without_default_namespace
              (exampleDeleteEnv ("", Some "no kube context")) exampleDeleteConfig []
              (snd run) (fst run) eq_refl) as (evs & Hh & Hfail).
  cbn [app] in Hh. rewrite Hh.
  destruct (Hfail "" "no kube context") as [Hr Hd].
  - rewrite <- Hh. cbn. auto 10.
  - split; [exact Hr | rewrite Hd; reflexivity].
Defined.

(* --------------------------------------------------------------------- *)
(** ** cmd/remove.go: RunRemovePackage *)
(* --------------------------------------------------------------------- *)

Module PackageFacts.
Import Package.

(** What was written to requirements.yaml, in the order of the trace. *)
Definition written (evs : list Event) : list Requirements :=
  flat_map (fun e => match e with
                     | WriteYamlToFile contents _ _ => [contents]
                     | _ => []
                     end) evs.

Definition is_read (e : Event) : bool :=
  match e with
  | ReadYamlFromFile _ _ _ => true
  | _ => false
  end.

Definition is_success (e : Event) : bool :=
  match e with
  | Log Done _ _ => true
  | _ => false
  end.

(** An entry of the list that is a map and does not have the name. *)
Definition otherPackage (arg : string) (d : Dependency) : Prop :=
  exists fields, d = DepMap fields /\ nameIs fields arg = false.

Lemma written_app a b : written (a ++ b) = written a ++ written b.
Proof. apply flat_map_app. Qed.

Ltac package_unfold :=
  cbv beta iota delta [Prog.bind Prog.ret Prog.emit Prog.call Prog.halt Fatalf] in *.

Section Facts.
Variable env : Env.

Lemma rebuildDependencies_run chartPath contents h :
  exists evs,
    snd (rebuildDependencies env chartPath contents h) = h ++ evs /\
    written evs = [contents] /\
    existsb is_read evs = false /\
    existsb is_success evs = false /\
    (fst (rebuildDependencies env chartPath contents h) = Ret tt \/
     fst (rebuildDependencies env chartPath contents h) = Halted Exit).
Proof.
  unfold rebuildDependencies. package_unfold.
  repeat match goal with
         | |- context [match ?x with _ => _ end] =>
             lazymatch x with
             | context [match _ with _ => _ end] => fail
             | _ => destruct x eqn:?
             end; cbn [fst snd]
         end;
    (eexists; split; [rewrite <- ?app_assoc; cbn [app]; reflexivity |]);
    cbn; auto.
Qed.

Lemma removeLoop_run chartPath yamlContents arg l : forall before h,
  exists evs,
    snd (removeLoop env chartPath yamlContents arg before l h) = h ++ evs /\
    existsb is_read evs = false /\
    existsb is_success evs = false /\
    ((written evs = [] /\
      (fst (removeLoop env chartPath yamlContents arg before l h) = Ret tt ->
       Forall (otherPackage arg) l)) \/
     (exists pre fields post,
         l = pre ++ DepMap fields :: post /\
         nameIs fields arg = true /\
         Forall (otherPackage arg) pre /\
         written evs = [mkRequirements (Some (DepList (before ++ pre ++ post)))
                                       (others yamlContents)])) /\
    (fst (removeLoop env chartPath yamlContents arg before l h) = Ret tt \/
     fst (removeLoop env chartPath yamlContents arg before l h) = Halted Exit).
Proof.
  induction l as [|d rest IH]; intros before h; cbn [removeLoop].
  - exists []. rewrite app_nil_r. cbn. repeat split; auto.
  - destruct d as [fields | v].
    + destruct (nameIs fields arg) eqn:Hname.
      * destruct (rebuildDependencies_run chartPath
                    (mkRequirements (Some (DepList (before ++ rest))) (others yamlContents)) h)
          as (evs & Hs & Hw & Hr & Hsucc & Hf).
        exists evs. repeat split; auto.
        right. exists [], fields, rest. cbn [app]. repeat split; auto.
      * destruct (IH (before ++ [DepMap fields]) h) as (evs & Hs & Hr & Hsucc & Hw & Hf).
        exists evs. repeat split; auto.
        destruct Hw as [[Hw Hall] | (pre & f & post & -> & Hn & Hpre & Hw)].
        -- left. split; [exact Hw |]. intros Hret. constructor; [| auto].
           exists fields. auto.
        -- right. exists (DepMap fields :: pre), f, post. cbn [app].
           repeat split; auto.
           ++ constructor; [exists fields; auto | exact Hpre].
           ++ rewrite Hw, <- app_assoc. reflexivity.
    + package_unfold. eexists. split; [reflexivity |]. cbn.
      repeat split; auto. left. split; [reflexivity |]. intros Hx; discriminate Hx.
Qed.

Lemma removeLoop_no_match chartPath yamlContents arg l : forall before h,
  Forall (otherPackage arg) l ->
  removeLoop env chartPath yamlContents arg before l h = (Ret tt, h).
Proof.
  induction l as [|d rest IH]; intros before h Hall; cbn [removeLoop]; [reflexivity |].
  inversion Hall as [| x xs (fields & -> & Hname) Hrest]; subst.
  rewrite Hname. apply IH. exact Hrest.
Qed.

Lemma no_match_no_split arg l pre fields post :
  Forall (otherPackage arg) l ->
  l = pre ++ DepMap fields :: post ->
  nameIs fields arg = true -> False.
Proof.
  intros Hall -> Hname. apply Forall_app in Hall. destruct Hall as [_ Hall].
  inversion Hall as [| x xs (f & Heq & Hn) _]; subst.
  injection Heq as <-. congruence.
Qed.

(** What the end of RunRemovePackage writes. *)
Lemma removeDependencies_run flags args chartPath yamlContents h :
  exists evs,
    snd (removeDependencies env flags args chartPath yamlContents h) = h ++ evs /\
    existsb is_read evs = false /\
    forall l,
      dependencies yamlContents = Some (DepList l) ->
      if RemoveAll flags
      then written evs = [mkRequirements (Some (DepList [])) (others yamlContents)]
      else
        forall arg rest,
          args = arg :: rest ->
          (written evs = [] \/
           exists pre fields post,
             l = pre ++ DepMap fields :: post /\
             nameIs fields arg = true /\
             Forall (otherPackage arg) pre /\
             written evs = [mkRequirements (Some (DepList (pre ++ post)))
                                           (others yamlContents)]) /\
          (Forall (otherPackage arg) l ->
           removeDependencies env flags args chartPath yamlContents h
           = (Ret tt, h ++ [Log Done "Successfully removed dependency %s" [arg]])).
Proof.
  unfold removeDependencies.
  destruct (dependencies yamlContents) as [[l | v] |].
  - destruct (RemoveAll flags) eqn:Hflag; cbn [negb].
    + unfold Prog.bind at 1.
      destruct (rebuildDependencies_run chartPath
                  (mkRequirements (Some (DepList [])) (others yamlContents)) h)
        as (evs & Hs & Hw & Hr & _ & Hf).
      destruct (rebuildDependencies env chartPath _ h) as [[[] | x] h1];
        cbn [fst snd] in *; subst h1.
      * exists (evs ++ [Log Done "Successfully removed all dependencies" []]).
        unfold Prog.emit. cbn [snd]. rewrite app_assoc. split; [reflexivity |].
        rewrite existsb_app, Hr. split; [reflexivity |].
        intros l' Hl'. rewrite written_app, Hw. reflexivity.
      * exists evs. split; [reflexivity |]. split; [exact Hr |].
        intros l' Hl'. exact Hw.
    + destruct args as [|arg rest].
      * package_unfold. eexists. split; [reflexivity |]. split; [reflexivity |].
        intros l' Hl' arg rest Hargs. discriminate Hargs.
      * unfold Prog.bind at 1.
        destruct (removeLoop_run chartPath yamlContents arg l [] h)
          as (evs & Hs & Hr & _ & Hw & Hf).
        destruct (removeLoop env chartPath yamlContents arg [] l h) as [[[] | x] h1];
          cbn [fst snd] in *; subst h1.
        -- exists (evs ++ [Log Done "Successfully removed dependency %s" [arg]]).
           unfold Prog.emit. cbn [snd]. rewrite app_assoc. split; [reflexivity |].
           rewrite existsb_app, Hr. split; [reflexivity |].
           intros l' Hl' arg' rest' Hargs. injection Hl' as <-.
           injection Hargs as <- <-. rewrite written_app. cbn [written flat_map].
           rewrite app_nil_r. split.
           ++ destruct Hw as [[Hw _] | Hw]; [left; exact Hw | right; exact Hw].
           ++ intros Hall. unfold Prog.bind, Prog.emit.
              rewrite (removeLoop_no_match chartPath yamlContents arg l [] h Hall).
              reflexivity.
        -- exists evs. split; [reflexivity |]. split; [exact Hr |].
           intros l' Hl' arg' rest' Hargs. injection Hl' as <-.
           injection Hargs as <- <-. split.
           ++ destruct Hw as [[Hw _] | Hw]; [left; exact Hw | right; exact Hw].
           ++ intros Hall. unfold Prog.bind, Prog.emit.
              rewrite (removeLoop_no_match chartPath yamlContents arg l [] h Hall).
              reflexivity.
  - package_unfold. eexists. split; [reflexivity |]. split; [reflexivity |].
    intros l Hl. discriminate Hl.
  - package_unfold. eexists. split; [reflexivity |]. split; [reflexivity |].
    intros l Hl. discriminate Hl.
Qed.

(** Up to the reading of requirements.yaml. *)
Lemma RunRemovePackage_read flags args deployments h r h' :
  RunRemovePackage env flags args deployments h = (r, h') ->
  exists evs,
    h' = h ++ evs /\
    forall path contents,
      In (ReadYamlFromFile path contents None) evs ->
      exists src chartPath tail,
        let h0 := h ++ [FilepathAbs src chartPath None;
                        ReadYamlFromFile path contents None] in
        evs = [FilepathAbs src chartPath None; ReadYamlFromFile path contents None]
              ++ tail /\
        existsb is_read tail = false /\
        (RemoveAll flags = false -> args <> []) /\
        removeDependencies env flags args chartPath contents h0 = (r, h0 ++ tail).
Proof.
  unfold RunRemovePackage. intros H.
  destruct deployments as [l |].
  2: { revert H. package_unfold. intros H. injection H as <- <-.
       eexists. split; [reflexivity |]. intros p c [Hin | []]. discriminate Hin. }
  destruct (negb (Nat.eqb (List.length l) 1) && String.eqb (Deployment flags) "").
  { revert H. package_unfold. intros H. injection H as <- <-.
    eexists. split; [reflexivity |]. intros p c [Hin | []]. discriminate Hin. }
  destruct (selectDeployment flags l) as [[[d src] |] | name].
  2, 3: revert H; package_unfold; intros H; injection H as <- <-;
        eexists; (split; [reflexivity |]); intros p c [Hin | []]; discriminate Hin.
  revert H. unfold Prog.bind at 1. unfold Prog.call at 1.
  destruct (filepath_Abs env h src) as [chartPath [e |]] eqn:Habs; cbn [fst snd].
  { package_unfold. intros H. injection H as <- <-.
    eexists. split; [rewrite <- app_assoc; reflexivity |].
    intros p c [Hin | [Hin | []]]; discriminate Hin. }
  destruct (Nat.eqb (List.length args) 0 && negb (RemoveAll flags)) eqn:Hguard.
  { package_unfold. intros H. injection H as <- <-.
    eexists. split; [rewrite <- app_assoc; reflexivity |].
    intros p c [Hin | [Hin | []]]; discriminate Hin. }
  cbv zeta. unfold Prog.bind at 1. unfold Prog.call at 1.
  destruct (yamlutil_ReadYamlFromFile env _ _) as [contents [e |]] eqn:Hread;
    cbn [fst snd].
  { package_unfold. intros H. injection H as <- <-.
    eexists. split; [rewrite <- !app_assoc; reflexivity |].
    intros p c [Hin | [Hin | [Hin | []]]]; discriminate Hin. }
  intros H.
  destruct (removeDependencies_run flags args chartPath contents
              ((h ++ [FilepathAbs src chartPath None])
               ++ [ReadYamlFromFile (filepath_Join env chartPath "requirements.yaml")
                                    contents None]))
    as (tail & Hs & Hr & _).
  rewrite H in Hs. cbn [snd] in Hs. subst h'.
  exists ([FilepathAbs src chartPath None;
           ReadYamlFromFile (filepath_Join env chartPath "requirements.yaml") contents None]
          ++ tail).
  split; [rewrite <- !app_assoc; reflexivity |].
  intros p c Hin. exists src, chartPath, tail.
  assert (Hpc : p = filepath_Join env chartPath "requirements.yaml" /\ c = contents).
  { destruct Hin as [Hin | [Hin | Hin]].
    - discriminate Hin.
    - injection Hin as <- <-. auto.
    - exfalso. assert (Hex : existsb is_read tail = true).
      { apply existsb_exists. eexists. split; [exact Hin | reflexivity]. }
      congruence. }
  destruct Hpc as [-> ->]. cbv zeta.
  split; [reflexivity |]. split; [exact Hr |].
  split.
  { intros Hflag ->. rewrite Hflag in Hguard. discriminate Hguard. }
  replace (h ++ [FilepathAbs src chartPath None;
                 ReadYamlFromFile (filepath_Join env chartPath "requirements.yaml")
                                  contents None])
    with ((h ++ [FilepathAbs src chartPath None])
          ++ [ReadYamlFromFile (filepath_Join env chartPath "requirements.yaml")
                               contents None])
    by (rewrite <- app_assoc; reflexivity).
  exact H.
Qed.

End Facts.

End PackageFacts.

(** remove-package reports success also when it removed nothing.  In a run
    without --all in which requirements.yaml was read and its dependencies
    are maps none of which has the name that was asked for, nothing is
    written, helm is not asked to update the dependencies, and the command
    returns after the message "Successfully removed dependency". *)
Theorem RunRemovePackage_reports_success_without_a_match :
  forall (env : Package.Env) (flags : Package.removePackageCmdFlags) (args : list string)
         (deployments : option (list Package.DeploymentConfig))
         (h h' : list Package.Event) (r : Outcome unit),
    Package.RunRemovePackage env flags args deployments h = (r, h') ->
    exists evs,
      h' = h ++ evs /\
      forall path contents l arg rest,
        In (Package.ReadYamlFromFile path contents None) evs ->
        Package.dependencies contents = Some (Package.DepList l) ->
        Package.RemoveAll flags = false ->
        args = arg :: rest ->
        Forall (PackageFacts.otherPackage arg) l ->
        r = Ret tt /\
        exists src chartPath,
          evs = [Package.FilepathAbs src chartPath None;
                 Package.ReadYamlFromFile path contents None;
                 Package.Log Done "Successfully removed dependency %s" [arg]].
Proof.
  intros env flags args deployments h h' r H.
  destruct (PackageFacts.RunRemovePackage_read env _ _ _ _ _ _ H) as (evs & -> & Hread).
  exists evs. split; [reflexivity |].
  intros path contents l arg rest Hin Hdeps Hflag Hargs Hall.
  destruct (Hread path contents Hin) as (src & chartPath & tail & -> & _ & _ & Hrun).
  destruct (PackageFacts.removeDependencies_run env flags args chartPath contents
              (h ++ [Package.FilepathAbs src chartPath None;
                     Package.ReadYamlFromFile path contents None]))
    as (evs0 & _ & _ & Hcases).
  specialize (Hcases l Hdeps). rewrite Hflag in Hcases.
  destruct (Hcases arg rest Hargs) as [_ Hnone].
  rewrite (Hnone Hall) in Hrun. injection Hrun as <- Htail.
  apply app_inv_head in Htail. subst tail.
  split; [reflexivity |]. exists src, chartPath. reflexivity.
Qed.

(** What remove-package writes.  In a run in which requirements.yaml was
    read and has a list of dependencies, the file is written at most once,
    and what is written has the other entries of the file as they were.
    With --all the list of dependencies that is written is empty, whatever
    the arguments.  Without it a package name was given, and the list that
    is written is the list that was read without the first entry of that
    name: the entries before it are maps of another name, the entries after
    it stay, also those of the same name. *)
Theorem RunRemovePackage_removes_the_first_match_only :
  forall (env : Package.Env) (flags : Package.removePackageCmdFlags) (args : list string)
         (deployments : option (list Package.DeploymentConfig))
         (h h' : list Package.Event) (r : Outcome unit),
    Package.RunRemovePackage env flags args deployments h = (r, h') ->
    exists evs,
      h' = h ++ evs /\
      forall path contents l c,
        In (Package.ReadYamlFromFile path contents None) evs ->
        Package.dependencies contents = Some (Package.DepList l) ->
        In c (PackageFacts.written evs) ->
        PackageFacts.written evs = [c] /\
        Package.others c = Package.others contents /\
        (Package.RemoveAll flags = true ->
         Package.dependencies c = Some (Package.DepList [])) /\
        (Package.RemoveAll flags = false ->
         exists arg rest pre fields post,
           args = arg :: rest /\
           l = pre ++ Package.DepMap fields :: post /\
           Package.nameIs fields arg = true /\
           Forall (PackageFacts.otherPackage arg) pre /\
           Package.dependencies c = Some (Package.DepList (pre ++ post))).
Proof.
  intros env flags args deployments h h' r H.
  destruct (PackageFacts.RunRemovePackage_read env _ _ _ _ _ _ H) as (evs & -> & Hread).
  exists evs. split; [reflexivity |].
  intros path contents l c Hin Hdeps Hc.
  destruct (Hread path contents Hin) as (src & chartPath & tail & -> & _ & Hargs & Hrun).
  destruct (PackageFacts.removeDependencies_run env flags args chartPath contents
              (h ++ [Package.FilepathAbs src chartPath None;
                     Package.ReadYamlFromFile path contents None]))
    as (evs0 & Hsnd & _ & Hcases).
  rewrite Hrun in Hsnd. cbn [snd] in Hsnd. apply app_inv_head in Hsnd. subst evs0.
  specialize (Hcases l Hdeps).
  rewrite PackageFacts.written_app in Hc |- *.
  cbn [PackageFacts.written flat_map app] in Hc |- *.
  fold (PackageFacts.written tail) in Hc |- *.
  destruct (Package.RemoveAll flags) eqn:Hflag.
  - rewrite Hcases in Hc |- *. destruct Hc as [<- | []].
    repeat split; auto. intros Hx; discriminate Hx.
  - destruct args as [|arg rest]; [exfalso; apply Hargs; reflexivity |].
    destruct (Hcases arg rest eq_refl) as [[Hw | (pre & fields & post & Hl & Hn & Hpre & Hw)] _];
      rewrite Hw in Hc |- *; [destruct Hc |].
    destruct Hc as [<- | []].
    repeat split; auto; [intros Hx; discriminate Hx |].
    intros _. exists arg, rest, pre, fields, post. repeat split; auto.
Qed.

(** A chart that depends on redis twice and on mysql, on a machine on which
    every call succeeds. *)
Definition exampleRequirements : Package.Requirements :=
  Package.mkRequirements
    (Some (Package.DepList
             [Package.DepMap [("name", YString "redis"); ("version", YString "4.0.0")];
              Package.DepMap [("name", YString "mysql")];
              Package.DepMap [("name", YString "redis"); ("version", YString "5.0.0")]]))
    [].

Definition examplePackageEnv : Package.Env :=
  Package.mkEnv (fun dir file => (dir ++ "/" ++ file)%string)
                (fun _ path => (("/home/dev/" ++ path)%string, None))
                (fun _ _ => (exampleRequirements, None))
                (fun _ _ _ => None)
                (fun _ => None)
                (fun _ => (Some (mkClient "127.0.0.1:44134" "/root/.devspace/helm"
                                          "kube-system"), None))
                (fun _ _ _ => None).

Definition exampleDeployments : option (list Package.DeploymentConfig) :=
  Some [Package.mkDeployment "default" (Some (Some "chart"))].

Lemma RunRemovePackage_reports_success_without_a_match_witness :
  let run := Package.RunRemovePackage examplePackageEnv (Package.mkPackageFlags false "")
                                      ["postgres"] exampleDeployments [] in
  fst run = Ret tt /\
  snd run = [Package.FilepathAbs "chart" "/home/dev/chart" None;
             Package.ReadYamlFromFile "/home/dev/chart/requirements.yaml"
                                      exampleRequirements None;
             Package.Log Done "Successfully removed dependency %s" ["postgres"]].
Proof.
  intros run.
  destruct (RunRemovePackage_reports_success_without_a_match
              examplePackageEnv (Package.mkPackageFlags false "") ["postgres"]
              exampleDeployments [] (snd run) (fst run) eq_refl) as (evs & Hh & Hnone).
  cbn [app] in Hh.
  destruct (Hnone "/home/dev/chart/requirements.yaml" exampleRequirements _ "postgres" []
                  ltac:(rewrite <- Hh; cbn; auto) eq_refl eq_refl eq_refl)
    as (Hr & src & chartPath & Hevs).
  - repeat constructor; eexists; (split; [reflexivity | reflexivity]).
  - split; [exact Hr | reflexivity].
Defined.

Lemma RunRemovePackage_removes_the_first_match_only_witness :
  let run := Package.RunRemovePackage examplePackageEnv (Package.mkPackageFlags false "")
                                      ["redis"] exampleDeployments [] in
  let left :=
    Package.mkRequirements
      (Some (Package.DepList
               [Package.DepMap [("name", YString "mysql")];
                Package.DepMap [("name", YString "redis"); ("version", YString "5.0.0")]]))
      [] in
  fst run = Ret tt /\ PackageFacts.written (snd run) = [left].
Proof.
  intros run left.
  destruct (RunRemovePackage_removes_the_first_match_only
              examplePackageEnv (Package.mkPackageFlags false "") ["redis"]
              exampleDeployments [] (snd run) (fst run) eq_refl) as (evs & Hh & Hwrite).
  cbn [app] in Hh. split; [reflexivity |]. rewrite Hh.
  destruct (Hwrite "/home/dev/chart/requirements.yaml" exampleRequirements _ left
                   ltac:(rewrite <- Hh; cbn; auto) eq_refl
                   ltac:(rewrite <- Hh; cbn; auto)) as (Hone & _).
  exact Hone.
Defined.

(* --------------------------------------------------------------------- *)
(** ** cmd/up.go: ensureClusterRoleBinding *)
(* --------------------------------------------------------------------- *)

Module RoleBindingFacts.
Import RoleBinding.

(** Split a run of ensureClusterRoleBinding into its paths. *)
Ltac paths H :=
  revert H;
  cbv beta iota delta [Prog.bind Prog.ret Prog.emit Prog.call Prog.halt Fatal askStdin];
  repeat
    (match goal with
     | |- context [fst ?x] =>
         lazymatch x with
         | (_, _) => fail
         | context [fst _] => fail
         | context [match _ with _ => _ end] => fail
         | _ => destruct x as [? ?] eqn:?
         end
     | |- context [match ?x with _ => _ end] =>
         lazymatch x with
         | context [match _ with _ => _ end] => fail
         | context [fst _] => fail
         | _ => destruct x eqn:?
         end
     end; cbn [fst snd]);
  intros H; injection H as <- <-;
  rewrite <- ?app_assoc in *; cbn [app] in *;
  (eexists; split; [reflexivity |]).

Ltac located :=
  repeat match goal with
         | H : In _ (_ :: _) |- _ => destruct H as [H | H]
         | H : In _ [] |- _ => destruct H
         | H : @eq Event _ _ |- _ => first [discriminate H | injection H as ?; subst]
         | H : @eq (Outcome _) _ _ |- _ => first [discriminate H | injection H as ?; subst]
         | H : @eq (option _) (Some _) _ |- _ =>
             first [discriminate H | injection H as ?; subst]
         | H : (_ =? _)%string = true |- _ => apply String.eqb_eq in H; subst
         | H : (_ =? _)%string = false |- _ => apply String.eqb_neq in H
         | H : AuthProviderName ?c = _ |- _ => destruct c; cbn in H; subst
         end.

(** Point at an event of an explicit trace. *)
Ltac here := cbn; repeat (first [left; reflexivity | right]).

End RoleBindingFacts.

(** ensureClusterRoleBinding creates the binding only on Google Cloud and
    only with the user's consent, and that creation is its only source of
    an error.  In every run:
    - when the creation of a ClusterRoleBinding is asked for, it is the
      binding "devspace-users"; the cluster is not minikube, the lookup of
      the binding had failed, the auth provider of the client configuration
      is "gcp", the answer to the first question was not "no", the user of
      the binding is the answer to the question for the email address, and
      the function returns what the creation returned;
    - an error that is returned is the error of a creation;
    - after the answer "no" the process ends and nothing is created. *)
Theorem ensureClusterRoleBinding_creates_only_on_gcp_with_consent :
  forall (env : RoleBinding.Env) (cloudProvider : option string)
         (h h' : list RoleBinding.Event) (r : Outcome (option Go.error)),
    RoleBinding.ensureClusterRoleBinding env cloudProvider h = (r, h') ->
    exists evs,
      h' = h ++ evs /\
      (forall name user err,
          In (RoleBinding.ClusterRoleBindingCreate name user err) evs ->
          r = Ret err /\
          name = "devspace-users" /\
          In (RoleBinding.IsMinikube false) evs /\
          (exists e, In (RoleBinding.ClusterRoleBindingGet "devspace-users" (Some e)) evs) /\
          (exists e', In (RoleBinding.GetClientConfig
                            (Some (RoleBinding.mkClientConfig (Some "gcp")), e')) evs) /\
          (exists q d answer,
              In (RoleBinding.GetFromStdin q d "^(yes)|(no)$" answer) evs /\
              answer <> "no") /\
          (exists q d, In (RoleBinding.GetFromStdin q d ".+" user) evs)) /\
      (forall e, r = Ret (Some e) ->
                 exists user,
                   In (RoleBinding.ClusterRoleBindingCreate "devspace-users" user (Some e))
                      evs) /\
      (forall q d,
          In (RoleBinding.GetFromStdin q d "^(yes)|(no)$" "no") evs ->
          r = Halted Exit /\
          forall name user err,
            ~ In (RoleBinding.ClusterRoleBindingCreate name user err) evs).
Proof.
  intros env cloudProvider h h' r H.
  unfold RoleBinding.ensureClusterRoleBinding in H.
  RoleBindingFacts.paths H.
  all: split;
    [ intros nm usr er Hin; RoleBindingFacts.located;
      (split; [reflexivity |]); (split; [reflexivity |]);
      (split; [RoleBindingFacts.here |]);
      (split; [eexists; RoleBindingFacts.here |]);
      (split; [eexists; RoleBindingFacts.here |]);
      (split; [do 3 eexists; split; [RoleBindingFacts.here | assumption]
              | do 2 eexists; RoleBindingFacts.here])
    | split;
      [ intros er Hr; RoleBindingFacts.located; eexists; RoleBindingFacts.here
      | intros qq dd Hin; RoleBindingFacts.located; try contradiction;
        (split; [reflexivity |]);
        intros nm usr er Hc; RoleBindingFacts.located ] ].
Qed.

(** A cluster on Google Cloud without the binding; the user accepts the
    default answers, and gcloud knows the account. *)
Definition exampleGcpEnv : RoleBinding.Env :=
  RoleBinding.mkEnv
    (fun _ => false)
    (fun _ _ => Some "clusterrolebindings.rbac.authorization.k8s.io not found")
    (fun _ => (Some (RoleBinding.mkClientConfig (Some "gcp")), None))
    (fun _ _ defaultValue _ => defaultValue)
    (fun _ => (("dev@example.com" ++ TillerDelete.newline)%string, None))
    (fun _ _ _ => None).

Lemma ensureClusterRoleBinding_creates_only_on_gcp_with_consent_witness :
  let run := RoleBinding.ensureClusterRoleBinding exampleGcpEnv None [] in
  fst run = Ret None /\
  In (RoleBinding.ClusterRoleBindingCreate "devspace-users" "dev@example.com" None)
     (snd run).
Proof.
  intros run.
  destruct (ensureClusterRoleBinding_creates_only_on_gcp_with_consent
              exampleGcpEnv None [] (snd run) (fst run) eq_refl)
    as (evs & Hh & Hcreate & _).
  cbn [app] in Hh.
  assert (Hin : In (RoleBinding.ClusterRoleBindingCreate "devspace-users"
                                                         "dev@example.com" None)
                   (snd run)) by (vm_compute; auto 10).
  split; [| exact Hin].
  rewrite Hh in Hin. exact (proj1 (Hcreate _ _ _ Hin)).
Defined.

(* --------------------------------------------------------------------- *)
(** ** pkg/devspace/cloud/login.go *)
(* --------------------------------------------------------------------- *)

Module CloudFacts.
Import Cloud.

Definition is_HttpGet (e : Event) : bool :=
  match e with
  | HttpGet _ _ _ => true
  | _ => false
  end.

Definition is_saved (e : Event) : bool :=
  match e with
  | SaveCloudConfig _ None => true
  | _ => false
  end.

(** Neither a registration of the handler, nor a request, nor a successful
    save of the cloud configuration. *)
Definition plain (e : Event) : bool :=
  negb (is_HandleFunc e || is_HttpGet e || is_saved e).

Definition registrations (evs : list Event) : nat :=
  List.length (filter is_HandleFunc evs).

Definition requests (evs : list Event) : nat :=
  List.length (filter is_HttpGet evs).

Lemma registrations_app a b : registrations (a ++ b) = (registrations a + registrations b)%nat.
Proof. unfold registrations. now rewrite filter_app, length_app. Qed.

Lemma requests_app a b : requests (a ++ b) = (requests a + requests b)%nat.
Proof. unfold requests. now rewrite filter_app, length_app. Qed.

Lemma plain_counts (l : list Event) :
  forallb plain l = true ->
  registrations l = 0%nat /\ requests l = 0%nat /\ existsb is_saved l = false.
Proof.
  induction l as [|e l IH]; [auto |]. cbn [forallb]. intros H.
  apply andb_prop in H. destruct H as [He Hl]. destruct (IH Hl) as (Hr & Hq & Hs).
  unfold registrations, requests in *. cbn [filter existsb].
  unfold plain in He. apply negb_true_iff in He.
  apply orb_false_iff in He. destruct He as [He He3].
  apply orb_false_iff in He. destruct He as [He1 He2].
  rewrite He1, He2, He3. auto.
Qed.

Lemma lookup_setToken name token (c : ProviderConfig) p :
  lookup name c = Some p ->
  lookup name (setToken name token c) = Some (mkProvider (Name p) (Host p) token).
Proof.
  induction c as [|[k q] rest IH]; cbn [lookup setToken]; [discriminate |].
  destruct (String.eqb name k) eqn:Hk.
  - intros H. injection H as ->. cbn [lookup]. now rewrite Hk.
  - intros H. cbn [lookup]. rewrite Hk. auto.
Qed.

Ltac cloud_unfold :=
  cbv beta iota delta [Prog.bind Prog.ret Prog.emit Prog.call Prog.halt
                       nil_dereference unmarshal].

Ltac cloud_cases :=
  repeat match goal with
         | |- context [match ?x with _ => _ end] =>
             lazymatch x with
             | context [match _ with _ => _ end] => fail
             | _ => destruct x eqn:?
             end
         end.

Section Facts.
Variable env : Env.

(** A login in a process that has logged in before panics when it sets up
    its server. *)
Lemma LoginWith_twice k provider h :
  existsb is_HandleFunc h = true ->
  LoginWith env k provider h
  = (Halted Panicked, h ++ [Panic "http: multiple registrations for /token"]).
Proof.
  intros Hh. unfold LoginWith, startServer. unfold Prog.bind at 1. rewrite Hh.
  reflexivity.
Qed.

(** A request after the login: one request, and no way back into the
    login. *)
Lemma GetClusterConfig_after_login fuel provider h :
  existsb is_HandleFunc h = true ->
  exists r answer tail,
    GetClusterConfig env (S fuel) provider h
    = (r, h ++ [HttpGet (Host provider ++ GetClusterConfigEndpoint env)%string
                        (Token provider) answer] ++ tail) /\
    r <> Halted OutOfFuel /\
    forallb plain tail = true /\
    (forall body, answer = inr (401%Z, body) -> r = Halted Panicked).
Proof.
  intros Hh. cbn [GetClusterConfig]. unfold Prog.bind at 1. unfold Prog.call at 1.
  set (url := (Host provider ++ GetClusterConfigEndpoint env)%string).
  destruct (http_Get env h url (Token provider)) as [e | [status body]] eqn:Hget.
  - exists (Ret (inl e)), (inl e), []. rewrite app_nil_r.
    repeat split; [discriminate | intros b Hb; discriminate Hb].
  - destruct (status =? 401)%Z eqn:H401.
    + rewrite LoginWith_twice by (rewrite existsb_app, Hh; reflexivity).
      eexists _, _, _. rewrite <- app_assoc. split; [reflexivity |].
      repeat split. discriminate.
    + assert (Hnot : forall b, @inr Go.error _ (status, body) = inr (401%Z, b) -> False).
      { intros b Hb. injection Hb as -> _. discriminate H401. }
      cloud_unfold. cloud_cases;
        eexists _, _, _;
        (split; [rewrite <- ?app_assoc; cbn [app]; try rewrite app_nil_r; reflexivity |]);
        repeat split; try discriminate; intros b Hb; destruct (Hnot b Hb).
Qed.

(** The events of a login that gets as far as saving the token. *)
Definition loginEvents (provider : Provider) (token : string)
           (parsed saved : ProviderConfig) : list Event :=
  [HandleFunc "/token";
   ListenAndServe ":25853";
   OpenStart (Host provider ++ LoginEndpoint env)%string;
   ReceiveToken (Some token);
   ServerShutdown None;
   ParseCloudConfig (Some parsed, None);
   SaveCloudConfig saved None].

(** The first login of a process: it stops before the token is saved, or
    it saves the token under the name of the provider and goes on with
    the entry it saved. *)
Lemma LoginWith_first k provider h :
  existsb is_HandleFunc h = false ->
  (exists r rest,
      LoginWith env k provider h = (r, h ++ HandleFunc "/token" :: rest) /\
      r <> Halted OutOfFuel /\
      forallb plain rest = true) \/
  (exists token parsed entry,
      token <> "" /\
      lookup (Name provider) parsed = Some entry /\
      let saved := mkProvider (Name entry) (Host entry) token in
      let evs := loginEvents provider token parsed
                             (setToken (Name provider) token parsed) in
      lookup (Name provider) (setToken (Name provider) token parsed) = Some saved /\
      LoginWith env k provider h = k saved (h ++ evs)).
Proof.
  intros Hh. unfold LoginWith, startServer. cloud_unfold. rewrite Hh. cbv beta iota.
  destruct (receiveToken env _) as [token |] eqn:Htok.
  2: { left. eexists _, _. rewrite <- !app_assoc. cbn [app].
       split; [reflexivity |]. split; [discriminate | reflexivity]. }
  destruct (Nat.ltb (String.length token) 1) eqn:Hlen.
  { left. eexists _, _. rewrite <- !app_assoc. cbn [app].
    split; [reflexivity |]. split; [discriminate | reflexivity]. }
  destruct (server_Shutdown env _) as [e |] eqn:Hshut.
  { left. eexists _, _. rewrite <- !app_assoc. cbn [app].
    split; [reflexivity |]. split; [discriminate | reflexivity]. }
  destruct (cloud_ParseCloudConfig env _) as [[parsed |] [e |]] eqn:Hparse.
  1, 3, 4: left; eexists _, _; rewrite <- !app_assoc; cbn [app];
           (split; [reflexivity |]); (split; [discriminate | reflexivity]).
  destruct (lookup (Name provider) parsed) as [entry |] eqn:Hentry.
  2: { left. eexists _, _. rewrite <- !app_assoc. cbn [app].
       split; [reflexivity |]. split; [discriminate | reflexivity]. }
  destruct (cloud_SaveCloudConfig env _) as [e |] eqn:Hsave.
  { left. eexists _, _. rewrite <- !app_assoc. cbn [app].
    split; [reflexivity |]. split; [discriminate | reflexivity]. }
  right. exists token, parsed, entry.
  split; [intros ->; discriminate Hlen |]. split; [exact Hentry |].
  cbv zeta. rewrite (lookup_setToken _ token _ _ Hentry).
  split; [reflexivity |]. unfold loginEvents. rewrite <- !app_assoc. reflexivity.
Qed.

(** What comes before a login in a run of CheckAuth: nothing, when the
    provider has no token, or the request that was answered by 401. *)
Definition beforeLogin (provider : Provider) (evs : list Event) : Prop :=
  evs = [] \/
  exists body,
    evs = [HttpGet (Host provider ++ GetClusterConfigEndpoint env)%string
                   (Token provider) (inr (401%Z, body))].

(** The ways a run of CheckAuth can go. *)
Inductive AuthRun (provider : Provider) : Outcome Answer -> list Event -> Prop :=
| auth_no_login r answer tail :
    (forall body, answer <> inr (401%Z, body)) ->
    forallb plain tail = true ->
    AuthRun provider r
            (HttpGet (Host provider ++ GetClusterConfigEndpoint env)%string
                     (Token provider) answer :: tail)
| auth_login_stops r before rest :
    beforeLogin provider before ->
    forallb plain rest = true ->
    AuthRun provider r (before ++ HandleFunc "/token" :: rest)
| auth_login r before token parsed entry answer tail :
    beforeLogin provider before ->
    token <> "" ->
    lookup (Name provider) parsed = Some entry ->
    forallb plain tail = true ->
    (forall body, answer = inr (401%Z, body) -> r = Halted Panicked) ->
    AuthRun provider r
            (before
             ++ loginEvents provider token parsed (setToken (Name provider) token parsed)
             ++ [HttpGet (Host entry ++ GetClusterConfigEndpoint env)%string token answer]
             ++ tail).

Lemma Login_first_run fuel provider before h :
  existsb is_HandleFunc (h ++ before) = false ->
  beforeLogin provider before ->
  exists r evs,
    LoginWith env (GetClusterConfig env (S fuel)) provider (h ++ before)
    = (r, h ++ before ++ evs) /\
    r <> Halted OutOfFuel /\
    AuthRun provider r (before ++ evs).
Proof.
  intros Hh Hbefore.
  destruct (LoginWith_first (GetClusterConfig env (S fuel)) provider (h ++ before) Hh)
    as [(r & rest & Hrun & Hr & Hplain)
       | (token & parsed & entry & Htoken & Hentry & Hsaved & Hrun)].
  - exists r, (HandleFunc "/token" :: rest). rewrite Hrun, <- app_assoc.
    split; [reflexivity |]. split; [exact Hr |].
    apply auth_login_stops; assumption.
  - cbv zeta in Hrun, Hsaved.
    set (evs1 := loginEvents provider token parsed
                             (setToken (Name provider) token parsed)) in *.
    destruct (GetClusterConfig_after_login fuel
                (mkProvider (Name entry) (Host entry) token) ((h ++ before) ++ evs1))
      as (r & answer & tail & Hnext & Hr & Hplain & H401).
    { rewrite existsb_app. apply orb_true_iff. right. reflexivity. }
    cbn [Host Token] in Hnext.
    exists r, (evs1 ++ [HttpGet (Host entry ++ GetClusterConfigEndpoint env)%string
                                token answer] ++ tail).
    rewrite Hrun, Hnext, <- !app_assoc. split; [reflexivity |]. split; [exact Hr |].
    apply auth_login; assumption.
Qed.

Lemma CheckAuth_run fuel provider h :
  (2 <= fuel)%nat ->
  existsb is_HandleFunc h = false ->
  exists r evs,
    CheckAuth env fuel provider h = (r, h ++ evs) /\
    r <> Halted OutOfFuel /\
    AuthRun provider r evs.
Proof.
  intros Hfuel Hh. destruct fuel as [|[|fuel]]; try lia. unfold CheckAuth, Login.
  destruct (String.eqb (Token provider) "").
  - destruct (Login_first_run (S fuel) provider [] h) as (r & evs & Hrun & Hr & Hauth).
    + rewrite app_nil_r. exact Hh.
    + left. reflexivity.
    + rewrite app_nil_r in Hrun. exists r, evs. auto.
  - cbn [GetClusterConfig]. unfold Prog.bind at 1. unfold Prog.call at 1.
    set (url := (Host provider ++ GetClusterConfigEndpoint env)%string).
    destruct (http_Get env h url (Token provider)) as [e | [status body]] eqn:Hget.
    + exists (Ret (inl e)), [HttpGet url (Token provider) (inl e)].
      split; [reflexivity |]. split; [discriminate |].
      apply auth_no_login; [intros b Hb; discriminate Hb | reflexivity].
    + destruct (status =? 401)%Z eqn:H401.
      * apply Z.eqb_eq in H401. subst status.
        destruct (Login_first_run fuel provider
                    [HttpGet url (Token provider) (inr (401%Z, body))] h)
          as (r & evs & Hrun & Hr & Hauth).
        -- rewrite existsb_app, Hh. reflexivity.
        -- right. exists body. reflexivity.
        -- exists r, ([HttpGet url (Token provider) (inr (401%Z, body))] ++ evs).
           split; [exact Hrun |]. split; [exact Hr | exact Hauth].
      * assert (Hnot : forall b, @inr Go.error _ (status, body) <> inr (401%Z, b)).
        { intros b Hb. injection Hb as -> _. discriminate H401. }
        cloud_unfold. cloud_cases;
          eexists _, _;
          (split; [rewrite <- ?app_assoc; cbn [app]; reflexivity |]);
          (split; [discriminate |]);
          apply auth_no_login; auto.
Qed.

End Facts.

End CloudFacts.

Lemma split_at_unique {A : Type} (P : A -> bool) (a : list A) : forall x b a' x' b',
  existsb P a = false -> existsb P b = false ->
  P x = true -> P x' = true ->
  a ++ x :: b = a' ++ x' :: b' ->
  a = a' /\ x = x' /\ b = b'.
Proof.
  induction a as [|z a IH]; intros x b a' x' b' Ha Hb Hx Hx' Heq.
  - destruct a' as [|y a'']; cbn [app] in Heq; injection Heq as -> Hb'.
    + auto.
    + exfalso. subst b. rewrite existsb_app in Hb. cbn [existsb] in Hb.
      rewrite Hx', orb_true_r in Hb. discriminate Hb.
  - cbn [existsb] in Ha. apply orb_false_iff in Ha. destruct Ha as [Hz Ha].
    destruct a' as [|y a'']; cbn [app] in Heq; injection Heq as -> Heq.
    + congruence.
    + destruct (IH _ _ _ _ _ Ha Hb Hx Hx' Heq) as (-> & -> & ->). auto.
Qed.

Lemma beforeLogin_counts env provider before :
  CloudFacts.beforeLogin env provider before ->
  CloudFacts.registrations before = 0%nat /\
  (CloudFacts.requests before <= 1)%nat /\
  existsb CloudFacts.is_saved before = false.
Proof.
  intros [-> | (body & ->)]; cbn; auto.
Qed.

(** CheckAuth logs in at most once.  In a process that has not logged in
    before, a call of CheckAuth with room for two requests always ends (it
    never runs out of rounds): it registers the token handler at most once
    and sends at most two requests.  When the request that follows the
    saving of the fresh token is answered by 401 again, the function
    neither logs in again nor returns an error: the second login panics
    when it registers its handler. *)
Theorem CheckAuth_logs_in_at_most_once :
  forall (env : Cloud.Env) (fuel : nat) (provider : Cloud.Provider)
         (h h' : list Cloud.Event) (r : Outcome Cloud.Answer),
    (2 <= fuel)%nat ->
    existsb Cloud.is_HandleFunc h = false ->
    Cloud.CheckAuth env fuel provider h = (r, h') ->
    exists evs,
      h' = h ++ evs /\
      r <> Halted OutOfFuel /\
      (CloudFacts.registrations evs <= 1)%nat /\
      (CloudFacts.requests evs <= 2)%nat /\
      forall pre cfg url tok body post,
        evs = pre ++ Cloud.SaveCloudConfig cfg None
                  :: Cloud.HttpGet url tok (inr (401%Z, body)) :: post ->
        r = Halted Panicked.
Proof.
  intros env fuel provider h h' r Hfuel Hh H.
  destruct (CloudFacts.CheckAuth_run env fuel provider h Hfuel Hh)
    as (r0 & evs & Hrun & Hr & Hauth).
  rewrite H in Hrun. injection Hrun as <- ->.
  exists evs. split; [reflexivity |]. split; [exact Hr |].
  inversion Hauth as [r1 answer tail Hnot Hplain
                     | r1 before rest Hbefore Hplain
                     | r1 before token parsed entry answer tail
                          Hbefore Htoken Hentry Hplain H401];
    subst.
  - destruct (CloudFacts.plain_counts _ Hplain) as (Hreg & Hreq & Hsaved).
    unfold CloudFacts.registrations, CloudFacts.requests in *. cbn [filter].
    cbn [Cloud.is_HandleFunc CloudFacts.is_HttpGet List.length].
    split; [lia |]. split; [lia |].
    intros pre cfg url tok body post Heq. exfalso.
    assert (Hex : existsb CloudFacts.is_saved
                    (Cloud.HttpGet (Cloud.Host provider
                                    ++ Cloud.GetClusterConfigEndpoint env)%string
                                   (Cloud.Token provider) answer :: tail) = true).
    { rewrite Heq, existsb_app. cbn. apply orb_true_r. }
    cbn in Hex. congruence.
  - destruct (CloudFacts.plain_counts _ Hplain) as (Hreg & Hreq & Hsaved).
    destruct (beforeLogin_counts _ _ _ Hbefore) as (Hreg0 & Hreq0 & Hsaved0).
    rewrite CloudFacts.registrations_app, CloudFacts.requests_app.
    unfold CloudFacts.registrations, CloudFacts.requests in *. cbn [filter].
    cbn [Cloud.is_HandleFunc CloudFacts.is_HttpGet List.length].
    split; [lia |]. split; [lia |].
    intros pre cfg url tok body post Heq. exfalso.
    assert (Hex : existsb CloudFacts.is_saved (before ++ Cloud.HandleFunc "/token" :: rest)
                  = true).
    { rewrite Heq, existsb_app. cbn. apply orb_true_r. }
    rewrite existsb_app, Hsaved0 in Hex. cbn in Hex. congruence.
  - destruct (CloudFacts.plain_counts _ Hplain) as (Hreg & Hreq & Hsaved).
    destruct (beforeLogin_counts _ _ _ Hbefore) as (Hreg0 & Hreq0 & Hsaved0).
    rewrite !CloudFacts.registrations_app, !CloudFacts.requests_app.
    rewrite Hreg, Hreq, Hreg0.
    split; [cbn; lia |]. split; [cbn; lia |].
    intros pre cfg url tok body post Heq.
    apply (H401 body).
    unfold CloudFacts.loginEvents in Heq.
    change (before
            ++ [Cloud.HandleFunc "/token"; Cloud.ListenAndServe ":25853";
                Cloud.OpenStart (Cloud.Host provider ++ Cloud.LoginEndpoint env)%string;
                Cloud.ReceiveToken (Some token); Cloud.ServerShutdown None;
                Cloud.ParseCloudConfig (Some parsed, None);
                Cloud.SaveCloudConfig (Cloud.setToken (Cloud.Name provider) token parsed)
                                      None]
            ++ [Cloud.HttpGet (Cloud.Host entry ++ Cloud.GetClusterConfigEndpoint env)%string
                              token answer] ++ tail)
      with (before
            ++ [Cloud.HandleFunc "/token"; Cloud.ListenAndServe ":25853";
                Cloud.OpenStart (Cloud.Host provider ++ Cloud.LoginEndpoint env)%string;
                Cloud.ReceiveToken (Some token); Cloud.ServerShutdown None;
                Cloud.ParseCloudConfig (Some parsed, None)]
            ++ Cloud.SaveCloudConfig (Cloud.setToken (Cloud.Name provider) token parsed)
                                     None
               :: Cloud.HttpGet (Cloud.Host entry
                                 ++ Cloud.GetClusterConfigEndpoint env)%string
                                token answer :: tail) in Heq.
    rewrite app_assoc in Heq.
    apply (split_at_unique CloudFacts.is_saved) in Heq; try reflexivity.
    + destruct Heq as (_ & _ & Heq). injection Heq as _ _ Ha _. exact Ha.
    + rewrite existsb_app, Hsaved0. reflexivity.
    + cbn [existsb CloudFacts.is_saved orb]. exact Hsaved.
Qed.

Lemma saved_event_in (l : list Cloud.Event) cfg :
  In (Cloud.SaveCloudConfig cfg None) l -> existsb CloudFacts.is_saved l = true.
Proof.
  intros Hin. apply existsb_exists. eexists. split; [exact Hin | reflexivity].
Qed.

(** After a login the server is asked again with the token that was
    received, at the host of the entry that was saved.  Whenever a run of
    CheckAuth saves the cloud configuration, what it saves is the
    configuration it parsed with the received token, which is not empty, put
    under the name of the provider, and the event after the save is the
    request for the cluster configuration, sent with that token to the host
    of that entry of the parsed configuration (not to the host of the
    provider that was passed in). *)
Theorem CheckAuth_asks_again_with_the_saved_token :
  forall (env : Cloud.Env) (fuel : nat) (provider : Cloud.Provider)
         (h h' : list Cloud.Event) (r : Outcome Cloud.Answer),
    (2 <= fuel)%nat ->
    existsb Cloud.is_HandleFunc h = false ->
    Cloud.CheckAuth env fuel provider h = (r, h') ->
    exists evs,
      h' = h ++ evs /\
      forall cfg,
        In (Cloud.SaveCloudConfig cfg None) evs ->
        exists token parsed entry pre answer tail,
          token <> "" /\
          lookup (Cloud.Name provider) parsed = Some entry /\
          cfg = Cloud.setToken (Cloud.Name provider) token parsed /\
          lookup (Cloud.Name provider) cfg
          = Some (Cloud.mkProvider (Cloud.Name entry) (Cloud.Host entry) token) /\
          evs = pre
                ++ [Cloud.ReceiveToken (Some token);
                    Cloud.ServerShutdown None;
                    Cloud.ParseCloudConfig (Some parsed, None);
                    Cloud.SaveCloudConfig cfg None;
                    Cloud.HttpGet (Cloud.Host entry
                                   ++ Cloud.GetClusterConfigEndpoint env)%string
                                  token answer]
                ++ tail.
Proof.
  intros env fuel provider h h' r Hfuel Hh H.
  destruct (CloudFacts.CheckAuth_run env fuel provider h Hfuel Hh)
    as (r0 & evs & Hrun & Hr & Hauth).
  rewrite H in Hrun. injection Hrun as <- ->.
  exists evs. split; [reflexivity |]. intros cfg Hin.
  inversion Hauth as [r1 answer tail Hnot Hplain
                     | r1 before rest Hbefore Hplain
                     | r1 before token parsed entry answer tail
                          Hbefore Htoken Hentry Hplain H401];
    subst.
  - exfalso. apply saved_event_in in Hin.
    destruct (CloudFacts.plain_counts _ Hplain) as (_ & _ & Hsaved).
    cbn in Hin. congruence.
  - exfalso. apply saved_event_in in Hin.
    destruct (CloudFacts.plain_counts _ Hplain) as (_ & _ & Hsaved).
    destruct (beforeLogin_counts _ _ _ Hbefore) as (_ & _ & Hsaved0).
    rewrite existsb_app, Hsaved0 in Hin. cbn in Hin. congruence.
  - destruct (CloudFacts.plain_counts _ Hplain) as (_ & _ & Hsaved).
    destruct (beforeLogin_counts _ _ _ Hbefore) as (_ & _ & Hsaved0).
    assert (Hcfg : cfg = Cloud.setToken (Cloud.Name provider) token parsed).
    { apply in_app_or in Hin. destruct Hin as [Hin | Hin].
      - apply saved_event_in in Hin. congruence.
      - apply in_app_or in Hin. destruct Hin as [Hin | Hin].
        + unfold CloudFacts.loginEvents in Hin. cbn [In] in Hin.
          repeat (destruct Hin as [Hin | Hin]; [try discriminate Hin |]);
            [injection Hin as <-; reflexivity | destruct Hin].
        + apply saved_event_in in Hin. cbn in Hin. congruence. }
    subst cfg.
    exists token, parsed, entry,
           (before ++ [Cloud.HandleFunc "/token"; Cloud.ListenAndServe ":25853";
                       Cloud.OpenStart (Cloud.Host provider
                                        ++ Cloud.LoginEndpoint env)%string]),
           answer, tail.
    split; [exact Htoken |]. split; [exact Hentry |]. split; [reflexivity |].
    split; [apply CloudFacts.lookup_setToken; exact Hentry |].
    unfold CloudFacts.loginEvents. rewrite <- !app_assoc. reflexivity.
Qed.

(** A cloud whose server takes the fresh token only, or no token at all. *)
Definition exampleCloudEnv (accepted : string) : Cloud.Env :=
  Cloud.mkEnv "/clusterConfig" "/login" "/login-success"
    (fun _ _ token => if String.eqb token accepted
                      then inr (200%Z, "cluster configuration")
                      else inr (401%Z, "unauthorized"))
    (fun _ => inr (Some "cluster", Some "user", Some "namespace"))
    (fun _ => inr "gke-cluster")
    (fun _ => inr "dev-user")
    (fun _ => inr "dev-space")
    (fun _ => Some "fresh")
    (fun _ => None)
    (fun _ => (Some [("devspace-cloud",
                      Cloud.mkProvider "devspace-cloud" "https://cloud.example" "old")],
               None))
    (fun _ _ => None).

Definition exampleProvider : Cloud.Provider :=
  Cloud.mkProvider "devspace-cloud" "https://staging.example" "old".

Lemma CheckAuth_logs_in_at_most_once_witness :
  let run := Cloud.CheckAuth (exampleCloudEnv "none") 2 exampleProvider [] in
  fst run = Halted Panicked /\
  CloudFacts.registrations (snd run) = 1%nat /\
  CloudFacts.requests (snd run) = 2%nat.
Proof.
  intros run.
  destruct (CheckAuth_logs_in_at_most_once
              (exampleCloudEnv "none") 2 exampleProvider [] (snd run) (fst run)
              (le_n 2) eq_refl eq_refl) as (evs & Hh & _ & _ & _ & Hpanic).
  cbn [app] in Hh. split; [| split; reflexivity].
  apply (Hpanic [Cloud.HttpGet "https://staging.example/clusterConfig" "old"
                               (inr (401%Z, "unauthorized"));
                 Cloud.HandleFunc "/token"; Cloud.ListenAndServe ":25853";
                 Cloud.OpenStart "https://staging.example/login";
                 Cloud.ReceiveToken (Some "fresh"); Cloud.ServerShutdown None;
                 Cloud.ParseCloudConfig
                   (Some [("devspace-cloud",
                           Cloud.mkProvider "devspace-cloud" "https://cloud.example" "old")],
                    None)]
                [("devspace-cloud",
                  Cloud.mkProvider "devspace-cloud" "https://cloud.example" "fresh")]
                "https://cloud.example/clusterConfig" "fresh" "unauthorized"
                [Cloud.Panic "http: multiple registrations for /token"]).
  rewrite <- Hh. reflexivity.
Defined.

Lemma CheckAuth_asks_again_with_the_saved_token_witness :
  let run := Cloud.CheckAuth (exampleCloudEnv "fresh") 2 exampleProvider [] in
  fst run = Ret (inr ("dev-space", "gke-cluster", "dev-user")) /\
  In (Cloud.HttpGet "https://cloud.example/clusterConfig" "fresh"
                    (inr (200%Z, "cluster configuration")))
     (snd run).
Proof.
  intros run.
  destruct (CheckAuth_asks_again_with_the_saved_token
              (exampleCloudEnv "fresh") 2 exampleProvider [] (snd run) (fst run)
              (le_n 2) eq_refl eq_refl) as (evs & Hh & Hsaved).
  cbn [app] in Hh. split; [reflexivity |].
  destruct (Hsaved [("devspace-cloud",
                     Cloud.mkProvider "devspace-cloud" "https://cloud.example" "fresh")])
    as (token & parsed & entry & pre & answer & tail & _ & _ & _ & _ & _).
  - rewrite <- Hh. cbn. auto 10.
  - cbn. auto 12.
Defined.

Lemma assign_same {V : Type} (m : string -> option V) k v : Cloud.assign m k v k = Some v.
Proof. unfold Cloud.assign. now rewrite String.eqb_refl. Qed.

Lemma assign_other {V : Type} (m : string -> option V) k v k' :
  k' <> k -> Cloud.assign m k v k' = m k'.
Proof.
  intros Hk. unfold Cloud.assign. apply String.eqb_neq in Hk. now rewrite Hk.
Qed.

(** UpdateKubeConfig adds one context and touches no other.  Whenever it
    writes the kube configuration, the configuration was read without error
    before, the function returns what the write returned, and in what is
    written the cluster, the auth info and the context of the given name are
    the ones that were handed in (the context refers to the cluster and the
    auth info of its own name, in the given namespace), every entry of
    another name is as it was read, and the current context is the given
    name when a switch was asked for and is unchanged otherwise. *)
Theorem UpdateKubeConfig_adds_one_context :
  forall (env : Cloud.KubeEnv) (contextName namespace : string) (cluster : Cloud.Cluster)
         (authInfo : Cloud.AuthInfo) (switchContext : bool)
         (h h' : list Cloud.KubeEvent) (r : Outcome (option Go.error)),
    Cloud.UpdateKubeConfig env contextName namespace cluster authInfo switchContext h
    = (r, h') ->
    exists evs,
      h' = h ++ evs /\
      forall written err,
        In (Cloud.WriteKubeConfig written err) evs ->
        r = Ret err /\
        exists config clusters authInfos contexts clusters' authInfos' contexts',
          evs = [Cloud.ReadKubeConfig (Some config, None);
                 Cloud.WriteKubeConfig written err] /\
          Cloud.Clusters config = Some clusters /\
          Cloud.AuthInfos config = Some authInfos /\
          Cloud.Contexts config = Some contexts /\
          Cloud.Clusters written = Some clusters' /\
          Cloud.AuthInfos written = Some authInfos' /\
          Cloud.Contexts written = Some contexts' /\
          clusters' contextName = Some cluster /\
          authInfos' contextName = Some authInfo /\
          contexts' contextName
          = Some (Cloud.mkContext contextName contextName namespace) /\
          (forall k, k <> contextName ->
                     clusters' k = clusters k /\
                     authInfos' k = authInfos k /\
                     contexts' k = contexts k) /\
          Cloud.CurrentContext written
          = (if switchContext then contextName else Cloud.CurrentContext config).
Proof.
  intros env contextName namespace cluster authInfo switchContext h h' r H.
  unfold Cloud.UpdateKubeConfig in H. revert H.
  cbv beta iota delta [Prog.bind Prog.ret Prog.emit Prog.call Prog.halt].
  destruct (Cloud.kubeconfig_ReadKubeConfig env h) as [[config |] [e |]] eqn:Hread;
    cbv beta iota zeta.
  1, 3, 4: intros H; injection H as <- <-;
           (eexists; split; [rewrite <- ?app_assoc; reflexivity |]);
           intros written err Hin; cbn in Hin;
           repeat (destruct Hin as [Hin | Hin]; [discriminate Hin |]); destruct Hin.
  destruct (Cloud.Clusters config) as [clusters |] eqn:Hc;
    [destruct (Cloud.AuthInfos config) as [authInfos |] eqn:Ha;
     [destruct (Cloud.Contexts config) as [contexts |] eqn:Hx |] |].
  2, 3, 4: intros H; injection H as <- <-;
           (eexists; split; [rewrite <- ?app_assoc; reflexivity |]);
           intros written err Hin; cbn in Hin;
           repeat (destruct Hin as [Hin | Hin]; [discriminate Hin |]); destruct Hin.
  intros H. injection H as <- <-.
  eexists. split; [rewrite <- app_assoc; reflexivity |].
  intros written err Hin. cbn [app In] in Hin.
  destruct Hin as [Hin | [Hin | []]]; [discriminate Hin |].
  injection Hin as <- <-. split; [reflexivity |].
  exists config, clusters, authInfos, contexts.
  eexists _, _, _. split; [reflexivity |].
  repeat (split; [first [assumption | reflexivity | apply assign_same] |]).
  split.
  - intros k Hk. repeat split; apply assign_other; exact Hk.
  - cbn [Cloud.CurrentContext]. destruct switchContext; cbn [andb]; [| reflexivity].
    destruct (String.eqb (Cloud.CurrentContext config) contextName) eqn:Heq;
      cbn [negb]; [| reflexivity].
    apply String.eqb_eq in Heq. exact Heq.
Qed.

(** A kube configuration with one context, read and written without
    error. *)
Definition exampleKubeConfig : Cloud.KubeConfig :=
  Cloud.mkKubeConfig "minikube"
    (Some (fun k => if String.eqb k "minikube" then Some "minikube-cluster" else None))
    (Some (fun k => if String.eqb k "minikube" then Some "minikube-user" else None))
    (Some (fun k => if String.eqb k "minikube"
                    then Some (Cloud.mkContext "minikube" "minikube" "default")
                    else None)).

Definition exampleKubeEnv : Cloud.KubeEnv :=
  Cloud.mkKubeEnv (fun _ => (Some exampleKubeConfig, None)) (fun _ _ => None).

Lemma UpdateKubeConfig_adds_one_context_witness :
  let run := Cloud.UpdateKubeConfig exampleKubeEnv "devspace-dev" "dev" "gke-cluster"
                                    "dev-user" false [] in
  fst run = Ret None /\
  exists written,
    In (Cloud.WriteKubeConfig written None) (snd run) /\
    Cloud.CurrentContext written = "minikube" /\
    exists contexts',
      Cloud.Contexts written = Some contexts' /\
      contexts' "devspace-dev" = Some (Cloud.mkContext "devspace-dev" "devspace-dev" "dev") /\
      contexts' "minikube" = Some (Cloud.mkContext "minikube" "minikube" "default").
Proof.
  intros run.
  destruct (UpdateKubeConfig_adds_one_context
              exampleKubeEnv "devspace-dev" "dev" "gke-cluster" "dev-user" false []
              (snd run) (fst run) eq_refl) as (evs & Hh & Hwrite).
  cbn [app] in Hh. split; [reflexivity |].
  eexists. split; [cbn; right; left; reflexivity |].
  match goal with
  | |- Cloud.CurrentContext ?w = _ /\ _ =>
      destruct (Hwrite w None) as (_ & config & cs & us & xs & cs' & us' & xs' & Hevs & _ & _
                                   & Hxs & _ & _ & Hxs' & _ & _ & Hnew & Hold & Hcur);
        [rewrite <- Hh; cbn; auto |]
  end.
  split; [reflexivity |]. exists xs'. split; [exact Hxs' |]. split; [exact Hnew |].
  destruct (Hold "minikube") as (_ & _ & Hx); [discriminate |].
  rewrite Hx.
  assert (Hconfig : config = exampleKubeConfig)
    by (rewrite <- Hh in Hevs; cbn in Hevs; congruence).
  rewrite Hconfig in Hxs. cbn in Hxs. injection Hxs as <-. reflexivity.
Defined.

(* --------------------------------------------------------------------- *)
(** ** pkg/devspace/helm: two more runs on examples *)
(* --------------------------------------------------------------------- *)

Lemma NewClient_success_is_shared_witness :
  let config := mkHelmConfig (Some (mkTillerConfig (Some "kube-system"))) in
  let client := mkClient "127.0.0.1:44134" "/root/.devspace/helm" "kube-system" in
  let first := Helm.NewClient readyHelmEnv 1 config false freshWorld in
  fst first = Ret (Some client, None) /\
  Helm.NewClient readyHelmEnv 0 (mkHelmConfig None) true (snd first)
  = (Ret (Some client, None), snd first).
Proof.
  intros config client first. split; [reflexivity |].
  assert (H : first = (Ret (Some client, None), snd first)) by reflexivity.
  exact (NewClient_success_is_shared readyHelmEnv 1 config false freshWorld client
                                     (snd first) eq_refl H 0 (mkHelmConfig None) true).
Defined.

Lemma waitUntilTillerIsStarted_bounded_when_status_is_read_witness :
  let config := mkHelmConfig (Some (mkTillerConfig (Some "kube-system"))) in
  exists r evs,
    Helm.waitUntilTillerIsStarted pendingHelmEnv 24 config freshWorld
    = (Ret r, extend freshWorld evs) /\
    (slept evs <= 2 * 60 * Go.Second)%Z /\
    (r = None \/
     r = Some "Tiller didn't start in time" /\ slept evs = (2 * 60 * Go.Second)%Z).
Proof.
  intros config.
  apply (waitUntilTillerIsStarted_bounded_when_status_is_read
           pendingHelmEnv config "kube-system" freshWorld).
  - reflexivity.
  - intros h. exists (mkStatus 0 1). reflexivity.
Defined.
